(** * Slate local kernel builders (firedrake/slate/slac/kernel_builder.py)

    A shallow embedding of the two kernel builders of the Slate compiler,
    [LocalKernelBuilder] (calls for a flat macro kernel) and
    [LocalLoopyKernelBuilder] (calls as loopy instructions), together with
    the static cost model, and the properties the design document states
    about them.

    Python objects are compared by identity wherever the source uses them as
    dictionary keys or set members: a Slate node carries its identity [nid],
    a coefficient function its identity [function_id].  Exceptions are values
    of [Py.exception], threaded through the [Py.result] monad in the order in
    which the source would raise them.  Output written with [print] is not
    part of the model. *)

From Stdlib Require Import List String Ascii ZArith Lia Bool Arith PeanoNat.
From Stdlib Require Import DecimalString DecimalNat Permutation.
From Stdlib Require Import Floats.SpecFloat.
Import ListNotations.

Local Open Scope string_scope.
Local Open Scope list_scope.

(** ** The Python layer: exceptions, ordered dictionaries, formatting *)

Module Py.

Inductive exception : Type :=
| ValueError (msg : string)
| NotImplementedError (msg : string)
| AssertionError (msg : string)
| KeyError
| IndexError
| UnboundLocalError (name : string)
| OverflowError.

Inductive result (A : Type) : Type :=
| Ok (a : A)
| Raise (e : exception).
Arguments Ok {A} a.
Arguments Raise {A} e.

Definition bind {A B : Type} (m : result A) (k : A -> result B) : result B :=
  match m with
  | Ok a => k a
  | Raise e => Raise e
  end.

Definition is_ok {A : Type} (m : result A) : bool :=
  match m with Ok _ => true | Raise _ => false end.

(** [for x in xs: st = body(st, x)], stopping at the first exception. *)
Fixpoint for_each {S X : Type} (body : S -> X -> result S)
         (xs : list X) (st : S) : result S :=
  match xs with
  | [] => Ok st
  | x :: xs' => bind (body st x) (for_each body xs')
  end.

(** [[f(x) for x in xs]] where [f] may raise. *)
Fixpoint map_result {X Y : Type} (f : X -> result Y) (xs : list X)
  : result (list Y) :=
  match xs with
  | [] => Ok []
  | x :: xs' =>
      bind (f x) (fun y => bind (map_result f xs') (fun ys => Ok (y :: ys)))
  end.

(** ["%d" % n] for a non-negative [n]. *)
Definition fmt_d (n : nat) : string :=
  NilEmpty.string_of_uint (Nat.to_uint n).

(** [enumerate(xs)] *)
Definition enumerate {X : Type} (xs : list X) : list (nat * X) :=
  combine (seq 0 (List.length xs)) xs.

(** [sum(xs)] over Python integers. *)
Definition sum (xs : list Z) : Z := fold_left Z.add xs 0%Z.

(** [x in xs] for a list of strings. *)
Definition str_in (x : string) (xs : list string) : bool :=
  existsb (String.eqb x) xs.

(** [xs[i]] for a non-negative index. *)
Definition getitem {X : Type} (xs : list X) (i : nat) : result X :=
  match nth_error xs i with
  | Some x => Ok x
  | None => Raise IndexError
  end.

(** [collections.OrderedDict]: an association list in insertion order,
    with at most one entry per key. *)
Section OrderedDict.
Context {K V : Type} (eqb : K -> K -> bool).

Fixpoint get (d : list (K * V)) (k : K) : option V :=
  match d with
  | [] => None
  | (k', v) :: d' => if eqb k' k then Some v else get d' k
  end.

Definition contains (d : list (K * V)) (k : K) : bool :=
  match get d k with Some _ => true | None => false end.

(** [d[k]] *)
Definition lookup (d : list (K * V)) (k : K) : result V :=
  match get d k with
  | Some v => Ok v
  | None => Raise KeyError
  end.

(** [d[k] = v]: an existing key keeps its position (and the key object
    first inserted), a new key goes last. *)
Fixpoint setitem (d : list (K * V)) (k : K) (v : V) : list (K * V) :=
  match d with
  | [] => [(k, v)]
  | (k', v') :: d' =>
      if eqb k' k then (k', v) :: d' else (k', v') :: setitem d' k v
  end.

(** [d.setdefault(k, v)], as a statement. *)
Definition setdefault (d : list (K * V)) (k : K) (v : V) : list (K * V) :=
  if contains d k then d else d ++ [(k, v)].

(** [d.update(other)] *)
Definition update (d other : list (K * V)) : list (K * V) :=
  fold_left (fun acc kv => setitem acc (fst kv) (snd kv)) other d.
End OrderedDict.

(** [d.setdefault(k, []).append(x)] *)
Fixpoint setdefault_append {K X : Type} (eqb : K -> K -> bool)
         (d : list (K * list X)) (k : K) (x : X) : list (K * list X) :=
  match d with
  | [] => [(k, [x])]
  | (k', xs) :: d' =>
      if eqb k' k then (k', xs ++ [x]) :: d'
      else (k', xs) :: setdefault_append eqb d' k x
  end.

End Py.

Notation "x <- m ;; k" := (Py.bind m (fun x => k))
  (at level 61, m at next level, right associativity).
Notation "' p <- m ;; k" := (Py.bind m (fun x => let p := x in k))
  (at level 61, p pattern, m at next level, right associativity).

(** ** Python numbers: unbounded integers and IEEE 754 binary64 floats *)

Module PyNum.

Definition prec : Z := 53.
Definition emax : Z := 1024.

Inductive num : Type :=
| PyInt (z : Z)
| PyFloat (f : spec_float).

(** [float(z)]: the nearest binary64 number, ties to even; an integer
    beyond the range of binary64 raises [OverflowError]. *)
Definition float_of_int (z : Z) : Py.result spec_float :=
  match binary_normalize prec emax z 0 false with
  | S754_infinity _ => Py.Raise Py.OverflowError
  | f => Py.Ok f
  end.

(** [a / b] for two small integer literals: both convert exactly and the
    quotient is rounded once. *)
Definition literal_div (a b : Z) : spec_float :=
  SFdiv prec emax (binary_normalize prec emax a 0 false)
                  (binary_normalize prec emax b 0 false).

(** [a + b] *)
Definition add (a b : num) : Py.result num :=
  match a, b with
  | PyInt x, PyInt y => Py.Ok (PyInt (x + y))
  | PyInt x, PyFloat g =>
      f <- float_of_int x ;; Py.Ok (PyFloat (SFadd prec emax f g))
  | PyFloat f, PyInt y =>
      g <- float_of_int y ;; Py.Ok (PyFloat (SFadd prec emax f g))
  | PyFloat f, PyFloat g => Py.Ok (PyFloat (SFadd prec emax f g))
  end.

(** [a * b] *)
Definition mul (a b : num) : Py.result num :=
  match a, b with
  | PyInt x, PyInt y => Py.Ok (PyInt (x * y))
  | PyInt x, PyFloat g =>
      f <- float_of_int x ;; Py.Ok (PyFloat (SFmul prec emax f g))
  | PyFloat f, PyInt y =>
      g <- float_of_int y ;; Py.Ok (PyFloat (SFmul prec emax f g))
  | PyFloat f, PyFloat g => Py.Ok (PyFloat (SFmul prec emax f g))
  end.

(** [int(a)]: a float is truncated towards zero. *)
Definition to_int (a : num) : Py.result Z :=
  match a with
  | PyInt z => Py.Ok z
  | PyFloat (S754_zero _) => Py.Ok 0%Z
  | PyFloat (S754_finite s m e) =>
      let magnitude :=
        match e with
        | Z0 => Zpos m
        | Zpos p => Z.shiftl (Zpos m) (Zpos p)
        | Zneg p => Z.shiftr (Zpos m) (Zpos p)
        end in
      Py.Ok (if s then Z.opp magnitude else magnitude)
  | PyFloat (S754_infinity _) => Py.Raise Py.OverflowError
  | PyFloat S754_nan =>
      Py.Raise (Py.ValueError "cannot convert float NaN to integer")
  end.

(** [sum(xs)] where producing an element may raise: the elements are
    produced and added one at a time, starting from the integer 0. *)
Definition sum_map {X : Type} (f : X -> Py.result num) (xs : list X)
  : Py.result num :=
  Py.for_each (fun acc x => v <- f x ;; add acc v) xs (PyInt 0).

(** A 64-bit signed integer, as numpy holds it. *)
Definition wrap_int64 (z : Z) : Z :=
  ((z + 2 ^ 63) mod 2 ^ 64 - 2 ^ 63)%Z.

(** [int(np.prod(xs))] for a sequence of integers that fit 64 bits: the
    product is taken in int64; the product of no factors is 1.0. *)
Definition np_prod (xs : list Z) : Z :=
  match xs with
  | [] => 1%Z
  | _ => fold_left (fun acc x => wrap_int64 (acc * x)) xs 1%Z
  end.

End PyNum.

(** ** Slate expressions (firedrake.slate.slate), as the builders read them *)

Module Slate.

(** A (non-mixed) UFL element with what [create_element(e).space_dimension()]
    and [e.family()] return for it. *)
Record FiniteElement : Type := {
  family : string;
  space_dimension : Z
}.

(** [type(e) == MixedElement] distinguishes the two cases. *)
Inductive UflElement : Type :=
| Element (e : FiniteElement)
| MixedElement (sub_elements : list FiniteElement).

(** Modelled from the spec: a coefficient function (firedrake.function is
    not among the sources), compared by its own identity.  [function_id] is
    the identity of the object, [split] what [f.split()] returns, [dat_cdim]
    is [f.dat.cdim]. *)
#[warnings="-register-all"]
Inductive Function : Type :=
  MkFunction (function_id : nat) (ufl_element : UflElement)
             (dat_cdim : Z) (split : list Function).

Definition function_id (f : Function) : nat :=
  let 'MkFunction i _ _ _ := f in i.
Definition ufl_element (f : Function) : UflElement :=
  let 'MkFunction _ e _ _ := f in e.
Definition dat_cdim (f : Function) : Z :=
  let 'MkFunction _ _ c _ := f in c.
Definition split (f : Function) : list Function :=
  let 'MkFunction _ _ _ s := f in s.

(** [e.family()]; a mixed element answers ["Mixed"]. *)
Definition element_family (e : UflElement) : string :=
  match e with
  | Element e => family e
  | MixedElement _ => "Mixed"
  end.

(** [create_element(e).space_dimension()]; the dimension of a mixed
    element is the sum over its sub-elements. *)
Definition element_space_dimension (e : UflElement) : Z :=
  match e with
  | Element e => space_dimension e
  | MixedElement sub_elements => Py.sum (map space_dimension sub_elements)
  end.

(** [f == g] and hashing of functions go by identity. *)
Definition function_eqb (f g : Function) : bool :=
  Nat.eqb (function_id f) (function_id g).

(** Modelled from the spec: the mesh a tensor lives on
    ([tensor.ufl_domain()]; firedrake.mesh is not among the sources), with
    the attributes the builders read. *)
Record Mesh : Type := {
  coordinates : Function;
  cell_orientations : Function;
  cell_sizes : Function;
  variable_layers : bool;
  num_facets : Z          (* ufl_cell().num_facets() *)
}.

(** Modelled from the spec: the attributes the builders read off a node of
    the expression graph (class [TensorBase] of firedrake.slate.slate, which
    is not among the sources). *)
Record NodeInfo : Type := {
  node_id : nat;                    (* identity of the node object *)
  node_shape : list Z;              (* .shape *)
  node_is_mixed : bool;             (* .is_mixed *)
  node_domain : Mesh;               (* .ufl_domain() *)
  node_coefficients : list Function (* .coefficients() *)
}.

(** Modelled from the spec: the node classes of firedrake.slate.slate, which
    is not among the sources.  [Tensor] is the terminal node, and
    [AssembledVector] the reference to assembled coefficient data; the other
    classes hold their operands. *)
Inductive TensorBase : Type :=
| Tensor (info : NodeInfo)
| AssembledVector (info : NodeInfo) (_function : Function)
| Block (info : NodeInfo) (A : TensorBase)
| Factorization (info : NodeInfo) (A : TensorBase) (decomposition : string)
| Inverse (info : NodeInfo) (A : TensorBase)
| Transpose (info : NodeInfo) (A : TensorBase)
| Negative (info : NodeInfo) (A : TensorBase)
| Add (info : NodeInfo) (A B : TensorBase)
| Mul (info : NodeInfo) (A B : TensorBase)
| Solve (info : NodeInfo) (Afac B : TensorBase).

Definition info (t : TensorBase) : NodeInfo :=
  match t with
  | Tensor i | AssembledVector i _ | Block i _ | Factorization i _ _
  | Inverse i _ | Transpose i _ | Negative i _
  | Add i _ _ | Mul i _ _ | Solve i _ _ => i
  end.

Definition nid (t : TensorBase) : nat := node_id (info t).
Definition shape (t : TensorBase) : list Z := node_shape (info t).
Definition is_mixed (t : TensorBase) : bool := node_is_mixed (info t).
Definition ufl_domain (t : TensorBase) : Mesh := node_domain (info t).
Definition coefficients (t : TensorBase) : list Function :=
  node_coefficients (info t).

(** [tensor.operands] *)
Definition operands (t : TensorBase) : list TensorBase :=
  match t with
  | Tensor _ | AssembledVector _ _ => []
  | Block _ A | Factorization _ A _ | Inverse _ A
  | Transpose _ A | Negative _ A => [A]
  | Add _ A B | Mul _ A B | Solve _ A B => [A; B]
  end.

(** Nodes used as dictionary keys are compared by identity. *)
Definition tensor_eqb (a b : TensorBase) : bool := Nat.eqb (nid a) (nid b).

(** [isinstance(tensor, slate.Tensor)] *)
Definition is_Tensor (t : TensorBase) : bool :=
  match t with Tensor _ => true | _ => false end.

End Slate.

(** ** What the form compiler returns (firedrake.slate.slac.tsfc_driver) *)

Module Tsfc.

(** [kinfo.kernel._code] is a COFFEE AST when the kernel was compiled with
    [coffee=True]; [isinstance(_code, Node)] tells the two apart. *)
Inductive KernelCode : Type :=
| CoffeeAst (body : string)
| LoopyCode (body : string).

Definition isinstance_Node (c : KernelCode) : bool :=
  match c with CoffeeAst _ => true | LoopyCode _ => false end.

(** The kernel object of a sub-kernel, with the attributes the builders
    read. *)
Record Kernel : Type := {
  name : string;
  _code : KernelCode;
  code : string;
  _include_dirs : list string;
  num_flops : Z
}.

(** [kinfo.subdomain_id] is the string ["otherwise"] or a marker. *)
Inductive SubdomainId : Type :=
| otherwise
| marker (id : Z).

Definition is_otherwise (s : SubdomainId) : bool :=
  match s with otherwise => true | marker _ => false end.

(** Modelled from the spec: what the form compiler reports for a
    sub-kernel ([KernelInfo] of firedrake.tsfc_interface, which is not among
    the sources). *)
Record KernelInfo : Type := {
  kernel : Kernel;
  integral_type : string;
  oriented : bool;
  subdomain_id : SubdomainId;
  coefficient_map : list nat;
  needs_cell_sizes : bool
}.

(** Modelled from the spec: a sub-kernel with the block indices of its
    output. *)
Record SplitKernel : Type := {
  indices : list nat;
  kinfo : KernelInfo
}.

(** Modelled from the spec: the context kernel of a terminal
    ([ContextKernel] of firedrake.slate.slac.tsfc_driver, which is not among
    the sources): the terminal, its coefficients, the integral type it
    comes from and its sub-kernels. *)
Record ContextKernel : Type := {
  tensor : Slate.TensorBase;
  coefficients : list Slate.Function;
  original_integral_type : string;
  tsfc_kernels : list SplitKernel
}.

(** [compile_terminal_form(expr, prefix=..., tsfc_parameters=..., coffee=...)],
    with the parameters of the builder already supplied. *)
Definition compiler : Type :=
  Slate.TensorBase -> string -> bool -> list ContextKernel.

End Tsfc.

(** ** Declarations shared by the two builders *)

(** The local temporary of a coefficient: an [ast.Symbol] in the flat
    builder, a [gem.Variable] with its shape in the loopy builder. *)
Inductive LocalTemp : Type :=
| AstSymbol (name : string)
| GemVariable (name : string) (shapes : list Z).

Module CoefficientInfo.
Record t : Type := {
  space_index : nat;
  offset_index : Z;
  shape : list Z;                 (* the 1-tuple (sum(shapes), ) *)
  vector : Slate.TensorBase;
  local_temp : LocalTemp
}.
End CoefficientInfo.

(** Keys that reach [coefficient_vecs]: [__init__] files records under the
    block size (an integer), the loopy [_setup] looks functions up. *)
Inductive CoeffKey : Type :=
| KShape (shape : Z)
| KFunction (function_id : nat).

Definition coeff_key_eqb (a b : CoeffKey) : bool :=
  match a, b with
  | KShape x, KShape y => Z.eqb x y
  | KFunction f, KFunction g => Nat.eqb f g
  | _, _ => false
  end.

Definition coefficient_vecs_t : Type :=
  list (CoeffKey * list CoefficientInfo.t).

(** [Counter]: how often each node was counted, keyed by identity. *)
Definition counter_update (c : list (Slate.TensorBase * nat))
           (xs : list Slate.TensorBase) : list (Slate.TensorBase * nat) :=
  fold_left
    (fun c x =>
       Py.setitem Slate.tensor_eqb c x
         (S (match Py.get Slate.tensor_eqb c x with Some n => n | None => 0 end)))
    xs c.

(** [create_element(e).space_dimension()] *)
Definition dimension (e : Slate.FiniteElement) : Z := Slate.space_dimension e.

(** The block sizes of a coefficient: one per sub-element of a mixed
    element, else the dimension of the element. *)
Definition shapes_of (function : Slate.Function) : list Z :=
  match Slate.ufl_element function with
  | Slate.MixedElement sub_elements => map dimension sub_elements
  | Slate.Element e => [dimension e]
  end.

(** The loop [for i, shape in enumerate(shapes)] of [__init__]: it threads
    the dictionary and the running [offset]. *)
Definition pack_loop (tensor : Slate.TensorBase) (local_temp : LocalTemp)
           (shapes : list Z) (coeff_vecs : coefficient_vecs_t)
  : coefficient_vecs_t * Z :=
  fold_left
    (fun (st : coefficient_vecs_t * Z) (ish : nat * Z) =>
       let '(cv, offset) := st in
       let '(i, shape) := ish in
       let cinfo :=
         {| CoefficientInfo.space_index := i;
            CoefficientInfo.offset_index := offset;
            CoefficientInfo.shape := [Py.sum shapes];
            CoefficientInfo.vector := tensor;
            CoefficientInfo.local_temp := local_temp |} in
       (Py.setdefault_append coeff_key_eqb cv (KShape shape) cinfo,
        (offset + shape)%Z))
    (Py.enumerate shapes) (coeff_vecs, 0%Z).

(** [traverse_dags] (firedrake.slate.slac.utils): every node reachable from
    the roots, once, in the order of a work list that is a stack.  Nodes are
    told apart by identity. *)
Module Utils.

(** Modelled from the spec: [container.pop()] in [traverse_dags]. *)
Definition pop {X : Type} (xs : list X) : option (list X * X) :=
  match rev xs with
  | [] => None
  | x :: r => Some (rev r, x)
  end.

(** Modelled from the spec: [if t not in seen: seen.add(t);
    container.append(t)] over [ts], in [traverse_dags]. *)
Definition push_unseen (ts : list Slate.TensorBase)
           (st : list nat * list Slate.TensorBase)
  : list nat * list Slate.TensorBase :=
  fold_left
    (fun (st : list nat * list Slate.TensorBase) t =>
       let '(seen, container) := st in
       if existsb (Nat.eqb (Slate.nid t)) seen then st
       else (Slate.nid t :: seen, container ++ [t]))
    ts st.

(** The number of nodes of [t] as a tree. *)
Fixpoint size (t : Slate.TensorBase) : nat :=
  match t with
  | Slate.Tensor _ | Slate.AssembledVector _ _ => 1
  | Slate.Block _ A | Slate.Factorization _ A _ | Slate.Inverse _ A
  | Slate.Transpose _ A | Slate.Negative _ A => S (size A)
  | Slate.Add _ A B | Slate.Mul _ A B | Slate.Solve _ A B =>
      S (size A + size B)
  end.

(** Modelled from the spec: the loop [while container: ...] of
    [traverse_dags]; [fuel] bounds the number of iterations. *)
Fixpoint traverse_loop (fuel : nat) (seen : list nat)
         (container : list Slate.TensorBase) : list Slate.TensorBase :=
  match fuel with
  | O => []
  | S fuel' =>
      match pop container with
      | None => []
      | Some (rest, tensor) =>
          let '(seen', container') :=
            push_unseen (Slate.operands tensor) (seen, rest) in
          tensor :: traverse_loop fuel' seen' container'
      end
  end.

(** Modelled from the spec: [traverse_dags] is imported from
    firedrake.slate.slac.utils, which is not among the sources; the
    design asks for every reachable node exactly once in a stable order.
    Each iteration replaces a node of the work list by some of its
    operands, so the total size of the roots bounds the iterations. *)
Definition traverse_dags (exprs : list Slate.TensorBase)
  : list Slate.TensorBase :=
  let '(seen, container) := push_unseen exprs ([], []) in
  traverse_loop (list_sum (map size exprs)) seen container.

End Utils.

(** ** COFFEE calls, as the flat builder assembles them *)

Inductive CoffeeArg : Type :=
| Symbol (name : string)
| FlatBlock (text : string)
  (** [eigen_tensor(exp, temp, indices)] (firedrake.slate.slac.utils): the
      temporary of [exp], sliced by the block [indices] of the sub-kernel;
      kept as the term of its arguments. *)
| EigenTensor (exp : Slate.TensorBase) (temp : string) (indices : list nat).

(** [ast.FunCall(name, *children)] *)
Record FunCall : Type := {
  function_name : string;
  children : list CoffeeArg
}.

(** ** class LocalKernelBuilder *)

Module LocalKernelBuilder.

Definition coord_sym : CoffeeArg := Symbol "coords".
Definition cell_orientations_sym : CoffeeArg := Symbol "cell_orientations".
Definition cell_facet_sym : CoffeeArg := Symbol "cell_facets".
Definition it_sym : string := "i0".
Definition mesh_layer_sym : CoffeeArg := Symbol "layer".
Definition cell_size_sym : CoffeeArg := Symbol "cell_sizes".

Definition supported_integral_types : list string :=
  [ "cell";
    "interior_facet";
    "exterior_facet";
    "interior_facet_horiz_top";
    "interior_facet_horiz_bottom";
    "interior_facet_vert";
    "exterior_facet_top";
    "exterior_facet_bottom";
    "exterior_facet_vert" ].

Definition supported_subdomain_types : list string :=
  [ "subdomains_exterior_facet"; "subdomains_interior_facet" ].

(** What a bucket holds: a call in the buckets of the integral types, a
    pair [(sd_id, call)] in the subdomain buckets. *)
Inductive entry : Type :=
| Call (call : FunCall)
| SubdomainCall (sd_id : Z) (call : FunCall).

(** The local variables of the loop of [__init__]. *)
Record init_state : Type := {
  init_temps : list (Slate.TensorBase * string);
  init_coeff_vecs : coefficient_vecs_t;
  init_seen_coeff : list Slate.Function;
  init_counter : list (Slate.TensorBase * nat)
}.

(** The body of [for tensor in expression_dag] in [__init__]. *)
Definition init_body (st : init_state) (tensor : Slate.TensorBase)
  : init_state :=
  let counter' := counter_update (init_counter st) (Slate.operands tensor) in
  (* Terminal tensors will always require a temporary. *)
  let temps' :=
    if Slate.is_Tensor tensor then
      Py.setdefault Slate.tensor_eqb (init_temps st) tensor
        ("T" ++ Py.fmt_d (List.length (init_temps st)))%string
    else init_temps st in
  (* 'AssembledVector's will always require a coefficient temporary. *)
  match tensor with
  | Slate.AssembledVector _ function =>
      (* Ensure coefficient temporaries aren't duplicated *)
      if negb (existsb (Slate.function_eqb function) (init_seen_coeff st)) then
        let shapes := shapes_of function in
        let local_temp :=
          AstSymbol
            ("VecTemp" ++ Py.fmt_d (List.length (init_seen_coeff st)))%string in
        let '(coeff_vecs', _) :=
          pack_loop tensor local_temp shapes (init_coeff_vecs st) in
        {| init_temps := temps'; init_coeff_vecs := coeff_vecs';
           init_seen_coeff := init_seen_coeff st ++ [function];
           init_counter := counter' |}
      else
        {| init_temps := temps'; init_coeff_vecs := init_coeff_vecs st;
           init_seen_coeff := init_seen_coeff st; init_counter := counter' |}
  | _ =>
      {| init_temps := temps'; init_coeff_vecs := init_coeff_vecs st;
         init_seen_coeff := init_seen_coeff st; init_counter := counter' |}
  end.

(** The state before the loop: empty dictionaries, [Counter([expression])]. *)
Definition init_start (expression : Slate.TensorBase) : init_state :=
  {| init_temps := []; init_coeff_vecs := []; init_seen_coeff := [];
     init_counter := counter_update [] [expression] |}.

Definition init_loop (expression : Slate.TensorBase)
           (expression_dag : list Slate.TensorBase) : init_state :=
  fold_left init_body expression_dag (init_start expression).

(** [coefficient_map]: the kernel argument symbols of every coefficient of
    the expression. *)
Definition coefficient_map (expression : Slate.TensorBase)
  : list (Slate.Function * list CoffeeArg) :=
  fold_left
    (fun (m : list (Slate.Function * list CoffeeArg))
         (ic : nat * Slate.Function) =>
       let '(i, coefficient) := ic in
       let csym_info :=
         match Slate.ufl_element coefficient with
         | Slate.MixedElement _ =>
             map (fun (js : nat * Slate.Function) =>
                    Symbol ("w_" ++ Py.fmt_d i ++ "_" ++ Py.fmt_d (fst js))%string)
                 (Py.enumerate (Slate.split coefficient))
         | Slate.Element _ => [Symbol ("w_" ++ Py.fmt_d i)%string]
         end in
       Py.setitem Slate.function_eqb m coefficient csym_info)
    (Py.enumerate (Slate.coefficients expression)) [].

(** [self.coefficient(c)] *)
Definition coefficient (expression : Slate.TensorBase) (c : Slate.Function)
  : Py.result (list CoffeeArg) :=
  Py.lookup Slate.function_eqb (coefficient_map expression) c.

(** [context_kernels]: the kernels of every terminal, in the order of the
    temporaries. *)
Definition init_context_kernels (compile_terminal_form : Tsfc.compiler)
           (temps : list (Slate.TensorBase * string))
  : list Tsfc.ContextKernel :=
  List.concat
    (map (fun (ie : nat * (Slate.TensorBase * string)) =>
            compile_terminal_form (fst (snd ie))
              ("subkernel" ++ Py.fmt_d (fst ie) ++ "_")%string true)
         (Py.enumerate temps)).

(** *** The static cost model *)

(** [m, n = xs] *)
Definition unpack2 (xs : list Z) : Py.result (Z * Z) :=
  match xs with
  | [m; n] => Py.Ok (m, n)
  | _ :: _ :: _ :: _ =>
      Py.Raise (Py.ValueError "too many values to unpack (expected 2)")
  | _ =>
      Py.Raise (Py.ValueError
        ("not enough values to unpack (expected 2, got "
           ++ Py.fmt_d (List.length xs) ++ ")")%string)
  end.

Definition unpack_error : Py.exception :=
  Py.ValueError "not enough values to unpack (expected at least 1, got 0)".

(** [*rest, last = xs] *)
Definition unpack_last (xs : list Z) : Py.result (list Z * Z) :=
  match Utils.pop xs with
  | Some r => Py.Ok r
  | None => Py.Raise unpack_error
  end.

(** [_, *rest = xs] *)
Definition unpack_rest (xs : list Z) : Py.result (list Z) :=
  match xs with
  | _ :: rest => Py.Ok rest
  | [] => Py.Raise unpack_error
  end.

(** [_flops], dispatched on the class of the node. *)
Definition _flops (expr : Slate.TensorBase) : Py.result PyNum.num :=
  match expr with
  | Slate.AssembledVector _ _ | Slate.Block _ _ | Slate.Tensor _
  | Slate.Transpose _ _ | Slate.Negative _ _ =>
      Py.Ok (PyNum.PyInt 0)
  | Slate.Factorization _ _ decomposition =>
      ' (m, n) <- unpack2 (Slate.shape expr) ;;
      (* Extracted from Golub & Van Loan
         These all ignore lower-order terms... *)
      if Py.str_in decomposition ["PartialPivLU"; "FullPivLU"] then
        PyNum.mul (PyNum.PyFloat (PyNum.literal_div 2 3)) (PyNum.PyInt (n ^ 3))
      else if Py.str_in decomposition ["LLT"; "LDLT"] then
        PyNum.mul (PyNum.PyFloat (PyNum.literal_div 1 3)) (PyNum.PyInt (n ^ 3))
      else if Py.str_in decomposition
                ["HouseholderQR"; "ColPivHouseholderQR"; "FullPivHouseholderQR"] then
        PyNum.mul (PyNum.PyFloat (PyNum.literal_div 4 3)) (PyNum.PyInt (n ^ 3))
      else if Py.str_in decomposition ["BDCSVD"; "JacobiSVD"] then
        Py.Ok (PyNum.PyInt (12 * n ^ 3))
      else
        (* Don't know, but don't barf just because of it. *)
        Py.Ok (PyNum.PyInt 0)
  | Slate.Inverse _ _ =>
      ' (m, n) <- unpack2 (Slate.shape expr) ;;
      if negb (Z.eqb m n) then Py.Raise (Py.AssertionError "")
      else
        (* Assume LU factorisation *)
        PyNum.mul (PyNum.PyFloat (PyNum.literal_div 2 3)) (PyNum.PyInt (n ^ 3))
  | Slate.Add _ _ _ =>
      Py.Ok (PyNum.PyInt (PyNum.np_prod (Slate.shape expr)))
  | Slate.Mul _ A B =>
      ' (rest_a, col) <- unpack_last (Slate.shape A) ;;
      rest_b <- unpack_rest (Slate.shape B) ;;
      Py.Ok (PyNum.PyInt (2 * col * PyNum.np_prod rest_a * PyNum.np_prod rest_b))
  | Slate.Solve _ Afac B =>
      rest <- unpack_rest (Slate.shape B) ;;
      ' (m, n) <- unpack2 (Slate.shape Afac) ;;
      (* Forward elimination + back sub on factorised matrix *)
      Py.Ok (PyNum.PyInt ((m * n + n ^ 2) * PyNum.np_prod rest))
  end.

(** [expression_flops], over the nodes [traverse_dags] yields. *)
Definition expression_flops_of (dag : list Slate.TensorBase) : Py.result Z :=
  total <- PyNum.sum_map _flops dag ;; PyNum.to_int total.

Definition expression_flops (expression : Slate.TensorBase) : Py.result Z :=
  expression_flops_of (Utils.traverse_dags [expression]).

(** [terminal_flops] *)
Definition terminal_flops (expression : Slate.TensorBase)
           (context_kernels : list Tsfc.ContextKernel) : Z :=
  let nfacets := Slate.num_facets (Slate.ufl_domain expression) in
  fold_left
    (fun flops ctx =>
       let itype := Tsfc.original_integral_type ctx in
       fold_left
         (fun flops k =>
            let kinfo := Tsfc.kinfo k in
            if String.eqb itype "cell" then
              (flops + Tsfc.num_flops (Tsfc.kernel kinfo))%Z
            else if String.prefix "interior_facet" itype then
              (* Executed once per facet (approximation) *)
              (flops + Tsfc.num_flops (Tsfc.kernel kinfo) * nfacets)%Z
            else
              (* Exterior facets basically contribute zero flops *)
              flops)
         (Tsfc.tsfc_kernels ctx) flops)
    context_kernels 0%Z.

(** *** Call assembly *)

(** Maps integral type to subdomain key *)
Definition subdomain_map : list (string * string) :=
  [ ("exterior_facet", "subdomains_exterior_facet");
    ("exterior_facet_vert", "subdomains_exterior_facet");
    ("interior_facet", "subdomains_interior_facet");
    ("interior_facet_vert", "subdomains_interior_facet") ].

(** [d[k].append(x)] *)
Definition append_at {X : Type} (d : list (string * list X)) (k : string)
           (x : X) : Py.result (list (string * list X)) :=
  xs <- Py.lookup String.eqb d k ;;
  Py.Ok (Py.setitem String.eqb d k (xs ++ [x])).

(** The local variables of [_setup]. *)
Record setup_state : Type := {
  st_include_dirs : list string;
  st_templated_subkernels : list Tsfc.KernelCode;
  st_assembly_calls : list (string * list entry);
  st_subdomain_calls : list (string * list entry);
  st_coords : option Slate.Function;
  st_oriented : bool;
  st_needs_cell_sizes : bool
}.

Definition setup_start : setup_state :=
  {| st_include_dirs := [];
     st_templated_subkernels := [];
     st_assembly_calls := map (fun it => (it, [])) supported_integral_types;
     st_subdomain_calls := map (fun sd => (sd, [])) supported_subdomain_types;
     st_coords := None;
     st_oriented := false;
     st_needs_cell_sizes := false |}.

Section Setup.
(** [Transformer().visit], from firedrake.slate.slac.utils. *)
Variable transformer_visit : Tsfc.KernelCode -> Tsfc.KernelCode.
Variable expression : Slate.TensorBase.
Variable temps : list (Slate.TensorBase * string).

(** The body of [for split_kernel in cxt_kernel.tsfc_kernels]. *)
Definition setup_split_kernel (cxt_kernel : Tsfc.ContextKernel)
           (st : setup_state) (split_kernel : Tsfc.SplitKernel)
  : Py.result setup_state :=
  let local_coefficients := Tsfc.coefficients cxt_kernel in
  let it_type := Tsfc.original_integral_type cxt_kernel in
  let exp := Tsfc.tensor cxt_kernel in
  let indices := Tsfc.indices split_kernel in
  let kinfo := Tsfc.kinfo split_kernel in
  let kint_type := Tsfc.integral_type kinfo in
  let needs_cell_sizes := st_needs_cell_sizes st || Tsfc.needs_cell_sizes kinfo in
  args <- Py.map_result
            (fun i => c <- Py.getitem local_coefficients i ;;
                      coefficient expression c)
            (Tsfc.coefficient_map kinfo) ;;
  let args := List.concat args in
  let args :=
    if Tsfc.oriented kinfo then cell_orientations_sym :: args else args in
  let args :=
    if Py.str_in kint_type ["interior_facet"; "exterior_facet";
                            "interior_facet_vert"; "exterior_facet_vert"]
    then args ++ [FlatBlock ("&" ++ it_sym)%string] else args in
  let args :=
    if Tsfc.needs_cell_sizes kinfo then args ++ [cell_size_sym] else args in
  (* Assembly calls within the macro kernel *)
  temp <- Py.lookup Slate.tensor_eqb temps exp ;;
  let tensor := EigenTensor exp temp indices in
  let call := {| function_name := Tsfc.name (Tsfc.kernel kinfo);
                 children := tensor :: coord_sym :: args |} in
  (* Subdomains only implemented for exterior facet integrals *)
  ' (assembly_calls, subdomain_calls) <-
    match Tsfc.subdomain_id kinfo with
    | Tsfc.marker sd_id =>
        match Py.get String.eqb subdomain_map kint_type with
        | None =>
            Py.Raise (Py.NotImplementedError
              ("Subdomains for integral type '" ++ kint_type
                 ++ "' not implemented")%string)
        | Some sd_key =>
            sc <- append_at (st_subdomain_calls st) sd_key
                    (SubdomainCall sd_id call) ;;
            Py.Ok (st_assembly_calls st, sc)
        end
    | Tsfc.otherwise =>
        ac <- append_at (st_assembly_calls st) it_type (Call call) ;;
        Py.Ok (ac, st_subdomain_calls st)
    end ;;
  (* Subkernels for local assembly (Eigen templated functions) *)
  if negb (Tsfc.isinstance_Node (Tsfc._code (Tsfc.kernel kinfo))) then
    Py.Raise (Py.AssertionError "")
  else
    let kast := transformer_visit (Tsfc._code (Tsfc.kernel kinfo)) in
    Py.Ok {| st_include_dirs :=
               st_include_dirs st ++ Tsfc._include_dirs (Tsfc.kernel kinfo);
             st_templated_subkernels := st_templated_subkernels st ++ [kast];
             st_assembly_calls := assembly_calls;
             st_subdomain_calls := subdomain_calls;
             st_coords := st_coords st;
             st_oriented := st_oriented st || Tsfc.oriented kinfo;
             st_needs_cell_sizes := needs_cell_sizes |}.

(** The body of [for cxt_kernel in self.context_kernels]. *)
Definition setup_cxt_kernel (st : setup_state)
           (cxt_kernel : Tsfc.ContextKernel) : Py.result setup_state :=
  let it_type := Tsfc.original_integral_type cxt_kernel in
  if negb (Py.str_in it_type supported_integral_types) then
    Py.Raise (Py.ValueError
      ("Integral type '" ++ it_type ++ "' not recognized")%string)
  else
    (* Explicit checking of coordinates *)
    let coordinates :=
      Slate.coordinates (Slate.ufl_domain (Tsfc.tensor cxt_kernel)) in
    st' <- match st_coords st with
           | Some coords =>
               if Slate.function_eqb coordinates coords then Py.Ok st
               else Py.Raise (Py.AssertionError "Mismatching coordinates!")
           | None =>
               Py.Ok {| st_include_dirs := st_include_dirs st;
                        st_templated_subkernels := st_templated_subkernels st;
                        st_assembly_calls := st_assembly_calls st;
                        st_subdomain_calls := st_subdomain_calls st;
                        st_coords := Some coordinates;
                        st_oriented := st_oriented st;
                        st_needs_cell_sizes := st_needs_cell_sizes st |}
           end ;;
    Py.for_each (setup_split_kernel cxt_kernel)
                (Tsfc.tsfc_kernels cxt_kernel) st'.

(** The loop of [_setup] over the context kernels. *)
Definition setup_loop (context_kernels : list Tsfc.ContextKernel)
  : Py.result setup_state :=
  Py.for_each setup_cxt_kernel context_kernels setup_start.
End Setup.

(** The builder once [__init__] has returned. *)
Record t : Type := {
  expression : Slate.TensorBase;
  temps : list (Slate.TensorBase * string);
  ref_counter : list (Slate.TensorBase * nat);
  expression_dag : list Slate.TensorBase;
  coefficient_vecs : coefficient_vecs_t;
  context_kernels : list Tsfc.ContextKernel;
  assembly_calls : list (string * list entry);
  templated_subkernels : list Tsfc.KernelCode;
  include_dirs : list string;
  oriented : bool;
  needs_cell_sizes : bool
}.

Section Builder.
Variable compile_terminal_form : Tsfc.compiler.
Variable transformer_visit : Tsfc.KernelCode -> Tsfc.KernelCode.
(** [list(set(xs))]: the order in which a set of strings is iterated. *)
Variable list_set : list string -> list string.

(** [_setup], given what [__init__] collected. *)
Definition _setup (expression : Slate.TensorBase) (init : init_state)
           (expression_dag : list Slate.TensorBase) : Py.result t :=
  let cxt_kernels := init_context_kernels compile_terminal_form (init_temps init) in
  st <- setup_loop transformer_visit expression (init_temps init) cxt_kernels ;;
  (* Add subdomain call to assembly dict *)
  let assembly_calls :=
    Py.update String.eqb (st_assembly_calls st) (st_subdomain_calls st) in
  Py.Ok {| expression := expression;
           temps := init_temps init;
           ref_counter := init_counter init;
           expression_dag := expression_dag;
           coefficient_vecs := init_coeff_vecs init;
           context_kernels := cxt_kernels;
           assembly_calls := assembly_calls;
           templated_subkernels := st_templated_subkernels st;
           include_dirs := list_set (st_include_dirs st);
           oriented := st_oriented st;
           needs_cell_sizes := st_needs_cell_sizes st |}.

(** [LocalKernelBuilder(expression, tsfc_parameters)] *)
Definition __init__ (expression : Slate.TensorBase) : Py.result t :=
  if Slate.variable_layers (Slate.ufl_domain expression) then
    Py.Raise (Py.NotImplementedError "Variable layers not yet handled in Slate.")
  else
    let expression_dag := Utils.traverse_dags [expression] in
    let init := init_loop expression expression_dag in
    _setup expression init expression_dag.
End Builder.

(** [needs_cell_facets] *)
Definition needs_cell_facets (self : t) : bool :=
  let cell_facet_types :=
    ["interior_facet"; "exterior_facet";
     "interior_facet_vert"; "exterior_facet_vert"] in
  existsb (fun cxt_k => Py.str_in (Tsfc.original_integral_type cxt_k)
                          cell_facet_types)
          (context_kernels self).

(** [needs_mesh_layers] *)
Definition needs_mesh_layers (self : t) : bool :=
  let mesh_layer_types :=
    ["interior_facet_horiz_top"; "interior_facet_horiz_bottom";
     "exterior_facet_bottom"; "exterior_facet_top"] in
  existsb (fun cxt_k => Py.str_in (Tsfc.original_integral_type cxt_k)
                          mesh_layer_types)
          (context_kernels self).

End LocalKernelBuilder.

(** ** gem, loopy and pymbolic terms, as the loopy builder assembles them *)

(** [gem.Indexed(gem.Variable(name, shape), (Index(extent=e), ...))] *)
Record GemIndexed : Type := {
  variable_name : string;
  variable_shape : list Z;
  index_extents : list Z
}.

(** The constructor of [gem.Indexed] on a [gem.Variable] and a multiindex
    of fresh [gem.Index(extent=e)]: it asserts that the multiindex has one
    index for each dimension of the shape, and sets the extent of every
    index to that of its dimension, which raises [ValueError] for an index
    that was created with another extent. *)
Definition gem_Indexed (name : string) (shape extents : list Z)
  : Py.result GemIndexed :=
  if negb (Nat.eqb (List.length shape) (List.length extents))
  then Py.Raise (Py.AssertionError "")
  else if forallb (fun ie : Z * Z => Z.eqb (fst ie) (snd ie))
                  (combine extents shape)
  then Py.Ok {| variable_name := name;
                variable_shape := shape;
                index_extents := extents |}
  else Py.Raise (Py.ValueError "Inconsistent index extents!").

(** The first argument of [loopy.GlobalArg]: a name or, as [__init__]
    writes it for an assembled vector, the function itself. *)
Inductive ArgName : Type :=
| Name (s : string)
| FunctionName (f : Slate.Function)
| Records (cinfo : list CoefficientInfo.t).

(** [loopy.GlobalArg(name, shape=..., dtype=...)] *)
Record GlobalArg : Type := {
  arg_name : ArgName;
  arg_shape : list Z;
  arg_dtype : string
}.

(** [SubArrayRef(inames, pym.Subscript(pym.Variable(name), inames))] *)
Record SubArrayRef : Type := {
  swept_inames : list string;
  aggregate : ArgName;
  subscript : list string
}.

(** [loopy.CallInstruction((output, ), pym.Call(pym.Variable(name), reads),
    predicates=..., within_inames_is_final=True, id=...)] *)
Record CallInstruction : Type := {
  assignees : list SubArrayRef;
  called : string;
  parameters : list SubArrayRef;
  predicates : option (list string);
  within_inames_is_final : bool;
  id : string
}.

Definition SCALAR_TYPE : string := "double".

(** [index_extent(coefficient)] *)
Definition index_extent (coefficient : Slate.Function) : Z :=
  let element := Slate.ufl_element coefficient in
  if String.eqb (Slate.element_family element) "Real" then
    Slate.dat_cdim coefficient
  else
    Slate.element_space_dimension element.

(** [create_index(extent, namer, context)] with the namer the loopy builder
    passes, [map("i{}".format, itertools.count())]: a fresh iterator at every
    call, so the name drawn is always ["i0"].  Returns [context.indices]
    after the call and the name of the variable. *)
Definition create_index (extent : Z) (indices : list (string * Z))
  : list (string * Z) * string :=
  let name := ("i" ++ Py.fmt_d 0)%string in
  (indices ++ [(name, extent)], name).

(** ** class LocalLoopyKernelBuilder *)

Module LocalLoopyKernelBuilder.

Definition coordinates_arg : string := "coords".
Definition cell_facets_arg : string := "cell_facets".
Definition local_facet_array_arg : string := "facet_array".
Definition layer_arg : string := "layer".
Definition cell_size_arg : string := "cell_sizes".
Definition result_arg : string := "result".
Definition cell_orientations_arg : string := "orientations".

Definition supported_integral_types : list string :=
  [ "cell";
    "interior_facet";
    "exterior_facet";
    "interior_facet_horiz_top";
    "interior_facet_horiz_bottom";
    "interior_facet_vert";
    "exterior_facet_top";
    "exterior_facet_bottom";
    "exterior_facet_vert" ].

Definition supported_subdomain_types : list string :=
  [ "subdomains_exterior_facet"; "subdomains_interior_facet" ].

(** Two [gem.Indexed] temporaries are the same object exactly when they
    carry the same name: every temporary is created with a fresh one. *)
Definition gem_eqb (a b : GemIndexed) : bool :=
  String.eqb (variable_name a) (variable_name b).

(** The local variables of the loop of [__init__]; [shape_var] is the
    loop variable [shape] of the packing loop, which stays bound (to its
    last value) once that loop has run. *)
Record init_state : Type := {
  init_temps : list (Slate.TensorBase * GemIndexed);
  init_gem_loopy_dict : list (GemIndexed * GlobalArg);
  init_coeff_vecs : coefficient_vecs_t;
  init_seen_coeff : list Slate.Function;
  init_counter : list (Slate.TensorBase * nat);
  init_shape_var : option Z
}.

(** The body of [for tensor in expression_dag] in [__init__]. *)
Definition init_body (st : init_state) (tensor : Slate.TensorBase)
  : Py.result init_state :=
  let counter' := counter_update (init_counter st) (Slate.operands tensor) in
  (* Terminal tensors will always require a temporary. *)
  ' (temps', gem_loopy_dict') <-
    (if Slate.is_Tensor tensor then
       indexed <- gem_Indexed
                    ("T" ++ Py.fmt_d (List.length (init_temps st)))%string
                    (Slate.shape tensor) [3; 3]%Z ;;
       let temps' :=
         Py.setdefault Slate.tensor_eqb (init_temps st) tensor indexed in
       key <- Py.lookup Slate.tensor_eqb temps' tensor ;;
       Py.Ok (temps',
              Py.setdefault gem_eqb (init_gem_loopy_dict st) key
                {| arg_name := Name (variable_name key);
                   arg_shape := Slate.shape tensor;
                   arg_dtype := SCALAR_TYPE |})
     else Py.Ok (init_temps st, init_gem_loopy_dict st)) ;;
  (* 'AssembledVector's will always require a coefficient temporary. *)
  match tensor with
  | Slate.AssembledVector _ function =>
      key <- Py.lookup Slate.tensor_eqb temps' tensor ;;
      shape <- match init_shape_var st with
               | Some shape => Py.Ok shape
               | None => Py.Raise (Py.UnboundLocalError "shape")
               end ;;
      let gem_loopy_dict'' :=
        Py.setdefault gem_eqb gem_loopy_dict' key
          {| arg_name := FunctionName function;
             arg_shape := [shape];
             arg_dtype := SCALAR_TYPE |} in
      (* Ensure coefficient temporaries aren't duplicated *)
      if negb (existsb (Slate.function_eqb function) (init_seen_coeff st)) then
        let shapes := shapes_of function in
        let local_temp :=
          GemVariable
            ("VecTemp" ++ Py.fmt_d (List.length (init_seen_coeff st)))%string
            shapes in
        let '(coeff_vecs', _) :=
          pack_loop tensor local_temp shapes (init_coeff_vecs st) in
        Py.Ok {| init_temps := temps'; init_gem_loopy_dict := gem_loopy_dict'';
                 init_coeff_vecs := coeff_vecs';
                 init_seen_coeff := init_seen_coeff st ++ [function];
                 init_counter := counter';
                 init_shape_var := match rev shapes with
                                   | last :: _ => Some last
                                   | [] => init_shape_var st
                                   end |}
      else
        Py.Ok {| init_temps := temps'; init_gem_loopy_dict := gem_loopy_dict'';
                 init_coeff_vecs := init_coeff_vecs st;
                 init_seen_coeff := init_seen_coeff st;
                 init_counter := counter'; init_shape_var := init_shape_var st |}
  | _ =>
      Py.Ok {| init_temps := temps'; init_gem_loopy_dict := gem_loopy_dict';
               init_coeff_vecs := init_coeff_vecs st;
                 init_seen_coeff := init_seen_coeff st;
               init_counter := counter'; init_shape_var := init_shape_var st |}
  end.

Definition init_start (expression : Slate.TensorBase) : init_state :=
  {| init_temps := []; init_gem_loopy_dict := []; init_coeff_vecs := [];
     init_seen_coeff := [];
     init_counter := counter_update [] [expression]; init_shape_var := None |}.

Definition init_loop (expression : Slate.TensorBase)
           (expression_dag : list Slate.TensorBase) : Py.result init_state :=
  Py.for_each init_body expression_dag (init_start expression).

(** [context_kernels], here compiled with [coffee=False]. *)
Definition init_context_kernels (compile_terminal_form : Tsfc.compiler)
           (temps : list (Slate.TensorBase * GemIndexed))
  : list Tsfc.ContextKernel :=
  List.concat
    (map (fun (ie : nat * (Slate.TensorBase * GemIndexed)) =>
            compile_terminal_form (fst (snd ie))
              ("subkernel" ++ Py.fmt_d (fst ie) ++ "_")%string false)
         (Py.enumerate temps)).

(** *** Call assembly *)

(** The local variables of [_setup], with [self.indices].  The variables
    [integral_type], [kinfo] and [reads] are read after the loops, where
    they are bound only if the loops assigned them. *)
Record setup_state : Type := {
  st_include_dirs : list string;
  st_templated_subkernels : list string;
  st_assembly_calls : list (string * list CallInstruction);
  st_subdomain_calls : list (string * list CallInstruction);
  st_coords : option Slate.Function;
  st_needs_cell_orientations : bool;
  st_needs_cell_sizes : bool;
  st_needs_cell_facets : bool;
  st_needs_mesh_layers : bool;
  st_indices : list (string * Z);
  st_integral_type : option string;
  st_kinfo : option Tsfc.KernelInfo;
  st_reads : option (list SubArrayRef)
}.

Definition setup_start : setup_state :=
  {| st_include_dirs := [];
     st_templated_subkernels := [];
     st_assembly_calls := map (fun it => (it, [])) supported_integral_types;
     st_subdomain_calls := map (fun sd => (sd, [])) supported_subdomain_types;
     st_coords := None;
     st_needs_cell_orientations := false;
     st_needs_cell_sizes := false;
     st_needs_cell_facets := false;
     st_needs_mesh_layers := false;
     st_indices := [];
     st_integral_type := None;
     st_kinfo := None;
     st_reads := None |}.

(** [assembly_calls[integral_type].append(call)] *)
Definition append_at {X : Type} (d : list (string * list X)) (k : string)
           (x : X) : Py.result (list (string * list X)) :=
  xs <- Py.lookup String.eqb d k ;;
  Py.Ok (Py.setitem String.eqb d k (xs ++ [x])).

Section Setup.
Variable temps : list (Slate.TensorBase * GemIndexed).
Variable gem_loopy_dict : list (GemIndexed * GlobalArg).
Variable coefficient_vecs : coefficient_vecs_t.

(** [for c, name in kernel_data]: one read per datum, each over a new
    index registered in [self.indices]. *)
Definition read_loop (kernel_data : list (Slate.Function * ArgName))
           (indices : list (string * Z))
  : list (string * Z) * list SubArrayRef :=
  fold_left
    (fun (acc : list (string * Z) * list SubArrayRef)
         (cn : Slate.Function * ArgName) =>
       let '(indices, reads) := acc in
       let '(c, name) := cn in
       let extent := index_extent c in
       let '(indices', idx) := create_index extent indices in
       let argument := {| swept_inames := [idx];
                          aggregate := name;
                          subscript := [idx] |} in
       (indices', reads ++ [argument]))
    kernel_data (indices, []).

(** The body of [for inner in cxt_kernel.tsfc_kernels]. *)
Definition setup_inner (cxt_kernel : Tsfc.ContextKernel)
           (temp : GemIndexed) (st : setup_state) (inner : Tsfc.SplitKernel)
  : Py.result setup_state :=
  let coefficients := Tsfc.coefficients cxt_kernel in
  let integral_type := Tsfc.original_integral_type cxt_kernel in
  let tensor := Tsfc.tensor cxt_kernel in
  let mesh := Slate.ufl_domain tensor in
  let kinfo := Tsfc.kinfo inner in
  (* populate subkernel call to tsfc *)
  let templated_subkernels :=
    st_templated_subkernels st ++ [Tsfc.code (Tsfc.kernel kinfo)] in
  let include_dirs :=
    st_include_dirs st ++ Tsfc._include_dirs (Tsfc.kernel kinfo) in
  (* For the mixed case, the output is a slice of the matrix/vector *)
  output <-
    (if Slate.is_mixed tensor then
       Py.Raise (Py.ValueError "For now only non mixed supported")
     else
       garg <- Py.lookup gem_eqb gem_loopy_dict temp ;;
       let idx1 := "i" in
       let idx2 := "i0" in
       Py.Ok {| swept_inames := [idx1; idx2];
                aggregate := arg_name garg;
                subscript := [idx1; idx2] |}) ;;
  (* kernel data is equivalent to the args in the coffee kernel setup *)
  let kernel_data := [(Slate.coordinates mesh, Name coordinates_arg)] in
  let kernel_data :=
    if Tsfc.oriented kinfo then
      kernel_data ++ [(Slate.cell_orientations mesh, Name cell_orientations_arg)]
    else kernel_data in
  let needs_cell_orientations :=
    st_needs_cell_orientations st || Tsfc.oriented kinfo in
  let kernel_data :=
    if Tsfc.needs_cell_sizes kinfo then
      kernel_data ++ [(Slate.cell_sizes mesh, Name cell_size_arg)]
    else kernel_data in
  let needs_cell_sizes :=
    st_needs_cell_sizes st || Tsfc.needs_cell_sizes kinfo in
  local_coefficients <-
    Py.map_result (Py.getitem coefficients) (Tsfc.coefficient_map kinfo) ;;
  coefficient_data <-
    Py.map_result
      (fun c =>
         cinfo <- Py.lookup coeff_key_eqb coefficient_vecs
                    (KFunction (Slate.function_id c)) ;;
         Py.Ok (c, Records cinfo))
      (List.concat (map Slate.split local_coefficients)) ;;
  let kernel_data := kernel_data ++ coefficient_data in
  let '(indices, reads) := read_loop kernel_data (st_indices st) in
  predicates <-
    (if String.eqb integral_type "cell" then
       if negb (Tsfc.is_otherwise (Tsfc.subdomain_id kinfo)) then
         Py.Raise (Py.NotImplementedError "No subdomain markers for cells yet")
       else Py.Ok (@None (list string))
     else
       Py.Raise (Py.ValueError
         ("Unhandled integral type " ++ integral_type)%string)) ;;
  (* reads is used to give the instruction an id *)
  assembly_calls <-
    append_at (st_assembly_calls st) integral_type
      {| assignees := [output];
         called := Tsfc.name (Tsfc.kernel kinfo);
         parameters := reads;
         predicates := predicates;
         within_inames_is_final := true;
         id := "inner_call" |} ;;
  Py.Ok {| st_include_dirs := include_dirs;
           st_templated_subkernels := templated_subkernels;
           st_assembly_calls := assembly_calls;
           st_subdomain_calls := st_subdomain_calls st;
           st_coords := st_coords st;
           st_needs_cell_orientations := needs_cell_orientations;
           st_needs_cell_sizes := needs_cell_sizes;
           st_needs_cell_facets := st_needs_cell_facets st;
           st_needs_mesh_layers := st_needs_mesh_layers st;
           st_indices := indices;
           st_integral_type := st_integral_type st;
           st_kinfo := Some kinfo;
           st_reads := Some reads |}.

(** The body of [for cxt_kernel in self.context_kernels]. *)
Definition setup_cxt_kernel (st : setup_state)
           (cxt_kernel : Tsfc.ContextKernel) : Py.result setup_state :=
  let integral_type := Tsfc.original_integral_type cxt_kernel in
  let tensor := Tsfc.tensor cxt_kernel in
  temp <- Py.lookup Slate.tensor_eqb temps tensor ;;
  if negb (Py.str_in integral_type supported_integral_types) then
    Py.Raise (Py.ValueError
      ("Integral type '" ++ integral_type ++ "' not recognized")%string)
  else
    (* Explicit checking of coordinates *)
    let coordinates := Slate.coordinates (Slate.ufl_domain tensor) in
    coords <- match st_coords st with
              | Some coords =>
                  if Slate.function_eqb coordinates coords then Py.Ok coords
                  else Py.Raise (Py.AssertionError "Mismatching coordinates!")
              | None => Py.Ok coordinates
              end ;;
    Py.for_each (setup_inner cxt_kernel temp)
      (Tsfc.tsfc_kernels cxt_kernel)
      {| st_include_dirs := st_include_dirs st;
         st_templated_subkernels := st_templated_subkernels st;
         st_assembly_calls := st_assembly_calls st;
         st_subdomain_calls := st_subdomain_calls st;
         st_coords := Some coords;
         st_needs_cell_orientations := st_needs_cell_orientations st;
         st_needs_cell_sizes := st_needs_cell_sizes st;
         st_needs_cell_facets := st_needs_cell_facets st;
         st_needs_mesh_layers := st_needs_mesh_layers st;
         st_indices := st_indices st;
         st_integral_type := Some integral_type;
         st_kinfo := st_kinfo st;
         st_reads := st_reads st |}.

(** The loop of [_setup] over the context kernels. *)
Definition setup_loop (context_kernels : list Tsfc.ContextKernel)
  : Py.result setup_state :=
  Py.for_each setup_cxt_kernel context_kernels setup_start.
End Setup.

(** The builder once [__init__] has returned. *)
Record t : Type := {
  expression : Slate.TensorBase;
  temps : list (Slate.TensorBase * GemIndexed);
  gem_loopy_dict : list (GemIndexed * GlobalArg);
  ref_counter : list (Slate.TensorBase * nat);
  expression_dag : list Slate.TensorBase;
  coefficient_vecs : coefficient_vecs_t;
  context_kernels : list Tsfc.ContextKernel;
  indices : list (string * Z);
  assembly_calls : list (string * list CallInstruction);
  templated_subkernels : list string;
  include_dirs : list string;
  needs_cell_orientations : bool;
  needs_cell_sizes : bool;
  needs_cell_facets : bool;
  needs_mesh_layers : bool;
  integral_type : string;
  oriented : bool;
  reads : list SubArrayRef
}.

Section Builder.
Variable compile_terminal_form : Tsfc.compiler.
(** [list(set(xs))]: the order in which a set of strings is iterated. *)
Variable list_set : list string -> list string.

(** [_setup], given what [__init__] collected. *)
Definition _setup (expression : Slate.TensorBase) (init : init_state)
           (expression_dag : list Slate.TensorBase) : Py.result t :=
  let cxt_kernels := init_context_kernels compile_terminal_form (init_temps init) in
  st <- setup_loop (init_temps init) (init_gem_loopy_dict init)
          (init_coeff_vecs init) cxt_kernels ;;
  integral_type <- match st_integral_type st with
                   | Some it => Py.Ok it
                   | None => Py.Raise (Py.UnboundLocalError "integral_type")
                   end ;;
  kinfo <- match st_kinfo st with
           | Some k => Py.Ok k
           | None => Py.Raise (Py.UnboundLocalError "kinfo")
           end ;;
  reads <- match st_reads st with
           | Some r => Py.Ok r
           | None => Py.Raise (Py.UnboundLocalError "reads")
           end ;;
  Py.Ok {| expression := expression;
           temps := init_temps init;
           gem_loopy_dict := init_gem_loopy_dict init;
           ref_counter := init_counter init;
           expression_dag := expression_dag;
           coefficient_vecs := init_coeff_vecs init;
           context_kernels := cxt_kernels;
           indices := st_indices st;
           assembly_calls := st_assembly_calls st;
           templated_subkernels := st_templated_subkernels st;
           include_dirs := list_set (st_include_dirs st);
           needs_cell_orientations := st_needs_cell_orientations st;
           needs_cell_sizes := st_needs_cell_sizes st;
           needs_cell_facets := st_needs_cell_facets st;
           needs_mesh_layers := st_needs_mesh_layers st;
           integral_type := integral_type;
           oriented := Tsfc.oriented kinfo;
           reads := reads |}.

(** [LocalLoopyKernelBuilder(expression, tsfc_parameters)] *)
Definition __init__ (expression : Slate.TensorBase) : Py.result t :=
  if Slate.variable_layers (Slate.ufl_domain expression) then
    Py.Raise (Py.NotImplementedError "Variable layers not yet handled in Slate.")
  else
    let expression_dag := Utils.traverse_dags [expression] in
    init <- init_loop expression expression_dag ;;
    _setup expression init expression_dag.
End Builder.

End LocalLoopyKernelBuilder.

(** ** Notions used in the statements *)

(** Two numbers that differ at most in the sign of a floating-point zero. *)
Definition same_number (a b : PyNum.num) : Prop :=
  a = b \/
  exists s s', a = PyNum.PyFloat (S754_zero s) /\ b = PyNum.PyFloat (S754_zero s').

(** Two computations that raise the same exception or return numbers that
    are the same up to the sign of zero. *)
Definition same_outcome (m m' : Py.result PyNum.num) : Prop :=
  match m, m' with
  | Py.Ok a, Py.Ok b => same_number a b
  | Py.Raise e, Py.Raise e' => e = e'
  | _, _ => False
  end.

(** The decomposition names the cost model prices: the LU, Cholesky, QR and
    SVD classes. *)
Definition recognized_decompositions : list string :=
  [ "PartialPivLU"; "FullPivLU";
    "LLT"; "LDLT";
    "HouseholderQR"; "ColPivHouseholderQR"; "FullPivHouseholderQR";
    "BDCSVD"; "JacobiSVD" ].

(** The nodes the cost model passes over. *)
Definition pass_through (t : Slate.TensorBase) : bool :=
  match t with
  | Slate.Tensor _ | Slate.AssembledVector _ _ | Slate.Block _ _
  | Slate.Transpose _ _ | Slate.Negative _ _ => true
  | _ => false
  end.

(** The keys of the two bucket maps, which no step of the loop changes. *)
Definition flat_keys (st : LocalKernelBuilder.setup_state) : Prop :=
  map fst (LocalKernelBuilder.st_assembly_calls st)
  = LocalKernelBuilder.supported_integral_types
  /\ map fst (LocalKernelBuilder.st_subdomain_calls st)
     = LocalKernelBuilder.supported_subdomain_types.

(** The coordinate field of the terminal of [cxt_kernel] is the one call
    assembly has recorded, if it has recorded one. *)
Definition coordinates_agree (coords : option Slate.Function)
           (cxt_kernel : Tsfc.ContextKernel) : Prop :=
  match coords with
  | None => True
  | Some c =>
      Slate.function_eqb
        (Slate.coordinates (Slate.ufl_domain (Tsfc.tensor cxt_kernel))) c = true
  end.

(** The nodes reachable from [t], itself included, each as often as it is
    referenced. *)
Fixpoint subterms (t : Slate.TensorBase) : list Slate.TensorBase :=
  t :: match t with
       | Slate.Tensor _ | Slate.AssembledVector _ _ => []
       | Slate.Block _ A | Slate.Factorization _ A _ | Slate.Inverse _ A
       | Slate.Transpose _ A | Slate.Negative _ A => subterms A
       | Slate.Add _ A B | Slate.Mul _ A B | Slate.Solve _ A B =>
           subterms A ++ subterms B
       end.

(** [nid] is the identity of a node: within an expression, two nodes with
    the same identity are the same object. *)
Definition identities_respected (expression : Slate.TensorBase) : Prop :=
  forall a b,
    In a (subterms expression) -> In b (subterms expression) ->
    Slate.nid a = Slate.nid b -> a = b.

(** The distinct members of a list, in the order of their first
    occurrence. *)
Definition first_occurrences (l : list nat) : list nat :=
  fold_left (fun acc x => if existsb (Nat.eqb x) acc then acc else acc ++ [x])
            l [].

(** The identities of the terminal nodes among [nodes]. *)
Definition terminal_ids (nodes : list Slate.TensorBase) : list nat :=
  map Slate.nid (filter Slate.is_Tensor nodes).

(** The name of the [k]-th temporary. *)
Definition temporary_name (k : nat) : string := ("T" ++ Py.fmt_d k)%string.

(** The packing records a dictionary holds, each with the key (the block
    size) it is filed under, in the order of the dictionary. *)
Definition entries (cv : coefficient_vecs_t)
  : list (CoeffKey * CoefficientInfo.t) :=
  flat_map (fun kv => map (pair (fst kv)) (snd kv)) cv.

(** [t] is an assembled vector of the coefficient with identity [fid]. *)
Definition refers_to (fid : nat) (t : Slate.TensorBase) : bool :=
  match t with
  | Slate.AssembledVector _ f => Nat.eqb (Slate.function_id f) fid
  | _ => false
  end.

(** The packing records of the coefficient with identity [fid]. *)
Definition entries_of (fid : nat) (cv : coefficient_vecs_t)
  : list (CoeffKey * CoefficientInfo.t) :=
  filter (fun r => refers_to fid (CoefficientInfo.vector (snd r))) (entries cv).

(** The size of the block a record describes: the key it is filed under. *)
Definition block_size (r : CoeffKey * CoefficientInfo.t) : Z :=
  match fst r with
  | KShape size => size
  | KFunction _ => 0
  end.

(** The name of the packed temporary of the [k]-th coefficient. *)
Definition packed_temp_name (k : nat) : string := ("VecTemp" ++ Py.fmt_d k)%string.

(** The records the design asks for, for a coefficient with block sizes
    [shapes] first referenced by [tensor]: one per sub-block, the [j]-th at
    the offset that is the sum of the blocks before it, filed under its
    block size, all with the total length and the one packed temporary. *)
Definition packing_records (tensor : Slate.TensorBase) (local_temp : LocalTemp)
           (shapes : list Z) : list (CoeffKey * CoefficientInfo.t) :=
  map (fun j =>
         (KShape (nth j shapes 0%Z),
          {| CoefficientInfo.space_index := j;
             CoefficientInfo.offset_index := Py.sum (firstn j shapes);
             CoefficientInfo.shape := [Py.sum shapes];
             CoefficientInfo.vector := tensor;
             CoefficientInfo.local_temp := local_temp |}))
      (seq 0 (List.length shapes)).

(** The coefficient with identity [fid] has been packed. *)
Definition packed (fid : nat) (seen_coeff : list Slate.Function) : bool :=
  existsb (fun g => Nat.eqb (Slate.function_id g) fid) seen_coeff.

(** What the loop of [__init__] maintains: no coefficient identity is in
    [seen_coeff] twice, and every record belongs to a coefficient in it. *)
Definition packing_invariant (seen_coeff : list Slate.Function)
           (coeff_vecs : coefficient_vecs_t) : Prop :=
  NoDup (map Slate.function_id seen_coeff)
  /\ forall r, In r (entries coeff_vecs) ->
               exists fid, refers_to fid (CoefficientInfo.vector (snd r)) = true
                           /\ packed fid seen_coeff = true.

(** The classes of failure of the design: an unsupported configuration, an
    inconsistency between terminals, or a failure of the program itself. *)
Inductive error_class : Type :=
| unsupported_configuration
| inconsistency
| program_error.

Definition class_of (e : Py.exception) : error_class :=
  match e with
  | Py.ValueError _ | Py.NotImplementedError _ => unsupported_configuration
  | Py.AssertionError _ => inconsistency
  | _ => program_error
  end.

(** C9 as it is stated: the loopy builder, given an expression whose
    output is on a mixed space, collects its temporaries and fails in call
    assembly, with an error of the unsupported configuration. *)
Definition rejected_in_call_assembly (compile : Tsfc.compiler)
           (list_set : list string -> list string)
           (expression : Slate.TensorBase) : Prop :=
  Py.is_ok (LocalLoopyKernelBuilder.init_loop expression
              (Utils.traverse_dags [expression])) = true
  /\ exists e,
      LocalLoopyKernelBuilder.__init__ compile list_set expression = Py.Raise e
      /\ class_of e = unsupported_configuration.

(** The kernel a bucket entry of the flat builder calls. *)
Definition entry_name (e : LocalKernelBuilder.entry) : string :=
  match e with
  | LocalKernelBuilder.Call c | LocalKernelBuilder.SubdomainCall _ c =>
      function_name c
  end.

(** A bucket map read as the names of the kernels called, bucket by
    bucket and in order. *)
Definition names_of {X : Type} (name : X -> string)
           (d : list (string * list X)) : list (string * list string) :=
  map (fun kv => (fst kv, map name (snd kv))) d.

(** The buckets of the supported integral types, read the same way. *)
Definition plain_buckets {X : Type} (name : X -> string)
           (d : list (string * list X)) : list (string * option (list string)) :=
  map (fun it => (it, option_map (map name) (Py.get String.eqb d it)))
      LocalKernelBuilder.supported_integral_types.

(** The two builders agree on an expression, as the design demands: both
    raise, with errors of one class, or both return, with the same kernels
    called in the same order in the bucket of every integral type and with
    the same flags. *)
Definition builders_agree (compile : Tsfc.compiler)
           (visit : Tsfc.KernelCode -> Tsfc.KernelCode)
           (list_set : list string -> list string)
           (expression : Slate.TensorBase) : Prop :=
  match LocalKernelBuilder.__init__ compile visit list_set expression,
        LocalLoopyKernelBuilder.__init__ compile list_set expression with
  | Py.Raise e, Py.Raise e' => class_of e = class_of e'
  | Py.Ok b, Py.Ok b' =>
      plain_buckets entry_name (LocalKernelBuilder.assembly_calls b)
      = plain_buckets called (LocalLoopyKernelBuilder.assembly_calls b')
      /\ LocalKernelBuilder.oriented b
         = LocalLoopyKernelBuilder.needs_cell_orientations b'
      /\ LocalKernelBuilder.needs_cell_sizes b
         = LocalLoopyKernelBuilder.needs_cell_sizes b'
      /\ LocalKernelBuilder.needs_cell_facets b
         = LocalLoopyKernelBuilder.needs_cell_facets b'
      /\ LocalKernelBuilder.needs_mesh_layers b
         = LocalLoopyKernelBuilder.needs_mesh_layers b'
  | _, _ => False
  end.

(** A sub-kernel compiled for the flat builder and one compiled for the
    loopy builder that differ in the code of the kernel only; the code for
    the flat builder is a COFFEE tree. *)
Definition kernels_alike (k k' : Tsfc.SplitKernel) : Prop :=
  Tsfc.indices k = Tsfc.indices k'
  /\ Tsfc.integral_type (Tsfc.kinfo k) = Tsfc.integral_type (Tsfc.kinfo k')
  /\ Tsfc.oriented (Tsfc.kinfo k) = Tsfc.oriented (Tsfc.kinfo k')
  /\ Tsfc.subdomain_id (Tsfc.kinfo k) = Tsfc.subdomain_id (Tsfc.kinfo k')
  /\ Tsfc.coefficient_map (Tsfc.kinfo k) = Tsfc.coefficient_map (Tsfc.kinfo k')
  /\ Tsfc.needs_cell_sizes (Tsfc.kinfo k) = Tsfc.needs_cell_sizes (Tsfc.kinfo k')
  /\ Tsfc.name (Tsfc.kernel (Tsfc.kinfo k)) = Tsfc.name (Tsfc.kernel (Tsfc.kinfo k'))
  /\ Tsfc.isinstance_Node (Tsfc._code (Tsfc.kernel (Tsfc.kinfo k))) = true.

Definition compiled_alike (c c' : Tsfc.ContextKernel) : Prop :=
  Tsfc.tensor c = Tsfc.tensor c'
  /\ Tsfc.coefficients c = Tsfc.coefficients c'
  /\ Tsfc.original_integral_type c = Tsfc.original_integral_type c'
  /\ Forall2 kernels_alike (Tsfc.tsfc_kernels c) (Tsfc.tsfc_kernels c').

(** The form compiler returns the same kernels whether it is asked for
    COFFEE or for loopy code, and every coefficient it lists splits into at
    least one component. *)
Definition compiler_consistent (compile : Tsfc.compiler) : Prop :=
  forall t prefix,
    Forall2 compiled_alike (compile t prefix true) (compile t prefix false)
    /\ forall c f, In c (compile t prefix false) ->
                   In f (Tsfc.coefficients c) -> Slate.split f <> [].

(** The states of the two call-assembly loops correspond. *)
Definition setup_states_agree (s : LocalKernelBuilder.setup_state)
           (s' : LocalLoopyKernelBuilder.setup_state) : Prop :=
  names_of entry_name (LocalKernelBuilder.st_assembly_calls s)
  = names_of called (LocalLoopyKernelBuilder.st_assembly_calls s')
  /\ LocalKernelBuilder.st_subdomain_calls s
     = map (fun sd => (sd, [])) LocalKernelBuilder.supported_subdomain_types
  /\ LocalKernelBuilder.st_coords s = LocalLoopyKernelBuilder.st_coords s'
  /\ LocalKernelBuilder.st_oriented s
     = LocalLoopyKernelBuilder.st_needs_cell_orientations s'
  /\ LocalKernelBuilder.st_needs_cell_sizes s
     = LocalLoopyKernelBuilder.st_needs_cell_sizes s'.

(** Every key of the dictionary is a block size. *)
Definition keyed_by_shape (cv : coefficient_vecs_t) : Prop :=
  forall k, In k (map fst cv) -> exists size, k = KShape size.

(** ** Notions used in the further properties *)

(** How often [counter] has counted the node [t]; a [Counter] answers 0 for
    a node it has not counted. *)
Definition count_of (counter : list (Slate.TensorBase * nat))
           (t : Slate.TensorBase) : nat :=
  match Py.get Slate.tensor_eqb counter t with
  | Some n => n
  | None => 0
  end.

(** The references [__init__] counts: the expression itself and, for every
    node of the traversal, each of its operands. *)
Definition references (expression : Slate.TensorBase)
           (expression_dag : list Slate.TensorBase) : list nat :=
  map Slate.nid (expression :: flat_map Slate.operands expression_dag).

(** The identities of the coefficients the assembled vectors among [nodes]
    refer to, in the order of the nodes. *)
Definition coefficient_ids (nodes : list Slate.TensorBase) : list nat :=
  flat_map (fun t => match t with
                     | Slate.AssembledVector _ f => [Slate.function_id f]
                     | _ => []
                     end) nodes.

(** The coefficient a packing record belongs to. *)
Definition coefficient_of (r : CoeffKey * CoefficientInfo.t) : option nat :=
  match CoefficientInfo.vector (snd r) with
  | Slate.AssembledVector _ f => Some (Slate.function_id f)
  | _ => None
  end.

(** How often the kernels of an integral type are counted: once for a cell
    integral, once per facet for the interior facets, not at all else. *)
Definition flops_weight (nfacets : Z) (itype : string) : Z :=
  if String.eqb itype "cell" then 1%Z
  else if String.prefix "interior_facet" itype then nfacets
  else 0%Z.

(** The operations of the sub-kernels of one context kernel. *)
Definition kernel_flops (cxt_kernel : Tsfc.ContextKernel) : Z :=
  Py.sum (map (fun k => Tsfc.num_flops (Tsfc.kernel (Tsfc.kinfo k)))
              (Tsfc.tsfc_kernels cxt_kernel)).

(** The coordinate field of the terminal of a context kernel, by identity. *)
Definition coordinates_id (cxt_kernel : Tsfc.ContextKernel) : nat :=
  Slate.function_id
    (Slate.coordinates (Slate.ufl_domain (Tsfc.tensor cxt_kernel))).

(** The integral types that need the facets of the cell, and those that
    need the layers of an extruded mesh. *)
Definition cell_facet_types : list string :=
  ["interior_facet"; "exterior_facet";
   "interior_facet_vert"; "exterior_facet_vert"].

Definition mesh_layer_types : list string :=
  ["interior_facet_horiz_top"; "interior_facet_horiz_bottom";
   "exterior_facet_bottom"; "exterior_facet_top"].

(** All sub-kernels of a list of context kernels, each with the context
    kernel it belongs to, in the order in which call assembly meets them. *)
Definition all_subkernels (context_kernels : list Tsfc.ContextKernel)
  : list (Tsfc.ContextKernel * Tsfc.SplitKernel) :=
  flat_map (fun c => map (pair c) (Tsfc.tsfc_kernels c)) context_kernels.

(** The kernels called from the bucket of the integral type [it]: those of
    the context kernels of that type that carry no subdomain marker. *)
Definition plain_calls_of (it : string)
           (context_kernels : list Tsfc.ContextKernel) : list string :=
  map (fun ck => Tsfc.name (Tsfc.kernel (Tsfc.kinfo (snd ck))))
      (filter (fun ck =>
                 String.eqb (Tsfc.original_integral_type (fst ck)) it
                 && Tsfc.is_otherwise (Tsfc.subdomain_id (Tsfc.kinfo (snd ck))))
              (all_subkernels context_kernels)).

(** The marked calls of the subdomain bucket [sd]: the sub-kernels with a
    marker whose own integral type [subdomain_map] sends to [sd]. *)
Definition subdomain_calls_of (sd : string)
           (context_kernels : list Tsfc.ContextKernel) : list (Z * string) :=
  flat_map (fun ck =>
              match Tsfc.subdomain_id (Tsfc.kinfo (snd ck)) with
              | Tsfc.marker sd_id =>
                  match Py.get String.eqb LocalKernelBuilder.subdomain_map
                          (Tsfc.integral_type (Tsfc.kinfo (snd ck))) with
                  | Some sd_key =>
                      if String.eqb sd_key sd
                      then [(sd_id, Tsfc.name (Tsfc.kernel (Tsfc.kinfo (snd ck))))]
                      else []
                  | None => []
                  end
              | Tsfc.otherwise => []
              end)
           (all_subkernels context_kernels).

(** A bucket entry read as the marker it carries, if any, and the kernel
    it calls. *)
Definition entry_marker (e : LocalKernelBuilder.entry) : option Z :=
  match e with
  | LocalKernelBuilder.Call _ => None
  | LocalKernelBuilder.SubdomainCall sd_id _ => Some sd_id
  end.

Definition entry_call (e : LocalKernelBuilder.entry) : FunCall :=
  match e with
  | LocalKernelBuilder.Call c | LocalKernelBuilder.SubdomainCall _ c => c
  end.

(** The arguments of a call after the output tensor and the coordinates:
    the cell orientations first if the kernel is oriented, the symbols of
    its coefficients, the facet number for a facet integral, the cell sizes
    last if the kernel needs them. *)
Definition trailing_arguments (kinfo : Tsfc.KernelInfo)
           (coefficient_symbols : list CoffeeArg) : list CoffeeArg :=
  (if Tsfc.oriented kinfo then [LocalKernelBuilder.cell_orientations_sym] else [])
    ++ coefficient_symbols
    ++ (if Py.str_in (Tsfc.integral_type kinfo) cell_facet_types
        then [FlatBlock "&i0"] else [])
    ++ (if Tsfc.needs_cell_sizes kinfo
        then [LocalKernelBuilder.cell_size_sym] else []).

(** The name of the kernel argument of the [j]-th component of the [i]-th
    coefficient, or of the [i]-th coefficient itself. *)
Definition argument_name (i : nat) (j : option nat) : string :=
  match j with
  | None => ("w_" ++ Py.fmt_d i)%string
  | Some j => ("w_" ++ Py.fmt_d i ++ "_" ++ Py.fmt_d j)%string
  end.

(** The kernel argument symbols of the [i]-th coefficient: one per
    component of a coefficient on a mixed space, else one. *)
Definition argument_symbols (i : nat) (c : Slate.Function) : list CoffeeArg :=
  match Slate.ufl_element c with
  | Slate.MixedElement _ =>
      map (fun j => Symbol (argument_name i (Some j)))
          (seq 0 (List.length (Slate.split c)))
  | Slate.Element _ => [Symbol (argument_name i None)]
  end.

(** The data a call of the loopy builder reads when no coefficient is
    passed: the coordinates, the cell orientations of an oriented kernel,
    the cell sizes of a kernel that needs them. *)
Definition mesh_data (cxt_kernel : Tsfc.ContextKernel) (kinfo : Tsfc.KernelInfo)
  : list (Slate.Function * ArgName) :=
  let mesh := Slate.ufl_domain (Tsfc.tensor cxt_kernel) in
  [(Slate.coordinates mesh, Name LocalLoopyKernelBuilder.coordinates_arg)]
    ++ (if Tsfc.oriented kinfo
        then [(Slate.cell_orientations mesh,
               Name LocalLoopyKernelBuilder.cell_orientations_arg)] else [])
    ++ (if Tsfc.needs_cell_sizes kinfo
        then [(Slate.cell_sizes mesh,
               Name LocalLoopyKernelBuilder.cell_size_arg)] else []).

(** A read of the whole of [name], swept over the index ["i0"]. *)
Definition read_of (cn : Slate.Function * ArgName) : SubArrayRef :=
  {| swept_inames := ["i0"]; aggregate := snd cn; subscript := ["i0"] |}.

(** The index a read registers. *)
Definition index_of (cn : Slate.Function * ArgName) : string * Z :=
  ("i0", index_extent (fst cn)).

(** The call the flat builder assembles for a sub-kernel, where the
    symbols of its coefficients and the temporary of its terminal are
    found: the kernel applied to the block of the temporary, the
    coordinates and the trailing arguments. *)
Definition expected_call (expression : Slate.TensorBase)
           (temps : list (Slate.TensorBase * string))
           (ck : Tsfc.ContextKernel * Tsfc.SplitKernel) : option FunCall :=
  let kinfo := Tsfc.kinfo (snd ck) in
  match Py.map_result
          (fun i => c <- Py.getitem (Tsfc.coefficients (fst ck)) i ;;
                    LocalKernelBuilder.coefficient expression c)
          (Tsfc.coefficient_map kinfo),
        Py.lookup Slate.tensor_eqb temps (Tsfc.tensor (fst ck)) with
  | Py.Ok symbols, Py.Ok temp =>
      Some {| function_name := Tsfc.name (Tsfc.kernel kinfo);
              children :=
                EigenTensor (Tsfc.tensor (fst ck)) temp (Tsfc.indices (snd ck))
                  :: LocalKernelBuilder.coord_sym
                  :: trailing_arguments kinfo (List.concat symbols) |}
  | _, _ => None
  end.

(** What a sub-kernel adds to the bucket of the integral type [it]. *)
Definition plain_entry (expression : Slate.TensorBase)
           (temps : list (Slate.TensorBase * string)) (it : string)
           (ck : Tsfc.ContextKernel * Tsfc.SplitKernel)
  : list LocalKernelBuilder.entry :=
  if String.eqb (Tsfc.original_integral_type (fst ck)) it
     && Tsfc.is_otherwise (Tsfc.subdomain_id (Tsfc.kinfo (snd ck)))
  then match expected_call expression temps ck with
       | Some call => [LocalKernelBuilder.Call call]
       | None => []
       end
  else [].

(** What a sub-kernel adds to the subdomain bucket [sd]. *)
Definition subdomain_entry (expression : Slate.TensorBase)
           (temps : list (Slate.TensorBase * string)) (sd : string)
           (ck : Tsfc.ContextKernel * Tsfc.SplitKernel)
  : list LocalKernelBuilder.entry :=
  match Tsfc.subdomain_id (Tsfc.kinfo (snd ck)) with
  | Tsfc.marker sd_id =>
      match Py.get String.eqb LocalKernelBuilder.subdomain_map
              (Tsfc.integral_type (Tsfc.kinfo (snd ck))) with
      | Some sd_key =>
          if String.eqb sd_key sd
          then match expected_call expression temps ck with
               | Some call => [LocalKernelBuilder.SubdomainCall sd_id call]
               | None => []
               end
          else []
      | None => []
      end
  | Tsfc.otherwise => []
  end.

(** The places of the kernel arguments of the coefficients [cs], the first
    of which has the number [s]: for each coefficient in turn, its number
    with each of its components if it is on a mixed space, else its number
    alone. *)
Definition argument_places (s : nat) (cs : list Slate.Function)
  : list (nat * option nat) :=
  flat_map (fun ic : nat * Slate.Function =>
              match Slate.ufl_element (snd ic) with
              | Slate.MixedElement _ =>
                  map (fun j => (fst ic, Some j))
                      (seq 0 (List.length (Slate.split (snd ic))))
              | Slate.Element _ => [(fst ic, None)]
              end)
           (combine (seq s (List.length cs)) cs).

(** What is read off a call of the loopy builder: the kernel called, its
    reads, its predicates, its id, whether its inames are final, and the
    indices its outputs are swept over. *)
Definition call_summary (c : CallInstruction)
  : string * list SubArrayRef * option (list string) * string * bool
    * list (list string) :=
  (called c, parameters c, predicates c, id c, within_inames_is_final c,
   map swept_inames (assignees c)).

(** The summary of the call of a sub-kernel of a cell integral that passes
    no coefficient: it reads the data of the mesh, has no predicate, and
    writes one output swept over ["i"] and ["i0"]. *)
Definition expected_summary (ck : Tsfc.ContextKernel * Tsfc.SplitKernel)
  : string * list SubArrayRef * option (list string) * string * bool
    * list (list string) :=
  (Tsfc.name (Tsfc.kernel (Tsfc.kinfo (snd ck))),
   map read_of (mesh_data (fst ck) (Tsfc.kinfo (snd ck))),
   None, "inner_call", true, [["i"; "i0"]]).

(** The global argument the loopy builder declares for a temporary: named
    after it, with its shape. *)
Definition global_arg_of (temp : GemIndexed) : GlobalArg :=
  {| arg_name := Name (variable_name temp);
     arg_shape := variable_shape temp;
     arg_dtype := SCALAR_TYPE |}.

(** The outputs of the call of a sub-kernel in the loopy builder: the
    whole temporary of its terminal, swept over ["i"] and ["i0"]. *)
Definition outputs_of (temps : list (Slate.TensorBase * GemIndexed))
           (ck : Tsfc.ContextKernel * Tsfc.SplitKernel) : list (list SubArrayRef) :=
  match Py.get Slate.tensor_eqb temps (Tsfc.tensor (fst ck)) with
  | Some temp =>
      [ [ {| swept_inames := ["i"; "i0"];
             aggregate := Name (variable_name temp);
             subscript := ["i"; "i0"] |} ] ]
  | None => []
  end.

(** The prefix under which the kernels of the [i]-th terminal are
    compiled. *)
Definition kernel_prefix (i : nat) : string :=
  ("subkernel" ++ Py.fmt_d i ++ "_")%string.

(** ** Concrete expressions and kernels *)

Module Examples.

Definition P1 : Slate.FiniteElement :=
  {| Slate.family := "Lagrange"; Slate.space_dimension := 3 |}.

Definition DG1 : Slate.FiniteElement :=
  {| Slate.family := "Discontinuous Lagrange"; Slate.space_dimension := 5 |}.

(** The coordinate field of the mesh. *)
Definition x : Slate.Function :=
  Slate.MkFunction 0 (Slate.Element P1) 2 [].

Definition mesh : Slate.Mesh :=
  {| Slate.coordinates := x;
     Slate.cell_orientations := Slate.MkFunction 1 (Slate.Element P1) 1 [];
     Slate.cell_sizes := Slate.MkFunction 2 (Slate.Element P1) 1 [];
     Slate.variable_layers := false;
     Slate.num_facets := 3 |}.

(** The attributes of a node with identity [i] and shape [sh]. *)
Definition node (i : nat) (sh : list Z) : Slate.NodeInfo :=
  {| Slate.node_id := i;
     Slate.node_shape := sh;
     Slate.node_is_mixed := false;
     Slate.node_domain := mesh;
     Slate.node_coefficients := [] |}.

Definition A33 : Slate.TensorBase := Slate.Tensor (node 0 [3; 3]%Z).
Definition A34 : Slate.TensorBase := Slate.Tensor (node 1 [3; 4]%Z).
Definition A45 : Slate.TensorBase := Slate.Tensor (node 2 [4; 5]%Z).
Definition A44 : Slate.TensorBase := Slate.Tensor (node 3 [4; 4]%Z).

Definition B33 : Slate.TensorBase := Slate.Tensor (node 4 [3; 3]%Z).

Definition add33 : Slate.TensorBase := Slate.Add (node 10 [3; 3]%Z) A33 A33.

(** [A33 * B33 + A33]: the terminal [A33] has two parents. *)
Definition shared : Slate.TensorBase :=
  Slate.Add (node 14 [3; 3]%Z) (Slate.Mul (node 15 [3; 3]%Z) A33 B33) A33.
Definition mul35 : Slate.TensorBase := Slate.Mul (node 11 [3; 5]%Z) A34 A45.
Definition inv44 : Slate.TensorBase := Slate.Inverse (node 12 [4; 4]%Z) A44.
Definition fac44 : Slate.TensorBase :=
  Slate.Factorization (node 13 [4; 4]%Z) A44 "ShurComplement".

(** A coefficient on a mixed space with three sub-spaces, referenced by two
    assembled vectors. *)
Definition g : Slate.Function :=
  Slate.MkFunction 7 (Slate.MixedElement [P1; DG1; P1]) 1 [].

Definition v1 : Slate.TensorBase := Slate.AssembledVector (node 5 [11]%Z) g.
Definition v2 : Slate.TensorBase := Slate.AssembledVector (node 6 [11]%Z) g.

(** [A33 * v1 + B33 * v2] *)
Definition action : Slate.TensorBase :=
  Slate.Add (node 16 [3]%Z)
            (Slate.Mul (node 17 [3]%Z) A33 v1)
            (Slate.Mul (node 18 [3]%Z) B33 v2).

(** A kernel named [nm], as compiled to COFFEE or to loopy. *)
Definition kernel (nm : string) (coffee : bool) : Tsfc.Kernel :=
  {| Tsfc.name := nm;
     Tsfc._code := if coffee then Tsfc.CoffeeAst "ast" else Tsfc.LoopyCode "knl";
     Tsfc.code := "void " ++ nm;
     Tsfc._include_dirs := ["/usr/include/eigen3"];
     Tsfc.num_flops := 54 |}.

Definition kinfo (nm it : string) (sd : Tsfc.SubdomainId) (coffee : bool)
  : Tsfc.KernelInfo :=
  {| Tsfc.kernel := kernel nm coffee;
     Tsfc.integral_type := it;
     Tsfc.oriented := false;
     Tsfc.subdomain_id := sd;
     Tsfc.coefficient_map := [];
     Tsfc.needs_cell_sizes := false |}.

(** The context kernel of terminal [t] for integral type [it], with one
    sub-kernel. *)
Definition cxt (t : Slate.TensorBase) (prefix it : string)
           (sd : Tsfc.SubdomainId) (coffee : bool) : Tsfc.ContextKernel :=
  {| Tsfc.tensor := t;
     Tsfc.coefficients := [];
     Tsfc.original_integral_type := it;
     Tsfc.tsfc_kernels :=
       [ {| Tsfc.indices := [0; 0];
            Tsfc.kinfo := kinfo (prefix ++ it ++ "_integral") it sd coffee |} ] |}.

(** A form with a cell integral only. *)
Definition compile_cell : Tsfc.compiler :=
  fun t prefix coffee => [cxt t prefix "cell" Tsfc.otherwise coffee].

(** A form with a cell integral and an integral over the exterior facets
    marked 2. *)
Definition compile_facet : Tsfc.compiler :=
  fun t prefix coffee =>
    [ cxt t prefix "cell" Tsfc.otherwise coffee;
      cxt t prefix "exterior_facet" (Tsfc.marker 2) coffee ].

(** A form with an integral over all exterior facets. *)
Definition compile_ds : Tsfc.compiler :=
  fun t prefix coffee => [cxt t prefix "exterior_facet" Tsfc.otherwise coffee].

(** A form with a cell integral and an integral of a kind that is not
    supported. *)
Definition compile_vertex : Tsfc.compiler :=
  fun t prefix coffee =>
    [ cxt t prefix "cell" Tsfc.otherwise coffee;
      cxt t prefix "vertex" Tsfc.otherwise coffee ].

Definition visit : Tsfc.KernelCode -> Tsfc.KernelCode := fun c => c.

(** Two orders in which a set of strings may be iterated. *)
Definition in_order (xs : list string) : list string :=
  nodup string_dec xs.
Definition reversed (xs : list string) : list string :=
  rev (nodup string_dec xs).

(** The temporaries of a builder whose only terminal is [A33]. *)
Definition flat_temps : list (Slate.TensorBase * string) := [(A33, "T0")].

Definition T0 : GemIndexed :=
  {| variable_name := "T0"; variable_shape := [3; 3]%Z; index_extents := [3; 3]%Z |}.

Definition loopy_temps : list (Slate.TensorBase * GemIndexed) := [(A33, T0)].

Definition loopy_dict : list (GemIndexed * GlobalArg) :=
  [(T0, {| arg_name := Name "T0"; arg_shape := [3; 3]%Z; arg_dtype := SCALAR_TYPE |})].

(** A terminal on a mixed space of two sub-spaces with three and five
    degrees of freedom. *)
Definition M : Slate.TensorBase :=
  Slate.Tensor {| Slate.node_id := 20;
                  Slate.node_shape := [8; 8]%Z;
                  Slate.node_is_mixed := true;
                  Slate.node_domain := mesh;
                  Slate.node_coefficients := [] |}.

(** A terminal on a mixed space of three sub-spaces with one degree of
    freedom each: its shape is (3, 3). *)
Definition M33 : Slate.TensorBase :=
  Slate.Tensor {| Slate.node_id := 22;
                  Slate.node_shape := [3; 3]%Z;
                  Slate.node_is_mixed := true;
                  Slate.node_domain := mesh;
                  Slate.node_coefficients := [] |}.

(** The assembled vector of [g] as an expression of its own: its output
    is on the mixed space of [g]. *)
Definition w1 : Slate.TensorBase :=
  Slate.AssembledVector {| Slate.node_id := 23;
                           Slate.node_shape := [11]%Z;
                           Slate.node_is_mixed := true;
                           Slate.node_domain := mesh;
                           Slate.node_coefficients := [] |} g.

(** A terminal on a second mesh, with a coordinate field of its own. *)
Definition mesh2 : Slate.Mesh :=
  {| Slate.coordinates := Slate.MkFunction 9 (Slate.Element P1) 2 [];
     Slate.cell_orientations := Slate.MkFunction 1 (Slate.Element P1) 1 [];
     Slate.cell_sizes := Slate.MkFunction 2 (Slate.Element P1) 1 [];
     Slate.variable_layers := false;
     Slate.num_facets := 3 |}.

Definition C33 : Slate.TensorBase :=
  Slate.Tensor {| Slate.node_id := 21;
                  Slate.node_shape := [3; 3]%Z;
                  Slate.node_is_mixed := false;
                  Slate.node_domain := mesh2;
                  Slate.node_coefficients := [] |}.

(** The context kernel of a cell integral whose kernel is oriented and
    needs the cell sizes. *)
Definition cxt_oriented (t : Slate.TensorBase) (prefix : string) (coffee : bool)
  : Tsfc.ContextKernel :=
  {| Tsfc.tensor := t;
     Tsfc.coefficients := [];
     Tsfc.original_integral_type := "cell";
     Tsfc.tsfc_kernels :=
       [ {| Tsfc.indices := [0; 0];
            Tsfc.kinfo :=
              {| Tsfc.kernel := kernel (prefix ++ "oriented_integral") coffee;
                 Tsfc.integral_type := "cell";
                 Tsfc.oriented := true;
                 Tsfc.subdomain_id := Tsfc.otherwise;
                 Tsfc.coefficient_map := [];
                 Tsfc.needs_cell_sizes := true |} |} ] |}.

(** A form with two cell integrals, the second with an oriented kernel. *)
Definition compile_oriented : Tsfc.compiler :=
  fun t prefix coffee =>
    [ cxt t prefix "cell" Tsfc.otherwise coffee; cxt_oriented t prefix coffee ].

(** A coefficient on a plain space and one on a mixed space with two
    components, and a terminal whose form holds the two. *)
Definition f : Slate.Function := Slate.MkFunction 3 (Slate.Element P1) 1 [].

Definition h : Slate.Function :=
  Slate.MkFunction 8 (Slate.MixedElement [P1; DG1]) 1
    [ Slate.MkFunction 80 (Slate.Element P1) 1 [];
      Slate.MkFunction 81 (Slate.Element DG1) 1 [] ].

Definition W : Slate.TensorBase :=
  Slate.Tensor {| Slate.node_id := 30;
                  Slate.node_shape := [3; 3]%Z;
                  Slate.node_is_mixed := false;
                  Slate.node_domain := mesh;
                  Slate.node_coefficients := [f; h] |}.

(** A sub-kernel for [W] that takes two coefficients, and a context kernel
    that lists [g], which the form of [W] does not hold, as the second. *)
Definition W_split : Tsfc.SplitKernel :=
  {| Tsfc.indices := [0; 0];
     Tsfc.kinfo :=
       {| Tsfc.kernel := kernel "subkernel0_cell_integral" true;
          Tsfc.integral_type := "cell";
          Tsfc.oriented := false;
          Tsfc.subdomain_id := Tsfc.otherwise;
          Tsfc.coefficient_map := [0; 1];
          Tsfc.needs_cell_sizes := false |} |}.

Definition W_cxt : Tsfc.ContextKernel :=
  {| Tsfc.tensor := W;
     Tsfc.coefficients := [f; g];
     Tsfc.original_integral_type := "cell";
     Tsfc.tsfc_kernels := [W_split] |}.

(** A form that compiles to no kernel at all. *)
Definition compile_nothing : Tsfc.compiler := fun _ _ _ => [].

End Examples.

(** ** Properties *)

(** *** The Python layer *)

Lemma for_each_app {S X : Type} (body : S -> X -> Py.result S)
      (xs ys : list X) (st : S) :
  Py.for_each body (xs ++ ys) st
  = Py.bind (Py.for_each body xs st) (Py.for_each body ys).
Proof.
  revert st; induction xs as [|x xs IH]; intros st; simpl.
  - reflexivity.
  - destruct (body st x) as [st'|e]; simpl; [apply IH | reflexivity].
Qed.

Lemma fmt_d_inj (n m : nat) : Py.fmt_d n = Py.fmt_d m -> n = m.
Proof.
  unfold Py.fmt_d; intros H.
  apply DecimalNat.Unsigned.to_uint_inj.
  assert (Hs : forall d, NilEmpty.uint_of_string (NilEmpty.string_of_uint d) = Some d)
    by apply NilEmpty.usu.
  pose proof (Hs (Nat.to_uint n)) as Hn.
  rewrite H, Hs in Hn; congruence.
Qed.

(** *** The cost model *)

Lemma float_of_zero : PyNum.float_of_int 0 = Py.Ok (S754_zero false).
Proof. reflexivity. Qed.

Lemma same_number_refl (a : PyNum.num) : same_number a a.
Proof. left; reflexivity. Qed.

Lemma same_outcome_refl (m : Py.result PyNum.num) : same_outcome m m.
Proof. destruct m; simpl; [apply same_number_refl | reflexivity]. Qed.

(** Adding the integer 0 changes at most the sign of a zero. *)
Lemma add_zero_r (acc : PyNum.num) :
  exists acc', PyNum.add acc (PyNum.PyInt 0) = Py.Ok acc' /\ same_number acc' acc.
Proof.
  destruct acc as [z|f].
  - exists (PyNum.PyInt z); simpl; split;
      [now rewrite Z.add_0_r | left; reflexivity].
  - unfold PyNum.add. rewrite float_of_zero. cbn [Py.bind].
    destruct f as [s|s| |s m e]; cbn [SFadd];
      try (eexists; split; [reflexivity | left; reflexivity]).
    destruct s; eexists; (split; [reflexivity|]); [right; eauto | left; reflexivity].
Qed.

(** Addition does not tell the two zeros apart, up to the sign of a zero. *)
Lemma add_same_number (a a' v : PyNum.num) :
  same_number a a' -> same_outcome (PyNum.add a v) (PyNum.add a' v).
Proof.
  intros [->|(s & s' & -> & ->)]; [apply same_outcome_refl|].
  destruct v as [y|g].
  - unfold PyNum.add.
    destruct (PyNum.float_of_int y) as [g|e]; cbn [Py.bind same_outcome];
      [|reflexivity].
    destruct g as [t|t| |t m e]; cbn [SFadd]; try (left; reflexivity).
    destruct s, s', t; right; eauto.
  - unfold PyNum.add, same_outcome.
    destruct g as [t|t| |t m e]; cbn [SFadd]; try (left; reflexivity).
    destruct s, s', t; right; eauto.
Qed.

Lemma sum_loop_same_number {X : Type} (f : X -> Py.result PyNum.num)
      (xs : list X) (a a' : PyNum.num) :
  same_number a a' ->
  same_outcome
    (Py.for_each (fun acc x => v <- f x ;; PyNum.add acc v) xs a)
    (Py.for_each (fun acc x => v <- f x ;; PyNum.add acc v) xs a').
Proof.
  revert a a'; induction xs as [|x xs IH]; intros a a' Ha; simpl.
  - exact Ha.
  - destruct (f x) as [v|e]; simpl; [|reflexivity].
    pose proof (add_same_number a a' v Ha) as Hv.
    destruct (PyNum.add a v) as [r|e], (PyNum.add a' v) as [r'|e'];
      simpl in *; try contradiction; [now apply IH | exact Hv].
Qed.

Lemma to_int_same_number (a a' : PyNum.num) :
  same_number a a' -> PyNum.to_int a = PyNum.to_int a'.
Proof. intros [->|(s & s' & -> & ->)]; reflexivity. Qed.

(** A node priced at the integer 0 can be dropped from the sum. *)
Lemma expression_flops_drop_zero (l1 l2 : list Slate.TensorBase)
      (t : Slate.TensorBase) :
  LocalKernelBuilder._flops t = Py.Ok (PyNum.PyInt 0) ->
  LocalKernelBuilder.expression_flops_of (l1 ++ t :: l2)
  = LocalKernelBuilder.expression_flops_of (l1 ++ l2).
Proof.
  intros Ht. unfold LocalKernelBuilder.expression_flops_of, PyNum.sum_map.
  rewrite !for_each_app.
  destruct (Py.for_each _ l1 (PyNum.PyInt 0)) as [acc|e]; simpl; [|reflexivity].
  rewrite Ht; simpl.
  destruct (add_zero_r acc) as (acc' & -> & Hacc); simpl.
  pose proof (sum_loop_same_number LocalKernelBuilder._flops l2 acc' acc Hacc) as H.
  destruct (Py.for_each _ l2 acc') as [r|e], (Py.for_each _ l2 acc) as [r'|e'];
    simpl in *; try contradiction; [now apply to_int_same_number | congruence].
Qed.

(** C7. The closed-form examples of the cost model: an [Add] of shape (3,3)
    is priced 9; a [Mul] of a (3,4) operand by a (4,5) operand is priced
    2*4*3*5 = 120; an [Inverse] of shape (4,4) is priced (2/3)*4^3 in
    binary64, which [int] truncates to 42, so the cost of the inverse of a
    4x4 terminal is 42; the pass-through nodes are priced 0. *)
Theorem cost_model_examples :
  (forall i A B,
      Slate.node_shape i = [3; 3]%Z ->
      LocalKernelBuilder._flops (Slate.Add i A B) = Py.Ok (PyNum.PyInt 9))
  /\ (forall i A B,
         Slate.shape A = [3; 4]%Z -> Slate.shape B = [4; 5]%Z ->
         LocalKernelBuilder._flops (Slate.Mul i A B)
         = Py.Ok (PyNum.PyInt (2 * 4 * 3 * 5)))
  /\ (forall i A,
         Slate.node_shape i = [4; 4]%Z ->
         exists c,
           LocalKernelBuilder._flops (Slate.Inverse i A) = Py.Ok c
           /\ PyNum.mul (PyNum.PyFloat (PyNum.literal_div 2 3)) (PyNum.PyInt (4 ^ 3))
              = Py.Ok c
           /\ PyNum.to_int c = Py.Ok 42%Z
           /\ (pass_through A = true ->
               LocalKernelBuilder.expression_flops_of [Slate.Inverse i A; A]
               = Py.Ok 42%Z))
  /\ (forall t,
         pass_through t = true ->
         LocalKernelBuilder._flops t = Py.Ok (PyNum.PyInt 0)).
Proof.
  assert (Hpass : forall t, pass_through t = true ->
                            LocalKernelBuilder._flops t = Py.Ok (PyNum.PyInt 0))
    by (intros t Ht; destruct t; try discriminate Ht; reflexivity).
  split; [|split; [|split; [|exact Hpass]]].
  - intros i A B Hs. cbn [LocalKernelBuilder._flops]. unfold Slate.shape.
    cbn [Slate.info]. rewrite Hs. reflexivity.
  - intros i A B Ha Hb. cbn [LocalKernelBuilder._flops].
    rewrite Ha, Hb. reflexivity.
  - intros i A Hs.
    exists (PyNum.PyFloat (S754_finite false 6004799503160661 (-47))).
    assert (Hi : LocalKernelBuilder._flops (Slate.Inverse i A)
                 = Py.Ok (PyNum.PyFloat (S754_finite false 6004799503160661 (-47)))).
    { cbn [LocalKernelBuilder._flops]. unfold Slate.shape. cbn [Slate.info].
      rewrite Hs. vm_compute. reflexivity. }
    split; [exact Hi|]. split; [vm_compute; reflexivity|].
    split; [vm_compute; reflexivity|].
    intros HA. unfold LocalKernelBuilder.expression_flops_of, PyNum.sum_map.
    cbn [Py.for_each]. rewrite Hi, (Hpass A HA). vm_compute. reflexivity.
Qed.

(** The examples, on the expressions of [Examples]. *)
Lemma cost_model_examples_witness :
  LocalKernelBuilder.expression_flops_of [Examples.add33; Examples.A33] = Py.Ok 9%Z
  /\ LocalKernelBuilder._flops Examples.add33 = Py.Ok (PyNum.PyInt 9)
  /\ LocalKernelBuilder._flops Examples.mul35 = Py.Ok (PyNum.PyInt 120)
  /\ LocalKernelBuilder.expression_flops_of [Examples.inv44; Examples.A44]
     = Py.Ok 42%Z
  /\ LocalKernelBuilder._flops Examples.A33 = Py.Ok (PyNum.PyInt 0).
Proof.
  destruct cost_model_examples as (Hadd & Hmul & Hinv & Hpass).
  split; [vm_compute; reflexivity|].
  split; [apply Hadd; reflexivity|].
  split; [apply (Hmul _ Examples.A34 Examples.A45); reflexivity|].
  split; [|apply Hpass; reflexivity].
  destruct (Hinv (Examples.node 12 [4; 4]%Z) Examples.A44 eq_refl)
    as (c & _ & _ & _ & H).
  apply H; reflexivity.
Defined.

(** C8. A [Factorization] whose decomposition is none of the recognised
    LU, Cholesky, QR and SVD names is priced at the integer 0 without
    raising, and its presence anywhere among the traversed nodes leaves the
    outcome of [expression_flops] unchanged. *)
Theorem unrecognized_factorization_costs_zero
        (i : Slate.NodeInfo) (A : Slate.TensorBase) (decomposition : string)
        (m n : Z) :
  Slate.node_shape i = [m; n] ->
  Py.str_in decomposition recognized_decompositions = false ->
  LocalKernelBuilder._flops (Slate.Factorization i A decomposition)
  = Py.Ok (PyNum.PyInt 0)
  /\ forall l1 l2,
      LocalKernelBuilder.expression_flops_of
        (l1 ++ Slate.Factorization i A decomposition :: l2)
      = LocalKernelBuilder.expression_flops_of (l1 ++ l2).
Proof.
  intros Hs Hd.
  assert (H0 : LocalKernelBuilder._flops (Slate.Factorization i A decomposition)
               = Py.Ok (PyNum.PyInt 0)).
  { cbn [LocalKernelBuilder._flops]. unfold Slate.shape. cbn [Slate.info].
    rewrite Hs. cbn [LocalKernelBuilder.unpack2 Py.bind].
    unfold Py.str_in, recognized_decompositions in *. cbn [existsb] in *.
    repeat (apply orb_false_iff in Hd; destruct Hd as [?E Hd]).
    repeat match goal with E : String.eqb _ _ = false |- _ => rewrite E; clear E end.
    reflexivity. }
  split; [exact H0|].
  intros l1 l2. now apply expression_flops_drop_zero.
Qed.

Lemma unrecognized_factorization_costs_zero_witness :
  LocalKernelBuilder._flops Examples.fac44 = Py.Ok (PyNum.PyInt 0)
  /\ LocalKernelBuilder.expression_flops_of
       [Examples.inv44; Examples.fac44; Examples.A44]
     = LocalKernelBuilder.expression_flops_of [Examples.inv44; Examples.A44].
Proof.
  destruct (unrecognized_factorization_costs_zero
              (Examples.node 13 [4; 4]%Z) Examples.A44 "ShurComplement" 4 4
              eq_refl eq_refl) as (H0 & Hdrop).
  split; [exact H0|].
  exact (Hdrop [Examples.inv44] [Examples.A44]).
Defined.

(** *** Ordered dictionaries *)

Lemma for_each_invariant {S X : Type} (P : S -> Prop)
      (body : S -> X -> Py.result S) (xs : list X) :
  (forall st x st', P st -> body st x = Py.Ok st' -> P st') ->
  forall st st', P st -> Py.for_each body xs st = Py.Ok st' -> P st'.
Proof.
  intros Hstep; induction xs as [|x xs IH]; intros st st' HP H; simpl in H.
  - congruence.
  - destruct (body st x) as [st1|e] eqn:E; simpl in H; [|discriminate].
    eapply IH; [eapply Hstep; eauto | exact H].
Qed.

(** If the loop returns, every iteration returned. *)
Lemma for_each_ok_forall {S X : Type} (Q : X -> Prop)
      (body : S -> X -> Py.result S) (xs : list X) :
  (forall st x st', body st x = Py.Ok st' -> Q x) ->
  forall st st', Py.for_each body xs st = Py.Ok st' -> Forall Q xs.
Proof.
  intros Hstep; induction xs as [|x xs IH]; intros st st' H; simpl in H.
  - constructor.
  - destruct (body st x) as [st1|e] eqn:E; simpl in H; [|discriminate].
    constructor; [eapply Hstep; eauto | eapply IH; eauto].
Qed.

Lemma get_in_keys {V : Type} (d : list (string * V)) (k : string) (v : V) :
  Py.get String.eqb d k = Some v -> In k (map fst d).
Proof.
  induction d as [|[k' v'] d IH]; simpl; [discriminate|].
  destruct (String.eqb_spec k' k); [now left | right; auto].
Qed.

Lemma get_not_in_keys {V : Type} (d : list (string * V)) (k : string) :
  ~ In k (map fst d) -> Py.get String.eqb d k = None.
Proof.
  induction d as [|[k' v'] d IH]; simpl; [reflexivity|].
  intros H. destruct (String.eqb_spec k' k); [tauto | apply IH; tauto].
Qed.

Lemma in_keys_get {V : Type} (d : list (string * V)) (k : string) :
  In k (map fst d) -> exists v, Py.get String.eqb d k = Some v.
Proof.
  induction d as [|[k' v'] d IH]; simpl; [tauto|].
  intros H. destruct (String.eqb_spec k' k); [eauto | apply IH; tauto].
Qed.

Lemma setitem_present_keys {V : Type} (d : list (string * V)) (k : string)
      (v w : V) :
  Py.get String.eqb d k = Some w ->
  map fst (Py.setitem String.eqb d k v) = map fst d.
Proof.
  induction d as [|[k' v'] d IH]; simpl; [discriminate|].
  destruct (String.eqb_spec k' k); simpl; [reflexivity|].
  intros H; f_equal; auto.
Qed.

Lemma setitem_absent {V : Type} (d : list (string * V)) (k : string) (v : V) :
  ~ In k (map fst d) -> Py.setitem String.eqb d k v = d ++ [(k, v)].
Proof.
  induction d as [|[k' v'] d IH]; simpl; [reflexivity|].
  intros H. destruct (String.eqb_spec k' k); [tauto|].
  f_equal; apply IH; tauto.
Qed.

(** Updating with a dictionary whose keys are new appends its entries. *)
Lemma update_disjoint {V : Type} (d other : list (string * V)) :
  NoDup (map fst other) ->
  (forall k, In k (map fst other) -> ~ In k (map fst d)) ->
  Py.update String.eqb d other = d ++ other.
Proof.
  unfold Py.update. revert d.
  induction other as [|[k v] other IH]; intros d Hnd Hdis; simpl.
  - now rewrite app_nil_r.
  - inversion Hnd as [|? ? Hk Hnd']; subst.
    rewrite setitem_absent by (apply Hdis; now left).
    rewrite IH; [now rewrite <- app_assoc | exact Hnd' |].
    intros k' Hk' Hin. rewrite map_app, in_app_iff in Hin.
    destruct Hin as [Hin|[<-|[]]]; [|exact (Hk Hk')].
    apply (Hdis k'); [now right | exact Hin].
Qed.

Lemma get_app_left {V : Type} (d d' : list (string * V)) (k : string) :
  In k (map fst d) ->
  Py.get String.eqb (d ++ d') k = Py.get String.eqb d k.
Proof.
  induction d as [|[k' v'] d IH]; simpl; [tauto|].
  intros H. destruct (String.eqb_spec k' k); [reflexivity | apply IH; tauto].
Qed.

Lemma get_app_right {V : Type} (d d' : list (string * V)) (k : string) :
  ~ In k (map fst d) ->
  Py.get String.eqb (d ++ d') k = Py.get String.eqb d' k.
Proof.
  induction d as [|[k' v'] d IH]; simpl; [reflexivity|].
  intros H. destruct (String.eqb_spec k' k); [tauto | apply IH; tauto].
Qed.

(** *** Call assembly of the flat builder *)

Lemma flat_append_at_keys {X : Type} (d d' : list (string * list X))
      (k : string) (x : X) :
  LocalKernelBuilder.append_at d k x = Py.Ok d' -> map fst d' = map fst d.
Proof.
  unfold LocalKernelBuilder.append_at, Py.lookup. intros H.
  destruct (Py.get String.eqb d k) as [xs|] eqn:E; simpl in H; [|discriminate].
  injection H as <-. eapply setitem_present_keys; eauto.
Qed.

(** What a step of the inner loop of the flat builder did when it
    returned: it filed one call to the kernel of the sub-kernel, in the plain
    bucket of the integral type or in a subdomain bucket. *)
Lemma flat_split_kernel_inv visit e temps ctx st sk st' :
  LocalKernelBuilder.setup_split_kernel visit e temps ctx st sk = Py.Ok st' ->
  exists call,
    function_name call = Tsfc.name (Tsfc.kernel (Tsfc.kinfo sk))
    /\ ((Tsfc.subdomain_id (Tsfc.kinfo sk) = Tsfc.otherwise
         /\ LocalKernelBuilder.append_at (LocalKernelBuilder.st_assembly_calls st)
              (Tsfc.original_integral_type ctx) (LocalKernelBuilder.Call call)
            = Py.Ok (LocalKernelBuilder.st_assembly_calls st')
         /\ LocalKernelBuilder.st_subdomain_calls st'
            = LocalKernelBuilder.st_subdomain_calls st)
        \/ (exists sd_id sd_key,
               Tsfc.subdomain_id (Tsfc.kinfo sk) = Tsfc.marker sd_id
               /\ Py.get String.eqb LocalKernelBuilder.subdomain_map
                    (Tsfc.integral_type (Tsfc.kinfo sk)) = Some sd_key
               /\ LocalKernelBuilder.append_at
                    (LocalKernelBuilder.st_subdomain_calls st) sd_key
                    (LocalKernelBuilder.SubdomainCall sd_id call)
                  = Py.Ok (LocalKernelBuilder.st_subdomain_calls st')
               /\ LocalKernelBuilder.st_assembly_calls st'
                  = LocalKernelBuilder.st_assembly_calls st))
    /\ LocalKernelBuilder.st_coords st' = LocalKernelBuilder.st_coords st
    /\ LocalKernelBuilder.st_oriented st'
       = LocalKernelBuilder.st_oriented st || Tsfc.oriented (Tsfc.kinfo sk)
    /\ LocalKernelBuilder.st_needs_cell_sizes st'
       = LocalKernelBuilder.st_needs_cell_sizes st
         || Tsfc.needs_cell_sizes (Tsfc.kinfo sk)
    /\ LocalKernelBuilder.st_templated_subkernels st'
       = LocalKernelBuilder.st_templated_subkernels st
         ++ [visit (Tsfc._code (Tsfc.kernel (Tsfc.kinfo sk)))]
    /\ LocalKernelBuilder.st_include_dirs st'
       = LocalKernelBuilder.st_include_dirs st
         ++ Tsfc._include_dirs (Tsfc.kernel (Tsfc.kinfo sk)).
Proof.
  unfold LocalKernelBuilder.setup_split_kernel. intros H.
  destruct (Py.map_result _ _) as [args|]; cbn [Py.bind] in H; [|discriminate].
  destruct (Py.lookup _ temps _) as [temp|]; cbn [Py.bind] in H; [|discriminate].
  match type of H with
  | context [LocalKernelBuilder.Call ?c] => exists c
  end.
  split; [reflexivity|].
  destruct (Tsfc.subdomain_id (Tsfc.kinfo sk)) as [|sd_id].
  - destruct (LocalKernelBuilder.append_at _ _ _) as [ac|] eqn:Eac;
      cbn [Py.bind] in H; [|discriminate].
    destruct (negb _); [discriminate|]. injection H as <-.
    cbn. split; [left; auto|]. auto.
  - destruct (Py.get String.eqb LocalKernelBuilder.subdomain_map _)
      as [sd_key|] eqn:Ek; cbn [Py.bind] in H; [|discriminate].
    destruct (LocalKernelBuilder.append_at _ _ _) as [sc|] eqn:Esc;
      cbn [Py.bind] in H; [|discriminate].
    destruct (negb _); [discriminate|]. injection H as <-.
    cbn. split; [right; exists sd_id, sd_key; auto|]. auto.
Qed.

Lemma flat_split_kernel_keys visit e temps ctx st sk st' :
  LocalKernelBuilder.setup_split_kernel visit e temps ctx st sk = Py.Ok st' ->
  flat_keys st -> flat_keys st'.
Proof.
  intros H [Ka Ks].
  destruct (flat_split_kernel_inv _ _ _ _ _ _ _ H)
    as (call & _ & [(_ & Ha & Hs)|(sd_id & sd_key & _ & _ & Hs & Ha)] & _).
  - apply flat_append_at_keys in Ha. split; congruence.
  - apply flat_append_at_keys in Hs. split; congruence.
Qed.

Lemma flat_cxt_kernel_keys visit e temps st ctx st' :
  LocalKernelBuilder.setup_cxt_kernel visit e temps st ctx = Py.Ok st' ->
  flat_keys st -> flat_keys st'.
Proof.
  unfold LocalKernelBuilder.setup_cxt_kernel. intros H Hk.
  destruct (negb _); [discriminate|].
  match type of H with Py.bind ?m _ = _ => destruct m as [st1|] eqn:E end;
    cbn [Py.bind] in H; [|discriminate].
  assert (Hk1 : flat_keys st1).
  { destruct (LocalKernelBuilder.st_coords st).
    - destruct (Slate.function_eqb _ _); [|discriminate]. now injection E as <-.
    - injection E as <-. exact Hk. }
  revert H. apply for_each_invariant with (P := flat_keys); [|exact Hk1].
  intros s x s' Hs Hx. eapply flat_split_kernel_keys; eauto.
Qed.

Lemma flat_setup_loop_keys visit e temps ctxs st :
  LocalKernelBuilder.setup_loop visit e temps ctxs = Py.Ok st -> flat_keys st.
Proof.
  unfold LocalKernelBuilder.setup_loop.
  apply for_each_invariant with (P := flat_keys).
  - intros s x s' Hs Hx. eapply flat_cxt_kernel_keys; eauto.
  - split; reflexivity.
Qed.

Lemma loopy_append_at_keys {X : Type} (d d' : list (string * list X))
      (k : string) (x : X) :
  LocalLoopyKernelBuilder.append_at d k x = Py.Ok d' -> map fst d' = map fst d.
Proof. exact (flat_append_at_keys d d' k x). Qed.

(** A step of the inner loop of the loopy builder appends to a bucket of
    the one bucket map. *)
Lemma loopy_inner_keys gdict cv ctx temp st inner st' :
  LocalLoopyKernelBuilder.setup_inner gdict cv ctx temp st inner = Py.Ok st' ->
  map fst (LocalLoopyKernelBuilder.st_assembly_calls st')
  = map fst (LocalLoopyKernelBuilder.st_assembly_calls st).
Proof.
  unfold LocalLoopyKernelBuilder.setup_inner. intros H.
  destruct (Slate.is_mixed _); [discriminate|].
  destruct (Py.lookup _ gdict temp); cbn [Py.bind] in H; [|discriminate].
  destruct (Py.map_result (Py.getitem _) _); cbn [Py.bind] in H; [|discriminate].
  destruct (Py.map_result _ (List.concat _)); cbn [Py.bind] in H; [|discriminate].
  destruct (LocalLoopyKernelBuilder.read_loop _ _) as [indices reads].
  destruct (String.eqb _ "cell"); [|discriminate].
  destruct (negb _); [discriminate|]. cbn [Py.bind] in H.
  destruct (LocalLoopyKernelBuilder.append_at _ _ _) as [ac|] eqn:Ea;
    cbn [Py.bind] in H; [|discriminate].
  injection H as <-. cbn. eapply loopy_append_at_keys; eauto.
Qed.

Lemma loopy_setup_loop_keys temps gdict cv ctxs st :
  LocalLoopyKernelBuilder.setup_loop temps gdict cv ctxs = Py.Ok st ->
  map fst (LocalLoopyKernelBuilder.st_assembly_calls st)
  = LocalLoopyKernelBuilder.supported_integral_types.
Proof.
  unfold LocalLoopyKernelBuilder.setup_loop.
  apply for_each_invariant
    with (P := fun s => map fst (LocalLoopyKernelBuilder.st_assembly_calls s)
                        = LocalLoopyKernelBuilder.supported_integral_types);
    [|reflexivity].
  intros s ctx s' Hs H. unfold LocalLoopyKernelBuilder.setup_cxt_kernel in H.
  destruct (Py.lookup _ temps _) as [temp|]; cbn [Py.bind] in H; [|discriminate].
  destruct (negb _); [discriminate|].
  match type of H with Py.bind ?m _ = _ => destruct m end;
    cbn [Py.bind] in H; [|discriminate].
  revert H.
  apply for_each_invariant
    with (P := fun s => map fst (LocalLoopyKernelBuilder.st_assembly_calls s)
                        = LocalLoopyKernelBuilder.supported_integral_types);
    [|exact Hs].
  intros s1 k s2 Hs1 Hk. rewrite <- Hs1. eapply loopy_inner_keys; eauto.
Qed.

(** C5. When [_setup] of the flat builder returns, the bucket map is the
    plain buckets followed by the subdomain buckets: every supported
    integral type has an entry (possibly empty) that is the bucket the loop
    filled, the subdomain buckets stand under their own two keys, which are
    no integral types, and nothing was overwritten.  The bucket map of the
    loopy builder, which merges nothing, has an entry for every supported
    integral type too. *)
Theorem bucket_map_complete :
  (forall compile_terminal_form transformer_visit list_set expression init
          expression_dag b,
      LocalKernelBuilder._setup compile_terminal_form transformer_visit list_set
        expression init expression_dag = Py.Ok b ->
      exists st,
        LocalKernelBuilder.setup_loop transformer_visit expression
          (LocalKernelBuilder.temps b) (LocalKernelBuilder.context_kernels b)
        = Py.Ok st
        /\ LocalKernelBuilder.assembly_calls b
           = LocalKernelBuilder.st_assembly_calls st
             ++ LocalKernelBuilder.st_subdomain_calls st
        /\ map fst (LocalKernelBuilder.assembly_calls b)
           = LocalKernelBuilder.supported_integral_types
             ++ LocalKernelBuilder.supported_subdomain_types
        /\ (forall it,
               In it LocalKernelBuilder.supported_integral_types ->
               exists calls,
                 Py.get String.eqb (LocalKernelBuilder.assembly_calls b) it
                 = Some calls
                 /\ Py.get String.eqb (LocalKernelBuilder.st_assembly_calls st) it
                    = Some calls)
        /\ (forall sd,
               In sd LocalKernelBuilder.supported_subdomain_types ->
               ~ In sd LocalKernelBuilder.supported_integral_types
               /\ exists calls,
                   Py.get String.eqb (LocalKernelBuilder.assembly_calls b) sd
                   = Some calls
                   /\ Py.get String.eqb (LocalKernelBuilder.st_subdomain_calls st) sd
                      = Some calls))
  /\ (forall compile_terminal_form list_set expression init expression_dag b,
         LocalLoopyKernelBuilder._setup compile_terminal_form list_set
           expression init expression_dag = Py.Ok b ->
         map fst (LocalLoopyKernelBuilder.assembly_calls b)
         = LocalLoopyKernelBuilder.supported_integral_types
         /\ forall it,
             In it LocalLoopyKernelBuilder.supported_integral_types ->
             exists calls,
               Py.get String.eqb (LocalLoopyKernelBuilder.assembly_calls b) it
               = Some calls).
Proof.
  split.
  - intros compile_terminal_form transformer_visit list_set expression init
           expression_dag b.
    unfold LocalKernelBuilder._setup. intros H.
    match type of H with Py.bind ?m _ = _ => destruct m as [st|] eqn:E end;
      cbn [Py.bind] in H; [|discriminate].
    injection H as <-.
    cbn [LocalKernelBuilder.temps LocalKernelBuilder.context_kernels
         LocalKernelBuilder.assembly_calls].
    exists st. destruct (flat_setup_loop_keys _ _ _ _ _ E) as [Ka Ks].
    assert (Hdis : forall k, In k LocalKernelBuilder.supported_subdomain_types ->
                             ~ In k LocalKernelBuilder.supported_integral_types).
    { intros k Hk Hin. simpl in Hk, Hin.
      repeat (destruct Hk as [<-|Hk]; [repeat (destruct Hin as [Hin|Hin];
        [discriminate Hin|]); exact Hin|]). exact Hk. }
    assert (Hup : Py.update String.eqb (LocalKernelBuilder.st_assembly_calls st)
                    (LocalKernelBuilder.st_subdomain_calls st)
                  = LocalKernelBuilder.st_assembly_calls st
                    ++ LocalKernelBuilder.st_subdomain_calls st).
    { apply update_disjoint.
      - rewrite Ks. repeat constructor; simpl; intuition discriminate.
      - rewrite Ks, Ka. exact Hdis. }
    rewrite Hup. split; [exact E|]. split; [reflexivity|].
    split; [now rewrite map_app, Ka, Ks|].
    split.
    + intros it Hit. rewrite <- Ka in Hit.
      destruct (in_keys_get _ _ Hit) as [calls Hc].
      exists calls. split; [|exact Hc]. now rewrite get_app_left.
    + intros sd Hsd. split; [now apply Hdis|].
      assert (Hsd' := Hsd). rewrite <- Ks in Hsd'.
      destruct (in_keys_get _ _ Hsd') as [calls Hc].
      exists calls. split; [|exact Hc].
      rewrite get_app_right; [exact Hc|]. rewrite Ka. now apply Hdis.
  - intros compile_terminal_form list_set expression init expression_dag b.
    unfold LocalLoopyKernelBuilder._setup. intros H.
    match type of H with Py.bind ?m _ = _ => destruct m as [st|] eqn:E end;
      cbn [Py.bind] in H; [|discriminate].
    destruct (LocalLoopyKernelBuilder.st_integral_type st); cbn [Py.bind] in H;
      [|discriminate].
    destruct (LocalLoopyKernelBuilder.st_kinfo st); cbn [Py.bind] in H;
      [|discriminate].
    destruct (LocalLoopyKernelBuilder.st_reads st); cbn [Py.bind] in H;
      [|discriminate].
    injection H as <-. cbn [LocalLoopyKernelBuilder.assembly_calls].
    pose proof (loopy_setup_loop_keys _ _ _ _ _ E) as Ka.
    split; [exact Ka|]. intros it Hit. rewrite <- Ka in Hit.
    now apply in_keys_get.
Qed.

Lemma bucket_map_complete_witness :
  match LocalKernelBuilder.__init__ Examples.compile_facet Examples.visit
          Examples.in_order Examples.add33 with
  | Py.Ok b =>
      map fst (LocalKernelBuilder.assembly_calls b)
      = LocalKernelBuilder.supported_integral_types
        ++ LocalKernelBuilder.supported_subdomain_types
  | Py.Raise _ => False
  end.
Proof.
  unfold LocalKernelBuilder.__init__.
  change (Slate.variable_layers (Slate.ufl_domain Examples.add33)) with false.
  cbv iota.
  set (dag := Utils.traverse_dags [Examples.add33]).
  destruct bucket_map_complete as [H _].
  specialize (H Examples.compile_facet Examples.visit Examples.in_order
                Examples.add33 (LocalKernelBuilder.init_loop Examples.add33 dag) dag).
  destruct (LocalKernelBuilder._setup _ _ _ _ _ _) as [b|e] eqn:E.
  - destruct (H b eq_refl) as (st & _ & _ & K & _). exact K.
  - vm_compute in E. discriminate E.
Defined.

Lemma in_context_kernels_split {X : Type} (x : X) (l : list X) :
  In x l -> exists before after, l = before ++ x :: after.
Proof. apply in_split. Qed.

(** The flat builder: the step for a context kernel of an unsupported
    integral type raises, whatever the state. *)
Lemma flat_unsupported_step visit expression temps st cxt_kernel :
  Py.str_in (Tsfc.original_integral_type cxt_kernel)
            LocalKernelBuilder.supported_integral_types = false ->
  LocalKernelBuilder.setup_cxt_kernel visit expression temps st cxt_kernel
  = Py.Raise (Py.ValueError
                ("Integral type '" ++ Tsfc.original_integral_type cxt_kernel
                   ++ "' not recognized")%string).
Proof.
  intros Hbad. unfold LocalKernelBuilder.setup_cxt_kernel.
  rewrite Hbad. reflexivity.
Qed.

(** The loopy builder: the same, once the temporary of the terminal has
    been looked up; without a temporary the step raises [KeyError]. *)
Lemma loopy_unsupported_step temps gdict cv st cxt_kernel :
  Py.str_in (Tsfc.original_integral_type cxt_kernel)
            LocalKernelBuilder.supported_integral_types = false ->
  LocalLoopyKernelBuilder.setup_cxt_kernel temps gdict cv st cxt_kernel
  = if Py.contains Slate.tensor_eqb temps (Tsfc.tensor cxt_kernel) then
      Py.Raise (Py.ValueError
                  ("Integral type '" ++ Tsfc.original_integral_type cxt_kernel
                     ++ "' not recognized")%string)
    else Py.Raise Py.KeyError.
Proof.
  intros Hbad. unfold LocalLoopyKernelBuilder.setup_cxt_kernel, Py.lookup, Py.contains.
  destruct (Py.get _ temps _); cbn [Py.bind]; [|reflexivity].
  change LocalLoopyKernelBuilder.supported_integral_types
    with LocalKernelBuilder.supported_integral_types.
  rewrite Hbad. reflexivity.
Qed.

(** A loop whose body raises on [x] whatever the state does not return on
    a list that contains [x]. *)
Lemma for_each_never_ok {S X : Type} (body : S -> X -> Py.result S)
      (x : X) (before after : list X) (st : S) :
  (forall s, Py.is_ok (body s x) = false) ->
  Py.is_ok (Py.for_each body (before ++ x :: after) st) = false.
Proof.
  intros Hx. rewrite for_each_app.
  destruct (Py.for_each body before st) as [s|e]; cbn [Py.bind Py.for_each];
    [|reflexivity].
  specialize (Hx s). destruct (body s x); [discriminate | reflexivity].
Qed.

(** The context kernels of a builder that was constructed went through
    its loop. *)
Lemma flat_builder_assembled compile visit list_set expression b :
  LocalKernelBuilder.__init__ compile visit list_set expression = Py.Ok b ->
  Py.is_ok (LocalKernelBuilder.setup_loop visit expression
              (LocalKernelBuilder.temps b) (LocalKernelBuilder.context_kernels b))
  = true.
Proof.
  unfold LocalKernelBuilder.__init__.
  destruct (Slate.variable_layers _); [discriminate|].
  unfold LocalKernelBuilder._setup.
  destruct (LocalKernelBuilder.setup_loop _ _ _ _) eqn:E; cbn [Py.bind];
    [|discriminate].
  intros H; injection H as <-.
  cbn [LocalKernelBuilder.temps LocalKernelBuilder.context_kernels].
  now rewrite E.
Qed.

Lemma loopy_builder_assembled compile list_set expression b :
  LocalLoopyKernelBuilder.__init__ compile list_set expression = Py.Ok b ->
  Py.is_ok (LocalLoopyKernelBuilder.setup_loop
              (LocalLoopyKernelBuilder.temps b)
              (LocalLoopyKernelBuilder.gem_loopy_dict b)
              (LocalLoopyKernelBuilder.coefficient_vecs b)
              (LocalLoopyKernelBuilder.context_kernels b))
  = true.
Proof.
  unfold LocalLoopyKernelBuilder.__init__.
  destruct (Slate.variable_layers _); [discriminate|].
  destruct (LocalLoopyKernelBuilder.init_loop _ _); cbn [Py.bind]; [|discriminate].
  unfold LocalLoopyKernelBuilder._setup.
  destruct (LocalLoopyKernelBuilder.setup_loop _ _ _ _) eqn:E; cbn [Py.bind];
    [|discriminate].
  destruct (LocalLoopyKernelBuilder.st_integral_type _); cbn [Py.bind];
    [|discriminate].
  destruct (LocalLoopyKernelBuilder.st_kinfo _); cbn [Py.bind]; [|discriminate].
  destruct (LocalLoopyKernelBuilder.st_reads _); cbn [Py.bind]; [|discriminate].
  intros H; injection H as <-.
  cbn [LocalLoopyKernelBuilder.temps LocalLoopyKernelBuilder.context_kernels
       LocalLoopyKernelBuilder.gem_loopy_dict
       LocalLoopyKernelBuilder.coefficient_vecs].
  now rewrite E.
Qed.

(** C6. A context kernel whose integral type is outside the supported list
    makes call assembly raise [ValueError] naming the type, in both
    builders: the step that processes the kernel raises it in whatever
    state (in the loopy builder once the temporary of its terminal has been
    looked up), so the loop raises it when the kernels before it were
    processed, no list of context kernels that contains it is ever
    assembled, and no builder that was constructed holds it. *)
Theorem unsupported_integral_type_rejected
        (cxt_kernel : Tsfc.ContextKernel) (before after : list Tsfc.ContextKernel) :
  Py.str_in (Tsfc.original_integral_type cxt_kernel)
            LocalKernelBuilder.supported_integral_types = false ->
  let error :=
    Py.ValueError ("Integral type '" ++ Tsfc.original_integral_type cxt_kernel
                     ++ "' not recognized")%string in
  (* the flat builder *)
  (forall visit expression temps,
      (forall st, LocalKernelBuilder.setup_cxt_kernel visit expression temps
                    st cxt_kernel = Py.Raise error)
      /\ (Py.is_ok (LocalKernelBuilder.setup_loop visit expression temps before)
          = true ->
          LocalKernelBuilder.setup_loop visit expression temps
            (before ++ cxt_kernel :: after) = Py.Raise error)
      /\ Py.is_ok (LocalKernelBuilder.setup_loop visit expression temps
                     (before ++ cxt_kernel :: after)) = false)
  /\ (forall compile visit list_set expression b,
         LocalKernelBuilder.__init__ compile visit list_set expression = Py.Ok b ->
         ~ In cxt_kernel (LocalKernelBuilder.context_kernels b))
  (* the loopy builder *)
  /\ (forall temps gem_loopy_dict coefficient_vecs,
         (Py.contains Slate.tensor_eqb temps (Tsfc.tensor cxt_kernel) = true ->
          (forall st, LocalLoopyKernelBuilder.setup_cxt_kernel temps gem_loopy_dict
                        coefficient_vecs st cxt_kernel = Py.Raise error)
          /\ (Py.is_ok (LocalLoopyKernelBuilder.setup_loop temps gem_loopy_dict
                          coefficient_vecs before) = true ->
              LocalLoopyKernelBuilder.setup_loop temps gem_loopy_dict
                coefficient_vecs (before ++ cxt_kernel :: after) = Py.Raise error))
         /\ Py.is_ok (LocalLoopyKernelBuilder.setup_loop temps gem_loopy_dict
                        coefficient_vecs (before ++ cxt_kernel :: after)) = false)
  /\ (forall compile list_set expression b,
         LocalLoopyKernelBuilder.__init__ compile list_set expression = Py.Ok b ->
         ~ In cxt_kernel (LocalLoopyKernelBuilder.context_kernels b)).
Proof.
  intros Hbad error.
  assert (HF : forall visit expression temps st,
             Py.is_ok (LocalKernelBuilder.setup_cxt_kernel visit expression temps
                         st cxt_kernel) = false)
    by (intros; now rewrite flat_unsupported_step).
  assert (HL : forall temps gdict cv st,
             Py.is_ok (LocalLoopyKernelBuilder.setup_cxt_kernel temps gdict cv
                         st cxt_kernel) = false)
    by (intros; rewrite loopy_unsupported_step by exact Hbad;
        now destruct (Py.contains _ _ _)).
  split; [|split; [|split]].
  - intros visit expression temps.
    split; [intros st; now apply flat_unsupported_step|].
    split; [|now apply for_each_never_ok].
    unfold LocalKernelBuilder.setup_loop. rewrite for_each_app.
    destruct (Py.for_each _ before _) as [st|e];
      cbn [Py.bind Py.for_each Py.is_ok]; [|discriminate].
    intros _. now rewrite flat_unsupported_step.
  - intros compile visit list_set expression b Hb Hin.
    apply flat_builder_assembled in Hb.
    destruct (in_context_kernels_split _ _ Hin) as (l1 & l2 & E).
    rewrite E in Hb. unfold LocalKernelBuilder.setup_loop in Hb.
    rewrite for_each_never_ok in Hb; [discriminate | apply HF].
  - intros temps gdict cv. split; [|now apply for_each_never_ok].
    intros Hin.
    assert (Hstep : forall st, LocalLoopyKernelBuilder.setup_cxt_kernel temps gdict
                                 cv st cxt_kernel = Py.Raise error)
      by (intros st; rewrite loopy_unsupported_step by exact Hbad; now rewrite Hin).
    split; [exact Hstep|].
    unfold LocalLoopyKernelBuilder.setup_loop. rewrite for_each_app.
    destruct (Py.for_each _ before _) as [st|e];
      cbn [Py.bind Py.for_each Py.is_ok]; [|discriminate].
    intros _. now rewrite Hstep.
  - intros compile list_set expression b Hb Hin.
    apply loopy_builder_assembled in Hb.
    destruct (in_context_kernels_split _ _ Hin) as (l1 & l2 & E).
    rewrite E in Hb. unfold LocalLoopyKernelBuilder.setup_loop in Hb.
    rewrite for_each_never_ok in Hb; [discriminate | apply HL].
Qed.

Lemma unsupported_integral_type_rejected_witness :
  LocalKernelBuilder.setup_loop Examples.visit Examples.A33 Examples.flat_temps
    ([Examples.cxt Examples.A33 "subkernel0_" "cell" Tsfc.otherwise true]
       ++ Examples.cxt Examples.A33 "subkernel0_" "vertex" Tsfc.otherwise true :: [])
  = Py.Raise (Py.ValueError "Integral type 'vertex' not recognized")
  /\ LocalLoopyKernelBuilder.setup_loop Examples.loopy_temps Examples.loopy_dict []
       ([Examples.cxt Examples.A33 "subkernel0_" "cell" Tsfc.otherwise false]
          ++ Examples.cxt Examples.A33 "subkernel0_" "vertex" Tsfc.otherwise false :: [])
     = Py.Raise (Py.ValueError "Integral type 'vertex' not recognized").
Proof.
  split.
  - destruct (unsupported_integral_type_rejected
                (Examples.cxt Examples.A33 "subkernel0_" "vertex" Tsfc.otherwise true)
                [Examples.cxt Examples.A33 "subkernel0_" "cell" Tsfc.otherwise true] []
                eq_refl) as (H & _).
    apply H. reflexivity.
  - destruct (unsupported_integral_type_rejected
                (Examples.cxt Examples.A33 "subkernel0_" "vertex" Tsfc.otherwise false)
                [Examples.cxt Examples.A33 "subkernel0_" "cell" Tsfc.otherwise false] []
                eq_refl) as (_ & _ & H & _).
    apply H; reflexivity.
Defined.

(** *** Call assembly of the loopy builder *)

(** C9 (as stated) fails: the assembled vector of a coefficient on a mixed
    space stops the loopy builder with [KeyError] while it collects its
    temporaries, and a terminal on a mixed space whose shape is not (3, 3)
    stops it there with the error of [gem.Indexed]; neither gets as far
    as call assembly. *)
Lemma mixed_output_not_rejected_in_assembly :
  (Slate.is_mixed Examples.w1 = true
   /\ LocalLoopyKernelBuilder.__init__ Examples.compile_cell Examples.in_order
        Examples.w1
      = Py.Raise Py.KeyError
   /\ ~ rejected_in_call_assembly Examples.compile_cell Examples.in_order
          Examples.w1)
  /\ (Slate.is_mixed Examples.M = true
      /\ LocalLoopyKernelBuilder.init_loop Examples.M
           (Utils.traverse_dags [Examples.M])
         = Py.Raise (Py.ValueError "Inconsistent index extents!")
      /\ ~ rejected_in_call_assembly Examples.compile_cell Examples.in_order
             Examples.M).
Proof.
  split; (split; [reflexivity|]).
  - assert (H : LocalLoopyKernelBuilder.__init__ Examples.compile_cell
                  Examples.in_order Examples.w1 = Py.Raise Py.KeyError)
      by (vm_compute; reflexivity).
    split; [exact H|]. intros (_ & e & He & Hc).
    rewrite H in He. injection He as <-. discriminate Hc.
  - assert (H : LocalLoopyKernelBuilder.init_loop Examples.M
                  (Utils.traverse_dags [Examples.M])
                = Py.Raise (Py.ValueError "Inconsistent index extents!"))
      by (vm_compute; reflexivity).
    split; [exact H|]. intros (Hok & _). rewrite H in Hok. discriminate Hok.
Qed.

(** C9. In the loopy builder, the step for a sub-kernel of a terminal on a
    mixed space raises [ValueError] before it builds a call, whatever the
    state; so the step for a context kernel of such a terminal that has a
    sub-kernel raises it once the kernel has passed the checks of its
    integral type and coordinates, the loop raises it when the kernels
    before were processed, and no list of context kernels that contains
    such a kernel is ever assembled, nor does a builder that was
    constructed hold one.  An expression whose temporaries were collected
    is rejected with this error when call assembly reaches the kernel. *)
Theorem mixed_output_rejected
        (cxt_kernel : Tsfc.ContextKernel)
        (inner : Tsfc.SplitKernel) (others : list Tsfc.SplitKernel)
        (before after : list Tsfc.ContextKernel) :
  Slate.is_mixed (Tsfc.tensor cxt_kernel) = true ->
  Tsfc.tsfc_kernels cxt_kernel = inner :: others ->
  let error := Py.ValueError "For now only non mixed supported" in
  forall temps gem_loopy_dict coefficient_vecs,
    (forall temp st,
        LocalLoopyKernelBuilder.setup_inner gem_loopy_dict coefficient_vecs
          cxt_kernel temp st inner = Py.Raise error)
    /\ (forall st,
           Py.contains Slate.tensor_eqb temps (Tsfc.tensor cxt_kernel) = true ->
           Py.str_in (Tsfc.original_integral_type cxt_kernel)
                     LocalLoopyKernelBuilder.supported_integral_types = true ->
           coordinates_agree (LocalLoopyKernelBuilder.st_coords st) cxt_kernel ->
           LocalLoopyKernelBuilder.setup_cxt_kernel temps gem_loopy_dict
             coefficient_vecs st cxt_kernel = Py.Raise error
           /\ (LocalLoopyKernelBuilder.setup_loop temps gem_loopy_dict
                 coefficient_vecs before = Py.Ok st ->
               LocalLoopyKernelBuilder.setup_loop temps gem_loopy_dict
                 coefficient_vecs (before ++ cxt_kernel :: after) = Py.Raise error))
    /\ Py.is_ok (LocalLoopyKernelBuilder.setup_loop temps gem_loopy_dict
                   coefficient_vecs (before ++ cxt_kernel :: after)) = false
    /\ (forall compile list_set expression b,
           LocalLoopyKernelBuilder.__init__ compile list_set expression = Py.Ok b ->
           ~ In cxt_kernel (LocalLoopyKernelBuilder.context_kernels b))
    /\ (forall compile list_set expression init st,
           Slate.variable_layers (Slate.ufl_domain expression) = false ->
           LocalLoopyKernelBuilder.init_loop expression
             (Utils.traverse_dags [expression]) = Py.Ok init ->
           LocalLoopyKernelBuilder.init_context_kernels compile
             (LocalLoopyKernelBuilder.init_temps init)
           = before ++ cxt_kernel :: after ->
           LocalLoopyKernelBuilder.setup_loop
             (LocalLoopyKernelBuilder.init_temps init)
             (LocalLoopyKernelBuilder.init_gem_loopy_dict init)
             (LocalLoopyKernelBuilder.init_coeff_vecs init) before = Py.Ok st ->
           Py.contains Slate.tensor_eqb (LocalLoopyKernelBuilder.init_temps init)
             (Tsfc.tensor cxt_kernel) = true ->
           Py.str_in (Tsfc.original_integral_type cxt_kernel)
                     LocalLoopyKernelBuilder.supported_integral_types = true ->
           coordinates_agree (LocalLoopyKernelBuilder.st_coords st) cxt_kernel ->
           LocalLoopyKernelBuilder.__init__ compile list_set expression
           = Py.Raise error
           /\ rejected_in_call_assembly compile list_set expression).
Proof.
  intros Hmixed Hk error temps gdict cv.
  assert (Hinner : forall gdict cv temp st,
             LocalLoopyKernelBuilder.setup_inner gdict cv cxt_kernel temp st inner
             = Py.Raise error).
  { intros gdict0 cv0 temp st. unfold LocalLoopyKernelBuilder.setup_inner.
    rewrite Hmixed. reflexivity. }
  assert (Hfail : forall temps gdict cv st,
             Py.is_ok (LocalLoopyKernelBuilder.setup_cxt_kernel temps gdict cv st
                         cxt_kernel) = false).
  { intros temps0 gdict0 cv0 st. unfold LocalLoopyKernelBuilder.setup_cxt_kernel.
    destruct (Py.lookup _ temps0 _) as [temp|]; cbn [Py.bind]; [|reflexivity].
    destruct (negb _); [reflexivity|].
    match goal with |- Py.is_ok (Py.bind ?m _) = _ => destruct m end;
      cbn [Py.bind]; [|reflexivity].
    rewrite Hk. cbn [Py.for_each]. rewrite Hinner. reflexivity. }
  assert (Hstep : forall temps gdict cv st,
             Py.contains Slate.tensor_eqb temps (Tsfc.tensor cxt_kernel) = true ->
             Py.str_in (Tsfc.original_integral_type cxt_kernel)
                       LocalLoopyKernelBuilder.supported_integral_types = true ->
             coordinates_agree (LocalLoopyKernelBuilder.st_coords st) cxt_kernel ->
             LocalLoopyKernelBuilder.setup_cxt_kernel temps gdict cv st cxt_kernel
             = Py.Raise error).
  { intros temps0 gdict0 cv0 st Hin Hsup Hco.
    unfold LocalLoopyKernelBuilder.setup_cxt_kernel, Py.lookup.
    unfold Py.contains in Hin.
    destruct (Py.get _ temps0 _) as [temp|]; [|discriminate]. cbn [Py.bind].
    rewrite Hsup. cbn [negb].
    unfold coordinates_agree in Hco.
    destruct (LocalLoopyKernelBuilder.st_coords st); [rewrite Hco|];
      cbn [Py.bind]; rewrite Hk; cbn [Py.for_each]; rewrite Hinner;
      reflexivity. }
  assert (Hloop : forall temps gdict cv st,
             Py.contains Slate.tensor_eqb temps (Tsfc.tensor cxt_kernel) = true ->
             Py.str_in (Tsfc.original_integral_type cxt_kernel)
                       LocalLoopyKernelBuilder.supported_integral_types = true ->
             coordinates_agree (LocalLoopyKernelBuilder.st_coords st) cxt_kernel ->
             LocalLoopyKernelBuilder.setup_loop temps gdict cv before = Py.Ok st ->
             LocalLoopyKernelBuilder.setup_loop temps gdict cv
               (before ++ cxt_kernel :: after) = Py.Raise error).
  { intros temps0 gdict0 cv0 st Hin Hsup Hco Hb.
    unfold LocalLoopyKernelBuilder.setup_loop in *.
    rewrite for_each_app, Hb. cbn [Py.bind Py.for_each].
    now rewrite (Hstep temps0 gdict0 cv0 st Hin Hsup Hco). }
  split; [apply Hinner|]. split; [|split; [|split]].
  - intros st Hin Hsup Hco. split; [now apply Hstep | now apply Hloop].
  - unfold LocalLoopyKernelBuilder.setup_loop. apply for_each_never_ok.
    apply Hfail.
  - intros compile list_set expression b Hb Hin.
    apply loopy_builder_assembled in Hb.
    destruct (in_context_kernels_split _ _ Hin) as (l1 & l2 & E).
    rewrite E in Hb. unfold LocalLoopyKernelBuilder.setup_loop in Hb.
    rewrite for_each_never_ok in Hb; [discriminate | apply Hfail]. 
  - intros compile list_set expression init st Hvl Hinit Hcxt Hb Hin Hsup Hco.
    assert (Hraise : LocalLoopyKernelBuilder.__init__ compile list_set expression
                     = Py.Raise error).
    { unfold LocalLoopyKernelBuilder.__init__. rewrite Hvl, Hinit.
      cbn [Py.bind]. unfold LocalLoopyKernelBuilder._setup.
      rewrite Hcxt, (Hloop _ _ _ st Hin Hsup Hco Hb). reflexivity. }
    split; [exact Hraise|]. split; [now rewrite Hinit|].
    exists error. split; [exact Hraise | reflexivity].
Qed.

Lemma mixed_output_rejected_witness :
  Slate.is_mixed Examples.M33 = true
  /\ LocalLoopyKernelBuilder.__init__ Examples.compile_cell Examples.in_order
       Examples.M33
     = Py.Raise (Py.ValueError "For now only non mixed supported")
  /\ rejected_in_call_assembly Examples.compile_cell Examples.in_order
       Examples.M33.
Proof.
  split; [reflexivity|].
  destruct (mixed_output_rejected
              (Examples.cxt Examples.M33 "subkernel0_" "cell" Tsfc.otherwise false)
              _ [] [] [] eq_refl eq_refl [] [] [])
    as (_ & _ & _ & _ & H).
  destruct (LocalLoopyKernelBuilder.init_loop Examples.M33
              (Utils.traverse_dags [Examples.M33])) as [init|] eqn:Hinit;
    [|vm_compute in Hinit; discriminate Hinit].
  apply (H Examples.compile_cell Examples.in_order Examples.M33 init
           LocalLoopyKernelBuilder.setup_start eq_refl Hinit);
    vm_compute in Hinit; injection Hinit as <-; reflexivity || exact I.
Defined.

(** *** Temporaries *)

Lemma first_occurrences_from (l acc : list nat) :
  NoDup acc ->
  let r := fold_left (fun acc x => if existsb (Nat.eqb x) acc then acc
                                   else acc ++ [x]) l acc in
  NoDup r /\ (forall x, In x r <-> In x acc \/ In x l).
Proof.
  revert acc; induction l as [|a l IH]; intros acc Hnd; simpl.
  - split; [exact Hnd | intros x; tauto].
  - destruct (existsb (Nat.eqb a) acc) eqn:E.
    + destruct (IH acc Hnd) as [H1 H2]. split; [exact H1|].
      intros x. rewrite H2. apply existsb_exists in E.
      destruct E as (y & Hy & Hay). apply Nat.eqb_eq in Hay. subst y.
      split; [tauto|]. intros [H|[<-|H]]; auto.
    + assert (Hnd' : NoDup (acc ++ [a])).
      { apply NoDup_app; [exact Hnd | repeat constructor; simpl; tauto |].
        intros x Hx [<-|[]].
        assert (existsb (Nat.eqb a) acc = true)
          by (apply existsb_exists; exists a; split; [exact Hx | apply Nat.eqb_refl]).
        congruence. }
      destruct (IH (acc ++ [a]) Hnd') as [H1 H2]. split; [exact H1|].
      intros x. rewrite H2, in_app_iff. simpl. tauto.
Qed.

Lemma first_occurrences_spec (l : list nat) :
  NoDup (first_occurrences l)
  /\ forall x, In x (first_occurrences l) <-> In x l.
Proof.
  destruct (first_occurrences_from l [] (NoDup_nil _)) as [H1 H2].
  split; [exact H1|]. intros x. unfold first_occurrences. rewrite H2.
  simpl; tauto.
Qed.

(** Two duplicate-free lists with the same members have the same length. *)
Lemma NoDup_same_length (l l' : list nat) :
  NoDup l -> NoDup l' -> (forall x, In x l <-> In x l') ->
  List.length l = List.length l'.
Proof.
  intros H H' Hx. apply Nat.le_antisymm; apply NoDup_incl_length; auto;
    intros x; apply Hx.
Qed.

Lemma first_occurrences_length (l : list nat) :
  List.length (first_occurrences l) = List.length (nodup Nat.eq_dec l).
Proof.
  destruct (first_occurrences_spec l) as [H1 H2].
  apply NoDup_same_length; [exact H1 | apply NoDup_nodup |].
  intros x. rewrite H2, nodup_In. tauto.
Qed.

Lemma contains_temps {V : Type} (temps : list (Slate.TensorBase * V))
      (t : Slate.TensorBase) :
  Py.contains Slate.tensor_eqb temps t
  = existsb (Nat.eqb (Slate.nid t)) (map (fun p => Slate.nid (fst p)) temps).
Proof.
  unfold Py.contains. induction temps as [|[k v] temps IH]; simpl; [reflexivity|].
  unfold Slate.tensor_eqb at 1. rewrite (Nat.eqb_sym (Slate.nid t)).
  destruct (Nat.eqb (Slate.nid k) (Slate.nid t)); [reflexivity | exact IH].
Qed.

(** The temporaries of the flat builder after one more node. *)
Lemma flat_init_body_temps st t :
  LocalKernelBuilder.init_temps (LocalKernelBuilder.init_body st t)
  = if Slate.is_Tensor t then
      Py.setdefault Slate.tensor_eqb (LocalKernelBuilder.init_temps st) t
        (temporary_name (List.length (LocalKernelBuilder.init_temps st)))
    else LocalKernelBuilder.init_temps st.
Proof.
  unfold LocalKernelBuilder.init_body.
  destruct t; try reflexivity.
  cbn [Slate.is_Tensor].
  destruct (negb _); [|reflexivity].
  destruct (pack_loop _ _ _ _); reflexivity.
Qed.

(** The keys and the names of the temporaries, for a loop started in any
    state whose names are the first [n] names. *)
Lemma flat_init_temps_from dag st :
  map snd (LocalKernelBuilder.init_temps st)
  = map temporary_name (seq 0 (List.length (LocalKernelBuilder.init_temps st))) ->
  let temps := LocalKernelBuilder.init_temps (fold_left LocalKernelBuilder.init_body dag st) in
  map (fun p => Slate.nid (fst p)) temps
  = fold_left (fun acc x => if existsb (Nat.eqb x) acc then acc else acc ++ [x])
      (terminal_ids dag)
      (map (fun p => Slate.nid (fst p)) (LocalKernelBuilder.init_temps st))
  /\ map snd temps = map temporary_name (seq 0 (List.length temps)).
Proof.
  revert st; induction dag as [|t dag IH]; intros st Hn; cbn zeta.
  - split; [reflexivity | exact Hn].
  - cbn [fold_left]. specialize (IH (LocalKernelBuilder.init_body st t)).
    rewrite flat_init_body_temps in IH.
    unfold terminal_ids in *. cbn [filter].
    destruct (Slate.is_Tensor t); [|exact (IH Hn)].
    cbn [map fold_left]. unfold Py.setdefault in IH.
    rewrite contains_temps in IH.
    destruct (existsb _ _); [exact (IH Hn)|].
    rewrite !map_app, length_app, Nat.add_1_r, seq_S, map_app in IH.
    apply IH. cbn [map]. now rewrite Hn.
Qed.

(** *** The traversal *)

Lemma pop_app {X : Type} (c rest : list X) (t : X) :
  Utils.pop c = Some (rest, t) -> c = rest ++ [t].
Proof.
  unfold Utils.pop. destruct (rev c) as [|x r] eqn:E; [discriminate|].
  intros H; injection H as <- <-.
  rewrite <- (rev_involutive c), E. reflexivity.
Qed.

Lemma pop_nil {X : Type} (c : list X) : Utils.pop c = None -> c = [].
Proof.
  unfold Utils.pop. destruct (rev c) as [|x r] eqn:E; [|discriminate].
  intros _. rewrite <- (rev_involutive c), E. reflexivity.
Qed.

Lemma size_pos (t : Slate.TensorBase) : 1 <= Utils.size t.
Proof. destruct t; simpl; lia. Qed.

Lemma size_operands (t : Slate.TensorBase) :
  Utils.size t = S (list_sum (map Utils.size (Slate.operands t))).
Proof. destruct t; simpl; lia. Qed.

Lemma subterms_self (t : Slate.TensorBase) : In t (subterms t).
Proof. destruct t; simpl; auto. Qed.

Lemma subterms_operand (t o : Slate.TensorBase) :
  In o (Slate.operands t) -> forall u, In u (subterms o) -> In u (subterms t).
Proof.
  destruct t; simpl; try tauto.
  all: intros H u Hu; right.
  all: repeat (destruct H as [<-|H]; [try exact Hu; apply in_or_app; auto|]).
  all: destruct H.
Qed.

Lemma subterms_trans (t u v : Slate.TensorBase) :
  In u (subterms t) -> In v (subterms u) -> In v (subterms t).
Proof.
  revert u v. induction t; intros u v Hu Hv; simpl in Hu.
  all: destruct Hu as [<-|Hu]; [exact Hv|].
  all: try (destruct Hu; fail).
  all: simpl; right.
  all: try (eapply IHt; eauto; fail).
  all: apply in_app_iff in Hu; apply in_app_iff;
    destruct Hu as [Hu|Hu]; [left; eapply IHt1 | right; eapply IHt2]; eauto.
Qed.

(** A property of the root that passes from a node to its operands holds
    of every reachable node. *)
Lemma subterms_closed (P : Slate.TensorBase -> Prop) (t : Slate.TensorBase) :
  P t ->
  (forall v o, In v (subterms t) -> P v -> In o (Slate.operands v) -> P o) ->
  forall u, In u (subterms t) -> P u.
Proof.
  induction t; intros Ht Hstep u Hu; simpl in Hu.
  all: destruct Hu as [<-|Hu]; [exact Ht|].
  all: try (destruct Hu; fail).
  all: match goal with
       | IH1 : _, IH2 : _ |- _ =>
           apply in_app_iff in Hu; destruct Hu as [Hu|Hu];
           [ apply IH1; [ | | exact Hu ] | apply IH2; [ | | exact Hu ] ]
       | IH : _ |- _ => apply IH; [ | | exact Hu ]
       end.
  all: try (eapply Hstep; [apply subterms_self | exact Ht | simpl; auto]; fail).
  all: intros v o Hv HPv Ho; eapply Hstep; [ | exact HPv | exact Ho].
  all: eapply subterms_operand; [ | exact Hv]; simpl; auto.
Qed.

(** What [push_unseen] does: it appends the operands that were not seen,
    once each, and marks them seen. *)
Lemma push_unseen_spec (ts : list Slate.TensorBase) (seen : list nat)
      (c : list Slate.TensorBase) :
  exists new,
    Utils.push_unseen ts (seen, c)
    = (fst (Utils.push_unseen ts (seen, c)), c ++ new)
    /\ (forall x, In x new -> In x ts)
    /\ (forall i, In i (fst (Utils.push_unseen ts (seen, c)))
                  <-> In i seen \/ In i (map Slate.nid new))
    /\ (forall t, In t ts -> In (Slate.nid t) (fst (Utils.push_unseen ts (seen, c))))
    /\ (forall x, In x new -> ~ In (Slate.nid x) seen)
    /\ NoDup (map Slate.nid new)
    /\ list_sum (map Utils.size new) <= list_sum (map Utils.size ts).
Proof.
  revert seen c. induction ts as [|t ts IH]; intros seen c.
  - exists []. simpl. rewrite app_nil_r.
    repeat split; try tauto; try constructor.
  - unfold Utils.push_unseen. cbn [fold_left].
    destruct (existsb (Nat.eqb (Slate.nid t)) seen) eqn:E.
    + fold (Utils.push_unseen ts (seen, c)).
      destruct (IH seen c) as (new & H1 & H2 & H3 & H4 & H5 & H6 & H7).
      exists new. split; [exact H1|]. split; [intros x Hx; right; auto|].
      split; [exact H3|]. split; [|split; [exact H5|split; [exact H6|simpl; lia]]].
      intros t' [<-|Ht']; [|auto]. apply H3. left.
      apply existsb_exists in E. destruct E as (y & Hy & Hty).
      apply Nat.eqb_eq in Hty. now subst y.
    + fold (Utils.push_unseen ts (Slate.nid t :: seen, c ++ [t])).
      destruct (IH (Slate.nid t :: seen) (c ++ [t]))
        as (new & H1 & H2 & H3 & H4 & H5 & H6 & H7).
      exists (t :: new). split; [now rewrite H1 at 1; rewrite <- app_assoc|].
      split; [intros x [<-|Hx]; [now left | right; auto]|].
      split; [intros i; rewrite H3; simpl; tauto|].
      split; [intros t' [<-|Ht']; [apply H3; simpl; auto | auto]|].
      split; [intros x [<-|Hx] Hin|].
      * assert (existsb (Nat.eqb (Slate.nid t)) seen = true)
          by (apply existsb_exists; eexists; split; [exact Hin | apply Nat.eqb_refl]).
        congruence.
      * apply (H5 x Hx). now right.
      * split; [|simpl; lia]. cbn [map]. constructor; [|exact H6].
        intros Hin. apply in_map_iff in Hin. destruct Hin as (x & Hxn & Hx).
        apply (H5 x Hx). now left.
Qed.

Lemma list_sum_size_nil (c : list Slate.TensorBase) :
  list_sum (map Utils.size c) = 0 -> c = [].
Proof.
  destruct c as [|t c]; [reflexivity|]. simpl.
  pose proof (size_pos t). lia.
Qed.

(** The work-list loop, started with enough fuel on nodes that are all
    marked seen: it yields every node of the work list, the operands of what
    it yields were seen before or are yielded too, everything it yields is
    reachable from the work list, and nothing is yielded twice. *)
Lemma traverse_loop_spec (fuel : nat) :
  forall (seen : list nat) (c : list Slate.TensorBase),
    list_sum (map Utils.size c) <= fuel ->
    (forall t, In t c -> In (Slate.nid t) seen) ->
    let out := Utils.traverse_loop fuel seen c in
    (forall t, In t c -> In t out)
    /\ (forall t o, In t out -> In o (Slate.operands t) ->
                    In (Slate.nid o) seen \/ In (Slate.nid o) (map Slate.nid out))
    /\ (forall t, In t out -> exists r, In r c /\ In t (subterms r))
    /\ (NoDup (map Slate.nid c) ->
        NoDup (map Slate.nid out)
        /\ forall t, In t out -> In t c \/ ~ In (Slate.nid t) seen).
Proof.
  induction fuel as [|fuel IH]; intros seen c Hfuel Hseen; cbn zeta.
  - assert (c = []) by (apply list_sum_size_nil; lia). subst c. simpl.
    repeat split; try tauto; try constructor; try (intros ? []).
  - cbn [Utils.traverse_loop].
    destruct (Utils.pop c) as [[rest t]|] eqn:Ep.
    2:{ apply pop_nil in Ep. subst c. simpl.
        repeat split; try tauto; try constructor; try (intros ? []). }
    apply pop_app in Ep. subst c.
    destruct (push_unseen_spec (Slate.operands t) seen rest)
      as (new & H1 & H2 & H3 & H4 & H5 & H6 & H7).
    rewrite H1. set (seen' := fst (Utils.push_unseen (Slate.operands t) (seen, rest))) in *.
    rewrite map_app, list_sum_app in Hfuel. simpl in Hfuel.
    rewrite (size_operands t) in Hfuel.
    assert (Hfuel' : list_sum (map Utils.size (rest ++ new)) <= fuel)
      by (rewrite map_app, list_sum_app; lia).
    assert (Hseen' : forall x, In x (rest ++ new) -> In (Slate.nid x) seen').
    { intros x Hx. apply H3. apply in_app_iff in Hx. destruct Hx as [Hx|Hx].
      - left. apply Hseen. apply in_app_iff; auto.
      - right. now apply in_map. }
    destruct (IH seen' (rest ++ new) Hfuel' Hseen') as (Ia & Ib & Ic & Id).
    set (out' := Utils.traverse_loop fuel seen' (rest ++ new)) in *.
    split; [|split; [|split]].
    + intros x Hx. apply in_app_iff in Hx. destruct Hx as [Hx|[<-|[]]].
      * right. apply Ia. apply in_app_iff; auto.
      * now left.
    + assert (Hnew : forall i, In i seen' ->
                 In i seen \/ In i (map Slate.nid (t :: out'))).
      { intros i Hi. apply H3 in Hi. destruct Hi as [Hi|Hi]; [now left|].
        right. right. apply in_map_iff in Hi. destruct Hi as (x & <- & Hx).
        apply in_map. apply Ia. apply in_app_iff; auto. }
      intros x o [<-|Hx] Ho.
      * apply Hnew. now apply H4.
      * destruct (Ib x o Hx Ho) as [Hi|Hi]; [now apply Hnew|].
        right. now right.
    + intros x [<-|Hx].
      * exists t. split; [apply in_app_iff; simpl; auto | apply subterms_self].
      * destruct (Ic x Hx) as (r & Hr & Hxr). apply in_app_iff in Hr.
        destruct Hr as [Hr|Hr].
        -- exists r. split; [apply in_app_iff; auto | exact Hxr].
        -- exists t. split; [apply in_app_iff; simpl; auto|].
           eapply subterms_operand; [apply H2; exact Hr | exact Hxr].
    + intros Hnd. rewrite map_app in Hnd. cbn [map] in Hnd.
      assert (Hnd_rest : NoDup (map Slate.nid rest))
        by (eapply NoDup_app_remove_r; exact Hnd).
      assert (Ht_rest : ~ In (Slate.nid t) (map Slate.nid rest)).
      { intros Hin. apply NoDup_remove_2 in Hnd.
        apply Hnd. rewrite app_nil_r. exact Hin. }
      assert (Ht_seen : In (Slate.nid t) seen)
        by (apply Hseen; apply in_app_iff; simpl; auto).
      assert (Hnd' : NoDup (map Slate.nid (rest ++ new))).
      { rewrite map_app. apply NoDup_app; [exact Hnd_rest | exact H6 |].
        intros i Hi Hi'. apply in_map_iff in Hi'. destruct Hi' as (x & <- & Hx).
        apply (H5 x Hx). apply in_map_iff in Hi. destruct Hi as (y & Hy & Hyr).
        rewrite <- Hy. apply Hseen. apply in_app_iff; auto. }
      destruct (Id Hnd') as [Id1 Id2].
      split.
      * cbn [map]. constructor; [|exact Id1].
        intros Hin. apply in_map_iff in Hin. destruct Hin as (x & Hxt & Hx).
        destruct (Id2 x Hx) as [Hc|Hs].
        -- apply in_app_iff in Hc. destruct Hc as [Hc|Hc].
           ++ apply Ht_rest. rewrite <- Hxt. now apply in_map.
           ++ apply (H5 x Hc). now rewrite Hxt.
        -- apply Hs. apply H3. left. now rewrite Hxt.
      * intros x [<-|Hx]; [left; apply in_app_iff; simpl; auto|].
        destruct (Id2 x Hx) as [Hc|Hs].
        -- apply in_app_iff in Hc. destruct Hc as [Hc|Hc].
           ++ left. apply in_app_iff; auto.
           ++ right. now apply H5.
        -- right. intros Hin. apply Hs. apply H3. now left.
Qed.

(** [traverse_dags] on one root: it yields the root, only reachable nodes,
    no identity twice, and the operands of what it yields. *)
Lemma traverse_dags_spec (expression : Slate.TensorBase) :
  let out := Utils.traverse_dags [expression] in
  In expression out
  /\ (forall t, In t out -> In t (subterms expression))
  /\ NoDup (map Slate.nid out)
  /\ (forall t o, In t out -> In o (Slate.operands t) ->
                  In (Slate.nid o) (map Slate.nid out)).
Proof.
  cbn zeta. unfold Utils.traverse_dags. cbn [Utils.push_unseen fold_left existsb].
  cbn [map app].
  destruct (traverse_loop_spec (list_sum [Utils.size expression])
              [Slate.nid expression] [expression]) as (Ha & Hb & Hc & Hd).
  { reflexivity. }
  { intros t [<-|[]]. now left. }
  set (out := Utils.traverse_loop _ _ _) in *.
  assert (Hroot : In expression out) by (apply Ha; now left).
  split; [exact Hroot|]. split; [|split].
  - intros t Ht. destruct (Hc t Ht) as (r & [<-|[]] & Hr). exact Hr.
  - apply Hd. repeat constructor. simpl; tauto.
  - intros t o Ht Ho. destruct (Hb t o Ht Ho) as [[<-|[]]|H]; [|exact H].
    now apply in_map.
Qed.

(** When identities are respected, the traversal yields exactly the nodes
    reachable from the root. *)
Lemma traverse_dags_reachable (expression : Slate.TensorBase) :
  identities_respected expression ->
  forall t, In t (Utils.traverse_dags [expression]) <-> In t (subterms expression).
Proof.
  intros Hid t.
  destruct (traverse_dags_spec expression) as (Hroot & Hsub & _ & Hclosed).
  split; [apply Hsub|].
  apply subterms_closed with (P := fun u => In u (Utils.traverse_dags [expression]));
    [exact Hroot|].
  intros v o Hv HPv Ho.
  pose proof (Hclosed v o HPv Ho) as Hin.
  apply in_map_iff in Hin. destruct Hin as (x & Hx & Hxin).
  assert (x = o); [|now subst].
  apply Hid; [now apply Hsub | | exact Hx].
  eapply subterms_trans; [exact Hv|].
  eapply subterms_operand; [exact Ho | apply subterms_self].
Qed.

Lemma NoDup_map_injective {X Y : Type} (f : X -> Y) (l : list X) :
  (forall x y, f x = f y -> x = y) -> NoDup l -> NoDup (map f l).
Proof.
  intros Hf. induction 1 as [|x l Hx Hl IH]; simpl; constructor; [|exact IH].
  intros Hin. apply in_map_iff in Hin. destruct Hin as (y & Hy & Hyl).
  apply Hf in Hy. now subst.
Qed.

Lemma temporary_name_inj (n m : nat) :
  temporary_name n = temporary_name m -> n = m.
Proof.
  unfold temporary_name. simpl. intros H. injection H as H.
  now apply fmt_d_inj.
Qed.

(** The dedup law over whatever list of nodes the traversal yields: one
    temporary per distinct terminal identity, in the order of first
    encounter, named [T0], [T1], ... *)
Lemma temporaries_of_traversal (expression : Slate.TensorBase)
      (expression_dag : list Slate.TensorBase) :
  let temps := LocalKernelBuilder.init_temps
                 (LocalKernelBuilder.init_loop expression expression_dag) in
  map (fun p => Slate.nid (fst p)) temps
  = first_occurrences (terminal_ids expression_dag)
  /\ List.length temps
     = List.length (nodup Nat.eq_dec (terminal_ids expression_dag))
  /\ map snd temps = map temporary_name (seq 0 (List.length temps)).
Proof.
  cbn zeta. unfold LocalKernelBuilder.init_loop.
  destruct (flat_init_temps_from expression_dag
              (LocalKernelBuilder.init_start expression) eq_refl) as [Hk Hn].
  split; [exact Hk|]. split; [|exact Hn].
  rewrite <- first_occurrences_length.
  unfold first_occurrences. cbn [LocalKernelBuilder.init_start
    LocalKernelBuilder.init_temps map] in Hk. rewrite <- Hk.
  now rewrite length_map.
Qed.

(** C2. After construction the flat builder holds one temporary for each
    distinct terminal identity reachable from the root, however many
    parents reference the terminal: the keys of [temps] are those
    identities, without repetition, in the order in which the traversal
    first meets them, and the [k]-th is named [Tk]. *)
Theorem temporaries_one_per_terminal (expression : Slate.TensorBase) :
  identities_respected expression ->
  let temps := LocalKernelBuilder.init_temps
                 (LocalKernelBuilder.init_loop expression
                    (Utils.traverse_dags [expression])) in
  List.length temps
  = List.length (nodup Nat.eq_dec (terminal_ids (subterms expression)))
  /\ NoDup (map (fun p => Slate.nid (fst p)) temps)
  /\ (forall i, In i (map (fun p => Slate.nid (fst p)) temps)
                <-> In i (terminal_ids (subterms expression)))
  /\ map (fun p => Slate.nid (fst p)) temps
     = first_occurrences (terminal_ids (Utils.traverse_dags [expression]))
  /\ map snd temps = map temporary_name (seq 0 (List.length temps))
  /\ NoDup (map snd temps)
  /\ forall compile_terminal_form transformer_visit list_set b,
      LocalKernelBuilder.__init__ compile_terminal_form transformer_visit
        list_set expression = Py.Ok b ->
      LocalKernelBuilder.temps b = temps.
Proof.
  intros Hid. cbn zeta.
  destruct (temporaries_of_traversal expression (Utils.traverse_dags [expression]))
    as (Hk & Hl & Hn).
  set (temps := LocalKernelBuilder.init_temps _) in *.
  assert (Hsame : forall i, In i (terminal_ids (Utils.traverse_dags [expression]))
                            <-> In i (terminal_ids (subterms expression))).
  { intros i. unfold terminal_ids. rewrite !in_map_iff.
    split; intros (t & Ht & Hin); exists t; (split; [exact Ht|]);
      apply filter_In in Hin; apply filter_In; destruct Hin as [Hin Hb];
      (split; [|exact Hb]); now apply (traverse_dags_reachable expression Hid). }
  destruct (first_occurrences_spec (terminal_ids (Utils.traverse_dags [expression])))
    as [Hnd Hin].
  split; [|split; [|split; [|split; [|split; [|split]]]]].
  - rewrite Hl. apply NoDup_same_length; try apply NoDup_nodup.
    intros i. rewrite !nodup_In. apply Hsame.
  - rewrite Hk. exact Hnd.
  - intros i. rewrite Hk, Hin. apply Hsame.
  - exact Hk.
  - exact Hn.
  - rewrite Hn. apply NoDup_map_injective; [|apply seq_NoDup].
    intros n m. apply temporary_name_inj.
  - intros compile visit list_set b. unfold LocalKernelBuilder.__init__.
    destruct (Slate.variable_layers _); [discriminate|].
    unfold LocalKernelBuilder._setup.
    destruct (LocalKernelBuilder.setup_loop _ _ _ _); cbn [Py.bind];
      [|discriminate].
    intros H; injection H as <-. reflexivity.
Qed.

Lemma shared_identities_respected : identities_respected Examples.shared.
Proof.
  intros a b Ha Hb. simpl in Ha, Hb.
  repeat (destruct Ha as [<-|Ha]; [|]); try contradiction;
  repeat (destruct Hb as [<-|Hb]; [|]); try contradiction;
  intros H; try reflexivity; discriminate H.
Qed.

(** In [A33 * B33 + A33] the two terminals get [T0] and [T1]. *)
Lemma temporaries_one_per_terminal_witness :
  match LocalKernelBuilder.__init__ Examples.compile_cell Examples.visit
          Examples.in_order Examples.shared with
  | Py.Ok b =>
      List.length (LocalKernelBuilder.temps b) = 2
      /\ map snd (LocalKernelBuilder.temps b) = ["T0"; "T1"]
  | Py.Raise _ => False
  end.
Proof.
  destruct (temporaries_one_per_terminal Examples.shared
              shared_identities_respected) as (Hl & _ & _ & _ & Hn & _ & Hb).
  specialize (Hb Examples.compile_cell Examples.visit Examples.in_order).
  destruct (LocalKernelBuilder.__init__ _ _ _ _) as [b|e] eqn:E.
  - rewrite (Hb b eq_refl). split; [exact Hl|]. rewrite Hn, Hl. reflexivity.
  - vm_compute in E. discriminate E.
Defined.

(** *** Coefficient packing *)

Lemma sum_from (xs : list Z) (a : Z) :
  fold_left Z.add xs a = (a + Py.sum xs)%Z.
Proof.
  unfold Py.sum. revert a. induction xs as [|x xs IH]; intros a; simpl.
  - lia.
  - rewrite IH, (IH x). lia.
Qed.

Lemma sum_cons (x : Z) (xs : list Z) : Py.sum (x :: xs) = (x + Py.sum xs)%Z.
Proof. unfold Py.sum at 1. simpl. apply sum_from. Qed.

Lemma sum_app (xs ys : list Z) : Py.sum (xs ++ ys) = (Py.sum xs + Py.sum ys)%Z.
Proof.
  induction xs as [|x xs IH]; simpl; [reflexivity|].
  rewrite !sum_cons, IH. lia.
Qed.

Lemma sum_permutation (xs ys : list Z) :
  Permutation xs ys -> Py.sum xs = Py.sum ys.
Proof.
  induction 1; rewrite ?sum_cons in *; lia.
Qed.

Lemma sum_firstn_succ (xs : list Z) (j : nat) :
  j < List.length xs ->
  Py.sum (firstn (S j) xs) = (Py.sum (firstn j xs) + nth j xs 0)%Z.
Proof.
  revert j. induction xs as [|x xs IH]; intros j Hj; simpl in Hj; [lia|].
  destruct j as [|j].
  - reflexivity.
  - change (firstn (S (S j)) (x :: xs)) with (x :: firstn (S j) xs).
    change (firstn (S j) (x :: xs)) with (x :: firstn j xs).
    rewrite !sum_cons, IH by lia. simpl. lia.
Qed.

(** With positive blocks, the sum of the first [j] blocks grows with [j]. *)
Lemma sum_firstn_mono (xs : list Z) (j k : nat) :
  Forall (fun s => 0 < s)%Z xs -> j <= k -> k <= List.length xs ->
  (Py.sum (firstn j xs) <= Py.sum (firstn k xs))%Z.
Proof.
  intros Hpos Hjk Hk. induction Hjk as [|k Hjk IH]; [lia|].
  rewrite sum_firstn_succ by lia.
  assert (0 < nth k xs 0)%Z.
  { rewrite Forall_forall in Hpos. apply Hpos. apply nth_In. lia. }
  specialize (IH ltac:(lia)). lia.
Qed.

Lemma coeff_key_eqb_eq (a b : CoeffKey) : coeff_key_eqb a b = true -> a = b.
Proof.
  destruct a, b; simpl; try discriminate; intros H.
  - apply Z.eqb_eq in H. now subst.
  - apply Nat.eqb_eq in H. now subst.
Qed.

Lemma entries_app (cv cv' : coefficient_vecs_t) :
  entries (cv ++ cv') = entries cv ++ entries cv'.
Proof. unfold entries. apply flat_map_app. Qed.

(** Filing a record adds it to the records, under the key given. *)
Lemma entries_setdefault_append (cv : coefficient_vecs_t) (k : CoeffKey)
      (x : CoefficientInfo.t) :
  Permutation (entries (Py.setdefault_append coeff_key_eqb cv k x))
              (entries cv ++ [(k, x)]).
Proof.
  induction cv as [|[k' xs] cv IH]; simpl.
  - reflexivity.
  - destruct (coeff_key_eqb k' k) eqn:E.
    + apply coeff_key_eqb_eq in E. subst k'.
      change (entries ((k, xs ++ [x]) :: cv))
        with (map (pair k) (xs ++ [x]) ++ entries cv).
      change (entries ((k, xs) :: cv)) with (map (pair k) xs ++ entries cv).
      rewrite map_app. cbn [map]. rewrite <- !app_assoc.
      apply Permutation_app_head. apply Permutation_app_comm.
    + change (entries ((k', xs) :: Py.setdefault_append coeff_key_eqb cv k x))
        with (map (pair k') xs ++ entries (Py.setdefault_append coeff_key_eqb cv k x)).
      change (entries ((k', xs) :: cv)) with (map (pair k') xs ++ entries cv).
      rewrite <- app_assoc. now apply Permutation_app_head.
Qed.

(** The packing loop started at sub-space [s] and offset [off], over the
    remaining block sizes [l]: it adds one record per block. *)
Lemma pack_fold (tensor : Slate.TensorBase) (local_temp : LocalTemp)
      (total : Z) (l : list Z) :
  forall (s : nat) (off : Z) (cv : coefficient_vecs_t),
    Permutation
      (entries
         (fst (fold_left
                 (fun (st : coefficient_vecs_t * Z) (ish : nat * Z) =>
                    let '(cv, offset) := st in
                    let '(i, shape) := ish in
                    (Py.setdefault_append coeff_key_eqb cv (KShape shape)
                       {| CoefficientInfo.space_index := i;
                          CoefficientInfo.offset_index := offset;
                          CoefficientInfo.shape := [total];
                          CoefficientInfo.vector := tensor;
                          CoefficientInfo.local_temp := local_temp |},
                     (offset + shape)%Z))
                 (combine (seq s (List.length l)) l) (cv, off))))
      (entries cv
       ++ map (fun j =>
                 (KShape (nth j l 0%Z),
                  {| CoefficientInfo.space_index := s + j;
                     CoefficientInfo.offset_index := (off + Py.sum (firstn j l))%Z;
                     CoefficientInfo.shape := [total];
                     CoefficientInfo.vector := tensor;
                     CoefficientInfo.local_temp := local_temp |}))
              (seq 0 (List.length l))).
Proof.
  induction l as [|x l IH]; intros s off cv.
  - simpl. now rewrite app_nil_r.
  - cbn [List.length seq combine fold_left].
    rewrite IH. rewrite entries_setdefault_append, <- app_assoc.
    apply Permutation_app_head. cbn [app map].
    replace (s + 0) with s by lia.
    change (firstn 0 (x :: l)) with (@nil Z).
    change (Py.sum []) with 0%Z. rewrite Z.add_0_r. cbn [nth].
    apply perm_skip. rewrite <- seq_shift, map_map.
    apply Permutation_refl'. apply map_ext. intros j.
    cbn [nth firstn]. rewrite sum_cons.
    replace (S s + j) with (s + S j) by lia.
    now rewrite Z.add_assoc.
Qed.

(** The packing loop of [__init__] adds the records the design asks for. *)
Lemma pack_loop_entries (tensor : Slate.TensorBase) (local_temp : LocalTemp)
      (shapes : list Z) (cv : coefficient_vecs_t) :
  Permutation (entries (fst (pack_loop tensor local_temp shapes cv)))
              (entries cv ++ packing_records tensor local_temp shapes).
Proof.
  unfold pack_loop, Py.enumerate, packing_records.
  rewrite (pack_fold tensor local_temp (Py.sum shapes) shapes 0 0%Z cv).
  apply Permutation_app_head. apply Permutation_refl'. apply map_ext.
  intros j. reflexivity.
Qed.

Lemma Permutation_filter_compat {X : Type} (p : X -> bool) (l l' : list X) :
  Permutation l l' -> Permutation (filter p l) (filter p l').
Proof.
  induction 1 as [|x l l' H IH|x y l|l l' l'' H IH H' IH']; simpl.
  - constructor.
  - destruct (p x); [now constructor | exact IH].
  - destruct (p x), (p y); try reflexivity. apply perm_swap.
  - now transitivity (filter p l').
Qed.

(** The records of one coefficient among those of a packing. *)
Lemma packing_records_of (fid : nat) (tensor : Slate.TensorBase)
      (local_temp : LocalTemp) (shapes : list Z) :
  filter (fun r => refers_to fid (CoefficientInfo.vector (snd r)))
         (packing_records tensor local_temp shapes)
  = if refers_to fid tensor then packing_records tensor local_temp shapes else [].
Proof.
  unfold packing_records.
  induction (seq 0 (List.length shapes)) as [|j js IH]; simpl.
  - now destruct (refers_to fid tensor).
  - rewrite IH. now destruct (refers_to fid tensor).
Qed.

Lemma packed_function (f : Slate.Function) (seen : list Slate.Function) :
  existsb (Slate.function_eqb f) seen = packed (Slate.function_id f) seen.
Proof.
  unfold packed, Slate.function_eqb.
  induction seen as [|g seen IH]; simpl; [reflexivity|].
  now rewrite IH, Nat.eqb_sym.
Qed.

Lemma packed_in (fid : nat) (seen : list Slate.Function) :
  packed fid seen = true <-> In fid (map Slate.function_id seen).
Proof.
  unfold packed. rewrite existsb_exists, in_map_iff.
  split; intros (g & H1 & H2).
  - exists g. apply Nat.eqb_eq in H2. auto.
  - exists g. split; [exact H2 | now apply Nat.eqb_eq].
Qed.

Lemma packed_app (fid : nat) (seen seen' : list Slate.Function) :
  packed fid (seen ++ seen') = packed fid seen || packed fid seen'.
Proof. unfold packed. apply existsb_app. Qed.

(** The dictionary and the set of packed coefficients after one more node. *)
Lemma flat_init_body_pack st t :
  let st' := LocalKernelBuilder.init_body st t in
  let seen := LocalKernelBuilder.init_seen_coeff st in
  let cv := LocalKernelBuilder.init_coeff_vecs st in
  match t with
  | Slate.AssembledVector _ f =>
      if packed (Slate.function_id f) seen then
        LocalKernelBuilder.init_coeff_vecs st' = cv
        /\ LocalKernelBuilder.init_seen_coeff st' = seen
      else
        LocalKernelBuilder.init_coeff_vecs st'
        = fst (pack_loop t (AstSymbol (packed_temp_name (List.length seen)))
                 (shapes_of f) cv)
        /\ LocalKernelBuilder.init_seen_coeff st' = seen ++ [f]
  | _ =>
      LocalKernelBuilder.init_coeff_vecs st' = cv
      /\ LocalKernelBuilder.init_seen_coeff st' = seen
  end.
Proof.
  cbn zeta. unfold LocalKernelBuilder.init_body.
  destruct t; try (split; reflexivity).
  rewrite packed_function.
  destruct (packed _ _); cbn [negb]; [split; reflexivity|].
  unfold packed_temp_name.
  destruct (pack_loop _ _ _ _); split; reflexivity.
Qed.

Lemma in_packing_records r tensor local_temp shapes :
  In r (packing_records tensor local_temp shapes) ->
  exists j,
    j < List.length shapes
    /\ r = (KShape (nth j shapes 0%Z),
            {| CoefficientInfo.space_index := j;
               CoefficientInfo.offset_index := Py.sum (firstn j shapes);
               CoefficientInfo.shape := [Py.sum shapes];
               CoefficientInfo.vector := tensor;
               CoefficientInfo.local_temp := local_temp |}).
Proof.
  unfold packing_records. intros H. apply in_map_iff in H.
  destruct H as (j & <- & Hj). apply in_seq in Hj. exists j. split; [lia|reflexivity].
Qed.

Lemma refers_to_unique (fid fid' : nat) (t : Slate.TensorBase) :
  refers_to fid t = true -> refers_to fid' t = true -> fid = fid'.
Proof.
  destruct t; simpl; try discriminate.
  intros H H'. apply Nat.eqb_eq in H, H'. congruence.
Qed.

(** The loop of [__init__] maintains the invariant. *)
Lemma flat_init_body_invariant st t :
  packing_invariant (LocalKernelBuilder.init_seen_coeff st)
                    (LocalKernelBuilder.init_coeff_vecs st) ->
  packing_invariant
    (LocalKernelBuilder.init_seen_coeff (LocalKernelBuilder.init_body st t))
    (LocalKernelBuilder.init_coeff_vecs (LocalKernelBuilder.init_body st t)).
Proof.
  intros [Hnd Hent]. pose proof (flat_init_body_pack st t) as H. cbn zeta in H.
  destruct t as [| i f | | | | | | | | ];
    try (destruct H as [-> ->]; split; assumption).
  destruct (packed (Slate.function_id f) _) eqn:Ep;
    destruct H as [-> ->]; [split; assumption|].
  split.
  - rewrite map_app. apply NoDup_app; [exact Hnd | repeat constructor; simpl; tauto|].
    intros x Hx [<-|[]]. apply packed_in in Hx. congruence.
  - intros r Hr.
    apply (Permutation_in _ (pack_loop_entries _ _ _ _)) in Hr.
    apply in_app_iff in Hr. destruct Hr as [Hr|Hr].
    + destruct (Hent r Hr) as (fid & H1 & H2). exists fid.
      split; [exact H1|]. rewrite packed_app, H2. reflexivity.
    + apply in_packing_records in Hr. destruct Hr as (j & _ & ->).
      exists (Slate.function_id f). cbn. rewrite Nat.eqb_refl. split; [reflexivity|].
      rewrite packed_app. cbn. rewrite Nat.eqb_refl. apply orb_true_r.
Qed.

Lemma flat_init_loop_invariant dag st :
  packing_invariant (LocalKernelBuilder.init_seen_coeff st)
                    (LocalKernelBuilder.init_coeff_vecs st) ->
  packing_invariant
    (LocalKernelBuilder.init_seen_coeff (fold_left LocalKernelBuilder.init_body dag st))
    (LocalKernelBuilder.init_coeff_vecs (fold_left LocalKernelBuilder.init_body dag st)).
Proof.
  revert st. induction dag as [|t dag IH]; intros st H; simpl; [exact H|].
  apply IH. now apply flat_init_body_invariant.
Qed.

Lemma flat_init_start_invariant expression :
  packing_invariant
    (LocalKernelBuilder.init_seen_coeff (LocalKernelBuilder.init_start expression))
    (LocalKernelBuilder.init_coeff_vecs (LocalKernelBuilder.init_start expression)).
Proof. split; [constructor | intros r []]. Qed.

(** A coefficient that has not been packed has no record. *)
Lemma not_packed_no_entries (fid : nat) seen cv :
  packing_invariant seen cv -> packed fid seen = false -> entries_of fid cv = [].
Proof.
  intros [_ Hent] Hp. unfold entries_of.
  induction (entries cv) as [|r rs IH]; simpl; [reflexivity|].
  destruct (refers_to fid (CoefficientInfo.vector (snd r))) eqn:Er.
  - destruct (Hent r (or_introl eq_refl)) as (fid' & H1 & H2).
    rewrite (refers_to_unique _ _ _ Er H1) in Hp. congruence.
  - apply IH. intros r' Hr'. apply Hent. now right.
Qed.

(** Once a coefficient is packed, no later node changes its records: the
    packer never packs it again. *)
Lemma packed_stays (fid : nat) dag :
  forall st,
    packed fid (LocalKernelBuilder.init_seen_coeff st) = true ->
    let st' := fold_left LocalKernelBuilder.init_body dag st in
    packed fid (LocalKernelBuilder.init_seen_coeff st') = true
    /\ Permutation (entries_of fid (LocalKernelBuilder.init_coeff_vecs st'))
                   (entries_of fid (LocalKernelBuilder.init_coeff_vecs st)).
Proof.
  induction dag as [|t dag IH]; intros st Hp; cbn zeta; simpl.
  - split; [exact Hp | reflexivity].
  - pose proof (flat_init_body_pack st t) as H. cbn zeta in H.
    assert (Hstep : packed fid (LocalKernelBuilder.init_seen_coeff
                                  (LocalKernelBuilder.init_body st t)) = true
                    /\ Permutation
                         (entries_of fid (LocalKernelBuilder.init_coeff_vecs
                                            (LocalKernelBuilder.init_body st t)))
                         (entries_of fid (LocalKernelBuilder.init_coeff_vecs st))).
    { destruct t as [| i f | | | | | | | | ];
        try (destruct H as [-> ->]; split; [exact Hp | reflexivity]).
      destruct (packed (Slate.function_id f) _) eqn:Ef;
        destruct H as [-> ->]; [split; [exact Hp | reflexivity]|].
      split; [rewrite packed_app, Hp; reflexivity|].
      unfold entries_of.
      rewrite (Permutation_filter_compat _ _ _ (pack_loop_entries _ _ _ _)).
      rewrite filter_app, packing_records_of. cbn [refers_to].
      destruct (Nat.eqb_spec (Slate.function_id f) fid) as [E|_];
        [rewrite E in Ef; congruence | now rewrite app_nil_r]. }
    destruct Hstep as [Hp' Hperm].
    destruct (IH _ Hp') as [H1 H2]. split; [exact H1|].
    now rewrite H2.
Qed.

(** A coefficient no node refers to is not packed. *)
Lemma not_referred_not_packed (fid : nat) dag :
  (forall t, In t dag -> refers_to fid t = false) ->
  forall st,
    packed fid (LocalKernelBuilder.init_seen_coeff st) = false ->
    packed fid (LocalKernelBuilder.init_seen_coeff
                  (fold_left LocalKernelBuilder.init_body dag st)) = false.
Proof.
  induction dag as [|t dag IH]; intros Hdag st Hp; simpl; [exact Hp|].
  apply IH; [intros t' Ht'; apply Hdag; now right|].
  pose proof (flat_init_body_pack st t) as H. cbn zeta in H.
  pose proof (Hdag t (or_introl eq_refl)) as Ht.
  destruct t as [| i f | | | | | | | | ];
    try (destruct H as [_ ->]; exact Hp).
  destruct (packed (Slate.function_id f) _); destruct H as [_ ->]; [exact Hp|].
  rewrite packed_app, Hp. cbn in *. now rewrite Ht.
Qed.

(** The records of a coefficient are those packed at its first reference,
    and the coefficient is in [seen_coeff] once. *)
Lemma records_of_first_reference expression before i f after :
  (forall t, In t before -> refers_to (Slate.function_id f) t = false) ->
  let first := Slate.AssembledVector i f in
  let st := LocalKernelBuilder.init_loop expression (before ++ first :: after) in
  let k := List.length (LocalKernelBuilder.init_seen_coeff
                          (LocalKernelBuilder.init_loop expression before)) in
  Permutation
    (entries_of (Slate.function_id f) (LocalKernelBuilder.init_coeff_vecs st))
    (packing_records first (AstSymbol (packed_temp_name k)) (shapes_of f))
  /\ count_occ Nat.eq_dec
       (map Slate.function_id (LocalKernelBuilder.init_seen_coeff st))
       (Slate.function_id f) = 1.
Proof.
  intros Hbefore. cbn zeta. unfold LocalKernelBuilder.init_loop.
  rewrite fold_left_app. cbn [fold_left].
  set (st1 := fold_left LocalKernelBuilder.init_body before
                (LocalKernelBuilder.init_start expression)).
  assert (Inv1 : packing_invariant (LocalKernelBuilder.init_seen_coeff st1)
                                   (LocalKernelBuilder.init_coeff_vecs st1))
    by (apply flat_init_loop_invariant, flat_init_start_invariant).
  assert (Hp1 : packed (Slate.function_id f)
                       (LocalKernelBuilder.init_seen_coeff st1) = false)
    by (apply not_referred_not_packed; [exact Hbefore | reflexivity]).
  pose proof (flat_init_body_pack st1 (Slate.AssembledVector i f)) as H.
  cbv beta iota zeta in H. rewrite Hp1 in H. destruct H as [Hcv Hseen].
  set (st2 := LocalKernelBuilder.init_body st1 (Slate.AssembledVector i f)) in *.
  assert (Hp2 : packed (Slate.function_id f)
                       (LocalKernelBuilder.init_seen_coeff st2) = true).
  { rewrite Hseen, packed_app. cbn. rewrite Nat.eqb_refl. apply orb_true_r. }
  destruct (packed_stays (Slate.function_id f) after st2 Hp2) as [Hp3 Hperm].
  split.
  - rewrite Hperm, Hcv. unfold entries_of.
    rewrite (Permutation_filter_compat _ _ _ (pack_loop_entries _ _ _ _)).
    rewrite filter_app, packing_records_of.
    fold (entries_of (Slate.function_id f) (LocalKernelBuilder.init_coeff_vecs st1)).
    rewrite (not_packed_no_entries _ _ _ Inv1 Hp1).
    cbn [refers_to]. now rewrite Nat.eqb_refl.
  - apply NoDup_count_occ'; [|now apply packed_in].
    apply (flat_init_loop_invariant after st2).
    apply flat_init_body_invariant. exact Inv1.
Qed.

Lemma flat_init_coefficient_vecs compile visit list_set expression b :
  LocalKernelBuilder.__init__ compile visit list_set expression = Py.Ok b ->
  LocalKernelBuilder.coefficient_vecs b
  = LocalKernelBuilder.init_coeff_vecs
      (LocalKernelBuilder.init_loop expression (Utils.traverse_dags [expression])).
Proof.
  unfold LocalKernelBuilder.__init__.
  destruct (Slate.variable_layers _); [discriminate|].
  unfold LocalKernelBuilder._setup.
  destruct (LocalKernelBuilder.setup_loop _ _ _ _); cbn [Py.bind]; [|discriminate].
  intros H; injection H as <-. reflexivity.
Qed.

(** C3. When a coefficient is referenced by two assembled vectors (or
    more), the records of the coefficient are one set, packed when the
    traversal meets the first of them: one record per sub-block, all naming
    that first vector and one packed temporary [VecTempk], [k] being the
    number of coefficients packed before; the coefficient is in
    [seen_coeff] once. *)
Theorem coefficient_packed_once
        (expression : Slate.TensorBase)
        (before between after : list Slate.TensorBase)
        (i1 i2 : Slate.NodeInfo) (f f' : Slate.Function) :
  Slate.function_id f' = Slate.function_id f ->
  (forall t, In t before -> refers_to (Slate.function_id f) t = false) ->
  let first := Slate.AssembledVector i1 f in
  let second := Slate.AssembledVector i2 f' in
  let dag := before ++ first :: between ++ second :: after in
  let st := LocalKernelBuilder.init_loop expression dag in
  let k := List.length (LocalKernelBuilder.init_seen_coeff
                          (LocalKernelBuilder.init_loop expression before)) in
  let records :=
    entries_of (Slate.function_id f) (LocalKernelBuilder.init_coeff_vecs st) in
  Permutation records
    (packing_records first (AstSymbol (packed_temp_name k)) (shapes_of f))
  /\ List.length records = List.length (shapes_of f)
  /\ (forall r, In r records ->
                CoefficientInfo.local_temp (snd r) = AstSymbol (packed_temp_name k)
                /\ CoefficientInfo.vector (snd r) = first)
  /\ count_occ Nat.eq_dec
       (map Slate.function_id (LocalKernelBuilder.init_seen_coeff st))
       (Slate.function_id f) = 1
  /\ forall compile_terminal_form transformer_visit list_set b,
      Utils.traverse_dags [expression] = dag ->
      LocalKernelBuilder.__init__ compile_terminal_form transformer_visit
        list_set expression = Py.Ok b ->
      LocalKernelBuilder.coefficient_vecs b = LocalKernelBuilder.init_coeff_vecs st.
Proof.
  intros _ Hbefore. cbn zeta.
  destruct (records_of_first_reference expression before i1 f
              (between ++ Slate.AssembledVector i2 f' :: after) Hbefore)
    as [Hperm Hcount].
  split; [exact Hperm|]. split; [|split; [|split; [exact Hcount|]]].
  - rewrite (Permutation_length Hperm). unfold packing_records.
    now rewrite length_map, length_seq.
  - intros r Hr. apply (Permutation_in _ Hperm) in Hr.
    apply in_packing_records in Hr. destruct Hr as (j & _ & ->). split; reflexivity.
  - intros compile visit list_set b Hdag Hb.
    rewrite (flat_init_coefficient_vecs _ _ _ _ _ Hb), Hdag. reflexivity.
Qed.

(** In [A33 * v1 + B33 * v2] the traversal meets [v2] first: the three
    records of the coefficient name [v2] and [VecTemp0]. *)
Lemma coefficient_packed_once_witness :
  match LocalKernelBuilder.__init__ Examples.compile_cell Examples.visit
          Examples.in_order Examples.action with
  | Py.Ok b =>
      let records := entries_of 7 (LocalKernelBuilder.coefficient_vecs b) in
      List.length records = 3
      /\ forall r, In r records ->
                   CoefficientInfo.local_temp (snd r) = AstSymbol "VecTemp0"
                   /\ CoefficientInfo.vector (snd r) = Examples.v2
  | Py.Raise _ => False
  end.
Proof.
  destruct (coefficient_packed_once Examples.action
              [Examples.action; Slate.Mul (Examples.node 18 [3]%Z) Examples.B33 Examples.v2]
              [Examples.B33; Slate.Mul (Examples.node 17 [3]%Z) Examples.A33 Examples.v1]
              [Examples.A33]
              (Examples.node 6 [11]%Z) (Examples.node 5 [11]%Z) Examples.g Examples.g
              eq_refl)
    as (_ & Hl & Hr & _ & Hb).
  { intros t [<-|[<-|[]]]; reflexivity. }
  specialize (Hb Examples.compile_cell Examples.visit Examples.in_order).
  destruct (LocalKernelBuilder.__init__ _ _ _ _) as [b|e] eqn:E.
  - cbn zeta. rewrite (Hb b eq_refl eq_refl). split; [exact Hl | exact Hr].
  - vm_compute in E. discriminate E.
Defined.

Lemma map_nth_seq (l : list Z) :
  map (fun j => nth j l 0%Z) (seq 0 (List.length l)) = l.
Proof.
  induction l as [|x l IH]; [reflexivity|].
  cbn [List.length seq map nth]. f_equal.
  rewrite <- seq_shift, map_map. exact IH.
Qed.

(** C4. The records of a packed coefficient whose blocks have positive
    sizes, taken in the order of their sub-space index: there is one per
    sub-block; the first starts at offset zero; a record ends where or
    before every later one starts, so offsets increase strictly and blocks
    do not overlap; the last one ends at the total length, which is the sum
    of the block sizes and the length every record states for the packed
    temporary. *)
Theorem packing_offsets
        (expression : Slate.TensorBase) (before after : list Slate.TensorBase)
        (i : Slate.NodeInfo) (f : Slate.Function) :
  (forall t, In t before -> refers_to (Slate.function_id f) t = false) ->
  Forall (fun size => 0 < size)%Z (shapes_of f) ->
  let st := LocalKernelBuilder.init_loop expression
              (before ++ Slate.AssembledVector i f :: after) in
  let records :=
    entries_of (Slate.function_id f) (LocalKernelBuilder.init_coeff_vecs st) in
  let index r := CoefficientInfo.space_index (snd r) in
  let offset r := CoefficientInfo.offset_index (snd r) in
  let total := Py.sum (map block_size records) in
  List.length records = List.length (shapes_of f)
  /\ NoDup (map index records)
  /\ total = Py.sum (shapes_of f)
  /\ (forall r, In r records ->
        CoefficientInfo.shape (snd r) = [total]
        /\ (0 < block_size r)%Z
        /\ (0 <= offset r)%Z
        /\ (offset r + block_size r <= total)%Z)
  /\ (forall r, In r records -> index r = 0 -> offset r = 0%Z)
  /\ (forall r r', In r records -> In r' records -> index r < index r' ->
        (offset r < offset r')%Z
        /\ (offset r + block_size r <= offset r')%Z)
  /\ (forall r, In r records -> S (index r) = List.length records ->
        (offset r + block_size r)%Z = total).
Proof.
  intros Hbefore Hpos. cbn zeta.
  destruct (records_of_first_reference expression before i f after Hbefore)
    as [Hperm _].
  set (records := entries_of _ _) in *.
  set (PR := packing_records _ _ _) in *.
  set (shapes := shapes_of f) in *.
  assert (Hlen : List.length records = List.length shapes).
  { rewrite (Permutation_length Hperm). unfold PR, packing_records.
    now rewrite length_map, length_seq. }
  assert (Htotal : Py.sum (map block_size records) = Py.sum shapes).
  { rewrite (sum_permutation _ _ (Permutation_map block_size Hperm)).
    unfold PR, packing_records. rewrite map_map. cbn [block_size fst].
    now rewrite map_nth_seq. }
  assert (Hin : forall r, In r records ->
            exists j, j < List.length shapes
                      /\ CoefficientInfo.space_index (snd r) = j
                      /\ CoefficientInfo.offset_index (snd r) = Py.sum (firstn j shapes)
                      /\ block_size r = nth j shapes 0%Z
                      /\ CoefficientInfo.shape (snd r) = [Py.sum shapes]).
  { intros r Hr. apply (Permutation_in _ Hperm) in Hr.
    apply in_packing_records in Hr. destruct Hr as (j & Hj & ->).
    exists j. repeat split; auto. }
  assert (Hsize : forall j, j < List.length shapes -> (0 < nth j shapes 0)%Z).
  { intros j Hj. rewrite Forall_forall in Hpos. apply Hpos. now apply nth_In. }
  assert (Hend : forall j, j < List.length shapes ->
            (Py.sum (firstn j shapes) + nth j shapes 0 <= Py.sum shapes)%Z).
  { intros j Hj. rewrite <- sum_firstn_succ by exact Hj.
    rewrite <- (firstn_all shapes) at 2.
    apply sum_firstn_mono; [exact Hpos | lia | lia]. }
  split; [exact Hlen|]. split; [|split; [exact Htotal|]].
  - apply (Permutation_NoDup
             (Permutation_sym (Permutation_map
                (fun r => CoefficientInfo.space_index (snd r)) Hperm))).
    unfold PR, packing_records. rewrite map_map. cbn [snd CoefficientInfo.space_index].
    rewrite map_id. apply seq_NoDup.
  - rewrite Htotal. split; [|split; [|split]].
    + intros r Hr. destruct (Hin r Hr) as (j & Hj & Hi & Ho & Hb & Hs).
      rewrite Hs, Ho, Hb. split; [reflexivity|]. split; [now apply Hsize|].
      split; [|now apply Hend].
      change 0%Z with (Py.sum (firstn 0 shapes)).
      apply sum_firstn_mono; [exact Hpos | lia | lia].
    + intros r Hr H0. destruct (Hin r Hr) as (j & Hj & Hi & Ho & _).
      rewrite Ho. rewrite Hi in H0. subst j. reflexivity.
    + intros r r' Hr Hr' Hlt.
      destruct (Hin r Hr) as (j & Hj & Hi & Ho & Hb & _).
      destruct (Hin r' Hr') as (j' & Hj' & Hi' & Ho' & _).
      rewrite Hi, Hi' in Hlt. rewrite Ho, Ho', Hb.
      assert (Py.sum (firstn (S j) shapes) <= Py.sum (firstn j' shapes))%Z
        by (apply sum_firstn_mono; [exact Hpos | lia | lia]).
      rewrite sum_firstn_succ in H by exact Hj.
      pose proof (Hsize j Hj). lia.
    + intros r Hr Hlast. destruct (Hin r Hr) as (j & Hj & Hi & Ho & Hb & _).
      rewrite Ho, Hb, <- sum_firstn_succ by exact Hj.
      rewrite Hi, Hlen in Hlast. rewrite Hlast. now rewrite firstn_all.
Qed.

(** The coefficient of [A33 * v1 + B33 * v2] has blocks of sizes 3, 5 and
    3: its records are at offsets 0, 3 and 8 of a temporary of length 11. *)
Lemma packing_offsets_witness :
  let records :=
    entries_of 7
      (LocalKernelBuilder.init_coeff_vecs
         (LocalKernelBuilder.init_loop Examples.action
            (Utils.traverse_dags [Examples.action]))) in
  List.length records = 3
  /\ Py.sum (map block_size records) = 11%Z
  /\ map (fun r => (CoefficientInfo.space_index (snd r),
                    CoefficientInfo.offset_index (snd r), block_size r)) records
     = [(0, 0%Z, 3%Z); (2, 8%Z, 3%Z); (1, 3%Z, 5%Z)].
Proof.
  cbn zeta.
  destruct (packing_offsets Examples.action
              [Examples.action; Slate.Mul (Examples.node 18 [3]%Z) Examples.B33 Examples.v2]
              [Examples.B33; Slate.Mul (Examples.node 17 [3]%Z) Examples.A33 Examples.v1;
               Examples.v1; Examples.A33]
              (Examples.node 6 [11]%Z) Examples.g)
    as (Hl & _ & Ht & _).
  { intros t [<-|[<-|[]]]; reflexivity. }
  { repeat constructor. }
  change (Utils.traverse_dags [Examples.action])
    with ([Examples.action; Slate.Mul (Examples.node 18 [3]%Z) Examples.B33 Examples.v2]
            ++ Slate.AssembledVector (Examples.node 6 [11]%Z) Examples.g
            :: [Examples.B33; Slate.Mul (Examples.node 17 [3]%Z) Examples.A33 Examples.v1;
                Examples.v1; Examples.A33]).
  split; [exact Hl|]. split; [|reflexivity].
  transitivity (Py.sum (shapes_of Examples.g)); [exact Ht | reflexivity].
Defined.

(** *** Determinism *)

Lemma for_each_ext {S X : Type} (body body' : S -> X -> Py.result S)
      (xs : list X) :
  (forall st x, body st x = body' st x) ->
  forall st, Py.for_each body xs st = Py.for_each body' xs st.
Proof.
  intros H. induction xs as [|x xs IH]; intros st; simpl; [reflexivity|].
  rewrite H. destruct (body' st x); simpl; [apply IH | reflexivity].
Qed.

Lemma flat_setup_loop_ext visit visit' expression temps ctxs :
  (forall c, visit c = visit' c) ->
  LocalKernelBuilder.setup_loop visit expression temps ctxs
  = LocalKernelBuilder.setup_loop visit' expression temps ctxs.
Proof.
  intros Hv. unfold LocalKernelBuilder.setup_loop. apply for_each_ext.
  intros st ctx. unfold LocalKernelBuilder.setup_cxt_kernel.
  destruct (negb _); [reflexivity|].
  match goal with |- Py.bind ?m _ = _ => destruct m as [st1|] end;
    cbn [Py.bind]; [|reflexivity].
  apply for_each_ext. intros s sk. unfold LocalKernelBuilder.setup_split_kernel.
  destruct (Py.map_result _ _); cbn [Py.bind]; [|reflexivity].
  destruct (Py.lookup _ temps _); cbn [Py.bind]; [|reflexivity].
  match goal with |- Py.bind ?m _ = _ => destruct m as [[ac sc]|] end;
    cbn [Py.bind]; [|reflexivity].
  now rewrite Hv.
Qed.

Lemma flat_context_kernels_ext compile compile' temps :
  (forall t prefix, compile t prefix true = compile' t prefix true) ->
  LocalKernelBuilder.init_context_kernels compile temps
  = LocalKernelBuilder.init_context_kernels compile' temps.
Proof.
  intros Hc. unfold LocalKernelBuilder.init_context_kernels. f_equal.
  apply map_ext. intros ie. apply Hc.
Qed.

(** C10. Two flat builders constructed from the same graph, each with its
    own form compiler and kernel transformer that answer alike, and each
    with its own iteration order of sets, either raise the same exception or
    hold the same temporaries (keys and names), the same buckets with the
    same calls in the same order, the same packing records, reference
    counts, kernels and flags, and report the same costs. *)
Theorem builder_deterministic
        (compile compile' : Tsfc.compiler)
        (visit visit' : Tsfc.KernelCode -> Tsfc.KernelCode)
        (list_set list_set' : list string -> list string)
        (expression : Slate.TensorBase) :
  (forall t prefix, compile t prefix true = compile' t prefix true) ->
  (forall c, visit c = visit' c) ->
  match LocalKernelBuilder.__init__ compile visit list_set expression,
        LocalKernelBuilder.__init__ compile' visit' list_set' expression with
  | Py.Ok b, Py.Ok b' =>
      LocalKernelBuilder.temps b = LocalKernelBuilder.temps b'
      /\ LocalKernelBuilder.assembly_calls b = LocalKernelBuilder.assembly_calls b'
      /\ LocalKernelBuilder.coefficient_vecs b = LocalKernelBuilder.coefficient_vecs b'
      /\ LocalKernelBuilder.ref_counter b = LocalKernelBuilder.ref_counter b'
      /\ LocalKernelBuilder.expression_dag b = LocalKernelBuilder.expression_dag b'
      /\ LocalKernelBuilder.context_kernels b = LocalKernelBuilder.context_kernels b'
      /\ LocalKernelBuilder.templated_subkernels b
         = LocalKernelBuilder.templated_subkernels b'
      /\ LocalKernelBuilder.oriented b = LocalKernelBuilder.oriented b'
      /\ LocalKernelBuilder.needs_cell_sizes b = LocalKernelBuilder.needs_cell_sizes b'
      /\ LocalKernelBuilder.needs_cell_facets b = LocalKernelBuilder.needs_cell_facets b'
      /\ LocalKernelBuilder.needs_mesh_layers b = LocalKernelBuilder.needs_mesh_layers b'
      /\ LocalKernelBuilder.terminal_flops (LocalKernelBuilder.expression b)
           (LocalKernelBuilder.context_kernels b)
         = LocalKernelBuilder.terminal_flops (LocalKernelBuilder.expression b')
             (LocalKernelBuilder.context_kernels b')
  | Py.Raise e, Py.Raise e' => e = e'
  | _, _ => False
  end.
Proof.
  intros Hc Hv. unfold LocalKernelBuilder.__init__.
  destruct (Slate.variable_layers _); [reflexivity|].
  unfold LocalKernelBuilder._setup.
  rewrite (flat_context_kernels_ext compile compile' _ Hc).
  rewrite (flat_setup_loop_ext visit visit' _ _ _ Hv).
  destruct (LocalKernelBuilder.setup_loop _ _ _ _) as [st|e]; cbn [Py.bind];
    [|reflexivity].
  unfold LocalKernelBuilder.needs_cell_facets, LocalKernelBuilder.needs_mesh_layers.
  cbn. repeat split.
Qed.

(** The two builders of [A33 * B33 + A33], one iterating sets in the order
    of insertion and one in the reverse order, hold the same temporaries and
    the same buckets. *)
Lemma builder_deterministic_witness :
  match LocalKernelBuilder.__init__ Examples.compile_facet Examples.visit
          Examples.in_order Examples.shared,
        LocalKernelBuilder.__init__ Examples.compile_facet Examples.visit
          Examples.reversed Examples.shared with
  | Py.Ok b, Py.Ok b' =>
      LocalKernelBuilder.temps b = LocalKernelBuilder.temps b'
      /\ LocalKernelBuilder.assembly_calls b = LocalKernelBuilder.assembly_calls b'
  | _, _ => False
  end.
Proof.
  pose proof (builder_deterministic Examples.compile_facet Examples.compile_facet
                Examples.visit Examples.visit Examples.in_order Examples.reversed
                Examples.shared (fun _ _ => eq_refl) (fun _ => eq_refl)) as H.
  destruct (LocalKernelBuilder.__init__ _ _ Examples.in_order _) as [b|e] eqn:E;
    [|vm_compute in E; discriminate E].
  destruct (LocalKernelBuilder.__init__ _ _ Examples.reversed _) as [b'|e'];
    [|exact H].
  destruct H as (H1 & H2 & _). split; assumption.
Defined.


(** *** The two builders compared *)

(** C1 (as stated) fails: for a terminal with an integral over the exterior
    facets the flat builder returns and the loopy builder raises
    [ValueError]. *)
Lemma builders_disagree :
  Py.is_ok (LocalKernelBuilder.__init__ Examples.compile_ds Examples.visit
              Examples.in_order Examples.A33) = true
  /\ LocalLoopyKernelBuilder.__init__ Examples.compile_ds Examples.in_order
       Examples.A33
     = Py.Raise (Py.ValueError "Unhandled integral type exterior_facet")
  /\ ~ builders_agree Examples.compile_ds Examples.visit Examples.in_order
         Examples.A33.
Proof.
  assert (H1 : Py.is_ok (LocalKernelBuilder.__init__ Examples.compile_ds
                           Examples.visit Examples.in_order Examples.A33) = true)
    by (vm_compute; reflexivity).
  assert (H2 : LocalLoopyKernelBuilder.__init__ Examples.compile_ds
                 Examples.in_order Examples.A33
               = Py.Raise (Py.ValueError "Unhandled integral type exterior_facet"))
    by (vm_compute; reflexivity).
  split; [exact H1|]. split; [exact H2|].
  unfold builders_agree. rewrite H2.
  destruct (LocalKernelBuilder.__init__ _ _ _ _); [tauto | discriminate H1].
Qed.

Lemma map_result_length {X Y : Type} (f : X -> Py.result Y) (xs : list X)
      (ys : list Y) :
  Py.map_result f xs = Py.Ok ys -> List.length ys = List.length xs.
Proof.
  revert ys. induction xs as [|x xs IH]; intros ys H; simpl in H.
  - injection H as <-. reflexivity.
  - destruct (f x) as [y|]; cbn [Py.bind] in H; [|discriminate].
    destruct (Py.map_result f xs) as [ys'|]; cbn [Py.bind] in H; [|discriminate].
    injection H as <-. simpl. f_equal. now apply IH.
Qed.

Lemma map_result_in {X Y : Type} (f : X -> Py.result Y) (xs : list X)
      (ys : list Y) :
  Py.map_result f xs = Py.Ok ys ->
  forall y, In y ys -> exists x, In x xs /\ f x = Py.Ok y.
Proof.
  revert ys. induction xs as [|x xs IH]; intros ys H; simpl in H.
  - injection H as <-. intros y [].
  - destruct (f x) as [y0|] eqn:E; cbn [Py.bind] in H; [|discriminate].
    destruct (Py.map_result f xs) as [ys'|]; cbn [Py.bind] in H; [|discriminate].
    injection H as <-. intros y [<-|Hy].
    + exists x. split; [now left | exact E].
    + destruct (IH ys' eq_refl y Hy) as (x' & Hx' & Hf). exists x'. split; auto.
      now right.
Qed.

Lemma getitem_in {X : Type} (xs : list X) (i : nat) (x : X) :
  Py.getitem xs i = Py.Ok x -> In x xs.
Proof.
  unfold Py.getitem. destruct (nth_error xs i) eqn:E; [|discriminate].
  intros H; injection H as <-. eapply nth_error_In; eauto.
Qed.

(** Membership in a dictionary of temporaries depends on its keys only. *)
Lemma contains_keys {V V' : Type} (d : list (Slate.TensorBase * V))
      (d' : list (Slate.TensorBase * V')) (t : Slate.TensorBase) :
  map fst d = map fst d' ->
  Py.contains Slate.tensor_eqb d t = Py.contains Slate.tensor_eqb d' t.
Proof.
  intros H. rewrite !contains_temps.
  replace (map (fun p => Slate.nid (fst p)) d) with (map Slate.nid (map fst d))
    by now rewrite map_map.
  replace (map (fun p => Slate.nid (fst p)) d') with (map Slate.nid (map fst d'))
    by now rewrite map_map.
  now rewrite H.
Qed.

Lemma names_of_keys {X : Type} (name : X -> string) (d : list (string * list X)) :
  map fst (names_of name d) = map fst d.
Proof. unfold names_of. rewrite map_map. reflexivity. Qed.

Lemma names_of_get {X : Type} (name : X -> string) (d : list (string * list X))
      (k : string) :
  Py.get String.eqb (names_of name d) k
  = option_map (map name) (Py.get String.eqb d k).
Proof.
  induction d as [|[k' xs] d IH]; simpl; [reflexivity|].
  destruct (String.eqb k' k); [reflexivity | exact IH].
Qed.

Lemma names_of_setitem {X : Type} (name : X -> string)
      (d : list (string * list X)) (k : string) (xs : list X) :
  names_of name (Py.setitem String.eqb d k xs)
  = Py.setitem String.eqb (names_of name d) k (map name xs).
Proof.
  induction d as [|[k' ys] d IH]; simpl; [reflexivity|].
  destruct (String.eqb k' k); simpl; [reflexivity | now rewrite IH].
Qed.

(** Appending to the bucket [k] of two bucket maps that call the same
    kernels: if it works in one it works in the other, and the maps still
    call the same kernels. *)
Lemma append_at_agree {X Y : Type} (name : X -> string) (name' : Y -> string)
      (d : list (string * list X)) (d' d1' : list (string * list Y))
      (k : string) (x : X) (y : Y) :
  names_of name d = names_of name' d' ->
  name x = name' y ->
  LocalLoopyKernelBuilder.append_at d' k y = Py.Ok d1' ->
  exists d1,
    LocalKernelBuilder.append_at d k x = Py.Ok d1
    /\ names_of name d1 = names_of name' d1'.
Proof.
  intros Hd Hxy. unfold LocalLoopyKernelBuilder.append_at,
    LocalKernelBuilder.append_at, Py.lookup.
  pose proof (names_of_get name d k) as Hg.
  pose proof (names_of_get name' d' k) as Hg'.
  rewrite Hd, Hg' in Hg.
  destruct (Py.get String.eqb d' k) as [ys|]; cbn [Py.bind]; [|discriminate].
  intros H; injection H as <-.
  destruct (Py.get String.eqb d k) as [xs|]; [|discriminate Hg].
  cbn [Py.bind]. eexists. split; [reflexivity|].
  rewrite !names_of_setitem, Hd, !map_app. cbn [map].
  simpl in Hg. injection Hg as Hg. now rewrite Hg, Hxy.
Qed.

Lemma setdefault_append_keys (cv : coefficient_vecs_t) (k k' : CoeffKey)
      (x : CoefficientInfo.t) :
  In k' (map fst (Py.setdefault_append coeff_key_eqb cv k x)) ->
  In k' (map fst cv) \/ k' = k.
Proof.
  induction cv as [|[k0 xs] cv IH]; simpl.
  - intros [<-|[]]. now right.
  - destruct (coeff_key_eqb k0 k); simpl; intros [<-|H]; auto.
    destruct (IH H); auto.
Qed.

Lemma pack_loop_keyed tensor local_temp shapes cv :
  keyed_by_shape cv -> keyed_by_shape (fst (pack_loop tensor local_temp shapes cv)).
Proof.
  unfold pack_loop. generalize (Py.enumerate shapes) as l. generalize 0%Z as off.
  generalize (Py.sum shapes) as total.
  intros total off l. revert off cv.
  induction l as [|[i shape] l IH]; intros off cv Hk; simpl; [exact Hk|].
  apply IH. intros k Hin. apply setdefault_append_keys in Hin.
  destruct Hin as [Hin| ->]; [now apply Hk | eauto].
Qed.

Lemma keyed_lookup_function (cv : coefficient_vecs_t) (fid : nat) :
  keyed_by_shape cv ->
  Py.lookup coeff_key_eqb cv (KFunction fid) = Py.Raise Py.KeyError.
Proof.
  unfold Py.lookup. intros Hk.
  induction cv as [|[k xs] cv IH]; simpl; [reflexivity|].
  destruct (Hk k (or_introl eq_refl)) as [size ->]. simpl.
  apply IH. intros k' Hk'. apply Hk. now right.
Qed.

(** What [gem.Indexed] returns, and when: the shape has the extents of
    the indices. *)
Lemma forallb_combine_eq (extents shape : list Z) :
  List.length shape = List.length extents ->
  forallb (fun ie : Z * Z => Z.eqb (fst ie) (snd ie)) (combine extents shape)
  = true ->
  shape = extents.
Proof.
  revert shape; induction extents as [|e extents IH]; intros [|d shape];
    simpl; try discriminate; [reflexivity|].
  intros Hl H. apply andb_true_iff in H. destruct H as [He H].
  apply Z.eqb_eq in He. subst d. f_equal. apply IH; [congruence | exact H].
Qed.

Lemma gem_Indexed_inv name shape extents x :
  gem_Indexed name shape extents = Py.Ok x ->
  x = {| variable_name := name; variable_shape := shape;
         index_extents := extents |}
  /\ shape = extents.
Proof.
  unfold gem_Indexed.
  destruct (Nat.eqb _ _) eqn:El; cbn [negb]; [|discriminate].
  destruct (forallb _ _) eqn:Ef; [|discriminate].
  intros H. injection H as <-. split; [reflexivity|].
  apply Nat.eqb_eq in El. now apply forallb_combine_eq.
Qed.

Lemma gem_Indexed_ok name shape :
  gem_Indexed name shape shape
  = Py.Ok {| variable_name := name; variable_shape := shape;
             index_extents := shape |}.
Proof.
  unfold gem_Indexed. rewrite Nat.eqb_refl. cbn [negb].
  assert (H : forallb (fun ie : Z * Z => Z.eqb (fst ie) (snd ie))
                      (combine shape shape) = true).
  { induction shape as [|d shape IH]; simpl; [reflexivity|].
    now rewrite Z.eqb_refl, IH. }
  now rewrite H.
Qed.

(** What a step of the loop of the loopy [__init__] did when it returned. *)
Lemma loopy_init_body_inv st t st' :
  LocalLoopyKernelBuilder.init_body st t = Py.Ok st' ->
  LocalLoopyKernelBuilder.init_temps st'
  = (if Slate.is_Tensor t then
       Py.setdefault Slate.tensor_eqb (LocalLoopyKernelBuilder.init_temps st) t
         {| variable_name :=
              temporary_name (List.length (LocalLoopyKernelBuilder.init_temps st));
            variable_shape := Slate.shape t;
            index_extents := [3; 3]%Z |}
     else LocalLoopyKernelBuilder.init_temps st)
  /\ (keyed_by_shape (LocalLoopyKernelBuilder.init_coeff_vecs st) ->
      keyed_by_shape (LocalLoopyKernelBuilder.init_coeff_vecs st')).
Proof.
  unfold LocalLoopyKernelBuilder.init_body. intros H.
  destruct t as [ i | i f | | | | | | | | ]; cbn [Slate.is_Tensor] in *.
  2:{ cbn [Py.bind] in H.
      destruct (Py.lookup _ _ _); cbn [Py.bind] in H; [|discriminate].
      destruct (LocalLoopyKernelBuilder.init_shape_var st); cbn [Py.bind] in H;
        [|discriminate].
      destruct (negb _).
      - destruct (pack_loop _ _ _ _) as [cv' off] eqn:Ep.
        injection H as <-. split; [reflexivity|]. cbn.
        intros Hk. change cv' with (fst (cv', off)). rewrite <- Ep.
        now apply pack_loop_keyed.
      - injection H as <-. split; [reflexivity | auto]. }
  1:{ destruct (gem_Indexed _ _ _) as [indexed|] eqn:Eg; cbn [Py.bind] in H;
        [|discriminate].
      apply gem_Indexed_inv in Eg. destruct Eg as [-> _].
      destruct (Py.lookup _ _ _); cbn [Py.bind] in H; [|discriminate].
      injection H as <-. split; [reflexivity | auto]. }
  all: cbn [Py.bind] in H; injection H as <-; split; [reflexivity | auto].
Qed.

(** The two loops of [__init__] over the same nodes allocate the same
    temporaries, for the same nodes and under the same names. *)
Lemma init_loops_agree dag :
  forall s s' s1',
    map fst (LocalKernelBuilder.init_temps s)
    = map fst (LocalLoopyKernelBuilder.init_temps s') ->
    map snd (LocalKernelBuilder.init_temps s)
    = map (fun p => variable_name (snd p)) (LocalLoopyKernelBuilder.init_temps s') ->
    keyed_by_shape (LocalLoopyKernelBuilder.init_coeff_vecs s') ->
    Py.for_each LocalLoopyKernelBuilder.init_body dag s' = Py.Ok s1' ->
    let s1 := fold_left LocalKernelBuilder.init_body dag s in
    map fst (LocalKernelBuilder.init_temps s1)
    = map fst (LocalLoopyKernelBuilder.init_temps s1')
    /\ map snd (LocalKernelBuilder.init_temps s1)
       = map (fun p => variable_name (snd p)) (LocalLoopyKernelBuilder.init_temps s1')
    /\ keyed_by_shape (LocalLoopyKernelBuilder.init_coeff_vecs s1').
Proof.
  induction dag as [|t dag IH]; intros s s' s1' Hk Hn Hcv H; cbn zeta; simpl in *.
  - injection H as <-. auto.
  - destruct (LocalLoopyKernelBuilder.init_body s' t) as [s2'|] eqn:E;
      cbn [Py.bind] in H; [|discriminate].
    apply loopy_init_body_inv in E. destruct E as [Et Ecv].
    apply (IH (LocalKernelBuilder.init_body s t) s2' s1'); auto.
    + rewrite flat_init_body_temps, Et.
      destruct (Slate.is_Tensor t); [|exact Hk].
      unfold Py.setdefault. rewrite (contains_keys _ _ t Hk).
      destruct (Py.contains _ _ _); [exact Hk|].
      rewrite !map_app, Hk. reflexivity.
    + rewrite flat_init_body_temps, Et.
      destruct (Slate.is_Tensor t); [|exact Hn].
      unfold Py.setdefault. rewrite (contains_keys _ _ t Hk).
      destruct (Py.contains _ _ _); [exact Hn|].
      rewrite !map_app, Hn. cbn [map snd variable_name].
      assert (Hl : List.length (LocalKernelBuilder.init_temps s)
                   = List.length (LocalLoopyKernelBuilder.init_temps s')).
      { rewrite <- (length_map fst (LocalKernelBuilder.init_temps s)), Hk.
        apply length_map. }
      now rewrite Hl.
Qed.

(** What a step of the inner loop of the loopy builder did when it
    returned: the terminal is not mixed, the integral is over cells with
    no subdomain, no coefficient had a component to look up, and one call
    went to the bucket of the integral type. *)
Lemma loopy_inner_inv gdict cv ctx temp st inner st' :
  keyed_by_shape cv ->
  LocalLoopyKernelBuilder.setup_inner gdict cv ctx temp st inner = Py.Ok st' ->
  Slate.is_mixed (Tsfc.tensor ctx) = false
  /\ Tsfc.original_integral_type ctx = "cell"
  /\ Tsfc.subdomain_id (Tsfc.kinfo inner) = Tsfc.otherwise
  /\ (exists local_coefficients,
         Py.map_result (Py.getitem (Tsfc.coefficients ctx))
           (Tsfc.coefficient_map (Tsfc.kinfo inner)) = Py.Ok local_coefficients
         /\ List.concat (map Slate.split local_coefficients) = [])
  /\ (exists call,
         called call = Tsfc.name (Tsfc.kernel (Tsfc.kinfo inner))
         /\ LocalLoopyKernelBuilder.append_at
              (LocalLoopyKernelBuilder.st_assembly_calls st)
              (Tsfc.original_integral_type ctx) call
            = Py.Ok (LocalLoopyKernelBuilder.st_assembly_calls st'))
  /\ LocalLoopyKernelBuilder.st_coords st' = LocalLoopyKernelBuilder.st_coords st
  /\ LocalLoopyKernelBuilder.st_needs_cell_orientations st'
     = LocalLoopyKernelBuilder.st_needs_cell_orientations st
       || Tsfc.oriented (Tsfc.kinfo inner)
  /\ LocalLoopyKernelBuilder.st_needs_cell_sizes st'
     = LocalLoopyKernelBuilder.st_needs_cell_sizes st
       || Tsfc.needs_cell_sizes (Tsfc.kinfo inner)
  /\ LocalLoopyKernelBuilder.st_integral_type st'
     = LocalLoopyKernelBuilder.st_integral_type st.
Proof.
  intros Hcv. unfold LocalLoopyKernelBuilder.setup_inner. intros H.
  destruct (Slate.is_mixed _); [discriminate|].
  destruct (Py.lookup _ gdict temp) as [garg|]; cbn [Py.bind] in H; [|discriminate].
  destruct (Py.map_result (Py.getitem _) _) as [lcs|] eqn:El; cbn [Py.bind] in H;
    [|discriminate].
  destruct (List.concat (map Slate.split lcs)) as [|c cs] eqn:Ec.
  2:{ cbn [Py.map_result] in H. rewrite keyed_lookup_function in H by exact Hcv.
      discriminate H. }
  cbn [Py.map_result Py.bind] in H.
  destruct (LocalLoopyKernelBuilder.read_loop _ _) as [indices reads].
  destruct (String.eqb_spec (Tsfc.original_integral_type ctx) "cell") as [Ecell|];
    [|discriminate].
  destruct (Tsfc.subdomain_id (Tsfc.kinfo inner)); [|discriminate].
  cbn [Tsfc.is_otherwise negb Py.bind] in H.
  destruct (LocalLoopyKernelBuilder.append_at _ _ _) as [ac|] eqn:Ea;
    cbn [Py.bind] in H; [|discriminate].
  injection H as <-. cbn.
  split; [reflexivity|]. split; [exact Ecell|]. split; [reflexivity|].
  split; [exists lcs; auto|].
  split; [eexists; split; [|exact Ea]; reflexivity|].
  repeat split.
Qed.

Lemma concat_nil_all {X : Type} (ls : list (list X)) :
  List.concat ls = [] -> forall l, In l ls -> l = [].
Proof.
  induction ls as [|l0 ls IH]; simpl; [intros _ l []|].
  intros H l [<-|Hl]; apply app_eq_nil in H; destruct H; auto.
Qed.

(** One sub-kernel: where the loopy builder files a call, the flat builder
    files a call to the same kernel in the same bucket. *)
Lemma inner_step_agrees visit e temps gdict cv ctx ctx' temp temp' k k' s s' s1' :
  keyed_by_shape cv ->
  Tsfc.tensor ctx = Tsfc.tensor ctx' ->
  Tsfc.coefficients ctx = Tsfc.coefficients ctx' ->
  Tsfc.original_integral_type ctx = Tsfc.original_integral_type ctx' ->
  (forall f, In f (Tsfc.coefficients ctx') -> Slate.split f <> []) ->
  Py.lookup Slate.tensor_eqb temps (Tsfc.tensor ctx) = Py.Ok temp ->
  kernels_alike k k' ->
  setup_states_agree s s' ->
  LocalLoopyKernelBuilder.setup_inner gdict cv ctx' temp' s' k' = Py.Ok s1' ->
  exists s1,
    LocalKernelBuilder.setup_split_kernel visit e temps ctx s k = Py.Ok s1
    /\ setup_states_agree s1 s1'.
Proof.
  intros Hcv Ht Hc Hit Hsplit Htemp
         (Hi & Hkt & Hor & Hsd & Hcm & Hncs & Hname & Hnode)
         (Ra & Rs & Rc & Ro & Rn) H.
  destruct (loopy_inner_inv _ _ _ _ _ _ _ Hcv H)
    as (_ & Hcell & Hother & (lcs & El & Ec) & (call' & Hcalled & Ea)
        & Sc & So & Sn & _).
  assert (Hnil : Tsfc.coefficient_map (Tsfc.kinfo k') = []).
  { destruct lcs as [|y lcs].
    - apply map_result_length in El. simpl in El.
      destruct (Tsfc.coefficient_map (Tsfc.kinfo k')); [reflexivity|discriminate].
    - exfalso. destruct (map_result_in _ _ _ El y (or_introl eq_refl)) as (x & _ & Hx).
      apply getitem_in in Hx. apply (Hsplit y Hx).
      apply (concat_nil_all _ Ec). now left. }
  unfold LocalKernelBuilder.setup_split_kernel.
  rewrite Hcm, Hnil. cbn [Py.map_result Py.bind]. rewrite Htemp. cbn [Py.bind].
  rewrite Hsd, Hother, Hit.
  match goal with
  | |- context [LocalKernelBuilder.append_at ?d ?key (LocalKernelBuilder.Call ?c)] =>
      destruct (append_at_agree entry_name called d
                  (LocalLoopyKernelBuilder.st_assembly_calls s')
                  (LocalLoopyKernelBuilder.st_assembly_calls s1')
                  key (LocalKernelBuilder.Call c) call' Ra)
        as (ac & Hac & Hnames)
  end.
  { cbn [entry_name function_name]. now rewrite Hcalled, Hname. }
  { exact Ea. }
  rewrite Hac. cbn [Py.bind]. rewrite Hnode. cbn [negb].
  eexists. split; [reflexivity|].
  unfold setup_states_agree. cbn.
  split; [exact Hnames|]. split; [exact Rs|]. split; [now rewrite Sc|].
  split; [now rewrite So, Ro, Hor | now rewrite Sn, Rn, Hncs].
Qed.

Lemma inner_loops_agree visit e temps gdict cv ctx ctx' temp temp' ks ks' :
  keyed_by_shape cv ->
  Tsfc.tensor ctx = Tsfc.tensor ctx' ->
  Tsfc.coefficients ctx = Tsfc.coefficients ctx' ->
  Tsfc.original_integral_type ctx = Tsfc.original_integral_type ctx' ->
  (forall f, In f (Tsfc.coefficients ctx') -> Slate.split f <> []) ->
  Py.lookup Slate.tensor_eqb temps (Tsfc.tensor ctx) = Py.Ok temp ->
  Forall2 kernels_alike ks ks' ->
  forall s s' s1',
    setup_states_agree s s' ->
    Py.for_each (LocalLoopyKernelBuilder.setup_inner gdict cv ctx' temp') ks' s'
    = Py.Ok s1' ->
    exists s1,
      Py.for_each (LocalKernelBuilder.setup_split_kernel visit e temps ctx) ks s
      = Py.Ok s1
      /\ setup_states_agree s1 s1'.
Proof.
  intros Hcv Ht Hc Hit Hsplit Htemp Hks.
  induction Hks as [|k k' ks ks' Hk Hks IH]; intros s s' s1' R H; simpl in *.
  - injection H as <-. exists s. auto.
  - destruct (LocalLoopyKernelBuilder.setup_inner _ _ _ _ s' k') as [s2'|] eqn:E;
      cbn [Py.bind] in H; [|discriminate].
    destruct (inner_step_agrees visit e temps gdict cv ctx ctx' temp temp'
                k k' s s' s2' Hcv Ht Hc Hit Hsplit Htemp Hk R E) as (s2 & E2 & R2).
    rewrite E2. cbn [Py.bind]. now apply (IH s2 s2' s1').
Qed.

Lemma lookup_of_contains {V : Type} (d : list (Slate.TensorBase * V))
      (t : Slate.TensorBase) :
  Py.contains Slate.tensor_eqb d t = true ->
  exists v, Py.lookup Slate.tensor_eqb d t = Py.Ok v.
Proof.
  unfold Py.contains, Py.lookup.
  destruct (Py.get _ d t) as [v|]; [eauto | discriminate].
Qed.

(** One context kernel: where the loopy builder returns, so does the flat
    builder, in a corresponding state. *)
Lemma cxt_step_agrees visit e temps temps' gdict cv c c' s s' s1' :
  keyed_by_shape cv ->
  map fst temps = map fst temps' ->
  compiled_alike c c' ->
  (forall f, In f (Tsfc.coefficients c') -> Slate.split f <> []) ->
  setup_states_agree s s' ->
  LocalLoopyKernelBuilder.setup_cxt_kernel temps' gdict cv s' c' = Py.Ok s1' ->
  exists s1,
    LocalKernelBuilder.setup_cxt_kernel visit e temps s c = Py.Ok s1
    /\ setup_states_agree s1 s1'.
Proof.
  intros Hcv Hkeys (Ht & Hc & Hit & Hks) Hsplit (Ra & Rs & Rc & Ro & Rn) H.
  unfold LocalLoopyKernelBuilder.setup_cxt_kernel in H.
  destruct (Py.lookup _ temps' _) as [temp'|] eqn:El; cbn [Py.bind] in H;
    [|discriminate].
  assert (Hin : Py.contains Slate.tensor_eqb temps (Tsfc.tensor c) = true).
  { rewrite (contains_keys _ _ _ Hkeys), Ht. unfold Py.contains, Py.lookup in *.
    destruct (Py.get _ temps' _); [reflexivity | discriminate]. }
  destruct (lookup_of_contains _ _ Hin) as [temp Htemp].
  unfold LocalKernelBuilder.setup_cxt_kernel. rewrite Hit, Ht.
  change LocalKernelBuilder.supported_integral_types
    with LocalLoopyKernelBuilder.supported_integral_types.
  destruct (negb _); [discriminate|].
  rewrite Rc.
  match type of H with
  | Py.bind ?m _ = _ => destruct m as [coords|] eqn:Ec
  end; cbn [Py.bind] in H; [|discriminate].
  rewrite <- Ht in *.
  destruct (LocalLoopyKernelBuilder.st_coords s') as [c0|].
  - destruct (Slate.function_eqb _ c0); [|discriminate].
    injection Ec as <-. cbn [Py.bind].
    eapply inner_loops_agree; eauto.
    repeat split; cbn; auto.
  - injection Ec as <-. cbn [Py.bind].
    eapply inner_loops_agree; eauto.
    repeat split; cbn; auto.
Qed.

Lemma setup_loops_agree visit e temps temps' gdict cv cs cs' :
  keyed_by_shape cv ->
  map fst temps = map fst temps' ->
  Forall2 compiled_alike cs cs' ->
  (forall c f, In c cs' -> In f (Tsfc.coefficients c) -> Slate.split f <> []) ->
  forall s s' s1',
    setup_states_agree s s' ->
    Py.for_each (LocalLoopyKernelBuilder.setup_cxt_kernel temps' gdict cv) cs' s'
    = Py.Ok s1' ->
    exists s1,
      Py.for_each (LocalKernelBuilder.setup_cxt_kernel visit e temps) cs s
      = Py.Ok s1
      /\ setup_states_agree s1 s1'.
Proof.
  intros Hcv Hkeys Hcs.
  induction Hcs as [|c c' cs cs' Hc Hcs IH]; intros Hsplit s s' s1' R H; simpl in *.
  - injection H as <-. exists s. auto.
  - destruct (LocalLoopyKernelBuilder.setup_cxt_kernel _ _ _ s' c') as [s2'|] eqn:E;
      cbn [Py.bind] in H; [|discriminate].
    destruct (cxt_step_agrees visit e temps temps' gdict cv c c' s s' s2'
                Hcv Hkeys Hc (fun f => Hsplit c' f (or_introl eq_refl)) R E)
      as (s2 & E2 & R2).
    rewrite E2. cbn [Py.bind].
    apply (IH (fun c0 f H0 => Hsplit c0 f (or_intror H0)) s2 s2' s1' R2 H).
Qed.

(** The context kernels the two builders ask the compiler for. *)
Lemma context_kernels_alike compile temps temps' :
  compiler_consistent compile ->
  map fst temps = map fst temps' ->
  Forall2 compiled_alike
    (LocalKernelBuilder.init_context_kernels compile temps)
    (LocalLoopyKernelBuilder.init_context_kernels compile temps')
  /\ forall c f,
      In c (LocalLoopyKernelBuilder.init_context_kernels compile temps') ->
      In f (Tsfc.coefficients c) -> Slate.split f <> [].
Proof.
  intros Hcomp. unfold LocalKernelBuilder.init_context_kernels,
    LocalLoopyKernelBuilder.init_context_kernels, Py.enumerate.
  generalize 0 as n. revert temps'.
  induction temps as [|[t v] temps IH]; intros [|[t' v'] temps'] n Hk;
    try discriminate Hk.
  - simpl. split; [constructor | intros c f []].
  - simpl in Hk. injection Hk as <- Hk.
    cbn [List.length seq combine map List.concat fst snd].
    destruct (IH temps' (S n) Hk) as [H1 H2].
    destruct (Hcomp t ("subkernel" ++ Py.fmt_d n ++ "_")%string) as [Ha Hs].
    split.
    + apply Forall2_app; assumption.
    + intros c f Hc Hf. apply in_app_iff in Hc. destruct Hc as [Hc|Hc].
      * eapply Hs; eauto.
      * eapply H2; eauto.
Qed.

Lemma plain_buckets_names {X Y : Type} (name : X -> string) (name' : Y -> string)
      (d : list (string * list X)) (d' : list (string * list Y)) :
  names_of name d = names_of name' d' ->
  plain_buckets name d = plain_buckets name' d'.
Proof.
  intros H. unfold plain_buckets. apply map_ext. intros it.
  now rewrite <- !names_of_get, H.
Qed.

(** Where the loopy builder returns, the flat builder returns, and the two
    hold corresponding temporaries, buckets and flags. *)
Lemma flat_builder_follows_loopy
        (compile : Tsfc.compiler)
        (visit : Tsfc.KernelCode -> Tsfc.KernelCode)
        (list_set : list string -> list string)
        (expression : Slate.TensorBase) (b' : LocalLoopyKernelBuilder.t) :
  compiler_consistent compile ->
  LocalLoopyKernelBuilder.__init__ compile list_set expression = Py.Ok b' ->
  exists b,
    LocalKernelBuilder.__init__ compile visit list_set expression = Py.Ok b
    /\ map fst (LocalKernelBuilder.temps b)
       = map fst (LocalLoopyKernelBuilder.temps b')
    /\ map snd (LocalKernelBuilder.temps b)
       = map (fun p => variable_name (snd p)) (LocalLoopyKernelBuilder.temps b')
    /\ plain_buckets entry_name (LocalKernelBuilder.assembly_calls b)
       = plain_buckets called (LocalLoopyKernelBuilder.assembly_calls b')
    /\ (forall sd, In sd LocalKernelBuilder.supported_subdomain_types ->
                   Py.get String.eqb (LocalKernelBuilder.assembly_calls b) sd
                   = Some [])
    /\ LocalKernelBuilder.oriented b
       = LocalLoopyKernelBuilder.needs_cell_orientations b'
    /\ LocalKernelBuilder.needs_cell_sizes b
       = LocalLoopyKernelBuilder.needs_cell_sizes b'.
Proof.
  intros Hcomp. unfold LocalLoopyKernelBuilder.__init__, LocalKernelBuilder.__init__.
  destruct (Slate.variable_layers _); [discriminate|].
  set (dag := Utils.traverse_dags [expression]).
  destruct (LocalLoopyKernelBuilder.init_loop expression dag) as [init'|] eqn:Ei;
    cbn [Py.bind]; [|discriminate].
  destruct (init_loops_agree dag (LocalKernelBuilder.init_start expression)
              (LocalLoopyKernelBuilder.init_start expression) init'
              eq_refl eq_refl) as (Hkeys & Hnames & Hcv).
  { intros k []. }
  { exact Ei. }
  fold (LocalKernelBuilder.init_loop expression dag) in Hkeys, Hnames.
  set (init := LocalKernelBuilder.init_loop expression dag) in *.
  unfold LocalLoopyKernelBuilder._setup, LocalKernelBuilder._setup.
  destruct (context_kernels_alike compile _ _ Hcomp Hkeys) as [Halike Hsplit].
  destruct (LocalLoopyKernelBuilder.setup_loop _ _ _ _) as [s'|] eqn:Es;
    cbn [Py.bind]; [|discriminate].
  destruct (setup_loops_agree visit expression (LocalKernelBuilder.init_temps init)
              (LocalLoopyKernelBuilder.init_temps init')
              (LocalLoopyKernelBuilder.init_gem_loopy_dict init')
              (LocalLoopyKernelBuilder.init_coeff_vecs init') _ _
              Hcv Hkeys Halike Hsplit
              LocalKernelBuilder.setup_start LocalLoopyKernelBuilder.setup_start s')
    as (s & Esf & (Ra & Rs & Rc & Ro & Rn)).
  { repeat split. }
  { exact Es. }
  fold (LocalKernelBuilder.setup_loop visit expression
          (LocalKernelBuilder.init_temps init)
          (LocalKernelBuilder.init_context_kernels compile
             (LocalKernelBuilder.init_temps init))) in Esf.
  rewrite Esf. cbn [Py.bind].
  destruct (LocalLoopyKernelBuilder.st_integral_type s'); cbn [Py.bind];
    [|discriminate].
  destruct (LocalLoopyKernelBuilder.st_kinfo s'); cbn [Py.bind]; [|discriminate].
  destruct (LocalLoopyKernelBuilder.st_reads s'); cbn [Py.bind]; [|discriminate].
  intros H; injection H as <-. eexists. split; [reflexivity|].
  cbn [LocalKernelBuilder.temps LocalLoopyKernelBuilder.temps
       LocalKernelBuilder.assembly_calls LocalLoopyKernelBuilder.assembly_calls
       LocalKernelBuilder.oriented LocalLoopyKernelBuilder.needs_cell_orientations
       LocalKernelBuilder.needs_cell_sizes LocalLoopyKernelBuilder.needs_cell_sizes].
  destruct (flat_setup_loop_keys _ _ _ _ _ Esf) as [Ka Ks].
  assert (Hup : Py.update String.eqb (LocalKernelBuilder.st_assembly_calls s)
                  (LocalKernelBuilder.st_subdomain_calls s)
                = LocalKernelBuilder.st_assembly_calls s
                  ++ LocalKernelBuilder.st_subdomain_calls s).
  { apply update_disjoint.
    - rewrite Ks. repeat constructor; simpl; intuition discriminate.
    - rewrite Ks, Ka. intros key Hk Hin. simpl in Hk, Hin.
      repeat (destruct Hk as [<-|Hk]; [repeat (destruct Hin as [Hin|Hin];
        [discriminate Hin|]); exact Hin|]). exact Hk. }
  rewrite Hup.
  split; [exact Hkeys|]. split; [exact Hnames|].
  split; [|split; [|split; [exact Ro | exact Rn]]].
  - rewrite <- (plain_buckets_names _ _ _ _ Ra).
    unfold plain_buckets. apply map_ext_in. intros it Hit.
    rewrite get_app_left; [reflexivity | now rewrite Ka].
  - intros sd Hsd. rewrite get_app_right.
    + rewrite Rs. simpl in Hsd. destruct Hsd as [<-|[<-|[]]]; reflexivity.
    + rewrite Ka. intros Hin. simpl in Hsd, Hin.
      destruct Hsd as [<-|[<-|[]]];
        repeat (destruct Hin as [Hin|Hin]; [discriminate Hin|]); exact Hin.
Qed.

(** C1 (amended). The loopy builder accepts less than the flat builder and
    agrees with it where it returns: with a form compiler that returns the
    same kernels for both, whenever the loopy builder returns on an
    expression the flat builder returns too, with temporaries for the same
    terminals under the same names, with the same kernels called in the
    same order in the bucket of every integral type, with empty subdomain
    buckets, and with the same orientation and cell-size flags; so
    whatever the flat builder rejects the loopy builder rejects, and both
    reject variable layers with the same error. *)
Theorem loopy_builder_refines_flat
        (compile : Tsfc.compiler)
        (visit : Tsfc.KernelCode -> Tsfc.KernelCode)
        (list_set : list string -> list string)
        (expression : Slate.TensorBase) :
  compiler_consistent compile ->
  (forall b',
      LocalLoopyKernelBuilder.__init__ compile list_set expression = Py.Ok b' ->
      exists b,
        LocalKernelBuilder.__init__ compile visit list_set expression = Py.Ok b
        /\ map fst (LocalKernelBuilder.temps b)
           = map fst (LocalLoopyKernelBuilder.temps b')
        /\ map snd (LocalKernelBuilder.temps b)
           = map (fun p => variable_name (snd p)) (LocalLoopyKernelBuilder.temps b')
        /\ plain_buckets entry_name (LocalKernelBuilder.assembly_calls b)
           = plain_buckets called (LocalLoopyKernelBuilder.assembly_calls b')
        /\ (forall sd, In sd LocalKernelBuilder.supported_subdomain_types ->
                       Py.get String.eqb (LocalKernelBuilder.assembly_calls b) sd
                       = Some [])
        /\ LocalKernelBuilder.oriented b
           = LocalLoopyKernelBuilder.needs_cell_orientations b'
        /\ LocalKernelBuilder.needs_cell_sizes b
           = LocalLoopyKernelBuilder.needs_cell_sizes b')
  /\ (forall e,
         LocalKernelBuilder.__init__ compile visit list_set expression = Py.Raise e ->
         exists e',
           LocalLoopyKernelBuilder.__init__ compile list_set expression
           = Py.Raise e')
  /\ (Slate.variable_layers (Slate.ufl_domain expression) = true ->
      exists e,
        LocalKernelBuilder.__init__ compile visit list_set expression = Py.Raise e
        /\ LocalLoopyKernelBuilder.__init__ compile list_set expression
           = Py.Raise e
        /\ class_of e = unsupported_configuration).
Proof.
  intros Hcomp. split; [|split].
  - intros b' Hb'. now apply flat_builder_follows_loopy.
  - intros e He.
    destruct (LocalLoopyKernelBuilder.__init__ compile list_set expression)
      as [b'|e'] eqn:E; [|eauto].
    destruct (flat_builder_follows_loopy compile visit list_set expression b'
                Hcomp E) as (b & Hb & _).
    rewrite Hb in He. discriminate He.
  - intros Hv. unfold LocalKernelBuilder.__init__, LocalLoopyKernelBuilder.__init__.
    rewrite Hv. eexists. repeat split.
Qed.

Lemma compile_cell_consistent : compiler_consistent Examples.compile_cell.
Proof.
  intros t prefix. split.
  - repeat constructor.
  - intros c f [<-|[]] [].
Qed.

(** For [A33 * B33 + A33] with cell integrals both builders return, with two
    calls in the bucket of the cell integrals. *)
Lemma loopy_builder_refines_flat_witness :
  match LocalLoopyKernelBuilder.__init__ Examples.compile_cell Examples.in_order
          Examples.shared,
        LocalKernelBuilder.__init__ Examples.compile_cell Examples.visit
          Examples.in_order Examples.shared with
  | Py.Ok b', Py.Ok b =>
      plain_buckets entry_name (LocalKernelBuilder.assembly_calls b)
      = plain_buckets called (LocalLoopyKernelBuilder.assembly_calls b')
      /\ Py.get String.eqb (LocalLoopyKernelBuilder.assembly_calls b') "cell"
         <> Some []
  | _, _ => False
  end.
Proof.
  destruct (loopy_builder_refines_flat Examples.compile_cell Examples.visit
              Examples.in_order Examples.shared compile_cell_consistent)
    as (H & _).
  destruct (LocalLoopyKernelBuilder.__init__ _ _ _) as [b'|e] eqn:E;
    [|vm_compute in E; discriminate E].
  destruct (H b' eq_refl) as (b & Hb & _ & _ & Hp & _).
  rewrite Hb. split; [exact Hp|].
  assert (Hcell : Py.Ok b' = LocalLoopyKernelBuilder.__init__ Examples.compile_cell
                               Examples.in_order Examples.shared)
    by (symmetry; exact E).
  vm_compute in Hcell. injection Hcell as ->. vm_compute. discriminate.
Defined.

(** ** Further properties of the builders *)

(** *** Reference counts *)

Lemma get_same_identity {V : Type} (d : list (Slate.TensorBase * V))
      (x t : Slate.TensorBase) :
  Slate.nid x = Slate.nid t ->
  Py.get Slate.tensor_eqb d x = Py.get Slate.tensor_eqb d t.
Proof.
  intros E. induction d as [|[k v] d IH]; simpl; [reflexivity|].
  rewrite IH. unfold Slate.tensor_eqb. now rewrite E.
Qed.

Lemma get_setitem_tensor {V : Type} (d : list (Slate.TensorBase * V))
      (x t : Slate.TensorBase) (v : V) :
  Py.get Slate.tensor_eqb (Py.setitem Slate.tensor_eqb d x v) t
  = if Slate.tensor_eqb x t then Some v else Py.get Slate.tensor_eqb d t.
Proof.
  unfold Slate.tensor_eqb.
  induction d as [|[k w] d IH]; simpl.
  - unfold Slate.tensor_eqb. reflexivity.
  - unfold Slate.tensor_eqb.
    destruct (Nat.eqb_spec (Slate.nid k) (Slate.nid x)) as [Ekx|Ekx]; simpl;
      unfold Slate.tensor_eqb.
    + rewrite Ekx. destruct (Nat.eqb_spec (Slate.nid x) (Slate.nid t)); reflexivity.
    + destruct (Nat.eqb_spec (Slate.nid k) (Slate.nid t)) as [Ekt|Ekt].
      * destruct (Nat.eqb_spec (Slate.nid x) (Slate.nid t)); [congruence|reflexivity].
      * exact IH.
Qed.

Lemma count_of_update (xs : list Slate.TensorBase) :
  forall (c : list (Slate.TensorBase * nat)) (t : Slate.TensorBase),
    count_of (counter_update c xs) t
    = count_of c t + count_occ Nat.eq_dec (map Slate.nid xs) (Slate.nid t).
Proof.
  unfold counter_update.
  induction xs as [|x xs IH]; intros c t; simpl; [lia|].
  rewrite IH. unfold count_of at 1. rewrite get_setitem_tensor.
  destruct (Slate.tensor_eqb x t) eqn:Ext; unfold Slate.tensor_eqb in Ext;
    destruct (Nat.eq_dec (Slate.nid x) (Slate.nid t)) as [E|E].
  - unfold count_of. rewrite (get_same_identity c x t E). lia.
  - apply Nat.eqb_eq in Ext; congruence.
  - apply Nat.eqb_neq in Ext; congruence.
  - reflexivity.
Qed.

Lemma counter_update_app (xs ys : list Slate.TensorBase)
      (c : list (Slate.TensorBase * nat)) :
  counter_update (counter_update c xs) ys = counter_update c (xs ++ ys).
Proof. unfold counter_update. now rewrite fold_left_app. Qed.

(** Every node the counter holds has been counted at least once. *)
Lemma counter_update_positive (xs : list Slate.TensorBase) :
  forall c : list (Slate.TensorBase * nat),
    (forall t n, Py.get Slate.tensor_eqb c t = Some n -> 1 <= n) ->
    forall t n, Py.get Slate.tensor_eqb (counter_update c xs) t = Some n -> 1 <= n.
Proof.
  unfold counter_update.
  induction xs as [|x xs IH]; intros c Hc t n; simpl; [apply Hc|].
  apply IH. intros u m. rewrite get_setitem_tensor.
  destruct (Slate.tensor_eqb x u); [intros [= <-]; lia | apply Hc].
Qed.

Lemma flat_init_body_counter st t :
  LocalKernelBuilder.init_counter (LocalKernelBuilder.init_body st t)
  = counter_update (LocalKernelBuilder.init_counter st) (Slate.operands t).
Proof.
  unfold LocalKernelBuilder.init_body.
  destruct t; try reflexivity.
  destruct (negb _); [|reflexivity].
  destruct (pack_loop _ _ _ _); reflexivity.
Qed.

Lemma flat_init_loop_counter dag :
  forall st,
    LocalKernelBuilder.init_counter (fold_left LocalKernelBuilder.init_body dag st)
    = counter_update (LocalKernelBuilder.init_counter st)
        (flat_map Slate.operands dag).
Proof.
  induction dag as [|t dag IH]; intros st; simpl; [reflexivity|].
  rewrite IH, flat_init_body_counter. apply counter_update_app.
Qed.

Lemma loopy_init_body_counter st t st' :
  LocalLoopyKernelBuilder.init_body st t = Py.Ok st' ->
  LocalLoopyKernelBuilder.init_counter st'
  = counter_update (LocalLoopyKernelBuilder.init_counter st) (Slate.operands t).
Proof.
  unfold LocalLoopyKernelBuilder.init_body. intros H.
  match type of H with Py.bind ?m _ = _ => destruct m as [[temps' gd']|] end;
    cbn [Py.bind] in H; [|discriminate].
  destruct t; try (injection H as <-; reflexivity).
  destruct (Py.lookup _ temps' _); cbn [Py.bind] in H; [|discriminate].
  destruct (LocalLoopyKernelBuilder.init_shape_var st); cbn [Py.bind] in H;
    [|discriminate].
  destruct (negb _).
  - destruct (pack_loop _ _ _ _). injection H as <-. reflexivity.
  - injection H as <-. reflexivity.
Qed.

Lemma loopy_init_loop_counter dag :
  forall st st',
    Py.for_each LocalLoopyKernelBuilder.init_body dag st = Py.Ok st' ->
    LocalLoopyKernelBuilder.init_counter st'
    = counter_update (LocalLoopyKernelBuilder.init_counter st)
        (flat_map Slate.operands dag).
Proof.
  induction dag as [|t dag IH]; intros st st' H; simpl in H.
  - injection H as <-. reflexivity.
  - destruct (LocalLoopyKernelBuilder.init_body st t) as [st1|] eqn:E;
      cbn [Py.bind] in H; [|discriminate].
    rewrite (IH _ _ H), (loopy_init_body_counter _ _ _ E). simpl.
    apply counter_update_app.
Qed.

Lemma flat_builder_fields compile visit list_set expression b :
  LocalKernelBuilder.__init__ compile visit list_set expression = Py.Ok b ->
  let dag := Utils.traverse_dags [expression] in
  let init := LocalKernelBuilder.init_loop expression dag in
  Slate.variable_layers (Slate.ufl_domain expression) = false
  /\ LocalKernelBuilder.expression b = expression
  /\ LocalKernelBuilder.expression_dag b = dag
  /\ LocalKernelBuilder.temps b = LocalKernelBuilder.init_temps init
  /\ LocalKernelBuilder.ref_counter b = LocalKernelBuilder.init_counter init
  /\ LocalKernelBuilder.coefficient_vecs b = LocalKernelBuilder.init_coeff_vecs init
  /\ LocalKernelBuilder.context_kernels b
     = LocalKernelBuilder.init_context_kernels compile
         (LocalKernelBuilder.init_temps init)
  /\ exists st,
      LocalKernelBuilder.setup_loop visit expression (LocalKernelBuilder.temps b)
        (LocalKernelBuilder.context_kernels b) = Py.Ok st
      /\ LocalKernelBuilder.assembly_calls b
         = LocalKernelBuilder.st_assembly_calls st
           ++ LocalKernelBuilder.st_subdomain_calls st
      /\ LocalKernelBuilder.templated_subkernels b
         = LocalKernelBuilder.st_templated_subkernels st
      /\ LocalKernelBuilder.include_dirs b
         = list_set (LocalKernelBuilder.st_include_dirs st)
      /\ LocalKernelBuilder.oriented b = LocalKernelBuilder.st_oriented st
      /\ LocalKernelBuilder.needs_cell_sizes b
         = LocalKernelBuilder.st_needs_cell_sizes st.
Proof.
  unfold LocalKernelBuilder.__init__.
  destruct (Slate.variable_layers _); [discriminate|].
  unfold LocalKernelBuilder._setup.
  destruct (LocalKernelBuilder.setup_loop _ _ _ _) as [st|] eqn:E; cbn [Py.bind];
    [|discriminate].
  intros H; injection H as <-. cbn.
  repeat (split; [reflexivity|]).
  exists st. split; [exact E|].
  split; [|repeat (split; [reflexivity|]); reflexivity].
  destruct (flat_setup_loop_keys _ _ _ _ _ E) as [Ka Ks].
  apply update_disjoint.
  - rewrite Ks. repeat constructor; simpl; intuition discriminate.
  - rewrite Ks, Ka. intros k Hk Hin. simpl in Hk, Hin.
    repeat (destruct Hk as [<-|Hk]; [repeat (destruct Hin as [Hin|Hin];
      [discriminate Hin|]); exact Hin|]). exact Hk.
Qed.

Lemma loopy_builder_fields compile list_set expression b :
  LocalLoopyKernelBuilder.__init__ compile list_set expression = Py.Ok b ->
  let dag := Utils.traverse_dags [expression] in
  Slate.variable_layers (Slate.ufl_domain expression) = false
  /\ exists init st kinfo,
      LocalLoopyKernelBuilder.init_loop expression dag = Py.Ok init
      /\ LocalLoopyKernelBuilder.temps b = LocalLoopyKernelBuilder.init_temps init
      /\ LocalLoopyKernelBuilder.gem_loopy_dict b
         = LocalLoopyKernelBuilder.init_gem_loopy_dict init
      /\ LocalLoopyKernelBuilder.ref_counter b
         = LocalLoopyKernelBuilder.init_counter init
      /\ LocalLoopyKernelBuilder.coefficient_vecs b
         = LocalLoopyKernelBuilder.init_coeff_vecs init
      /\ LocalLoopyKernelBuilder.context_kernels b
         = LocalLoopyKernelBuilder.init_context_kernels compile
             (LocalLoopyKernelBuilder.init_temps init)
      /\ LocalLoopyKernelBuilder.setup_loop (LocalLoopyKernelBuilder.temps b)
           (LocalLoopyKernelBuilder.gem_loopy_dict b)
           (LocalLoopyKernelBuilder.coefficient_vecs b)
           (LocalLoopyKernelBuilder.context_kernels b) = Py.Ok st
      /\ LocalLoopyKernelBuilder.assembly_calls b
         = LocalLoopyKernelBuilder.st_assembly_calls st
      /\ LocalLoopyKernelBuilder.templated_subkernels b
         = LocalLoopyKernelBuilder.st_templated_subkernels st
      /\ LocalLoopyKernelBuilder.indices b = LocalLoopyKernelBuilder.st_indices st
      /\ LocalLoopyKernelBuilder.needs_cell_orientations b
         = LocalLoopyKernelBuilder.st_needs_cell_orientations st
      /\ LocalLoopyKernelBuilder.needs_cell_sizes b
         = LocalLoopyKernelBuilder.st_needs_cell_sizes st
      /\ LocalLoopyKernelBuilder.needs_cell_facets b
         = LocalLoopyKernelBuilder.st_needs_cell_facets st
      /\ LocalLoopyKernelBuilder.needs_mesh_layers b
         = LocalLoopyKernelBuilder.st_needs_mesh_layers st
      /\ LocalLoopyKernelBuilder.st_integral_type st
         = Some (LocalLoopyKernelBuilder.integral_type b)
      /\ LocalLoopyKernelBuilder.st_kinfo st = Some kinfo
      /\ LocalLoopyKernelBuilder.oriented b = Tsfc.oriented kinfo
      /\ LocalLoopyKernelBuilder.st_reads st
         = Some (LocalLoopyKernelBuilder.reads b)
      /\ LocalLoopyKernelBuilder.include_dirs b
         = list_set (LocalLoopyKernelBuilder.st_include_dirs st).
Proof.
  unfold LocalLoopyKernelBuilder.__init__.
  destruct (Slate.variable_layers _); [discriminate|].
  destruct (LocalLoopyKernelBuilder.init_loop _ _) as [init|] eqn:Ei;
    cbn [Py.bind]; [|discriminate].
  unfold LocalLoopyKernelBuilder._setup.
  destruct (LocalLoopyKernelBuilder.setup_loop _ _ _ _) as [st|] eqn:E;
    cbn [Py.bind]; [|discriminate].
  destruct (LocalLoopyKernelBuilder.st_integral_type st) as [it|] eqn:Eit;
    cbn [Py.bind]; [|discriminate].
  destruct (LocalLoopyKernelBuilder.st_kinfo st) as [kinfo|] eqn:Ek;
    cbn [Py.bind]; [|discriminate].
  destruct (LocalLoopyKernelBuilder.st_reads st) as [reads|] eqn:Er;
    cbn [Py.bind]; [|discriminate].
  intros H; injection H as <-. cbn.
  split; [reflexivity|]. exists init, st, kinfo.
  repeat (split; [first [reflexivity | assumption]|]).
  first [reflexivity | assumption].
Qed.

(** X1. The reference counter of a builder holds, for every node, the
    number of references to it: one for the expression the builder was
    given, and one for each operand slot of a node of the traversal that
    holds the node.  A node is in the counter exactly when it is referenced,
    the expression itself always is, and both builders keep the same
    counter. *)
Theorem ref_counter_counts_references
        (expression : Slate.TensorBase) (expression_dag : list Slate.TensorBase)
        (t : Slate.TensorBase) :
  let counter :=
    LocalKernelBuilder.init_counter
      (LocalKernelBuilder.init_loop expression expression_dag) in
  count_of counter t
  = count_occ Nat.eq_dec (references expression expression_dag) (Slate.nid t)
  /\ (Py.contains Slate.tensor_eqb counter t = true
      <-> In (Slate.nid t) (references expression expression_dag))
  /\ 1 <= count_of counter expression
  /\ (forall compile visit list_set b,
         LocalKernelBuilder.__init__ compile visit list_set expression = Py.Ok b ->
         expression_dag = Utils.traverse_dags [expression] ->
         LocalKernelBuilder.ref_counter b = counter)
  /\ (forall compile list_set b,
         LocalLoopyKernelBuilder.__init__ compile list_set expression = Py.Ok b ->
         expression_dag = Utils.traverse_dags [expression] ->
         LocalLoopyKernelBuilder.ref_counter b = counter).
Proof.
  intros counter.
  assert (Hc : counter
               = counter_update [] (expression :: flat_map Slate.operands expression_dag)).
  { unfold counter, LocalKernelBuilder.init_loop.
    rewrite flat_init_loop_counter. cbn [LocalKernelBuilder.init_start
      LocalKernelBuilder.init_counter].
    rewrite counter_update_app. reflexivity. }
  assert (Hcount : forall u,
             count_of counter u
             = count_occ Nat.eq_dec (references expression expression_dag)
                 (Slate.nid u)).
  { intros u. rewrite Hc, count_of_update. reflexivity. }
  split; [apply Hcount|].
  split.
  { rewrite (count_occ_In Nat.eq_dec), <- Hcount.
    unfold Py.contains, count_of.
    destruct (Py.get Slate.tensor_eqb counter t) as [n|] eqn:E.
    - split; [intros _|reflexivity].
      rewrite Hc in E.
      apply (counter_update_positive _ []) in E; [lia|].
      intros u m; discriminate.
    - split; [discriminate | lia]. }
  split.
  { rewrite Hcount. unfold references. cbn [map count_occ].
    destruct (Nat.eq_dec _ _); [lia|congruence]. }
  split.
  - intros compile visit list_set b Hb ->.
    apply flat_builder_fields in Hb. apply Hb.
  - intros compile list_set b Hb ->.
    apply loopy_builder_fields in Hb.
    destruct Hb as (_ & init & st & kinfo & Hi & _ & _ & Hr & _).
    rewrite Hr. unfold LocalLoopyKernelBuilder.init_loop in Hi.
    rewrite (loopy_init_loop_counter _ _ _ Hi), Hc.
    cbn [LocalLoopyKernelBuilder.init_start LocalLoopyKernelBuilder.init_counter].
    rewrite counter_update_app. reflexivity.
Qed.

Lemma ref_counter_counts_references_witness :
  count_of
    (LocalKernelBuilder.init_counter
       (LocalKernelBuilder.init_loop Examples.shared
          (Utils.traverse_dags [Examples.shared])))
    Examples.A33 = 2.
Proof.
  destruct (ref_counter_counts_references Examples.shared
              (Utils.traverse_dags [Examples.shared]) Examples.A33) as [H _].
  exact (eq_trans H eq_refl).
Defined.

(** *** Packed temporaries *)

Lemma existsb_identity (x : nat) (seen : list Slate.Function) :
  existsb (Nat.eqb x) (map Slate.function_id seen) = packed x seen.
Proof.
  unfold packed. induction seen as [|g seen IH]; simpl; [reflexivity|].
  now rewrite IH, (Nat.eqb_sym x).
Qed.

Lemma flat_init_seen_from dag :
  forall st,
    map Slate.function_id
        (LocalKernelBuilder.init_seen_coeff (fold_left LocalKernelBuilder.init_body dag st))
    = fold_left (fun acc x => if existsb (Nat.eqb x) acc then acc else acc ++ [x])
        (coefficient_ids dag)
        (map Slate.function_id (LocalKernelBuilder.init_seen_coeff st)).
Proof.
  induction dag as [|t dag IH]; intros st; [reflexivity|].
  cbn [fold_left]. rewrite IH. unfold coefficient_ids at 2.
  cbn [flat_map]. rewrite fold_left_app. f_equal.
  pose proof (flat_init_body_pack st t) as Hp. cbv zeta in Hp.
  destruct t; try (destruct Hp as [_ ->]; reflexivity).
  cbn [fold_left]. rewrite existsb_identity.
  destruct (packed _ _); destruct Hp as [_ ->]; [reflexivity|].
  now rewrite map_app.
Qed.

Lemma packed_temp_name_inj (n m : nat) :
  packed_temp_name n = packed_temp_name m -> n = m.
Proof.
  unfold packed_temp_name. intros H. apply fmt_d_inj.
  now repeat (injection H as H).
Qed.

(** Every record carries the packed temporary numbered by the place of its
    coefficient in [seen_coeff]. *)
Lemma flat_init_records_numbered dag :
  forall st,
    (forall r, In r (entries (LocalKernelBuilder.init_coeff_vecs st)) ->
               exists k f,
                 nth_error (LocalKernelBuilder.init_seen_coeff st) k = Some f
                 /\ coefficient_of r = Some (Slate.function_id f)
                 /\ CoefficientInfo.local_temp (snd r)
                    = AstSymbol (packed_temp_name k)) ->
    let st' := fold_left LocalKernelBuilder.init_body dag st in
    forall r, In r (entries (LocalKernelBuilder.init_coeff_vecs st')) ->
              exists k f,
                nth_error (LocalKernelBuilder.init_seen_coeff st') k = Some f
                /\ coefficient_of r = Some (Slate.function_id f)
                /\ CoefficientInfo.local_temp (snd r)
                   = AstSymbol (packed_temp_name k).
Proof.
  induction dag as [|t dag IH]; intros st Hst; [exact Hst|].
  cbn [fold_left]. apply IH. clear IH.
  pose proof (flat_init_body_pack st t) as Hp. cbv zeta in Hp.
  destruct t; try (destruct Hp as [-> ->]; exact Hst).
  destruct (packed _ _); destruct Hp as [-> ->]; [exact Hst|].
  intros r Hr.
  apply (Permutation_in _ (pack_loop_entries _ _ _ _)) in Hr.
  apply in_app_or in Hr. destruct Hr as [Hr|Hr].
  - destruct (Hst r Hr) as (k & f & Hk & Hc & Ht).
    exists k, f. split; [|auto].
    rewrite nth_error_app1; [exact Hk|].
    apply nth_error_Some. congruence.
  - apply in_packing_records in Hr. destruct Hr as (j & _ & ->).
    exists (List.length (LocalKernelBuilder.init_seen_coeff st)), _function.
    split; [|split; reflexivity].
    rewrite nth_error_app2 by lia. now rewrite Nat.sub_diag.
Qed.

(** X2. The packed temporaries follow the coefficients: [seen_coeff] lists
    the distinct coefficients of the assembled vectors in the order of
    their first reference, every record carries the temporary [VecTemp<k>]
    of the place [k] of its coefficient in that list, and so two records
    share a temporary exactly when they belong to the same coefficient. *)
Theorem packed_temporaries_follow_coefficients
        (expression : Slate.TensorBase) (expression_dag : list Slate.TensorBase) :
  let st := LocalKernelBuilder.init_loop expression expression_dag in
  let seen := LocalKernelBuilder.init_seen_coeff st in
  let records := entries (LocalKernelBuilder.init_coeff_vecs st) in
  map Slate.function_id seen = first_occurrences (coefficient_ids expression_dag)
  /\ List.length seen
     = List.length (nodup Nat.eq_dec (coefficient_ids expression_dag))
  /\ (forall r, In r records ->
        exists k f,
          nth_error seen k = Some f
          /\ coefficient_of r = Some (Slate.function_id f)
          /\ CoefficientInfo.local_temp (snd r) = AstSymbol (packed_temp_name k))
  /\ (forall r r', In r records -> In r' records ->
        (CoefficientInfo.local_temp (snd r) = CoefficientInfo.local_temp (snd r')
         <-> coefficient_of r = coefficient_of r'))
  /\ (forall compile visit list_set b,
         LocalKernelBuilder.__init__ compile visit list_set expression = Py.Ok b ->
         expression_dag = Utils.traverse_dags [expression] ->
         LocalKernelBuilder.coefficient_vecs b
         = LocalKernelBuilder.init_coeff_vecs st).
Proof.
  intros st seen records.
  assert (Hseen : map Slate.function_id seen
                  = first_occurrences (coefficient_ids expression_dag)).
  { unfold seen, st, LocalKernelBuilder.init_loop.
    rewrite flat_init_seen_from. reflexivity. }
  assert (Hnum : forall r, In r records ->
             exists k f,
               nth_error seen k = Some f
               /\ coefficient_of r = Some (Slate.function_id f)
               /\ CoefficientInfo.local_temp (snd r)
                  = AstSymbol (packed_temp_name k)).
  { unfold records, seen, st, LocalKernelBuilder.init_loop.
    apply flat_init_records_numbered. intros r []. }
  assert (Hnd : NoDup (map Slate.function_id seen)).
  { rewrite Hseen. apply first_occurrences_spec. }
  split; [exact Hseen|].
  split.
  { rewrite <- first_occurrences_length, <- Hseen. now rewrite length_map. }
  split; [exact Hnum|].
  split.
  - intros r r' Hr Hr'.
    destruct (Hnum r Hr) as (k & f & Hk & Hc & Ht).
    destruct (Hnum r' Hr') as (k' & f' & Hk' & Hc' & Ht').
    rewrite Hc, Hc', Ht, Ht'. split.
    + intros H.
      assert (Hn : packed_temp_name k = packed_temp_name k') by congruence.
      apply packed_temp_name_inj in Hn. subst k'. congruence.
    + intros H. injection H as H.
      assert (Hkk : k = k').
      { apply (proj1 (NoDup_nth_error _) Hnd).
        - rewrite length_map. apply nth_error_Some. congruence.
        - rewrite !nth_error_map, Hk, Hk'. simpl. now rewrite H. }
      now subst k'.
  - intros compile visit list_set b Hb ->.
    apply flat_builder_fields in Hb. apply Hb.
Qed.

Lemma packed_temporaries_follow_coefficients_witness :
  map Slate.function_id
      (LocalKernelBuilder.init_seen_coeff
         (LocalKernelBuilder.init_loop Examples.action
            (Utils.traverse_dags [Examples.action])))
  = [7].
Proof.
  destruct (packed_temporaries_follow_coefficients Examples.action
              (Utils.traverse_dags [Examples.action])) as [H _].
  exact (eq_trans H eq_refl).
Defined.

(** *** What one pass of call assembly does *)

Lemma flat_cxt_kernel_inv visit e temps st ctx st' :
  LocalKernelBuilder.setup_cxt_kernel visit e temps st ctx = Py.Ok st' ->
  Py.str_in (Tsfc.original_integral_type ctx)
            LocalKernelBuilder.supported_integral_types = true
  /\ coordinates_agree (LocalKernelBuilder.st_coords st) ctx
  /\ exists st1,
      Py.for_each (LocalKernelBuilder.setup_split_kernel visit e temps ctx)
        (Tsfc.tsfc_kernels ctx) st1 = Py.Ok st'
      /\ LocalKernelBuilder.st_coords st1
         = Some (match LocalKernelBuilder.st_coords st with
                 | Some c => c
                 | None => Slate.coordinates (Slate.ufl_domain (Tsfc.tensor ctx))
                 end)
      /\ LocalKernelBuilder.st_assembly_calls st1
         = LocalKernelBuilder.st_assembly_calls st
      /\ LocalKernelBuilder.st_subdomain_calls st1
         = LocalKernelBuilder.st_subdomain_calls st
      /\ LocalKernelBuilder.st_templated_subkernels st1
         = LocalKernelBuilder.st_templated_subkernels st
      /\ LocalKernelBuilder.st_include_dirs st1
         = LocalKernelBuilder.st_include_dirs st
      /\ LocalKernelBuilder.st_oriented st1 = LocalKernelBuilder.st_oriented st
      /\ LocalKernelBuilder.st_needs_cell_sizes st1
         = LocalKernelBuilder.st_needs_cell_sizes st.
Proof.
  unfold LocalKernelBuilder.setup_cxt_kernel, coordinates_agree. intros H.
  destruct (Py.str_in _ _); [|discriminate]. cbn [negb] in H.
  split; [reflexivity|].
  destruct (LocalKernelBuilder.st_coords st) as [c|] eqn:Ec.
  - destruct (Slate.function_eqb _ c); [|discriminate]. cbn [Py.bind] in H.
    split; [reflexivity|]. exists st. rewrite Ec. auto 10.
  - cbn [Py.bind] in H. split; [exact I|].
    eexists. split; [exact H|]. cbn. auto 10.
Qed.

Lemma flat_split_loop_coords visit e temps ctx ks :
  forall st st',
    Py.for_each (LocalKernelBuilder.setup_split_kernel visit e temps ctx) ks st
    = Py.Ok st' ->
    LocalKernelBuilder.st_coords st' = LocalKernelBuilder.st_coords st.
Proof.
  induction ks as [|k ks IH]; intros st st' H; simpl in H.
  - now injection H as <-.
  - destruct (LocalKernelBuilder.setup_split_kernel _ _ _ _ _ _) as [st1|] eqn:E;
      cbn [Py.bind] in H; [|discriminate].
    rewrite (IH _ _ H).
    destruct (flat_split_kernel_inv _ _ _ _ _ _ _ E) as (call & _ & _ & Hc & _).
    exact Hc.
Qed.

Lemma read_loop_spec (kernel_data : list (Slate.Function * ArgName))
      (indices : list (string * Z)) :
  LocalLoopyKernelBuilder.read_loop kernel_data indices
  = (indices ++ map index_of kernel_data, map read_of kernel_data).
Proof.
  unfold LocalLoopyKernelBuilder.read_loop.
  assert (H : forall kd ix reads,
             fold_left
               (fun (acc : list (string * Z) * list SubArrayRef)
                    (cn : Slate.Function * ArgName) =>
                  let '(indices, reads) := acc in
                  let '(c, name) := cn in
                  let extent := index_extent c in
                  let '(indices', idx) := create_index extent indices in
                  let argument := {| swept_inames := [idx];
                                     aggregate := name;
                                     subscript := [idx] |} in
                  (indices', reads ++ [argument]))
               kd (ix, reads)
             = (ix ++ map index_of kd, reads ++ map read_of kd)).
  { induction kd as [|[c name] kd IH]; intros ix reads; simpl.
    - now rewrite !app_nil_r.
    - rewrite IH, <- !app_assoc. reflexivity. }
  apply H.
Qed.

(** One sub-kernel in the loopy builder: what must hold for the step to
    return, and what it leaves behind. *)
Lemma loopy_inner_fields gdict cv ctx temp st inner st' :
  LocalLoopyKernelBuilder.setup_inner gdict cv ctx temp st inner = Py.Ok st' ->
  let kinfo := Tsfc.kinfo inner in
  Slate.is_mixed (Tsfc.tensor ctx) = false
  /\ Tsfc.original_integral_type ctx = "cell"
  /\ Tsfc.subdomain_id kinfo = Tsfc.otherwise
  /\ exists garg local_coefficients coefficient_data,
      Py.lookup LocalLoopyKernelBuilder.gem_eqb gdict temp = Py.Ok garg
      /\ Py.map_result (Py.getitem (Tsfc.coefficients ctx))
           (Tsfc.coefficient_map kinfo) = Py.Ok local_coefficients
      /\ Py.map_result
           (fun c =>
              cinfo <- Py.lookup coeff_key_eqb cv (KFunction (Slate.function_id c)) ;;
              Py.Ok (c, Records cinfo))
           (List.concat (map Slate.split local_coefficients))
         = Py.Ok coefficient_data
      /\ let kernel_data := mesh_data ctx kinfo ++ coefficient_data in
         LocalLoopyKernelBuilder.append_at
           (LocalLoopyKernelBuilder.st_assembly_calls st) "cell"
           {| assignees := [ {| swept_inames := ["i"; "i0"];
                                aggregate := arg_name garg;
                                subscript := ["i"; "i0"] |} ];
              called := Tsfc.name (Tsfc.kernel kinfo);
              parameters := map read_of kernel_data;
              predicates := None;
              within_inames_is_final := true;
              id := "inner_call" |}
         = Py.Ok (LocalLoopyKernelBuilder.st_assembly_calls st')
         /\ LocalLoopyKernelBuilder.st_indices st'
            = LocalLoopyKernelBuilder.st_indices st ++ map index_of kernel_data
         /\ LocalLoopyKernelBuilder.st_reads st' = Some (map read_of kernel_data)
         /\ LocalLoopyKernelBuilder.st_kinfo st' = Some kinfo
         /\ LocalLoopyKernelBuilder.st_templated_subkernels st'
            = LocalLoopyKernelBuilder.st_templated_subkernels st
              ++ [Tsfc.code (Tsfc.kernel kinfo)]
         /\ LocalLoopyKernelBuilder.st_include_dirs st'
            = LocalLoopyKernelBuilder.st_include_dirs st
              ++ Tsfc._include_dirs (Tsfc.kernel kinfo)
         /\ LocalLoopyKernelBuilder.st_subdomain_calls st'
            = LocalLoopyKernelBuilder.st_subdomain_calls st
         /\ LocalLoopyKernelBuilder.st_coords st'
            = LocalLoopyKernelBuilder.st_coords st
         /\ LocalLoopyKernelBuilder.st_needs_cell_orientations st'
            = LocalLoopyKernelBuilder.st_needs_cell_orientations st
              || Tsfc.oriented kinfo
         /\ LocalLoopyKernelBuilder.st_needs_cell_sizes st'
            = LocalLoopyKernelBuilder.st_needs_cell_sizes st
              || Tsfc.needs_cell_sizes kinfo
         /\ LocalLoopyKernelBuilder.st_needs_cell_facets st'
            = LocalLoopyKernelBuilder.st_needs_cell_facets st
         /\ LocalLoopyKernelBuilder.st_needs_mesh_layers st'
            = LocalLoopyKernelBuilder.st_needs_mesh_layers st
         /\ LocalLoopyKernelBuilder.st_integral_type st'
            = LocalLoopyKernelBuilder.st_integral_type st.
Proof.
  intros H kinfo. unfold LocalLoopyKernelBuilder.setup_inner in H.
  destruct (Slate.is_mixed _); [discriminate|].
  destruct (Py.lookup _ gdict temp) as [garg|] eqn:Eg; cbn [Py.bind] in H;
    [|discriminate].
  destruct (Py.map_result (Py.getitem _) _) as [lcs|] eqn:El; cbn [Py.bind] in H;
    [|discriminate].
  destruct (Py.map_result _ (List.concat _)) as [cdata|] eqn:Ec;
    cbn [Py.bind] in H; [|discriminate].
  match type of H with
  | context [LocalLoopyKernelBuilder.read_loop ?kd _] =>
      assert (Hkd : kd = mesh_data ctx kinfo ++ cdata)
        by (unfold mesh_data, kinfo;
            destruct (Tsfc.oriented (Tsfc.kinfo inner)),
              (Tsfc.needs_cell_sizes (Tsfc.kinfo inner)); reflexivity);
      rewrite Hkd, read_loop_spec in H
  end.
  destruct (String.eqb_spec (Tsfc.original_integral_type ctx) "cell") as [Ecell|];
    [|discriminate].
  destruct (Tsfc.subdomain_id (Tsfc.kinfo inner)) eqn:Esd; [|discriminate].
  cbn [Tsfc.is_otherwise negb Py.bind] in H.
  destruct (LocalLoopyKernelBuilder.append_at _ _ _) as [ac|] eqn:Ea;
    cbn [Py.bind] in H; [|discriminate].
  injection H as <-. cbn. rewrite Ecell in Ea.
  split; [reflexivity|]. split; [exact Ecell|].
  split; [first [reflexivity | assumption]|].
  exists garg, lcs, cdata.
  repeat (split; [first [reflexivity | assumption]|]).
  first [reflexivity | assumption].
Qed.

Lemma loopy_cxt_kernel_inv temps gdict cv st ctx st' :
  LocalLoopyKernelBuilder.setup_cxt_kernel temps gdict cv st ctx = Py.Ok st' ->
  Py.str_in (Tsfc.original_integral_type ctx)
            LocalLoopyKernelBuilder.supported_integral_types = true
  /\ coordinates_agree (LocalLoopyKernelBuilder.st_coords st) ctx
  /\ exists temp st1,
      Py.lookup Slate.tensor_eqb temps (Tsfc.tensor ctx) = Py.Ok temp
      /\ Py.for_each (LocalLoopyKernelBuilder.setup_inner gdict cv ctx temp)
           (Tsfc.tsfc_kernels ctx) st1 = Py.Ok st'
      /\ LocalLoopyKernelBuilder.st_coords st1
         = Some (match LocalLoopyKernelBuilder.st_coords st with
                 | Some c => c
                 | None => Slate.coordinates (Slate.ufl_domain (Tsfc.tensor ctx))
                 end)
      /\ LocalLoopyKernelBuilder.st_integral_type st1
         = Some (Tsfc.original_integral_type ctx)
      /\ LocalLoopyKernelBuilder.st_assembly_calls st1
         = LocalLoopyKernelBuilder.st_assembly_calls st
      /\ LocalLoopyKernelBuilder.st_subdomain_calls st1
         = LocalLoopyKernelBuilder.st_subdomain_calls st
      /\ LocalLoopyKernelBuilder.st_templated_subkernels st1
         = LocalLoopyKernelBuilder.st_templated_subkernels st
      /\ LocalLoopyKernelBuilder.st_include_dirs st1
         = LocalLoopyKernelBuilder.st_include_dirs st
      /\ LocalLoopyKernelBuilder.st_indices st1
         = LocalLoopyKernelBuilder.st_indices st
      /\ LocalLoopyKernelBuilder.st_kinfo st1 = LocalLoopyKernelBuilder.st_kinfo st
      /\ LocalLoopyKernelBuilder.st_reads st1 = LocalLoopyKernelBuilder.st_reads st
      /\ LocalLoopyKernelBuilder.st_needs_cell_orientations st1
         = LocalLoopyKernelBuilder.st_needs_cell_orientations st
      /\ LocalLoopyKernelBuilder.st_needs_cell_sizes st1
         = LocalLoopyKernelBuilder.st_needs_cell_sizes st
      /\ LocalLoopyKernelBuilder.st_needs_cell_facets st1
         = LocalLoopyKernelBuilder.st_needs_cell_facets st
      /\ LocalLoopyKernelBuilder.st_needs_mesh_layers st1
         = LocalLoopyKernelBuilder.st_needs_mesh_layers st.
Proof.
  unfold LocalLoopyKernelBuilder.setup_cxt_kernel, coordinates_agree. intros H.
  destruct (Py.lookup _ temps _) as [temp|]; cbn [Py.bind] in H; [|discriminate].
  destruct (Py.str_in _ _); [|discriminate]. cbn [negb] in H.
  split; [reflexivity|].
  destruct (LocalLoopyKernelBuilder.st_coords st) as [c|] eqn:Ec.
  - destruct (Slate.function_eqb _ c); [|discriminate]. cbn [Py.bind] in H.
    split; [reflexivity|]. exists temp. eexists.
    split; [reflexivity|]. split; [exact H|]. cbn. auto 20.
  - cbn [Py.bind] in H. split; [exact I|]. exists temp. eexists.
    split; [reflexivity|]. split; [exact H|]. cbn. auto 20.
Qed.

Lemma loopy_inner_loop_coords gdict cv ctx temp ks :
  forall st st',
    Py.for_each (LocalLoopyKernelBuilder.setup_inner gdict cv ctx temp) ks st
    = Py.Ok st' ->
    LocalLoopyKernelBuilder.st_coords st' = LocalLoopyKernelBuilder.st_coords st.
Proof.
  induction ks as [|k ks IH]; intros st st' H; simpl in H.
  - now injection H as <-.
  - destruct (LocalLoopyKernelBuilder.setup_inner _ _ _ _ _ _) as [st1|] eqn:E;
      cbn [Py.bind] in H; [|discriminate].
    rewrite (IH _ _ H).
    apply loopy_inner_fields in E.
    destruct E as (_ & _ & _ & garg & lcs & cdata & _ & _ & _ & E).
    cbv zeta in E. apply E.
Qed.

(** *** One coordinate field *)

Lemma flat_cxt_kernel_coords visit e temps st ctx st' :
  LocalKernelBuilder.setup_cxt_kernel visit e temps st ctx = Py.Ok st' ->
  coordinates_agree (LocalKernelBuilder.st_coords st) ctx
  /\ LocalKernelBuilder.st_coords st'
     = Some (match LocalKernelBuilder.st_coords st with
             | Some c => c
             | None => Slate.coordinates (Slate.ufl_domain (Tsfc.tensor ctx))
             end).
Proof.
  intros H. apply flat_cxt_kernel_inv in H.
  destruct H as (_ & Ha & st1 & Hl & Hc & _).
  split; [exact Ha|]. now rewrite (flat_split_loop_coords _ _ _ _ _ _ _ Hl).
Qed.

Lemma loopy_cxt_kernel_coords temps gdict cv st ctx st' :
  LocalLoopyKernelBuilder.setup_cxt_kernel temps gdict cv st ctx = Py.Ok st' ->
  coordinates_agree (LocalLoopyKernelBuilder.st_coords st) ctx
  /\ LocalLoopyKernelBuilder.st_coords st'
     = Some (match LocalLoopyKernelBuilder.st_coords st with
             | Some c => c
             | None => Slate.coordinates (Slate.ufl_domain (Tsfc.tensor ctx))
             end).
Proof.
  intros H. apply loopy_cxt_kernel_inv in H.
  destruct H as (_ & Ha & temp & st1 & _ & Hl & Hc & _).
  split; [exact Ha|]. now rewrite (loopy_inner_loop_coords _ _ _ _ _ _ _ Hl).
Qed.

(** A loop whose steps check the coordinates against the ones recorded
    leaves every context kernel on the recorded coordinates. *)
Lemma coordinates_loop {S : Type} (coords : S -> option Slate.Function)
      (body : S -> Tsfc.ContextKernel -> Py.result S) :
  (forall st ctx st',
      body st ctx = Py.Ok st' ->
      coordinates_agree (coords st) ctx
      /\ coords st'
         = Some (match coords st with
                 | Some c => c
                 | None => Slate.coordinates (Slate.ufl_domain (Tsfc.tensor ctx))
                 end)) ->
  forall ctxs st st',
    Py.for_each body ctxs st = Py.Ok st' ->
    (forall c0, coords st = Some c0 ->
                coords st' = Some c0
                /\ forall c, In c ctxs -> coordinates_id c = Slate.function_id c0)
    /\ (coords st = None ->
        forall c c', In c ctxs -> In c' ctxs -> coordinates_id c = coordinates_id c').
Proof.
  intros Hstep.
  assert (Hsome : forall ctxs st st' c0,
             Py.for_each body ctxs st = Py.Ok st' -> coords st = Some c0 ->
             coords st' = Some c0
             /\ forall c, In c ctxs -> coordinates_id c = Slate.function_id c0).
  { induction ctxs as [|ctx ctxs IH]; intros st st' c0 H Hc; simpl in H.
    - injection H as <-. split; [exact Hc | intros c []].
    - destruct (body st ctx) as [st1|] eqn:E; cbn [Py.bind] in H; [|discriminate].
      destruct (Hstep _ _ _ E) as [Ha Hc1]. rewrite Hc in Ha, Hc1.
      destruct (IH _ _ _ H Hc1) as [Hc' Hall].
      split; [exact Hc'|]. intros c [<-|Hin]; [|now apply Hall].
      unfold coordinates_agree, Slate.function_eqb in Ha.
      now apply Nat.eqb_eq in Ha. }
  intros ctxs st st' H. split.
  - intros c0 Hc. eapply Hsome; eauto.
  - intros Hn. destruct ctxs as [|ctx ctxs]; [intros c c' []|].
    simpl in H.
    destruct (body st ctx) as [st1|] eqn:E; cbn [Py.bind] in H; [|discriminate].
    destruct (Hstep _ _ _ E) as [_ Hc1]. rewrite Hn in Hc1.
    destruct (Hsome _ _ _ _ H Hc1) as [_ Hall].
    assert (Hhead : forall c, In c (ctx :: ctxs) ->
                              coordinates_id c = coordinates_id ctx).
    { intros c [<-|Hin]; [reflexivity | now apply Hall]. }
    intros c c' Hc Hc'. now rewrite (Hhead c Hc), (Hhead c' Hc').
Qed.

(** X3. All terminals of a builder share one coordinate field: whenever
    call assembly returns, in either builder, the terminals of any two
    context kernels have the same coordinates. *)
Theorem coordinates_shared :
  (forall visit expression temps context_kernels st,
      LocalKernelBuilder.setup_loop visit expression temps context_kernels
      = Py.Ok st ->
      forall c c', In c context_kernels -> In c' context_kernels ->
                   coordinates_id c = coordinates_id c')
  /\ (forall temps gem_loopy_dict coefficient_vecs context_kernels st,
         LocalLoopyKernelBuilder.setup_loop temps gem_loopy_dict coefficient_vecs
           context_kernels = Py.Ok st ->
         forall c c', In c context_kernels -> In c' context_kernels ->
                      coordinates_id c = coordinates_id c')
  /\ (forall compile visit list_set expression b,
         LocalKernelBuilder.__init__ compile visit list_set expression = Py.Ok b ->
         forall c c',
           In c (LocalKernelBuilder.context_kernels b) ->
           In c' (LocalKernelBuilder.context_kernels b) ->
           coordinates_id c = coordinates_id c')
  /\ (forall compile list_set expression b,
         LocalLoopyKernelBuilder.__init__ compile list_set expression = Py.Ok b ->
         forall c c',
           In c (LocalLoopyKernelBuilder.context_kernels b) ->
           In c' (LocalLoopyKernelBuilder.context_kernels b) ->
           coordinates_id c = coordinates_id c').
Proof.
  assert (Hflat : forall visit expression temps context_kernels st,
      LocalKernelBuilder.setup_loop visit expression temps context_kernels
      = Py.Ok st ->
      forall c c', In c context_kernels -> In c' context_kernels ->
                   coordinates_id c = coordinates_id c').
  { intros visit expression temps cks st H.
    unfold LocalKernelBuilder.setup_loop in H.
    apply (coordinates_loop LocalKernelBuilder.st_coords) in H.
    - apply H. reflexivity.
    - intros s ctx s'. apply flat_cxt_kernel_coords. }
  assert (Hloopy : forall temps gem_loopy_dict coefficient_vecs context_kernels st,
         LocalLoopyKernelBuilder.setup_loop temps gem_loopy_dict coefficient_vecs
           context_kernels = Py.Ok st ->
         forall c c', In c context_kernels -> In c' context_kernels ->
                      coordinates_id c = coordinates_id c').
  { intros temps gdict cv cks st H.
    unfold LocalLoopyKernelBuilder.setup_loop in H.
    apply (coordinates_loop LocalLoopyKernelBuilder.st_coords) in H.
    - apply H. reflexivity.
    - intros s ctx s'. apply loopy_cxt_kernel_coords. }
  split; [exact Hflat|]. split; [exact Hloopy|]. split.
  - intros compile visit list_set expression b Hb.
    apply flat_builder_fields in Hb.
    destruct Hb as (_ & _ & _ & _ & _ & _ & _ & st & Hl & _).
    exact (Hflat _ _ _ _ _ Hl).
  - intros compile list_set expression b Hb.
    apply loopy_builder_fields in Hb.
    destruct Hb as (_ & init & st & kinfo & _ & _ & _ & _ & _ & _ & Hl & _).
    exact (Hloopy _ _ _ _ _ Hl).
Qed.

(** X4. A context kernel whose terminal has other coordinates than an
    earlier one stops call assembly with the assertion error "Mismatching
    coordinates!": the loop raises it when it reaches the kernel, and never
    returns on a list that holds the two. *)
Theorem mismatching_coordinates_rejected
        (cxt_kernel first : Tsfc.ContextKernel)
        (before after : list Tsfc.ContextKernel) :
  Py.str_in (Tsfc.original_integral_type cxt_kernel)
            LocalKernelBuilder.supported_integral_types = true ->
  In first before ->
  coordinates_id first <> coordinates_id cxt_kernel ->
  let error := Py.AssertionError "Mismatching coordinates!" in
  (forall visit expression temps,
      (Py.is_ok (LocalKernelBuilder.setup_loop visit expression temps before)
       = true ->
       LocalKernelBuilder.setup_loop visit expression temps
         (before ++ cxt_kernel :: after) = Py.Raise error)
      /\ Py.is_ok (LocalKernelBuilder.setup_loop visit expression temps
                     (before ++ cxt_kernel :: after)) = false)
  /\ (forall temps gem_loopy_dict coefficient_vecs,
         (Py.contains Slate.tensor_eqb temps (Tsfc.tensor cxt_kernel) = true ->
          Py.is_ok (LocalLoopyKernelBuilder.setup_loop temps gem_loopy_dict
                      coefficient_vecs before) = true ->
          LocalLoopyKernelBuilder.setup_loop temps gem_loopy_dict coefficient_vecs
            (before ++ cxt_kernel :: after) = Py.Raise error)
         /\ Py.is_ok (LocalLoopyKernelBuilder.setup_loop temps gem_loopy_dict
                        coefficient_vecs (before ++ cxt_kernel :: after)) = false).
Proof.
  intros Hsup Hfirst Hne error.
  assert (Hin1 : In first (before ++ cxt_kernel :: after))
    by (apply in_or_app; now left).
  assert (Hin2 : In cxt_kernel (before ++ cxt_kernel :: after))
    by (apply in_or_app; right; now left).
  split.
  - intros visit expression temps. split.
    + unfold LocalKernelBuilder.setup_loop. rewrite for_each_app.
      destruct (Py.for_each _ before _) as [st|] eqn:E; [|discriminate].
      intros _. cbn [Py.bind Py.for_each].
      pose proof E as E'.
      apply (coordinates_loop LocalKernelBuilder.st_coords) in E';
        [|intros s c s'; apply flat_cxt_kernel_coords].
      assert (Hst : exists c0, LocalKernelBuilder.st_coords st = Some c0
                               /\ coordinates_id first = Slate.function_id c0).
      { destruct before as [|c1 rest]; [destruct Hfirst|].
        simpl in E.
        destruct (LocalKernelBuilder.setup_cxt_kernel _ _ _ _ c1) as [s1|] eqn:E1;
          cbn [Py.bind] in E; [|discriminate].
        destruct (flat_cxt_kernel_coords _ _ _ _ _ _ E1) as [_ Hc1].
        cbn [LocalKernelBuilder.setup_start LocalKernelBuilder.st_coords] in Hc1.
        apply (coordinates_loop LocalKernelBuilder.st_coords) in E;
          [|intros s c s'; apply flat_cxt_kernel_coords].
        destruct E as [Hsome _]. destruct (Hsome _ Hc1) as [Hc Hall].
        eexists. split; [exact Hc|].
        destruct Hfirst as [<-|Hin]; [reflexivity | now apply Hall]. }
      destruct Hst as (c0 & Hc0 & Hid).
      unfold LocalKernelBuilder.setup_cxt_kernel. rewrite Hsup, Hc0.
      cbn [negb]. unfold Slate.function_eqb.
      destruct (Nat.eqb_spec
                  (Slate.function_id
                     (Slate.coordinates (Slate.ufl_domain (Tsfc.tensor cxt_kernel))))
                  (Slate.function_id c0)) as [Heq|_]; [|reflexivity].
      exfalso. apply Hne. unfold coordinates_id at 2. congruence.
    + destruct (LocalKernelBuilder.setup_loop _ _ _ _) as [st|] eqn:E;
        [|reflexivity].
      exfalso. apply Hne.
      unfold LocalKernelBuilder.setup_loop in E.
      apply (coordinates_loop LocalKernelBuilder.st_coords) in E;
        [|intros s c s'; apply flat_cxt_kernel_coords].
      destruct E as [_ Hnone]. now apply Hnone.
  - intros temps gdict cv. split.
    + intros Htemp. unfold LocalLoopyKernelBuilder.setup_loop.
      rewrite for_each_app.
      destruct (Py.for_each _ before _) as [st|] eqn:E; [|discriminate].
      intros _. cbn [Py.bind Py.for_each].
      assert (Hst : exists c0, LocalLoopyKernelBuilder.st_coords st = Some c0
                               /\ coordinates_id first = Slate.function_id c0).
      { destruct before as [|c1 rest]; [destruct Hfirst|].
        simpl in E.
        destruct (LocalLoopyKernelBuilder.setup_cxt_kernel _ _ _ _ c1)
          as [s1|] eqn:E1; cbn [Py.bind] in E; [|discriminate].
        destruct (loopy_cxt_kernel_coords _ _ _ _ _ _ E1) as [_ Hc1].
        cbn [LocalLoopyKernelBuilder.setup_start
             LocalLoopyKernelBuilder.st_coords] in Hc1.
        apply (coordinates_loop LocalLoopyKernelBuilder.st_coords) in E;
          [|intros s c s'; apply loopy_cxt_kernel_coords].
        destruct E as [Hsome _]. destruct (Hsome _ Hc1) as [Hc Hall].
        eexists. split; [exact Hc|].
        destruct Hfirst as [<-|Hin]; [reflexivity | now apply Hall]. }
      destruct Hst as (c0 & Hc0 & Hid).
      unfold LocalLoopyKernelBuilder.setup_cxt_kernel.
      destruct (lookup_of_contains _ _ Htemp) as [temp ->]. cbn [Py.bind].
      change LocalLoopyKernelBuilder.supported_integral_types
        with LocalKernelBuilder.supported_integral_types.
      rewrite Hsup, Hc0. cbn [negb]. unfold Slate.function_eqb.
      destruct (Nat.eqb_spec
                  (Slate.function_id
                     (Slate.coordinates (Slate.ufl_domain (Tsfc.tensor cxt_kernel))))
                  (Slate.function_id c0)) as [Heq|_]; [|reflexivity].
      exfalso. apply Hne. unfold coordinates_id at 2. congruence.
    + destruct (LocalLoopyKernelBuilder.setup_loop _ _ _ _) as [st|] eqn:E;
        [|reflexivity].
      exfalso. apply Hne.
      unfold LocalLoopyKernelBuilder.setup_loop in E.
      apply (coordinates_loop LocalLoopyKernelBuilder.st_coords) in E;
        [|intros s c s'; apply loopy_cxt_kernel_coords].
      destruct E as [_ Hnone]. now apply Hnone.
Qed.

Lemma mismatching_coordinates_rejected_witness :
  LocalKernelBuilder.setup_loop Examples.visit Examples.A33 Examples.flat_temps
    ([Examples.cxt Examples.A33 "subkernel0_" "cell" Tsfc.otherwise true]
       ++ Examples.cxt Examples.C33 "subkernel1_" "cell" Tsfc.otherwise true :: [])
  = Py.Raise (Py.AssertionError "Mismatching coordinates!").
Proof.
  refine (proj1 (proj1 (mismatching_coordinates_rejected
                          (Examples.cxt Examples.C33 "subkernel1_" "cell"
                             Tsfc.otherwise true)
                          (Examples.cxt Examples.A33 "subkernel0_" "cell"
                             Tsfc.otherwise true)
                          [Examples.cxt Examples.A33 "subkernel0_" "cell"
                             Tsfc.otherwise true] []
                          eq_refl (or_introl eq_refl) _)
                       Examples.visit Examples.A33 Examples.flat_temps) eq_refl).
  cbv. discriminate.
Defined.

(** *** The cost of the terminals *)

Lemma terminal_flops_inner (itype : string) (nfacets : Z)
      (ks : list Tsfc.SplitKernel) :
  forall flops,
    fold_left
      (fun flops k =>
         let kinfo := Tsfc.kinfo k in
         if String.eqb itype "cell" then
           (flops + Tsfc.num_flops (Tsfc.kernel kinfo))%Z
         else if String.prefix "interior_facet" itype then
           (flops + Tsfc.num_flops (Tsfc.kernel kinfo) * nfacets)%Z
         else flops)
      ks flops
    = (flops
       + flops_weight nfacets itype
         * Py.sum (map (fun k => Tsfc.num_flops (Tsfc.kernel (Tsfc.kinfo k))) ks))%Z.
Proof.
  unfold flops_weight.
  induction ks as [|k ks IH]; intros flops; simpl.
  - unfold Py.sum. simpl. lia.
  - rewrite IH, sum_cons.
    destruct (String.eqb itype "cell"); [lia|].
    destruct (String.prefix "interior_facet" itype); lia.
Qed.

Lemma terminal_flops_outer (nfacets : Z) (ctxs : list Tsfc.ContextKernel) :
  forall flops,
    fold_left
      (fun flops ctx =>
         let itype := Tsfc.original_integral_type ctx in
         fold_left
           (fun flops k =>
              let kinfo := Tsfc.kinfo k in
              if String.eqb itype "cell" then
                (flops + Tsfc.num_flops (Tsfc.kernel kinfo))%Z
              else if String.prefix "interior_facet" itype then
                (flops + Tsfc.num_flops (Tsfc.kernel kinfo) * nfacets)%Z
              else flops)
           (Tsfc.tsfc_kernels ctx) flops)
      ctxs flops
    = (flops
       + Py.sum (map (fun ctx =>
                        flops_weight nfacets (Tsfc.original_integral_type ctx)
                        * kernel_flops ctx) ctxs))%Z.
Proof.
  induction ctxs as [|ctx ctxs IH]; intros flops; simpl.
  - unfold Py.sum. simpl. lia.
  - rewrite IH, sum_cons. cbv zeta. rewrite terminal_flops_inner.
    unfold kernel_flops. lia.
Qed.

(** X5. The cost of the terminals is a weighted sum: the operations of the
    sub-kernels of every context kernel, counted once for a cell integral,
    once per facet of the cell for an integral over interior facets (of
    any kind), and not at all for the other integral types.  It is
    additive over the context kernels and does not depend on their
    order. *)
Theorem terminal_flops_weighted_sum
        (expression : Slate.TensorBase)
        (context_kernels : list Tsfc.ContextKernel) :
  let nfacets := Slate.num_facets (Slate.ufl_domain expression) in
  LocalKernelBuilder.terminal_flops expression context_kernels
  = Py.sum (map (fun ctx =>
                   flops_weight nfacets (Tsfc.original_integral_type ctx)
                   * kernel_flops ctx)%Z context_kernels)
  /\ (forall more,
         LocalKernelBuilder.terminal_flops expression (context_kernels ++ more)
         = (LocalKernelBuilder.terminal_flops expression context_kernels
            + LocalKernelBuilder.terminal_flops expression more)%Z)
  /\ (forall reordered,
         Permutation context_kernels reordered ->
         LocalKernelBuilder.terminal_flops expression reordered
         = LocalKernelBuilder.terminal_flops expression context_kernels)
  /\ ((forall c, In c context_kernels ->
                 String.prefix "exterior_facet" (Tsfc.original_integral_type c)
                 = true) ->
      LocalKernelBuilder.terminal_flops expression context_kernels = 0%Z).
Proof.
  intros nfacets.
  assert (H : forall cks,
             LocalKernelBuilder.terminal_flops expression cks
             = Py.sum (map (fun ctx =>
                              flops_weight nfacets (Tsfc.original_integral_type ctx)
                              * kernel_flops ctx)%Z cks)).
  { intros cks. unfold LocalKernelBuilder.terminal_flops.
    fold nfacets. rewrite terminal_flops_outer. lia. }
  split; [apply H|]. split; [|split].
  - intros more. rewrite !H, map_app, sum_app. reflexivity.
  - intros reordered Hp. rewrite !H. symmetry. apply sum_permutation.
    now apply Permutation_map.
  - intros Hext. rewrite H.
    assert (Hz : forall cks,
               (forall c, In c cks ->
                          String.prefix "exterior_facet"
                            (Tsfc.original_integral_type c) = true) ->
               Py.sum (map (fun ctx =>
                              flops_weight nfacets (Tsfc.original_integral_type ctx)
                              * kernel_flops ctx)%Z cks) = 0%Z).
    { induction cks as [|c cks IH]; intros Hall; [reflexivity|].
      cbn [map]. rewrite sum_cons, IH by (intros c' Hc'; apply Hall; now right).
      assert (Hw : flops_weight nfacets (Tsfc.original_integral_type c) = 0%Z).
      { specialize (Hall c (or_introl eq_refl)). unfold flops_weight.
        destruct (Tsfc.original_integral_type c) as [|a1 s]; [discriminate|].
        cbn [String.prefix] in Hall.
        destruct (ascii_dec "e" a1) as [<-|]; [|discriminate]. reflexivity. }
      rewrite Hw. lia. }
    now apply Hz.
Qed.

(** *** The cost of the operations *)

Lemma integer_sum_loop (cost : Slate.TensorBase -> Z) (dag : list Slate.TensorBase) :
  (forall t, In t dag -> LocalKernelBuilder._flops t = Py.Ok (PyNum.PyInt (cost t))) ->
  forall acc,
    Py.for_each (fun acc x => v <- LocalKernelBuilder._flops x ;; PyNum.add acc v)
      dag (PyNum.PyInt acc)
    = Py.Ok (PyNum.PyInt (acc + Py.sum (map cost dag))).
Proof.
  induction dag as [|t dag IH]; intros Hall acc.
  - simpl. unfold Py.sum. simpl. now rewrite Z.add_0_r.
  - cbn [Py.for_each map]. rewrite (Hall t (or_introl eq_refl)).
    cbn [Py.bind PyNum.add]. rewrite IH by (intros u Hu; apply Hall; now right).
    rewrite sum_cons. do 2 f_equal. lia.
Qed.

(** X6. Where every node of the traversal is priced with an integer (no
    inverse and no LU, Cholesky or QR factorization among them), the cost
    of the operations is the exact sum of the prices, and it is the same
    in whatever order the nodes are traversed. *)
Theorem integer_costs_add_up
        (cost : Slate.TensorBase -> Z) (dag : list Slate.TensorBase) :
  (forall t, In t dag ->
             LocalKernelBuilder._flops t = Py.Ok (PyNum.PyInt (cost t))) ->
  LocalKernelBuilder.expression_flops_of dag = Py.Ok (Py.sum (map cost dag))
  /\ forall reordered,
      Permutation dag reordered ->
      LocalKernelBuilder.expression_flops_of reordered
      = LocalKernelBuilder.expression_flops_of dag.
Proof.
  intros Hall.
  assert (H : forall l,
             (forall t, In t l ->
                        LocalKernelBuilder._flops t = Py.Ok (PyNum.PyInt (cost t))) ->
             LocalKernelBuilder.expression_flops_of l = Py.Ok (Py.sum (map cost l))).
  { intros l Hl. unfold LocalKernelBuilder.expression_flops_of, PyNum.sum_map.
    rewrite (integer_sum_loop cost l Hl). reflexivity. }
  split; [now apply H|].
  intros reordered Hp. rewrite (H dag Hall), H.
  - f_equal. apply sum_permutation. apply Permutation_map. now apply Permutation_sym.
  - intros t Ht. apply Hall. eapply Permutation_in; [apply Permutation_sym|]; eauto.
Qed.

Lemma integer_costs_add_up_witness :
  LocalKernelBuilder.expression_flops_of
    [Examples.shared; Slate.Mul (Examples.node 15 [3; 3]%Z) Examples.A33 Examples.B33;
     Examples.A33; Examples.B33]
  = Py.Ok 63%Z.
Proof.
  refine (eq_trans
            (proj1 (integer_costs_add_up
                      (fun t => match t with
                                | Slate.Add _ _ _ => 9
                                | Slate.Mul _ _ _ => 54
                                | _ => 0
                                end%Z)
                      [Examples.shared;
                       Slate.Mul (Examples.node 15 [3; 3]%Z) Examples.A33 Examples.B33;
                       Examples.A33; Examples.B33] _))
            eq_refl).
  intros t [<-|[<-|[<-|[<-|[]]]]]; reflexivity.
Defined.

(** X7. A node the cost model cannot price stops the cost of the
    operations: an inverse of a tensor that is not square fails the
    assertion of its rule, and a product whose left operand has an empty
    shape cannot be unpacked; whatever else the traversal holds, the
    cost of the operations then raises. *)
Theorem unpriced_node_stops_cost (t : Slate.TensorBase)
        (before after : list Slate.TensorBase) :
  (exists i A m n, t = Slate.Inverse i A /\ Slate.node_shape i = [m; n] /\ m <> n)
  \/ (exists i A B, t = Slate.Mul i A B /\ Slate.shape A = []) ->
  (exists e,
      LocalKernelBuilder._flops t = Py.Raise e
      /\ (Py.is_ok (PyNum.sum_map LocalKernelBuilder._flops before) = true ->
          LocalKernelBuilder.expression_flops_of (before ++ t :: after)
          = Py.Raise e)
      /\ ((exists i A, t = Slate.Inverse i A) -> e = Py.AssertionError "")
      /\ ((exists i A B, t = Slate.Mul i A B) ->
          e = LocalKernelBuilder.unpack_error))
  /\ Py.is_ok (LocalKernelBuilder.expression_flops_of (before ++ t :: after))
     = false.
Proof.
  intros Ht.
  assert (He : exists e,
             LocalKernelBuilder._flops t = Py.Raise e
             /\ ((exists i A, t = Slate.Inverse i A) -> e = Py.AssertionError "")
             /\ ((exists i A B, t = Slate.Mul i A B) ->
                 e = LocalKernelBuilder.unpack_error)).
  { destruct Ht as [(i & A & m & n & -> & Hs & Hne)|(i & A & B & -> & Hs)].
    - exists (Py.AssertionError ""). split; [|split].
      + unfold LocalKernelBuilder._flops, Slate.shape. cbn [Slate.info].
        rewrite Hs. cbn [LocalKernelBuilder.unpack2 Py.bind].
        destruct (Z.eqb_spec m n); [contradiction | reflexivity].
      + reflexivity.
      + intros (i' & A' & B' & [=]).
    - exists LocalKernelBuilder.unpack_error. split; [|split].
      + unfold LocalKernelBuilder._flops. rewrite Hs. reflexivity.
      + intros (i' & A' & [=]).
      + reflexivity. }
  destruct He as (e & He & Hinv & Hmul).
  split.
  - exists e. split; [exact He|]. split; [|split; assumption].
    unfold LocalKernelBuilder.expression_flops_of, PyNum.sum_map.
    rewrite for_each_app.
    destruct (Py.for_each _ before _) as [acc|]; [|discriminate].
    intros _. cbn [Py.bind Py.for_each]. rewrite He. reflexivity.
  - unfold LocalKernelBuilder.expression_flops_of, PyNum.sum_map.
    pose proof (for_each_never_ok
                  (fun acc x => v <- LocalKernelBuilder._flops x ;; PyNum.add acc v)
                  t before after (PyNum.PyInt 0)) as Hn.
    destruct (Py.for_each _ (before ++ t :: after) _); [|reflexivity].
    discriminate Hn. intros s. now rewrite He.
Qed.

Lemma unpriced_node_stops_cost_witness :
  LocalKernelBuilder.expression_flops_of
    ([Examples.add33]
       ++ Slate.Inverse (Examples.node 12 [3; 4]%Z) Examples.A34 :: [Examples.A34])
  = Py.Raise (Py.AssertionError "").
Proof.
  destruct (unpriced_node_stops_cost
              (Slate.Inverse (Examples.node 12 [3; 4]%Z) Examples.A34)
              [Examples.add33] [Examples.A34]) as [(e & _ & He & Hi & _) _].
  - left. exists (Examples.node 12 [3; 4]%Z), Examples.A34, 3%Z, 4%Z.
    split; [reflexivity|]. split; [reflexivity | discriminate].
  - rewrite He by reflexivity. f_equal. apply Hi. eauto.
Defined.

(** *** The kinds of integrals *)

Lemma flat_setup_loop_supported visit e temps ctxs st :
  LocalKernelBuilder.setup_loop visit e temps ctxs = Py.Ok st ->
  forall c, In c ctxs ->
            Py.str_in (Tsfc.original_integral_type c)
                      LocalKernelBuilder.supported_integral_types = true.
Proof.
  unfold LocalKernelBuilder.setup_loop. intros H.
  apply Forall_forall.
  revert H. apply for_each_ok_forall.
  intros s x s' Hx. now apply flat_cxt_kernel_inv in Hx.
Qed.

Lemma supported_kinds (it : string) :
  Py.str_in it LocalKernelBuilder.supported_integral_types = true ->
  (it = "cell" /\ Py.str_in it cell_facet_types = false
   /\ Py.str_in it mesh_layer_types = false)
  \/ (it <> "cell" /\ Py.str_in it cell_facet_types = true
      /\ Py.str_in it mesh_layer_types = false)
  \/ (it <> "cell" /\ Py.str_in it cell_facet_types = false
      /\ Py.str_in it mesh_layer_types = true).
Proof.
  unfold Py.str_in, LocalKernelBuilder.supported_integral_types.
  cbn [existsb]. rewrite !orb_true_iff.
  intros H.
  repeat (destruct H as [H|H];
          [apply String.eqb_eq in H; subst it;
           first [left; split; [reflexivity | split; reflexivity]
                 |right; left; split; [discriminate | split; reflexivity]
                 |right; right; split; [discriminate | split; reflexivity]]|]).
  discriminate H.
Qed.

(** X8. Every context kernel of a builder is of exactly one kind: a cell
    integral, an integral that needs the facets of the cell, or one that
    needs the layers of the mesh.  So a builder needs neither the cell
    facets nor the mesh layers exactly when all its context kernels are
    cell integrals. *)
Theorem integral_kinds_partition
        (compile : Tsfc.compiler) (visit : Tsfc.KernelCode -> Tsfc.KernelCode)
        (list_set : list string -> list string)
        (expression : Slate.TensorBase) (b : LocalKernelBuilder.t) :
  LocalKernelBuilder.__init__ compile visit list_set expression = Py.Ok b ->
  (forall c, In c (LocalKernelBuilder.context_kernels b) ->
     let it := Tsfc.original_integral_type c in
     (it = "cell" /\ Py.str_in it cell_facet_types = false
      /\ Py.str_in it mesh_layer_types = false)
     \/ (it <> "cell" /\ Py.str_in it cell_facet_types = true
         /\ Py.str_in it mesh_layer_types = false)
     \/ (it <> "cell" /\ Py.str_in it cell_facet_types = false
         /\ Py.str_in it mesh_layer_types = true))
  /\ (LocalKernelBuilder.needs_cell_facets b = false
      /\ LocalKernelBuilder.needs_mesh_layers b = false
      <-> forall c, In c (LocalKernelBuilder.context_kernels b) ->
                    Tsfc.original_integral_type c = "cell").
Proof.
  intros Hb. apply flat_builder_fields in Hb.
  destruct Hb as (_ & _ & _ & _ & _ & _ & _ & st & Hl & _).
  pose proof (flat_setup_loop_supported _ _ _ _ _ Hl) as Hsup.
  assert (Hkind : forall c, In c (LocalKernelBuilder.context_kernels b) ->
     let it := Tsfc.original_integral_type c in
     (it = "cell" /\ Py.str_in it cell_facet_types = false
      /\ Py.str_in it mesh_layer_types = false)
     \/ (it <> "cell" /\ Py.str_in it cell_facet_types = true
         /\ Py.str_in it mesh_layer_types = false)
     \/ (it <> "cell" /\ Py.str_in it cell_facet_types = false
         /\ Py.str_in it mesh_layer_types = true)).
  { intros c Hc. apply supported_kinds. now apply Hsup. }
  split; [exact Hkind|].
  unfold LocalKernelBuilder.needs_cell_facets, LocalKernelBuilder.needs_mesh_layers.
  change ["interior_facet"; "exterior_facet"; "interior_facet_vert";
          "exterior_facet_vert"] with cell_facet_types.
  change ["interior_facet_horiz_top"; "interior_facet_horiz_bottom";
          "exterior_facet_bottom"; "exterior_facet_top"] with mesh_layer_types.
  split.
  - intros [Hf Hm] c Hc.
    pose proof (existsb_exists
                  (fun k => Py.str_in (Tsfc.original_integral_type k) cell_facet_types)
                  (LocalKernelBuilder.context_kernels b)) as Ef.
    pose proof (existsb_exists
                  (fun k => Py.str_in (Tsfc.original_integral_type k) mesh_layer_types)
                  (LocalKernelBuilder.context_kernels b)) as Em.
    destruct (Hkind c Hc) as [[H _]|[(_ & H & _)|(_ & _ & H)]].
    + exact H.
    + assert (Ht : existsb
                     (fun k => Py.str_in (Tsfc.original_integral_type k)
                                 cell_facet_types)
                     (LocalKernelBuilder.context_kernels b) = true)
        by (apply Ef; exists c; auto).
      congruence.
    + assert (Ht : existsb
                     (fun k => Py.str_in (Tsfc.original_integral_type k)
                                 mesh_layer_types)
                     (LocalKernelBuilder.context_kernels b) = true)
        by (apply Em; exists c; auto).
      congruence.
  - intros Hall. split.
    + apply not_true_is_false. intros Ht. apply existsb_exists in Ht.
      destruct Ht as (c & Hc & Ht). rewrite (Hall c Hc) in Ht. discriminate Ht.
    + apply not_true_is_false. intros Ht. apply existsb_exists in Ht.
      destruct Ht as (c & Hc & Ht). rewrite (Hall c Hc) in Ht. discriminate Ht.
Qed.

Lemma integral_kinds_partition_witness :
  match LocalKernelBuilder.__init__ Examples.compile_facet Examples.visit
          Examples.in_order Examples.A33 with
  | Py.Ok b =>
      ~ (LocalKernelBuilder.needs_cell_facets b = false
         /\ LocalKernelBuilder.needs_mesh_layers b = false)
  | Py.Raise _ => False
  end.
Proof.
  destruct (LocalKernelBuilder.__init__ Examples.compile_facet Examples.visit
              Examples.in_order Examples.A33) as [b|] eqn:Hb;
    [|discriminate Hb].
  intros Hn.
  pose proof (proj1 (proj2 (integral_kinds_partition _ _ _ _ _ Hb)) Hn) as Hall.
  assert (Hc : LocalKernelBuilder.context_kernels b
               = [Examples.cxt Examples.A33 "subkernel0_" "cell" Tsfc.otherwise true;
                  Examples.cxt Examples.A33 "subkernel0_" "exterior_facet"
                    (Tsfc.marker 2) true])
    by (vm_compute in Hb; injection Hb as <-; reflexivity).
  rewrite Hc in Hall.
  discriminate (Hall _ (or_intror (or_introl eq_refl))).
Defined.

(** *** What the buckets hold *)

Lemma get_setitem_string {V : Type} (d : list (string * V)) (k k' : string)
      (v : V) :
  Py.get String.eqb (Py.setitem String.eqb d k v) k'
  = if String.eqb k k' then Some v else Py.get String.eqb d k'.
Proof.
  induction d as [|[k0 w] d IH]; simpl.
  - reflexivity.
  - destruct (String.eqb_spec k0 k) as [E0|E0]; simpl.
    + subst k0. destruct (String.eqb k k'); reflexivity.
    + destruct (String.eqb_spec k0 k') as [E1|E1].
      * subst k0. destruct (String.eqb_spec k k'); [congruence | reflexivity].
      * exact IH.
Qed.

Lemma append_at_get {X : Type} (d d' : list (string * list X)) (k k' : string)
      (x : X) :
  LocalKernelBuilder.append_at d k x = Py.Ok d' ->
  Py.get String.eqb d' k'
  = if String.eqb k k'
    then option_map (fun xs => xs ++ [x]) (Py.get String.eqb d k')
    else Py.get String.eqb d k'.
Proof.
  unfold LocalKernelBuilder.append_at, Py.lookup.
  destruct (Py.get String.eqb d k) as [xs|] eqn:E; cbn [Py.bind]; [|discriminate].
  intros H; injection H as <-. rewrite get_setitem_string.
  destruct (String.eqb_spec k k') as [<-|]; [|reflexivity].
  now rewrite E.
Qed.

(** A loop whose steps append to a list that is read off the state has
    appended, when it returns, what its steps appended, in order. *)
Lemma for_each_collect {S X A : Type} (view : S -> option (list A))
      (delta : X -> list A) (body : S -> X -> Py.result S) :
  (forall st x st',
      body st x = Py.Ok st' ->
      view st' = option_map (fun l => l ++ delta x) (view st)) ->
  forall xs st st',
    Py.for_each body xs st = Py.Ok st' ->
    view st' = option_map (fun l => l ++ flat_map delta xs) (view st).
Proof.
  intros Hstep. induction xs as [|x xs IH]; intros st st' H; simpl in H.
  - injection H as <-. simpl. destruct (view st); simpl; [|reflexivity].
    now rewrite app_nil_r.
  - destruct (body st x) as [st1|] eqn:E; cbn [Py.bind] in H; [|discriminate].
    rewrite (IH _ _ H), (Hstep _ _ _ E).
    destruct (view st); simpl; [|reflexivity].
    now rewrite <- app_assoc.
Qed.

(** The same for a flag that the steps raise. *)
Lemma for_each_any {S X : Type} (flag : S -> bool) (p : X -> bool)
      (body : S -> X -> Py.result S) :
  (forall st x st', body st x = Py.Ok st' -> flag st' = flag st || p x) ->
  forall xs st st',
    Py.for_each body xs st = Py.Ok st' -> flag st' = flag st || existsb p xs.
Proof.
  intros Hstep. induction xs as [|x xs IH]; intros st st' H; simpl in H.
  - injection H as <-. simpl. now rewrite orb_false_r.
  - destruct (body st x) as [st1|] eqn:E; cbn [Py.bind] in H; [|discriminate].
    rewrite (IH _ _ H), (Hstep _ _ _ E). simpl. now rewrite orb_assoc.
Qed.

Lemma flat_map_all_subkernels {A : Type}
      (delta : Tsfc.ContextKernel * Tsfc.SplitKernel -> list A)
      (ctxs : list Tsfc.ContextKernel) :
  flat_map delta (all_subkernels ctxs)
  = flat_map (fun c => flat_map (fun k => delta (c, k)) (Tsfc.tsfc_kernels c)) ctxs.
Proof.
  unfold all_subkernels.
  induction ctxs as [|c ctxs IH]; simpl; [reflexivity|].
  rewrite flat_map_app, IH. f_equal.
  induction (Tsfc.tsfc_kernels c) as [|k ks IHk]; simpl; [reflexivity|].
  now rewrite IHk.
Qed.

Lemma existsb_all_subkernels
      (p : Tsfc.ContextKernel * Tsfc.SplitKernel -> bool)
      (ctxs : list Tsfc.ContextKernel) :
  existsb p (all_subkernels ctxs)
  = existsb (fun c => existsb (fun k => p (c, k)) (Tsfc.tsfc_kernels c)) ctxs.
Proof.
  unfold all_subkernels.
  induction ctxs as [|c ctxs IH]; simpl; [reflexivity|].
  rewrite existsb_app, IH. f_equal.
  induction (Tsfc.tsfc_kernels c) as [|k ks IHk]; simpl; [reflexivity|].
  now rewrite IHk.
Qed.

Lemma in_all_subkernels (ctxs : list Tsfc.ContextKernel)
      (ck : Tsfc.ContextKernel * Tsfc.SplitKernel) :
  In ck (all_subkernels ctxs)
  <-> In (fst ck) ctxs /\ In (snd ck) (Tsfc.tsfc_kernels (fst ck)).
Proof.
  unfold all_subkernels. rewrite in_flat_map. split.
  - intros (c & Hc & Hin). apply in_map_iff in Hin.
    destruct Hin as (k & <- & Hk). simpl. auto.
  - intros [Hc Hk]. exists (fst ck). split; [exact Hc|].
    apply in_map_iff. exists (snd ck). split; [now destruct ck | exact Hk].
Qed.

Lemma flat_map_filter {X Y : Type} (p : X -> bool) (f : X -> Y) (l : list X) :
  flat_map (fun x => if p x then [f x] else []) l = map f (filter p l).
Proof.
  induction l as [|x l IH]; simpl; [reflexivity|].
  destruct (p x); simpl; now rewrite IH.
Qed.

(** One sub-kernel in the flat builder: the call of the sub-kernel is
    assembled and filed, its code is a COFFEE tree. *)
Lemma flat_split_kernel_step visit e temps ctx st sk st' :
  LocalKernelBuilder.setup_split_kernel visit e temps ctx st sk = Py.Ok st' ->
  let kinfo := Tsfc.kinfo sk in
  exists call,
    expected_call e temps (ctx, sk) = Some call
    /\ Tsfc.isinstance_Node (Tsfc._code (Tsfc.kernel kinfo)) = true
    /\ match Tsfc.subdomain_id kinfo with
       | Tsfc.otherwise =>
           LocalKernelBuilder.append_at (LocalKernelBuilder.st_assembly_calls st)
             (Tsfc.original_integral_type ctx) (LocalKernelBuilder.Call call)
           = Py.Ok (LocalKernelBuilder.st_assembly_calls st')
           /\ LocalKernelBuilder.st_subdomain_calls st'
              = LocalKernelBuilder.st_subdomain_calls st
       | Tsfc.marker sd_id =>
           exists sd_key,
             Py.get String.eqb LocalKernelBuilder.subdomain_map
               (Tsfc.integral_type kinfo) = Some sd_key
             /\ LocalKernelBuilder.append_at
                  (LocalKernelBuilder.st_subdomain_calls st) sd_key
                  (LocalKernelBuilder.SubdomainCall sd_id call)
                = Py.Ok (LocalKernelBuilder.st_subdomain_calls st')
             /\ LocalKernelBuilder.st_assembly_calls st'
                = LocalKernelBuilder.st_assembly_calls st
       end.
Proof.
  intros H kinfo. unfold LocalKernelBuilder.setup_split_kernel in H.
  unfold expected_call. cbn [fst snd]. fold kinfo in H |- *.
  destruct (Py.map_result _ _) as [args|]; cbn [Py.bind] in H; [|discriminate].
  destruct (Py.lookup _ temps _) as [temp|]; cbn [Py.bind] in H; [|discriminate].
  match type of H with
  | context [LocalKernelBuilder.Call ?c] => exists c
  end.
  split.
  { unfold trailing_arguments, cell_facet_types.
    destruct (Tsfc.oriented kinfo), (Py.str_in _ _), (Tsfc.needs_cell_sizes kinfo);
      cbn [app]; rewrite ?app_nil_r, <- ?app_assoc; reflexivity. }
  destruct (Tsfc.subdomain_id kinfo) as [|sd_id].
  - destruct (LocalKernelBuilder.append_at _ _ _) as [ac|] eqn:Eac;
      cbn [Py.bind] in H; [|discriminate].
    destruct (Tsfc.isinstance_Node _); [|discriminate]. cbn [negb] in H.
    injection H as <-. cbn. auto.
  - destruct (Py.get String.eqb LocalKernelBuilder.subdomain_map _)
      as [sd_key|] eqn:Ek; cbn [Py.bind] in H; [|discriminate].
    destruct (LocalKernelBuilder.append_at _ _ _) as [sc|] eqn:Esc;
      cbn [Py.bind] in H; [|discriminate].
    destruct (Tsfc.isinstance_Node _); [|discriminate]. cbn [negb] in H.
    injection H as <-. cbn. split; [reflexivity|]. exists sd_key. auto.
Qed.

Lemma option_map_app_nil {A : Type} (o : option (list A)) :
  option_map (fun l => l ++ []) o = o.
Proof. destruct o; simpl; [now rewrite app_nil_r | reflexivity]. Qed.

Lemma flat_split_kernel_plain visit e temps ctx it st sk st' :
  LocalKernelBuilder.setup_split_kernel visit e temps ctx st sk = Py.Ok st' ->
  Py.get String.eqb (LocalKernelBuilder.st_assembly_calls st') it
  = option_map (fun l => l ++ plain_entry e temps it (ctx, sk))
      (Py.get String.eqb (LocalKernelBuilder.st_assembly_calls st) it).
Proof.
  intros H. apply flat_split_kernel_step in H. cbv zeta in H.
  destruct H as (call & Hcall & _ & H).
  unfold plain_entry. cbn [fst snd]. rewrite Hcall.
  destruct (Tsfc.subdomain_id (Tsfc.kinfo sk)) as [|sd_id].
  - destruct H as [Ha _]. rewrite (append_at_get _ _ _ it _ Ha).
    cbn [Tsfc.is_otherwise]. rewrite andb_true_r.
    destruct (String.eqb _ it); [reflexivity|].
    now rewrite option_map_app_nil.
  - destruct H as (sd_key & _ & _ & ->).
    cbn [Tsfc.is_otherwise]. rewrite andb_false_r.
    now rewrite option_map_app_nil.
Qed.

Lemma flat_split_kernel_subdomain visit e temps ctx sd st sk st' :
  LocalKernelBuilder.setup_split_kernel visit e temps ctx st sk = Py.Ok st' ->
  Py.get String.eqb (LocalKernelBuilder.st_subdomain_calls st') sd
  = option_map (fun l => l ++ subdomain_entry e temps sd (ctx, sk))
      (Py.get String.eqb (LocalKernelBuilder.st_subdomain_calls st) sd).
Proof.
  intros H. apply flat_split_kernel_step in H. cbv zeta in H.
  destruct H as (call & Hcall & _ & H).
  unfold subdomain_entry. cbn [fst snd]. rewrite Hcall.
  destruct (Tsfc.subdomain_id (Tsfc.kinfo sk)) as [|sd_id].
  - destruct H as [_ ->]. now rewrite option_map_app_nil.
  - destruct H as (sd_key & -> & Hs & _).
    rewrite (append_at_get _ _ _ sd _ Hs).
    destruct (String.eqb sd_key sd); [reflexivity|].
    now rewrite option_map_app_nil.
Qed.

(** What a view of the state holds after the loop over the context
    kernels, given what one sub-kernel adds to it and that the checks on a
    context kernel leave it alone. *)
Lemma flat_setup_loop_collect {A : Type}
      (view : LocalKernelBuilder.setup_state -> option (list A))
      (delta : Tsfc.ContextKernel * Tsfc.SplitKernel -> list A)
      visit e temps :
  (forall ctx st sk st',
      LocalKernelBuilder.setup_split_kernel visit e temps ctx st sk = Py.Ok st' ->
      view st' = option_map (fun l => l ++ delta (ctx, sk)) (view st)) ->
  (forall st c,
      view {| LocalKernelBuilder.st_include_dirs :=
                LocalKernelBuilder.st_include_dirs st;
              LocalKernelBuilder.st_templated_subkernels :=
                LocalKernelBuilder.st_templated_subkernels st;
              LocalKernelBuilder.st_assembly_calls :=
                LocalKernelBuilder.st_assembly_calls st;
              LocalKernelBuilder.st_subdomain_calls :=
                LocalKernelBuilder.st_subdomain_calls st;
              LocalKernelBuilder.st_coords := c;
              LocalKernelBuilder.st_oriented := LocalKernelBuilder.st_oriented st;
              LocalKernelBuilder.st_needs_cell_sizes :=
                LocalKernelBuilder.st_needs_cell_sizes st |}
      = view st) ->
  forall ctxs st st',
    Py.for_each (LocalKernelBuilder.setup_cxt_kernel visit e temps) ctxs st
    = Py.Ok st' ->
    view st' = option_map (fun l => l ++ flat_map delta (all_subkernels ctxs))
                 (view st).
Proof.
  intros Hstep Hcoords ctxs st st' H.
  rewrite flat_map_all_subkernels.
  revert H. apply for_each_collect. clear st st'.
  intros st ctx st' H.
  unfold LocalKernelBuilder.setup_cxt_kernel in H.
  destruct (negb _); [discriminate|].
  match type of H with Py.bind ?m _ = _ => destruct m as [st1|] eqn:E end;
    cbn [Py.bind] in H; [|discriminate].
  assert (Hv : view st1 = view st).
  { destruct (LocalKernelBuilder.st_coords st).
    - destruct (Slate.function_eqb _ _); [|discriminate]. now injection E as <-.
    - injection E as <-. apply Hcoords. }
  rewrite <- Hv. revert H.
  apply (for_each_collect view (fun k => delta (ctx, k))).
  intros s k s'. apply Hstep.
Qed.

Lemma flat_setup_loop_any
      (flag : LocalKernelBuilder.setup_state -> bool)
      (p : Tsfc.ContextKernel * Tsfc.SplitKernel -> bool)
      visit e temps :
  (forall ctx st sk st',
      LocalKernelBuilder.setup_split_kernel visit e temps ctx st sk = Py.Ok st' ->
      flag st' = flag st || p (ctx, sk)) ->
  (forall st c,
      flag {| LocalKernelBuilder.st_include_dirs :=
                LocalKernelBuilder.st_include_dirs st;
              LocalKernelBuilder.st_templated_subkernels :=
                LocalKernelBuilder.st_templated_subkernels st;
              LocalKernelBuilder.st_assembly_calls :=
                LocalKernelBuilder.st_assembly_calls st;
              LocalKernelBuilder.st_subdomain_calls :=
                LocalKernelBuilder.st_subdomain_calls st;
              LocalKernelBuilder.st_coords := c;
              LocalKernelBuilder.st_oriented := LocalKernelBuilder.st_oriented st;
              LocalKernelBuilder.st_needs_cell_sizes :=
                LocalKernelBuilder.st_needs_cell_sizes st |}
      = flag st) ->
  forall ctxs st st',
    Py.for_each (LocalKernelBuilder.setup_cxt_kernel visit e temps) ctxs st
    = Py.Ok st' ->
    flag st' = flag st || existsb p (all_subkernels ctxs).
Proof.
  intros Hstep Hcoords ctxs st st' H.
  rewrite existsb_all_subkernels.
  revert H. apply for_each_any. clear st st'.
  intros st ctx st' H.
  unfold LocalKernelBuilder.setup_cxt_kernel in H.
  destruct (negb _); [discriminate|].
  match type of H with Py.bind ?m _ = _ => destruct m as [st1|] eqn:E end;
    cbn [Py.bind] in H; [|discriminate].
  assert (Hv : flag st1 = flag st).
  { destruct (LocalKernelBuilder.st_coords st).
    - destruct (Slate.function_eqb _ _); [|discriminate]. now injection E as <-.
    - injection E as <-. apply Hcoords. }
  rewrite <- Hv. revert H.
  apply (for_each_any flag (fun k => p (ctx, k))).
  intros s k s'. apply Hstep.
Qed.

(** Every sub-kernel of a loop that returned had its call assembled. *)
Lemma flat_setup_loop_calls visit e temps ctxs st :
  LocalKernelBuilder.setup_loop visit e temps ctxs = Py.Ok st ->
  forall ck, In ck (all_subkernels ctxs) ->
    exists call,
      expected_call e temps ck = Some call
      /\ Tsfc.isinstance_Node (Tsfc._code (Tsfc.kernel (Tsfc.kinfo (snd ck)))) = true
      /\ forall sd_id,
          Tsfc.subdomain_id (Tsfc.kinfo (snd ck)) = Tsfc.marker sd_id ->
          exists sd_key,
            Py.get String.eqb LocalKernelBuilder.subdomain_map
              (Tsfc.integral_type (Tsfc.kinfo (snd ck))) = Some sd_key.
Proof.
  unfold LocalKernelBuilder.setup_loop. intros H [c k] Hin.
  apply in_all_subkernels in Hin. cbn [fst snd] in Hin. destruct Hin as [Hc Hk].
  apply (for_each_ok_forall
           (fun c => forall k, In k (Tsfc.tsfc_kernels c) ->
              exists call,
                expected_call e temps (c, k) = Some call
                /\ Tsfc.isinstance_Node (Tsfc._code (Tsfc.kernel (Tsfc.kinfo k)))
                   = true
                /\ forall sd_id,
                    Tsfc.subdomain_id (Tsfc.kinfo k) = Tsfc.marker sd_id ->
                    exists sd_key,
                      Py.get String.eqb LocalKernelBuilder.subdomain_map
                        (Tsfc.integral_type (Tsfc.kinfo k)) = Some sd_key)) in H.
  - rewrite Forall_forall in H. exact (H c Hc k Hk).
  - clear. intros s c s' Hs.
    apply flat_cxt_kernel_inv in Hs. destruct Hs as (_ & _ & s1 & Hl & _).
    apply Forall_forall. revert Hl. apply for_each_ok_forall.
    intros s2 k s3 Hk. apply flat_split_kernel_step in Hk. cbv zeta in Hk.
    destruct Hk as (call & Hcall & Hnode & Hsd). exists call.
    split; [exact Hcall|]. split; [exact Hnode|].
    intros sd_id Hm. rewrite Hm in Hsd.
    destruct Hsd as (sd_key & Hkey & _). eauto.
Qed.

Lemma flat_buckets visit e temps ctxs st :
  LocalKernelBuilder.setup_loop visit e temps ctxs = Py.Ok st ->
  (forall it, In it LocalKernelBuilder.supported_integral_types ->
     Py.get String.eqb (LocalKernelBuilder.st_assembly_calls st) it
     = Some (flat_map (plain_entry e temps it) (all_subkernels ctxs)))
  /\ (forall sd, In sd LocalKernelBuilder.supported_subdomain_types ->
        Py.get String.eqb (LocalKernelBuilder.st_subdomain_calls st) sd
        = Some (flat_map (subdomain_entry e temps sd) (all_subkernels ctxs))).
Proof.
  unfold LocalKernelBuilder.setup_loop. intros H. split.
  - intros it Hit.
    rewrite (flat_setup_loop_collect
               (fun s => Py.get String.eqb (LocalKernelBuilder.st_assembly_calls s) it)
               (plain_entry e temps it) visit e temps
               (fun ctx s k s' => flat_split_kernel_plain visit e temps ctx it s k s')
               (fun s c => eq_refl) _ _ _ H).
    simpl in Hit.
    repeat (destruct Hit as [<-|Hit]; [reflexivity|]). destruct Hit.
  - intros sd Hsd.
    rewrite (flat_setup_loop_collect
               (fun s => Py.get String.eqb (LocalKernelBuilder.st_subdomain_calls s) sd)
               (subdomain_entry e temps sd) visit e temps
               (fun ctx s k s' => flat_split_kernel_subdomain visit e temps ctx sd s k s')
               (fun s c => eq_refl) _ _ _ H).
    simpl in Hsd.
    repeat (destruct Hsd as [<-|Hsd]; [reflexivity|]). destruct Hsd.
Qed.

(** The buckets of a builder, read off its merged dictionary. *)
Lemma flat_builder_buckets compile visit list_set expression b :
  LocalKernelBuilder.__init__ compile visit list_set expression = Py.Ok b ->
  let subkernels := all_subkernels (LocalKernelBuilder.context_kernels b) in
  (forall it, In it LocalKernelBuilder.supported_integral_types ->
     Py.get String.eqb (LocalKernelBuilder.assembly_calls b) it
     = Some (flat_map (plain_entry expression (LocalKernelBuilder.temps b) it)
                      subkernels))
  /\ (forall sd, In sd LocalKernelBuilder.supported_subdomain_types ->
        Py.get String.eqb (LocalKernelBuilder.assembly_calls b) sd
        = Some (flat_map (subdomain_entry expression (LocalKernelBuilder.temps b) sd)
                         subkernels))
  /\ (forall ck, In ck subkernels ->
        exists call,
          expected_call expression (LocalKernelBuilder.temps b) ck = Some call
          /\ Tsfc.isinstance_Node
               (Tsfc._code (Tsfc.kernel (Tsfc.kinfo (snd ck)))) = true
          /\ forall sd_id,
              Tsfc.subdomain_id (Tsfc.kinfo (snd ck)) = Tsfc.marker sd_id ->
              exists sd_key,
                Py.get String.eqb LocalKernelBuilder.subdomain_map
                  (Tsfc.integral_type (Tsfc.kinfo (snd ck))) = Some sd_key)
  /\ map fst (LocalKernelBuilder.assembly_calls b)
     = LocalKernelBuilder.supported_integral_types
       ++ LocalKernelBuilder.supported_subdomain_types.
Proof.
  intros Hb subkernels. apply flat_builder_fields in Hb.
  destruct Hb as (_ & _ & _ & _ & _ & _ & _ & st & Hl & Hac & _).
  destruct (flat_buckets _ _ _ _ _ Hl) as [Hplain Hsub].
  destruct (flat_setup_loop_keys _ _ _ _ _ Hl) as [Ka Ks].
  rewrite Hac. split; [|split; [|split]].
  - intros it Hit. rewrite get_app_left by (now rewrite Ka). now apply Hplain.
  - intros sd Hsd. rewrite get_app_right; [now apply Hsub|].
    rewrite Ka. intros Hin. simpl in Hsd, Hin.
    repeat (destruct Hsd as [<-|Hsd]; [repeat (destruct Hin as [Hin|Hin];
      [discriminate Hin|]); exact Hin|]). exact Hsd.
  - exact (flat_setup_loop_calls _ _ _ _ _ Hl).
  - now rewrite map_app, Ka, Ks.
Qed.

Lemma expected_call_name e temps ck call :
  expected_call e temps ck = Some call ->
  function_name call = Tsfc.name (Tsfc.kernel (Tsfc.kinfo (snd ck))).
Proof.
  unfold expected_call.
  destruct (Py.map_result _ _); [|discriminate].
  destruct (Py.lookup _ _ _); [|discriminate].
  intros H; injection H as <-. reflexivity.
Qed.

(** X9. The bucket of every supported integral type holds the calls of the
    sub-kernels without a subdomain marker of the context kernels of that
    type, one call for each, in the order in which the form compiler
    returned them; none of its entries carries a marker. *)
Theorem plain_buckets_hold_unmarked_calls
        (compile : Tsfc.compiler) (visit : Tsfc.KernelCode -> Tsfc.KernelCode)
        (list_set : list string -> list string)
        (expression : Slate.TensorBase) (b : LocalKernelBuilder.t) (it : string) :
  LocalKernelBuilder.__init__ compile visit list_set expression = Py.Ok b ->
  In it LocalKernelBuilder.supported_integral_types ->
  exists calls,
    Py.get String.eqb (LocalKernelBuilder.assembly_calls b) it = Some calls
    /\ map entry_name calls
       = plain_calls_of it (LocalKernelBuilder.context_kernels b)
    /\ Forall (fun e => entry_marker e = None) calls.
Proof.
  intros Hb Hit. apply flat_builder_buckets in Hb. cbv zeta in Hb.
  destruct Hb as (Hplain & _ & Hcalls & _).
  eexists. split; [exact (Hplain it Hit)|]. clear Hplain.
  unfold plain_calls_of.
  induction (all_subkernels (LocalKernelBuilder.context_kernels b))
    as [|ck l IH]; [split; [reflexivity | constructor]|].
  destruct IH as [IHn IHm]; [intros x Hx; apply Hcalls; now right|].
  destruct (Hcalls ck (or_introl eq_refl)) as (call & Hcall & _).
  cbn [flat_map filter]. unfold plain_entry at 1 3. rewrite Hcall.
  destruct (_ && _).
  - cbn [app map entry_name]. rewrite (expected_call_name _ _ _ _ Hcall).
    split; [now rewrite IHn | constructor; [reflexivity | exact IHm]].
  - cbn [app]. split; assumption.
Qed.

Lemma plain_buckets_hold_unmarked_calls_witness :
  match LocalKernelBuilder.__init__ Examples.compile_facet Examples.visit
          Examples.in_order Examples.shared with
  | Py.Ok b =>
      exists calls,
        Py.get String.eqb (LocalKernelBuilder.assembly_calls b) "cell" = Some calls
        /\ map entry_name calls
           = ["subkernel0_cell_integral"; "subkernel1_cell_integral"]
  | Py.Raise _ => False
  end.
Proof.
  destruct (LocalKernelBuilder.__init__ Examples.compile_facet Examples.visit
              Examples.in_order Examples.shared) as [b|] eqn:Hb;
    [|discriminate Hb].
  destruct (plain_buckets_hold_unmarked_calls _ _ _ _ _ "cell" Hb
              (or_introl eq_refl)) as (calls & Hg & Hn & _).
  exists calls. split; [exact Hg|].
  rewrite Hn. vm_compute in Hb. injection Hb as <-. reflexivity.
Defined.

(** X10. A sub-kernel with a subdomain marker is filed, with its marker, in
    the subdomain bucket that [subdomain_map] assigns to the integral type
    of the sub-kernel itself; each of the two subdomain buckets holds
    exactly these calls, in order. *)
Theorem subdomain_buckets_hold_marked_calls
        (compile : Tsfc.compiler) (visit : Tsfc.KernelCode -> Tsfc.KernelCode)
        (list_set : list string -> list string)
        (expression : Slate.TensorBase) (b : LocalKernelBuilder.t) (sd : string) :
  LocalKernelBuilder.__init__ compile visit list_set expression = Py.Ok b ->
  In sd LocalKernelBuilder.supported_subdomain_types ->
  exists calls,
    Py.get String.eqb (LocalKernelBuilder.assembly_calls b) sd = Some calls
    /\ map (fun e => (entry_marker e, entry_name e)) calls
       = map (fun p => (Some (fst p), snd p))
             (subdomain_calls_of sd (LocalKernelBuilder.context_kernels b)).
Proof.
  intros Hb Hsd. apply flat_builder_buckets in Hb. cbv zeta in Hb.
  destruct Hb as (_ & Hsub & Hcalls & _).
  eexists. split; [exact (Hsub sd Hsd)|]. clear Hsub.
  unfold subdomain_calls_of.
  induction (all_subkernels (LocalKernelBuilder.context_kernels b))
    as [|ck l IH]; [reflexivity|].
  cbn [flat_map]. rewrite !map_app, IH by (intros x Hx; apply Hcalls; now right).
  f_equal.
  destruct (Hcalls ck (or_introl eq_refl)) as (call & Hcall & _).
  unfold subdomain_entry. rewrite Hcall.
  destruct (Tsfc.subdomain_id _); [reflexivity|].
  destruct (Py.get String.eqb LocalKernelBuilder.subdomain_map _); [|reflexivity].
  destruct (String.eqb _ sd); [|reflexivity].
  cbn. now rewrite (expected_call_name _ _ _ _ Hcall).
Qed.

Lemma subdomain_buckets_hold_marked_calls_witness :
  match LocalKernelBuilder.__init__ Examples.compile_facet Examples.visit
          Examples.in_order Examples.shared with
  | Py.Ok b =>
      exists calls,
        Py.get String.eqb (LocalKernelBuilder.assembly_calls b)
          "subdomains_exterior_facet" = Some calls
        /\ map (fun e => (entry_marker e, entry_name e)) calls
           = [(Some 2%Z, "subkernel0_exterior_facet_integral");
              (Some 2%Z, "subkernel1_exterior_facet_integral")]
  | Py.Raise _ => False
  end.
Proof.
  destruct (LocalKernelBuilder.__init__ Examples.compile_facet Examples.visit
              Examples.in_order Examples.shared) as [b|] eqn:Hb;
    [|discriminate Hb].
  destruct (subdomain_buckets_hold_marked_calls _ _ _ _ _
              "subdomains_exterior_facet" Hb (or_introl eq_refl))
    as (calls & Hg & Hn).
  exists calls. split; [exact Hg|].
  rewrite Hn. vm_compute in Hb. injection Hb as <-. reflexivity.
Defined.

(** X11. Every entry of every bucket of a builder is the call of one of
    its sub-kernels, laid out as the kernel expects it: the kernel of the
    sub-kernel applied to the block of the temporary of the terminal, then
    the coordinates, then the cell orientations if the kernel is oriented,
    the symbols of its coefficients, the facet number for an integral over
    facets, and the cell sizes if the kernel needs them. *)
Theorem calls_follow_layout
        (compile : Tsfc.compiler) (visit : Tsfc.KernelCode -> Tsfc.KernelCode)
        (list_set : list string -> list string)
        (expression : Slate.TensorBase) (b : LocalKernelBuilder.t)
        (key : string) (calls : list LocalKernelBuilder.entry)
        (e : LocalKernelBuilder.entry) :
  LocalKernelBuilder.__init__ compile visit list_set expression = Py.Ok b ->
  Py.get String.eqb (LocalKernelBuilder.assembly_calls b) key = Some calls ->
  In e calls ->
  exists ck temp symbols,
    In ck (all_subkernels (LocalKernelBuilder.context_kernels b))
    /\ Py.lookup Slate.tensor_eqb (LocalKernelBuilder.temps b)
         (Tsfc.tensor (fst ck)) = Py.Ok temp
    /\ Py.map_result
         (fun i => c <- Py.getitem (Tsfc.coefficients (fst ck)) i ;;
                   LocalKernelBuilder.coefficient expression c)
         (Tsfc.coefficient_map (Tsfc.kinfo (snd ck))) = Py.Ok symbols
    /\ entry_call e
       = {| function_name := Tsfc.name (Tsfc.kernel (Tsfc.kinfo (snd ck)));
            children :=
              EigenTensor (Tsfc.tensor (fst ck)) temp (Tsfc.indices (snd ck))
                :: LocalKernelBuilder.coord_sym
                :: trailing_arguments (Tsfc.kinfo (snd ck)) (List.concat symbols) |}
    /\ entry_marker e
       = match Tsfc.subdomain_id (Tsfc.kinfo (snd ck)) with
         | Tsfc.otherwise => None
         | Tsfc.marker sd_id => Some sd_id
         end.
Proof.
  intros Hb Hget He. apply flat_builder_buckets in Hb. cbv zeta in Hb.
  destruct Hb as (Hplain & Hsub & _ & Hkeys).
  assert (Hcall : forall ck call,
             expected_call expression (LocalKernelBuilder.temps b) ck = Some call ->
             exists temp symbols,
               Py.lookup Slate.tensor_eqb (LocalKernelBuilder.temps b)
                 (Tsfc.tensor (fst ck)) = Py.Ok temp
               /\ Py.map_result
                    (fun i => c <- Py.getitem (Tsfc.coefficients (fst ck)) i ;;
                              LocalKernelBuilder.coefficient expression c)
                    (Tsfc.coefficient_map (Tsfc.kinfo (snd ck))) = Py.Ok symbols
               /\ call
                  = {| function_name := Tsfc.name (Tsfc.kernel (Tsfc.kinfo (snd ck)));
                       children :=
                         EigenTensor (Tsfc.tensor (fst ck)) temp
                           (Tsfc.indices (snd ck))
                           :: LocalKernelBuilder.coord_sym
                           :: trailing_arguments (Tsfc.kinfo (snd ck))
                                (List.concat symbols) |}).
  { intros ck call. unfold expected_call.
    destruct (Py.map_result _ _) as [symbols|]; [|discriminate].
    destruct (Py.lookup _ _ _) as [temp|]; [|discriminate].
    intros H; injection H as <-. exists temp, symbols. auto. }
  pose proof (get_in_keys _ _ _ Hget) as Hkey. rewrite Hkeys in Hkey.
  apply in_app_or in Hkey. destruct Hkey as [Hit|Hsd].
  - rewrite (Hplain key Hit) in Hget. injection Hget as <-.
    apply in_flat_map in He. destruct He as (ck & Hck & He).
    unfold plain_entry in He.
    destruct (String.eqb _ key); [|destruct He]. cbn [andb] in He.
    destruct (Tsfc.subdomain_id (Tsfc.kinfo (snd ck))) eqn:Esd; [|destruct He].
    cbn [Tsfc.is_otherwise] in He.
    destruct (expected_call _ _ ck) as [call|] eqn:Ec; [|destruct He].
    destruct He as [<-|[]].
    destruct (Hcall _ _ Ec) as (temp & symbols & Ht & Hs & ->).
    exists ck, temp, symbols. rewrite Esd.
    repeat (split; [first [assumption | reflexivity]|]). reflexivity.
  - rewrite (Hsub key Hsd) in Hget. injection Hget as <-.
    apply in_flat_map in He. destruct He as (ck & Hck & He).
    unfold subdomain_entry in He.
    destruct (Tsfc.subdomain_id (Tsfc.kinfo (snd ck))) as [|sd_id] eqn:Esd;
      [destruct He|].
    destruct (Py.get String.eqb LocalKernelBuilder.subdomain_map _);
      [|destruct He].
    destruct (String.eqb _ key); [|destruct He].
    destruct (expected_call _ _ ck) as [call|] eqn:Ec; [|destruct He].
    destruct He as [<-|[]].
    destruct (Hcall _ _ Ec) as (temp & symbols & Ht & Hs & ->).
    exists ck, temp, symbols. rewrite Esd.
    repeat (split; [first [assumption | reflexivity]|]). reflexivity.
Qed.

Lemma calls_follow_layout_witness :
  match LocalKernelBuilder.__init__ Examples.compile_facet Examples.visit
          Examples.in_order Examples.A33 with
  | Py.Ok b =>
      exists ck temp symbols,
        In ck (all_subkernels (LocalKernelBuilder.context_kernels b))
        /\ Py.lookup Slate.tensor_eqb (LocalKernelBuilder.temps b)
             (Tsfc.tensor (fst ck)) = Py.Ok temp
        /\ Py.map_result
             (fun i => c <- Py.getitem (Tsfc.coefficients (fst ck)) i ;;
                       LocalKernelBuilder.coefficient Examples.A33 c)
             (Tsfc.coefficient_map (Tsfc.kinfo (snd ck))) = Py.Ok symbols
        /\ {| function_name := "subkernel0_exterior_facet_integral";
              children := [EigenTensor Examples.A33 "T0" [0; 0];
                           Symbol "coords"; FlatBlock "&i0"] |}
           = {| function_name := Tsfc.name (Tsfc.kernel (Tsfc.kinfo (snd ck)));
                children :=
                  EigenTensor (Tsfc.tensor (fst ck)) temp (Tsfc.indices (snd ck))
                    :: LocalKernelBuilder.coord_sym
                    :: trailing_arguments (Tsfc.kinfo (snd ck))
                         (List.concat symbols) |}
  | Py.Raise _ => False
  end.
Proof.
  destruct (LocalKernelBuilder.__init__ Examples.compile_facet Examples.visit
              Examples.in_order Examples.A33) as [b|] eqn:Hb;
    [|vm_compute in Hb; discriminate Hb].
  destruct (calls_follow_layout _ _ _ _ b "subdomains_exterior_facet"
              [LocalKernelBuilder.SubdomainCall 2
                 {| function_name := "subkernel0_exterior_facet_integral";
                    children := [EigenTensor Examples.A33 "T0" [0; 0];
                                 Symbol "coords"; FlatBlock "&i0"] |}]
              (LocalKernelBuilder.SubdomainCall 2
                 {| function_name := "subkernel0_exterior_facet_integral";
                    children := [EigenTensor Examples.A33 "T0" [0; 0];
                                 Symbol "coords"; FlatBlock "&i0"] |})
              Hb)
    as (ck & temp & symbols & Hck & Ht & Hs & Hc & _).
  - vm_compute in Hb. injection Hb as <-. reflexivity.
  - now left.
  - exists ck, temp, symbols. auto.
Defined.

(** *** What call assembly collects *)

Lemma flat_split_kernel_fields visit e temps ctx st sk st' :
  LocalKernelBuilder.setup_split_kernel visit e temps ctx st sk = Py.Ok st' ->
  LocalKernelBuilder.st_oriented st'
  = LocalKernelBuilder.st_oriented st || Tsfc.oriented (Tsfc.kinfo sk)
  /\ LocalKernelBuilder.st_needs_cell_sizes st'
     = LocalKernelBuilder.st_needs_cell_sizes st
       || Tsfc.needs_cell_sizes (Tsfc.kinfo sk)
  /\ LocalKernelBuilder.st_templated_subkernels st'
     = LocalKernelBuilder.st_templated_subkernels st
       ++ [visit (Tsfc._code (Tsfc.kernel (Tsfc.kinfo sk)))]
  /\ LocalKernelBuilder.st_include_dirs st'
     = LocalKernelBuilder.st_include_dirs st
       ++ Tsfc._include_dirs (Tsfc.kernel (Tsfc.kinfo sk)).
Proof.
  intros H. apply flat_split_kernel_inv in H.
  destruct H as (call & _ & _ & _ & Ho & Hs & Ht & Hi). auto.
Qed.

Lemma flat_map_single {X Y : Type} (f : X -> Y) (l : list X) :
  flat_map (fun x => [f x]) l = map f l.
Proof. induction l as [|x l IH]; simpl; [reflexivity | now rewrite IH]. Qed.

(** X12. The templated sub-kernels of a builder are the transformed codes
    of all its sub-kernels, one for each, in the order of the calls; the
    include directories are those of all sub-kernels, as a set; and the
    code of every sub-kernel is a COFFEE tree. *)
Theorem subkernels_collected
        (compile : Tsfc.compiler) (visit : Tsfc.KernelCode -> Tsfc.KernelCode)
        (list_set : list string -> list string)
        (expression : Slate.TensorBase) (b : LocalKernelBuilder.t) :
  LocalKernelBuilder.__init__ compile visit list_set expression = Py.Ok b ->
  let subkernels := all_subkernels (LocalKernelBuilder.context_kernels b) in
  LocalKernelBuilder.templated_subkernels b
  = map (fun ck => visit (Tsfc._code (Tsfc.kernel (Tsfc.kinfo (snd ck)))))
        subkernels
  /\ LocalKernelBuilder.include_dirs b
     = list_set (flat_map (fun ck => Tsfc._include_dirs
                                       (Tsfc.kernel (Tsfc.kinfo (snd ck))))
                          subkernels)
  /\ Forall (fun ck => Tsfc.isinstance_Node
                         (Tsfc._code (Tsfc.kernel (Tsfc.kinfo (snd ck)))) = true)
            subkernels.
Proof.
  intros Hb subkernels.
  pose proof (flat_builder_buckets _ _ _ _ _ Hb) as Hbk. cbv zeta in Hbk.
  destruct Hbk as (_ & _ & Hcalls & _).
  apply flat_builder_fields in Hb.
  destruct Hb as (_ & _ & _ & _ & _ & _ & _ & st & Hl & _ & Ht & Hi & _).
  unfold LocalKernelBuilder.setup_loop in Hl.
  split; [|split].
  - rewrite Ht.
    pose proof (flat_setup_loop_collect
                  (fun s => Some (LocalKernelBuilder.st_templated_subkernels s))
                  (fun ck => [visit (Tsfc._code (Tsfc.kernel (Tsfc.kinfo (snd ck))))])
                  visit expression (LocalKernelBuilder.temps b)) as Hc.
    specialize (Hc (fun ctx s k s' Hk =>
                      f_equal Some
                        (proj1 (proj2 (proj2
                           (flat_split_kernel_fields _ _ _ _ _ _ _ Hk)))))
               (fun s c => eq_refl) _ _ _ Hl).
    cbn in Hc. injection Hc as ->. apply flat_map_single.
  - rewrite Hi. f_equal.
    pose proof (flat_setup_loop_collect
                  (fun s => Some (LocalKernelBuilder.st_include_dirs s))
                  (fun ck => Tsfc._include_dirs (Tsfc.kernel (Tsfc.kinfo (snd ck))))
                  visit expression (LocalKernelBuilder.temps b)) as Hc.
    specialize (Hc (fun ctx s k s' Hk =>
                      f_equal Some
                        (proj2 (proj2 (proj2
                           (flat_split_kernel_fields _ _ _ _ _ _ _ Hk)))))
               (fun s c => eq_refl) _ _ _ Hl).
    cbn in Hc. now injection Hc as ->.
  - apply Forall_forall. intros ck Hck.
    destruct (Hcalls ck Hck) as (call & _ & Hn & _). exact Hn.
Qed.

Lemma subkernels_collected_witness :
  match LocalKernelBuilder.__init__ Examples.compile_facet Examples.visit
          Examples.in_order Examples.A33 with
  | Py.Ok b =>
      LocalKernelBuilder.templated_subkernels b
      = [Tsfc.CoffeeAst "ast"; Tsfc.CoffeeAst "ast"]
      /\ LocalKernelBuilder.include_dirs b = ["/usr/include/eigen3"]
  | Py.Raise _ => False
  end.
Proof.
  destruct (LocalKernelBuilder.__init__ Examples.compile_facet Examples.visit
              Examples.in_order Examples.A33) as [b|] eqn:Hb;
    [|vm_compute in Hb; discriminate Hb].
  destruct (subkernels_collected _ _ _ _ _ Hb) as (Ht & Hi & _).
  rewrite Ht, Hi. vm_compute in Hb. injection Hb as <-. split; reflexivity.
Defined.

(** X13. The two flags of a builder are disjunctions over all its
    sub-kernels: the builder is oriented exactly when some sub-kernel is,
    and needs the cell sizes exactly when some sub-kernel does. *)
Theorem flags_are_disjunctions
        (compile : Tsfc.compiler) (visit : Tsfc.KernelCode -> Tsfc.KernelCode)
        (list_set : list string -> list string)
        (expression : Slate.TensorBase) (b : LocalKernelBuilder.t) :
  LocalKernelBuilder.__init__ compile visit list_set expression = Py.Ok b ->
  let subkernels := all_subkernels (LocalKernelBuilder.context_kernels b) in
  LocalKernelBuilder.oriented b
  = existsb (fun ck => Tsfc.oriented (Tsfc.kinfo (snd ck))) subkernels
  /\ LocalKernelBuilder.needs_cell_sizes b
     = existsb (fun ck => Tsfc.needs_cell_sizes (Tsfc.kinfo (snd ck))) subkernels.
Proof.
  intros Hb subkernels. apply flat_builder_fields in Hb.
  destruct Hb as (_ & _ & _ & _ & _ & _ & _ & st & Hl & _ & _ & _ & Ho & Hs).
  unfold LocalKernelBuilder.setup_loop in Hl. rewrite Ho, Hs. split.
  - exact (flat_setup_loop_any LocalKernelBuilder.st_oriented
             (fun ck => Tsfc.oriented (Tsfc.kinfo (snd ck)))
             visit expression (LocalKernelBuilder.temps b)
             (fun ctx s k s' Hk =>
                proj1 (flat_split_kernel_fields _ _ _ _ _ _ _ Hk))
             (fun s c => eq_refl) _ _ _ Hl).
  - exact (flat_setup_loop_any LocalKernelBuilder.st_needs_cell_sizes
             (fun ck => Tsfc.needs_cell_sizes (Tsfc.kinfo (snd ck)))
             visit expression (LocalKernelBuilder.temps b)
             (fun ctx s k s' Hk =>
                proj1 (proj2 (flat_split_kernel_fields _ _ _ _ _ _ _ Hk)))
             (fun s c => eq_refl) _ _ _ Hl).
Qed.

Lemma flags_are_disjunctions_witness :
  match LocalKernelBuilder.__init__ Examples.compile_oriented Examples.visit
          Examples.in_order Examples.A33 with
  | Py.Ok b =>
      LocalKernelBuilder.oriented b = true
      /\ LocalKernelBuilder.needs_cell_sizes b = true
  | Py.Raise _ => False
  end.
Proof.
  destruct (LocalKernelBuilder.__init__ Examples.compile_oriented Examples.visit
              Examples.in_order Examples.A33) as [b|] eqn:Hb;
    [|vm_compute in Hb; discriminate Hb].
  destruct (flags_are_disjunctions _ _ _ _ _ Hb) as (Ho & Hs).
  rewrite Ho, Hs. vm_compute in Hb. injection Hb as <-. split; reflexivity.
Defined.

(** X14. A sub-kernel with a subdomain marker whose integral type has no
    subdomain bucket (it is not an integral over exterior or interior
    facets, vertical ones included) is not supported: once its arguments
    are resolved the step raises the error "Subdomains for integral type
    ... not implemented", call assembly never returns on a list that holds
    its context kernel, and no builder holds it. *)
Theorem unsupported_subdomain_rejected
        (cxt_kernel : Tsfc.ContextKernel) (sk : Tsfc.SplitKernel) (sd_id : Z)
        (before after : list Tsfc.ContextKernel) :
  In sk (Tsfc.tsfc_kernels cxt_kernel) ->
  Tsfc.subdomain_id (Tsfc.kinfo sk) = Tsfc.marker sd_id ->
  Py.get String.eqb LocalKernelBuilder.subdomain_map
    (Tsfc.integral_type (Tsfc.kinfo sk)) = None ->
  (forall visit expression temps st call,
      expected_call expression temps (cxt_kernel, sk) = Some call ->
      LocalKernelBuilder.setup_split_kernel visit expression temps cxt_kernel st sk
      = Py.Raise (Py.NotImplementedError
                    ("Subdomains for integral type '"
                       ++ Tsfc.integral_type (Tsfc.kinfo sk)
                       ++ "' not implemented")%string))
  /\ (forall visit expression temps,
         Py.is_ok (LocalKernelBuilder.setup_loop visit expression temps
                     (before ++ cxt_kernel :: after)) = false)
  /\ (forall compile visit list_set expression b,
         LocalKernelBuilder.__init__ compile visit list_set expression = Py.Ok b ->
         ~ In cxt_kernel (LocalKernelBuilder.context_kernels b)).
Proof.
  intros Hsk Hm Hnone.
  assert (Hnever : forall visit expression temps ctxs st,
             LocalKernelBuilder.setup_loop visit expression temps ctxs = Py.Ok st ->
             ~ In cxt_kernel ctxs).
  { intros visit expression temps ctxs st Hl Hin.
    destruct (flat_setup_loop_calls _ _ _ _ _ Hl (cxt_kernel, sk))
      as (call & _ & _ & Hkey).
    - apply in_all_subkernels. cbn [fst snd]. auto.
    - destruct (Hkey sd_id Hm) as (sd_key & Hk). cbn [snd] in Hk. congruence. }
  split; [|split].
  - intros visit expression temps st call Hcall.
    unfold expected_call in Hcall. cbn [fst snd] in Hcall.
    unfold LocalKernelBuilder.setup_split_kernel.
    destruct (Py.map_result _ _) as [symbols|]; [|discriminate].
    destruct (Py.lookup _ temps _) as [temp|]; [|discriminate].
    cbn [Py.bind]. rewrite Hm, Hnone. reflexivity.
  - intros visit expression temps.
    destruct (LocalKernelBuilder.setup_loop _ _ _ _) as [st|] eqn:E; [|reflexivity].
    exfalso. apply (Hnever _ _ _ _ _ E). apply in_or_app. right. now left.
  - intros compile visit list_set expression b Hb.
    apply flat_builder_fields in Hb.
    destruct Hb as (_ & _ & _ & _ & _ & _ & _ & st & Hl & _).
    exact (Hnever _ _ _ _ _ Hl).
Qed.

Lemma unsupported_subdomain_rejected_witness :
  LocalKernelBuilder.setup_split_kernel Examples.visit Examples.A33
    Examples.flat_temps
    (Examples.cxt Examples.A33 "subkernel0_" "cell" (Tsfc.marker 1) true)
    LocalKernelBuilder.setup_start
    {| Tsfc.indices := [0; 0];
       Tsfc.kinfo := Examples.kinfo "subkernel0_cell_integral" "cell"
                       (Tsfc.marker 1) true |}
  = Py.Raise (Py.NotImplementedError
                "Subdomains for integral type 'cell' not implemented").
Proof.
  refine (proj1 (unsupported_subdomain_rejected
                   (Examples.cxt Examples.A33 "subkernel0_" "cell"
                      (Tsfc.marker 1) true)
                   {| Tsfc.indices := [0; 0];
                      Tsfc.kinfo := Examples.kinfo "subkernel0_cell_integral" "cell"
                                      (Tsfc.marker 1) true |}
                   1%Z [] [] (or_introl eq_refl) eq_refl eq_refl)
                Examples.visit Examples.A33 Examples.flat_temps
                LocalKernelBuilder.setup_start _ eq_refl).
Defined.

(** *** The symbols of the coefficients *)

Lemma fmt_d_no_underscore (n : nat) :
  ~ In "_"%char (list_ascii_of_string (Py.fmt_d n)).
Proof.
  unfold Py.fmt_d. generalize (Nat.to_uint n). intros u.
  induction u; simpl; intros H; try (destruct H as [H|H]; [discriminate H|]);
    auto.
Qed.

Lemma append_underscore_split (a : string) :
  forall a' b b' : string,
    ~ In "_"%char (list_ascii_of_string a) ->
    ~ In "_"%char (list_ascii_of_string a') ->
    (a ++ "_" ++ b)%string = (a' ++ "_" ++ b')%string -> a = a' /\ b = b'.
Proof.
  induction a as [|c a IH]; intros [|c' a'] b b' Ha Ha' H; simpl in *.
  - injection H as ->. auto.
  - injection H as <- _. exfalso. apply Ha'. now left.
  - injection H as -> _. exfalso. apply Ha. now left.
  - injection H as -> H.
    destruct (IH a' b b') as [-> ->]; auto.
Qed.

Lemma no_underscore_no_split (a' : string) :
  forall a b : string,
    ~ In "_"%char (list_ascii_of_string a) -> a <> (a' ++ "_" ++ b)%string.
Proof.
  induction a' as [|c a' IH]; intros a b Ha H; simpl in H.
  - subst a. apply Ha. now left.
  - destruct a as [|c0 a]; [discriminate|]. injection H as -> H.
    apply (IH a b); [|exact H]. intros Hin. apply Ha. now right.
Qed.

(** Distinct places get distinct argument names. *)
Lemma argument_name_inj (i i' : nat) (j j' : option nat) :
  argument_name i j = argument_name i' j' -> i = i' /\ j = j'.
Proof.
  unfold argument_name.
  destruct j as [j|], j' as [j'|]; simpl; intros H; injection H as H.
  - apply append_underscore_split in H; try apply fmt_d_no_underscore.
    destruct H as [Hi Hj]. apply fmt_d_inj in Hi, Hj. now subst.
  - symmetry in H. exfalso. revert H. apply no_underscore_no_split.
    apply fmt_d_no_underscore.
  - exfalso. revert H. apply no_underscore_no_split.
    apply fmt_d_no_underscore.
  - apply fmt_d_inj in H. now subst.
Qed.

Lemma map_fst_enumerate {X Y : Type} (f : nat -> Y) (l : list X) :
  map (fun js => f (fst js)) (Py.enumerate l) = map f (seq 0 (List.length l)).
Proof.
  unfold Py.enumerate. generalize 0.
  induction l as [|x l IH]; intros s; simpl; [reflexivity|].
  now rewrite IH.
Qed.

Lemma setitem_fresh_function {V : Type} (m : list (Slate.Function * V))
      (c : Slate.Function) (v : V) :
  ~ In (Slate.function_id c) (map (fun p => Slate.function_id (fst p)) m) ->
  Py.setitem Slate.function_eqb m c v = m ++ [(c, v)].
Proof.
  induction m as [|[k w] m IH]; simpl; intros H; [reflexivity|].
  unfold Slate.function_eqb at 1.
  destruct (Nat.eqb_spec (Slate.function_id k) (Slate.function_id c)) as [E|E].
  - exfalso. apply H. now left.
  - rewrite IH; [reflexivity|]. intros Hin. apply H. now right.
Qed.

Lemma coefficient_map_from (cs : list Slate.Function) :
  forall (s : nat) (m : list (Slate.Function * list CoffeeArg)),
    NoDup (map Slate.function_id cs) ->
    (forall c, In c cs ->
               ~ In (Slate.function_id c)
                    (map (fun p => Slate.function_id (fst p)) m)) ->
    fold_left
      (fun (m : list (Slate.Function * list CoffeeArg))
           (ic : nat * Slate.Function) =>
         let '(i, coefficient) := ic in
         let csym_info :=
           match Slate.ufl_element coefficient with
           | Slate.MixedElement _ =>
               map (fun (js : nat * Slate.Function) =>
                      Symbol ("w_" ++ Py.fmt_d i ++ "_" ++ Py.fmt_d (fst js))%string)
                   (Py.enumerate (Slate.split coefficient))
           | Slate.Element _ => [Symbol ("w_" ++ Py.fmt_d i)%string]
           end in
         Py.setitem Slate.function_eqb m coefficient csym_info)
      (combine (seq s (List.length cs)) cs) m
    = m ++ map (fun ic => (snd ic, argument_symbols (fst ic) (snd ic)))
               (combine (seq s (List.length cs)) cs).
Proof.
  induction cs as [|c cs IH]; intros s m Hnd Hfresh; simpl.
  - now rewrite app_nil_r.
  - inversion Hnd as [|? ? Hc Hnd']; subst.
    rewrite setitem_fresh_function by (apply Hfresh; now left).
    rewrite IH; [|exact Hnd'|].
    + rewrite <- app_assoc. cbn [app]. do 3 f_equal.
      unfold argument_symbols, argument_name.
      destruct (Slate.ufl_element c); [reflexivity|].
      apply (map_fst_enumerate
               (fun j => Symbol ("w_" ++ Py.fmt_d s ++ "_" ++ Py.fmt_d j)%string)).
    + intros c' Hc'. rewrite map_app, in_app_iff. cbn.
      intros [Hin|[Heq|[]]].
      * apply (Hfresh c'); [now right | exact Hin].
      * apply Hc. rewrite Heq. now apply in_map.
Qed.

Lemma get_numbered {V : Type} (g : nat -> Slate.Function -> V)
      (cs : list Slate.Function) :
  forall (s i : nat) (c : Slate.Function),
    NoDup (map Slate.function_id cs) ->
    nth_error cs i = Some c ->
    Py.get Slate.function_eqb
      (map (fun ic => (snd ic, g (fst ic) (snd ic)))
           (combine (seq s (List.length cs)) cs)) c
    = Some (g (s + i) c).
Proof.
  induction cs as [|c0 cs IH]; intros s i c Hnd Hi; [now destruct i|].
  inversion Hnd as [|? ? Hc0 Hnd']; subst. simpl.
  destruct i as [|i]; simpl in Hi.
  - injection Hi as ->. unfold Slate.function_eqb. rewrite Nat.eqb_refl.
    now rewrite Nat.add_0_r.
  - unfold Slate.function_eqb at 1.
    destruct (Nat.eqb_spec (Slate.function_id c0) (Slate.function_id c)) as [E|E].
    + exfalso. apply Hc0. rewrite E. apply in_map. eapply nth_error_In; eauto.
    + rewrite (IH (S s) i c Hnd' Hi). do 2 f_equal. lia.
Qed.

Lemma get_unknown_function {V : Type} (m : list (Slate.Function * V))
      (c : Slate.Function) :
  ~ In (Slate.function_id c) (map (fun p => Slate.function_id (fst p)) m) ->
  Py.get Slate.function_eqb m c = None.
Proof.
  induction m as [|[k w] m IH]; simpl; intros H; [reflexivity|].
  unfold Slate.function_eqb at 1.
  destruct (Nat.eqb_spec (Slate.function_id k) (Slate.function_id c)) as [E|E].
  - exfalso. apply H. now left.
  - apply IH. intros Hin. apply H. now right.
Qed.

Lemma argument_places_bounds (cs : list Slate.Function) :
  forall (s : nat) (p : nat * option nat),
    In p (argument_places s cs) -> s <= fst p.
Proof.
  unfold argument_places.
  induction cs as [|c cs IH]; intros s p; simpl; [intros []|].
  rewrite in_app_iff. intros [Hin|Hin].
  - destruct (Slate.ufl_element c).
    + destruct Hin as [<-|[]]. simpl. lia.
    + apply in_map_iff in Hin. destruct Hin as (j & <- & _). simpl. lia.
  - apply IH in Hin. lia.
Qed.

Lemma argument_places_NoDup (cs : list Slate.Function) :
  forall s, NoDup (argument_places s cs).
Proof.
  induction cs as [|c cs IH]; intros s; [constructor|].
  unfold argument_places. simpl. apply NoDup_app.
  - destruct (Slate.ufl_element c).
    + repeat constructor. intros [].
    + apply NoDup_map_injective; [|apply seq_NoDup]. intros x y [=]. auto.
  - apply IH.
  - intros p Hp Hin. apply (argument_places_bounds cs (S s)) in Hin.
    assert (fst p = s); [|lia].
    destruct (Slate.ufl_element c).
    + now destruct Hp as [<-|[]].
    + apply in_map_iff in Hp. now destruct Hp as (j & <- & _).
Qed.

Lemma argument_symbols_places (cs : list Slate.Function) :
  forall s,
    List.concat
      (map snd (map (fun ic => (snd ic, argument_symbols (fst ic) (snd ic)))
                    (combine (seq s (List.length cs)) cs)))
    = map (fun p => Symbol (argument_name (fst p) (snd p))) (argument_places s cs).
Proof.
  induction cs as [|c cs IH]; intros s; [reflexivity|].
  unfold argument_places. simpl. rewrite map_app. f_equal.
  - unfold argument_symbols. destruct (Slate.ufl_element c); [reflexivity|].
    now rewrite map_map.
  - apply IH.
Qed.

Lemma map_snd_numbered {X : Type} (l : list X) :
  forall s, map snd (combine (seq s (List.length l)) l) = l.
Proof.
  induction l as [|x l IH]; intros s; simpl; [reflexivity | now rewrite IH].
Qed.

(** X15. The kernel arguments of the coefficients.  Where the coefficients
    of the expression are distinct objects, the [i]-th of them is mapped to
    the symbol [w_<i>], or, on a mixed space, to the symbols [w_<i>_<j>] of
    its components; asking for a coefficient that the expression does not
    hold raises [KeyError]; the coefficients keep their order; and no two
    arguments share a symbol. *)
Theorem coefficient_symbols (expression : Slate.TensorBase) :
  NoDup (map Slate.function_id (Slate.coefficients expression)) ->
  (forall i c,
      nth_error (Slate.coefficients expression) i = Some c ->
      LocalKernelBuilder.coefficient expression c = Py.Ok (argument_symbols i c))
  /\ (forall c,
         ~ In (Slate.function_id c)
              (map Slate.function_id (Slate.coefficients expression)) ->
         LocalKernelBuilder.coefficient expression c = Py.Raise Py.KeyError)
  /\ map fst (LocalKernelBuilder.coefficient_map expression)
     = Slate.coefficients expression
  /\ NoDup (List.concat (map snd (LocalKernelBuilder.coefficient_map expression))).
Proof.
  intros Hnd.
  assert (Hmap : LocalKernelBuilder.coefficient_map expression
                 = map (fun ic => (snd ic, argument_symbols (fst ic) (snd ic)))
                       (combine (seq 0 (List.length (Slate.coefficients expression)))
                                (Slate.coefficients expression))).
  { exact (coefficient_map_from (Slate.coefficients expression) 0 [] Hnd
             (fun c _ H => H)). }
  split; [|split; [|split]].
  - intros i c Hi. unfold LocalKernelBuilder.coefficient, Py.lookup.
    rewrite Hmap,
      (get_numbered argument_symbols (Slate.coefficients expression) 0 i c Hnd Hi).
    reflexivity.
  - intros c Hc. unfold LocalKernelBuilder.coefficient, Py.lookup.
    rewrite get_unknown_function; [reflexivity|].
    rewrite Hmap, map_map. cbn [fst].
    rewrite <- (map_map snd Slate.function_id), map_snd_numbered. exact Hc.
  - rewrite Hmap, map_map. cbn [fst]. apply map_snd_numbered.
  - rewrite Hmap, argument_symbols_places.
    apply NoDup_map_injective; [|apply argument_places_NoDup].
    intros [i j] [i' j'] [= H]. apply argument_name_inj in H.
    destruct H. now subst.
Qed.

Lemma coefficient_symbols_witness :
  LocalKernelBuilder.coefficient Examples.W Examples.h
  = Py.Ok [Symbol "w_1_0"; Symbol "w_1_1"]
  /\ LocalKernelBuilder.coefficient Examples.W Examples.g = Py.Raise Py.KeyError.
Proof.
  assert (Hnd : NoDup (map Slate.function_id (Slate.coefficients Examples.W)))
    by (repeat constructor; simpl; intuition discriminate).
  destruct (coefficient_symbols Examples.W Hnd) as (Hs & Hk & _).
  split.
  - exact (Hs 1 Examples.h eq_refl).
  - apply Hk. simpl. intuition discriminate.
Defined.

(** *** The loopy builder and assembled vectors *)

Lemma get_foreign_tensor {V : Type} (d : list (Slate.TensorBase * V))
      (t : Slate.TensorBase) :
  (forall p, In p d -> Slate.nid (fst p) <> Slate.nid t) ->
  Py.get Slate.tensor_eqb d t = None.
Proof.
  induction d as [|[k v] d IH]; intros H; simpl; [reflexivity|].
  unfold Slate.tensor_eqb at 1.
  destruct (Nat.eqb_spec (Slate.nid k) (Slate.nid t)) as [E|E].
  - exfalso. exact (H (k, v) (or_introl eq_refl) E).
  - apply IH. intros p Hp. apply H. now right.
Qed.

Lemma lookup_setdefault {V : Type} (d : list (Slate.TensorBase * V))
      (t : Slate.TensorBase) (v : V) :
  exists key, Py.lookup Slate.tensor_eqb (Py.setdefault Slate.tensor_eqb d t v) t
              = Py.Ok key.
Proof.
  unfold Py.setdefault, Py.contains, Py.lookup.
  destruct (Py.get Slate.tensor_eqb d t) as [w|] eqn:E.
  - rewrite E. eauto.
  - exists v. induction d as [|[k w] d IH]; simpl in *.
    + unfold Slate.tensor_eqb. now rewrite Nat.eqb_refl.
    + destruct (Slate.tensor_eqb k t); [discriminate | now apply IH].
Qed.

(** Apart from an assembled vector, only a terminal whose shape is not
    that of its two indices can stop the loop of [__init__]. *)
Lemma loopy_init_body_returns st t :
  (forall i f, t <> Slate.AssembledVector i f) ->
  (Slate.is_Tensor t = true -> Slate.shape t = [3; 3]%Z) ->
  exists st',
    LocalLoopyKernelBuilder.init_body st t = Py.Ok st'
    /\ LocalLoopyKernelBuilder.init_shape_var st'
       = LocalLoopyKernelBuilder.init_shape_var st.
Proof.
  intros Ht Hs. unfold LocalLoopyKernelBuilder.init_body.
  destruct t as [ i | i f | | | | | | | | ]; cbn [Slate.is_Tensor] in *.
  2:{ now destruct (Ht i f). }
  1:{ rewrite (Hs eq_refl), gem_Indexed_ok. cbn [Py.bind].
      match goal with
      | |- context [Py.lookup Slate.tensor_eqb (Py.setdefault _ ?d ?t ?v) ?t] =>
          destruct (lookup_setdefault d t v) as [key ->]
      end.
      cbn [Py.bind]. eauto. }
  all: cbn [Py.bind]; eauto.
Qed.

(** A step for another node than an assembled vector leaves the variable
    [shape] as it is. *)
Lemma loopy_init_body_shape_var st t st' :
  (forall i f, t <> Slate.AssembledVector i f) ->
  LocalLoopyKernelBuilder.init_body st t = Py.Ok st' ->
  LocalLoopyKernelBuilder.init_shape_var st'
  = LocalLoopyKernelBuilder.init_shape_var st.
Proof.
  intros Ht. unfold LocalLoopyKernelBuilder.init_body.
  destruct t as [ i | i f | | | | | | | | ]; cbn [Slate.is_Tensor].
  2:{ now destruct (Ht i f). }
  1:{ destruct (gem_Indexed _ _ _); cbn [Py.bind]; [|discriminate].
      destruct (Py.lookup _ _ _); cbn [Py.bind]; [|discriminate].
      intros H. injection H as <-. reflexivity. }
  all: cbn [Py.bind]; intros H; injection H as <-; reflexivity.
Qed.

(** The loop never gets past an assembled vector: the variable [shape] the
    step reads is assigned only further down. *)
Lemma loopy_init_loop_never_returns dag :
  forall st,
    LocalLoopyKernelBuilder.init_shape_var st = None ->
    (exists i f, In (Slate.AssembledVector i f) dag) ->
    Py.is_ok (Py.for_each LocalLoopyKernelBuilder.init_body dag st) = false.
Proof.
  induction dag as [|t dag IH]; intros st Hsv (i & f & Hin); [destruct Hin|].
  cbn [Py.for_each].
  assert (Hcases : (exists i' f', t = Slate.AssembledVector i' f')
                   \/ forall i' f', t <> Slate.AssembledVector i' f').
  { destruct t; try (right; intros; discriminate). left. eauto. }
  destruct Hcases as [(i' & f' & ->)|Hnot].
  - unfold LocalLoopyKernelBuilder.init_body.
    cbn [Slate.is_Tensor Py.bind].
    destruct (Py.lookup _ _ _); cbn [Py.bind]; [|reflexivity].
    now rewrite Hsv.
  - destruct (LocalLoopyKernelBuilder.init_body st t) as [st'|e] eqn:E;
      cbn [Py.bind]; [|reflexivity].
    apply IH.
    + rewrite (loopy_init_body_shape_var st t st' Hnot E). exact Hsv.
    + destruct Hin as [E'|Hin]; [destruct (Hnot i f E') | eauto].
Qed.

(** Where the nodes are told apart by their identities and the terminals
    met so far have the shape of their indices, the loop ends in
    [KeyError] at the first assembled vector: the temporaries hold
    terminal tensors only. *)
Lemma loopy_init_loop_assembled_vector (expression : Slate.TensorBase) :
  identities_respected expression ->
  forall before i f after st,
    (forall t, In t (before ++ Slate.AssembledVector i f :: after) ->
               In t (subterms expression)) ->
    (forall p, In p (LocalLoopyKernelBuilder.init_temps st) ->
               Slate.is_Tensor (fst p) = true /\ In (fst p) (subterms expression)) ->
    (forall t, In t before -> Slate.is_Tensor t = true ->
               Slate.shape t = [3; 3]%Z) ->
    Py.for_each LocalLoopyKernelBuilder.init_body
      (before ++ Slate.AssembledVector i f :: after) st
    = Py.Raise Py.KeyError.
Proof.
  intros Hid before i f after.
  assert (Hvec : forall i' f' st,
             In (Slate.AssembledVector i' f') (subterms expression) ->
             (forall p, In p (LocalLoopyKernelBuilder.init_temps st) ->
                        Slate.is_Tensor (fst p) = true
                        /\ In (fst p) (subterms expression)) ->
             LocalLoopyKernelBuilder.init_body st (Slate.AssembledVector i' f')
             = Py.Raise Py.KeyError).
  { intros i' f' st Hsub Hst. unfold LocalLoopyKernelBuilder.init_body.
    cbn [Slate.is_Tensor Py.bind]. unfold Py.lookup.
    rewrite get_foreign_tensor; [reflexivity|].
    intros p Hp E. destruct (Hst p Hp) as [Htensor Hsub'].
    apply Hid in E; [|exact Hsub' | exact Hsub].
    rewrite E in Htensor. discriminate Htensor. }
  induction before as [|t before IH]; intros st Hdag Hst Hshape.
  - cbn [app Py.for_each]. rewrite Hvec; [reflexivity| |exact Hst].
    apply Hdag. now left.
  - cbn [app Py.for_each].
    assert (Hcases : (exists i' f', t = Slate.AssembledVector i' f')
                     \/ forall i' f', t <> Slate.AssembledVector i' f').
    { destruct t; try (right; intros; discriminate). left. eauto. }
    destruct Hcases as [(i' & f' & ->)|Hnot].
    + rewrite Hvec; [reflexivity| |exact Hst]. apply Hdag. now left.
    + destruct (loopy_init_body_returns st t Hnot
                  (Hshape t (or_introl eq_refl))) as (st' & E & _).
      rewrite E. cbn [Py.bind]. apply IH.
      * intros u Hu. apply Hdag. now right.
      * apply loopy_init_body_inv in E. destruct E as [-> _].
        destruct (Slate.is_Tensor t) eqn:Et; [|exact Hst].
        unfold Py.setdefault. destruct (Py.contains _ _ _); [exact Hst|].
        intros p Hp. apply in_app_or in Hp. destruct Hp as [Hp|[<-|[]]].
        -- now apply Hst.
        -- cbn [fst]. split; [exact Et | apply Hdag; now left].
      * intros u Hu. apply Hshape. now right.
Qed.

(** X16. The loopy builder cannot be constructed from an expression whose
    traversal meets an assembled vector, whatever the form compiler
    returns: its loop looks the vector up among the temporaries, where only
    terminal tensors are, and reads a variable that is assigned only
    further down.  Where the nodes are told apart by their identities and
    every terminal tensor met before the vector has the shape (3, 3) of
    the indices of its temporary, the construction ends in [KeyError]. *)
Theorem loopy_builder_rejects_assembled_vectors
        (compile : Tsfc.compiler) (list_set : list string -> list string)
        (expression : Slate.TensorBase) (i : Slate.NodeInfo) (f : Slate.Function) :
  Slate.variable_layers (Slate.ufl_domain expression) = false ->
  In (Slate.AssembledVector i f) (Utils.traverse_dags [expression]) ->
  Py.is_ok (LocalLoopyKernelBuilder.__init__ compile list_set expression) = false
  /\ (identities_respected expression ->
      forall before after,
        Utils.traverse_dags [expression]
        = before ++ Slate.AssembledVector i f :: after ->
        (forall t, In t before -> Slate.is_Tensor t = true ->
                   Slate.shape t = [3; 3]%Z) ->
        LocalLoopyKernelBuilder.__init__ compile list_set expression
        = Py.Raise Py.KeyError).
Proof.
  intros Hvl Hin.
  unfold LocalLoopyKernelBuilder.__init__. rewrite Hvl.
  unfold LocalLoopyKernelBuilder.init_loop. split.
  - pose proof (loopy_init_loop_never_returns (Utils.traverse_dags [expression])
                  (LocalLoopyKernelBuilder.init_start expression) eq_refl
                  (ex_intro _ i (ex_intro _ f Hin))) as Hn.
    destruct (Py.for_each _ _ _); [discriminate Hn | reflexivity].
  - intros Hid before after Hsplit Hshape.
    assert (Hreach : forall t, In t (before ++ Slate.AssembledVector i f :: after) ->
                               In t (subterms expression)).
    { rewrite <- Hsplit. intros t. apply traverse_dags_reachable. exact Hid. }
    rewrite Hsplit.
    rewrite (loopy_init_loop_assembled_vector expression Hid before i f after
               (LocalLoopyKernelBuilder.init_start expression) Hreach);
      [reflexivity | intros p [] | exact Hshape].
Qed.

Lemma action_identities_respected : identities_respected Examples.action.
Proof.
  intros a b Ha Hb. simpl in Ha, Hb.
  repeat (destruct Ha as [<-|Ha]; [|]); try contradiction;
  repeat (destruct Hb as [<-|Hb]; [|]); try contradiction;
  intros H; try reflexivity; discriminate H.
Qed.

Lemma loopy_builder_rejects_assembled_vectors_witness :
  LocalLoopyKernelBuilder.__init__ Examples.compile_cell Examples.in_order
    Examples.action
  = Py.Raise Py.KeyError
  /\ Py.is_ok (LocalKernelBuilder.__init__ Examples.compile_cell Examples.visit
                 Examples.in_order Examples.action) = true.
Proof.
  split; [|reflexivity].
  refine (proj2 (loopy_builder_rejects_assembled_vectors Examples.compile_cell
                   Examples.in_order Examples.action (Examples.node 5 [11]%Z)
                   Examples.g eq_refl _)
                action_identities_respected
                [Examples.action;
                 Slate.Mul (Examples.node 18 [3]%Z) Examples.B33 Examples.v2;
                 Examples.v2; Examples.B33;
                 Slate.Mul (Examples.node 17 [3]%Z) Examples.A33 Examples.v1]
                [Examples.A33]
                eq_refl _).
  - vm_compute. auto 10.
  - intros t [<-|[<-|[<-|[<-|[<-|[]]]]]] Ht; try discriminate Ht; reflexivity.
Defined.

(** *** Terminals that [gem.Indexed] does not take *)

Lemma gem_Indexed_mismatch name shape extents :
  shape <> extents ->
  gem_Indexed name shape extents
  = if Nat.eqb (List.length shape) (List.length extents)
    then Py.Raise (Py.ValueError "Inconsistent index extents!")
    else Py.Raise (Py.AssertionError "").
Proof.
  intros Hne. unfold gem_Indexed.
  destruct (Nat.eqb _ _) eqn:El; cbn [negb]; [|reflexivity].
  destruct (forallb _ _) eqn:Ef; [|reflexivity].
  apply Nat.eqb_eq in El. destruct Hne. now apply forallb_combine_eq.
Qed.

(** The step of the loop of [__init__] for a terminal tensor of another
    shape than (3, 3), in any state. *)
Lemma loopy_init_body_mismatch st i :
  Slate.node_shape i <> [3; 3]%Z ->
  LocalLoopyKernelBuilder.init_body st (Slate.Tensor i)
  = if Nat.eqb (List.length (Slate.node_shape i)) 2
    then Py.Raise (Py.ValueError "Inconsistent index extents!")
    else Py.Raise (Py.AssertionError "").
Proof.
  intros Hne. unfold LocalLoopyKernelBuilder.init_body.
  cbn [Slate.is_Tensor]. unfold Slate.shape. cbn [Slate.info].
  rewrite (gem_Indexed_mismatch _ _ _ Hne). cbn [List.length].
  destruct (Nat.eqb _ 2); reflexivity.
Qed.

(** X28. The loopy builder takes terminal tensors of shape (3, 3) only: it
    indexes the temporary of every terminal with two indices of extent 3,
    and [gem.Indexed] checks the indices against the shape.  An
    expression whose traversal meets a terminal tensor of another shape is
    never constructed; where the terminal has two dimensions and the nodes
    before it were passed, the construction ends in the error
    "Inconsistent index extents!" of gem, whatever the form compiler
    returns. *)
Theorem loopy_builder_takes_3x3_terminals
        (compile : Tsfc.compiler) (list_set : list string -> list string)
        (expression : Slate.TensorBase) (i : Slate.NodeInfo)
        (before after : list Slate.TensorBase) :
  Utils.traverse_dags [expression] = before ++ Slate.Tensor i :: after ->
  Slate.node_shape i <> [3; 3]%Z ->
  Py.is_ok (LocalLoopyKernelBuilder.__init__ compile list_set expression) = false
  /\ (Slate.variable_layers (Slate.ufl_domain expression) = false ->
      List.length (Slate.node_shape i) = 2 ->
      Py.is_ok (Py.for_each LocalLoopyKernelBuilder.init_body before
                  (LocalLoopyKernelBuilder.init_start expression)) = true ->
      LocalLoopyKernelBuilder.__init__ compile list_set expression
      = Py.Raise (Py.ValueError "Inconsistent index extents!")).
Proof.
  intros Hsplit Hne. unfold LocalLoopyKernelBuilder.__init__.
  unfold LocalLoopyKernelBuilder.init_loop. rewrite Hsplit. split.
  - destruct (Slate.variable_layers _); [reflexivity|].
    pose proof (for_each_never_ok LocalLoopyKernelBuilder.init_body
                  (Slate.Tensor i) before after
                  (LocalLoopyKernelBuilder.init_start expression)) as Hn.
    destruct (Py.for_each _ _ _); [|reflexivity].
    discriminate Hn. intros s. rewrite (loopy_init_body_mismatch s i Hne).
    now destruct (Nat.eqb _ 2).
  - intros -> Hl Hb. rewrite for_each_app.
    destruct (Py.for_each _ before _) as [st|]; [|discriminate Hb].
    cbn [Py.bind Py.for_each].
    rewrite (loopy_init_body_mismatch st i Hne), Hl. reflexivity.
Qed.

Lemma loopy_builder_takes_3x3_terminals_witness :
  LocalLoopyKernelBuilder.__init__ Examples.compile_cell Examples.in_order
    Examples.inv44
  = Py.Raise (Py.ValueError "Inconsistent index extents!")
  /\ Py.is_ok (LocalKernelBuilder.__init__ Examples.compile_cell Examples.visit
                 Examples.in_order Examples.inv44) = true.
Proof.
  split; [|reflexivity].
  refine (proj2 (loopy_builder_takes_3x3_terminals Examples.compile_cell
                   Examples.in_order Examples.inv44 (Examples.node 3 [4; 4]%Z)
                   [Examples.inv44] [] eq_refl _)
                eq_refl eq_refl eq_refl).
  discriminate.
Defined.

(** *** What the loopy builder assembles *)

Lemma loopy_setup_loop_collect {A : Type}
      (view : LocalLoopyKernelBuilder.setup_state -> option (list A))
      (delta : Tsfc.ContextKernel * Tsfc.SplitKernel -> list A)
      temps gdict cv :
  (forall ctx temp st sk st',
      LocalLoopyKernelBuilder.setup_inner gdict cv ctx temp st sk = Py.Ok st' ->
      view st' = option_map (fun l => l ++ delta (ctx, sk)) (view st)) ->
  (forall st st1,
      LocalLoopyKernelBuilder.st_assembly_calls st1
      = LocalLoopyKernelBuilder.st_assembly_calls st ->
      LocalLoopyKernelBuilder.st_templated_subkernels st1
      = LocalLoopyKernelBuilder.st_templated_subkernels st ->
      LocalLoopyKernelBuilder.st_include_dirs st1
      = LocalLoopyKernelBuilder.st_include_dirs st ->
      LocalLoopyKernelBuilder.st_indices st1
      = LocalLoopyKernelBuilder.st_indices st ->
      view st1 = view st) ->
  forall ctxs st st',
    Py.for_each (LocalLoopyKernelBuilder.setup_cxt_kernel temps gdict cv) ctxs st
    = Py.Ok st' ->
    view st' = option_map (fun l => l ++ flat_map delta (all_subkernels ctxs))
                 (view st).
Proof.
  intros Hstep Hhead ctxs st st' H.
  rewrite flat_map_all_subkernels.
  revert H. apply for_each_collect. clear st st'.
  intros st ctx st' H. apply loopy_cxt_kernel_inv in H.
  destruct H as (_ & _ & temp & st1 & _ & Hl & _ & _ & Ha & _ & Ht & Hi & Hx & _).
  rewrite <- (Hhead st st1 Ha Ht Hi Hx). revert Hl.
  apply (for_each_collect view (fun k => delta (ctx, k))).
  intros s k s'. apply Hstep.
Qed.

Lemma loopy_setup_loop_any
      (flag : LocalLoopyKernelBuilder.setup_state -> bool)
      (p : Tsfc.ContextKernel * Tsfc.SplitKernel -> bool)
      temps gdict cv :
  (forall ctx temp st sk st',
      LocalLoopyKernelBuilder.setup_inner gdict cv ctx temp st sk = Py.Ok st' ->
      flag st' = flag st || p (ctx, sk)) ->
  (forall st st1,
      LocalLoopyKernelBuilder.st_needs_cell_orientations st1
      = LocalLoopyKernelBuilder.st_needs_cell_orientations st ->
      LocalLoopyKernelBuilder.st_needs_cell_sizes st1
      = LocalLoopyKernelBuilder.st_needs_cell_sizes st ->
      LocalLoopyKernelBuilder.st_needs_cell_facets st1
      = LocalLoopyKernelBuilder.st_needs_cell_facets st ->
      LocalLoopyKernelBuilder.st_needs_mesh_layers st1
      = LocalLoopyKernelBuilder.st_needs_mesh_layers st ->
      flag st1 = flag st) ->
  forall ctxs st st',
    Py.for_each (LocalLoopyKernelBuilder.setup_cxt_kernel temps gdict cv) ctxs st
    = Py.Ok st' ->
    flag st' = flag st || existsb p (all_subkernels ctxs).
Proof.
  intros Hstep Hhead ctxs st st' H.
  rewrite existsb_all_subkernels.
  revert H. apply for_each_any. clear st st'.
  intros st ctx st' H. apply loopy_cxt_kernel_inv in H.
  destruct H as (_ & _ & temp & st1 & _ & Hl & _ & _ & _ & _ & _ & _ & _ & _ & _
                 & Ho & Hs & Hf & Hm).
  rewrite <- (Hhead st st1 Ho Hs Hf Hm). revert Hl.
  apply (for_each_any flag (fun k => p (ctx, k))).
  intros s k s'. apply Hstep.
Qed.

(** A variable every step assigns holds, after the loop, what the last
    step assigned. *)
Lemma for_each_last {S X A : Type} (proj : S -> option A) (g : X -> A)
      (body : S -> X -> Py.result S) :
  (forall st x st', body st x = Py.Ok st' -> proj st' = Some (g x)) ->
  forall xs st st',
    Py.for_each body xs st = Py.Ok st' ->
    proj st' = match rev xs with
               | x :: _ => Some (g x)
               | [] => proj st
               end.
Proof.
  intros Hstep xs. induction xs as [|x xs IH] using rev_ind; intros st st' H.
  - simpl in H. now injection H as <-.
  - rewrite for_each_app in H.
    destruct (Py.for_each body xs st) as [s1|]; cbn [Py.bind Py.for_each] in H;
      [|discriminate].
    destruct (body s1 x) as [s2|] eqn:E; cbn [Py.bind] in H; [|discriminate].
    injection H as <-. rewrite rev_app_distr. simpl. eapply Hstep; eauto.
Qed.

Lemma all_subkernels_app (l l' : list Tsfc.ContextKernel) :
  all_subkernels (l ++ l') = all_subkernels l ++ all_subkernels l'.
Proof. unfold all_subkernels. apply flat_map_app. Qed.

Lemma loopy_setup_loop_last {A : Type}
      (proj : LocalLoopyKernelBuilder.setup_state -> option A)
      (g : Tsfc.ContextKernel * Tsfc.SplitKernel -> A)
      temps gdict cv :
  (forall ctx temp st sk st',
      LocalLoopyKernelBuilder.setup_inner gdict cv ctx temp st sk = Py.Ok st' ->
      proj st' = Some (g (ctx, sk))) ->
  (forall st st1,
      LocalLoopyKernelBuilder.st_kinfo st1 = LocalLoopyKernelBuilder.st_kinfo st ->
      LocalLoopyKernelBuilder.st_reads st1 = LocalLoopyKernelBuilder.st_reads st ->
      proj st1 = proj st) ->
  forall ctxs st st',
    Py.for_each (LocalLoopyKernelBuilder.setup_cxt_kernel temps gdict cv) ctxs st
    = Py.Ok st' ->
    proj st' = match rev (all_subkernels ctxs) with
               | ck :: _ => Some (g ck)
               | [] => proj st
               end.
Proof.
  intros Hstep Hhead ctxs.
  induction ctxs as [|ctx ctxs IH] using rev_ind; intros st st' H.
  - simpl in H. now injection H as <-.
  - rewrite for_each_app in H.
    destruct (Py.for_each _ ctxs st) as [s1|] eqn:E1; cbn [Py.bind Py.for_each] in H;
      [|discriminate].
    destruct (LocalLoopyKernelBuilder.setup_cxt_kernel _ _ _ s1 ctx) as [s2|] eqn:E2;
      cbn [Py.bind] in H; [|discriminate].
    injection H as <-.
    apply loopy_cxt_kernel_inv in E2.
    destruct E2 as (_ & _ & temp & st1 & _ & Hl & _ & _ & _ & _ & _ & _ & _
                    & Hk & Hr & _).
    apply (for_each_last proj (fun k => g (ctx, k))) in Hl;
      [|intros s k s'; apply Hstep].
    rewrite all_subkernels_app, rev_app_distr.
    unfold all_subkernels at 1. cbn [flat_map]. rewrite app_nil_r, <- map_rev.
    rewrite Hl. destruct (rev (Tsfc.tsfc_kernels ctx)) as [|k ks]; cbn [map app].
    + rewrite (Hhead s1 st1 Hk Hr). now apply IH.
    + reflexivity.
Qed.

Lemma loopy_builder_keyed compile list_set expression b :
  LocalLoopyKernelBuilder.__init__ compile list_set expression = Py.Ok b ->
  keyed_by_shape (LocalLoopyKernelBuilder.coefficient_vecs b).
Proof.
  intros Hb. apply loopy_builder_fields in Hb.
  destruct Hb as (_ & init & st & kinfo & Hi & _ & _ & _ & -> & _).
  unfold LocalLoopyKernelBuilder.init_loop in Hi. revert Hi.
  apply (for_each_invariant
           (fun s => keyed_by_shape (LocalLoopyKernelBuilder.init_coeff_vecs s))).
  - intros s t s' Hs Ht. apply loopy_init_body_inv in Ht. now apply Ht.
  - intros k [].
Qed.

(** With the records filed under their block sizes, a sub-kernel passes no
    coefficient on. *)
Lemma loopy_inner_no_coefficients gdict cv ctx temp st inner st' :
  keyed_by_shape cv ->
  LocalLoopyKernelBuilder.setup_inner gdict cv ctx temp st inner = Py.Ok st' ->
  let kinfo := Tsfc.kinfo inner in
  exists garg,
    LocalLoopyKernelBuilder.append_at
      (LocalLoopyKernelBuilder.st_assembly_calls st) "cell"
      {| assignees := [ {| swept_inames := ["i"; "i0"];
                           aggregate := arg_name garg;
                           subscript := ["i"; "i0"] |} ];
         called := Tsfc.name (Tsfc.kernel kinfo);
         parameters := map read_of (mesh_data ctx kinfo);
         predicates := None;
         within_inames_is_final := true;
         id := "inner_call" |}
    = Py.Ok (LocalLoopyKernelBuilder.st_assembly_calls st')
    /\ LocalLoopyKernelBuilder.st_indices st'
       = LocalLoopyKernelBuilder.st_indices st
         ++ map index_of (mesh_data ctx kinfo)
    /\ LocalLoopyKernelBuilder.st_reads st'
       = Some (map read_of (mesh_data ctx kinfo)).
Proof.
  intros Hcv H kinfo. apply loopy_inner_fields in H. cbv zeta in H.
  destruct H as (_ & _ & _ & garg & lcs & cdata & _ & _ & Hc & Ha & Hi & Hr & _).
  assert (cdata = []) as ->.
  { destruct (List.concat (map Slate.split lcs)) as [|c cs].
    - simpl in Hc. now injection Hc as <-.
    - cbn [Py.map_result] in Hc.
      rewrite keyed_lookup_function in Hc by exact Hcv. discriminate Hc. }
  rewrite app_nil_r in Ha, Hi, Hr. exists garg. auto.
Qed.

Lemma loopy_inner_bucket gdict cv ctx temp st sk st' (it : string) :
  keyed_by_shape cv ->
  LocalLoopyKernelBuilder.setup_inner gdict cv ctx temp st sk = Py.Ok st' ->
  option_map (map call_summary)
    (Py.get String.eqb (LocalLoopyKernelBuilder.st_assembly_calls st') it)
  = option_map
      (fun l => l ++ (if String.eqb "cell" it then [expected_summary (ctx, sk)]
                      else []))
      (option_map (map call_summary)
         (Py.get String.eqb (LocalLoopyKernelBuilder.st_assembly_calls st) it)).
Proof.
  intros Hcv H. apply loopy_inner_no_coefficients in H; [|exact Hcv].
  cbv zeta in H. destruct H as (garg & Ha & _).
  change (LocalLoopyKernelBuilder.append_at
            (LocalLoopyKernelBuilder.st_assembly_calls st) "cell")
    with (LocalKernelBuilder.append_at
            (LocalLoopyKernelBuilder.st_assembly_calls st) "cell") in Ha.
  rewrite (append_at_get _ _ _ it _ Ha).
  destruct (String.eqb "cell" it);
    destruct (Py.get String.eqb (LocalLoopyKernelBuilder.st_assembly_calls st) it);
    simpl; try reflexivity.
  - now rewrite map_app.
  - now rewrite app_nil_r.
Qed.

Lemma loopy_buckets temps gdict cv ctxs st :
  keyed_by_shape cv ->
  LocalLoopyKernelBuilder.setup_loop temps gdict cv ctxs = Py.Ok st ->
  forall it, In it LocalLoopyKernelBuilder.supported_integral_types ->
    option_map (map call_summary)
      (Py.get String.eqb (LocalLoopyKernelBuilder.st_assembly_calls st) it)
    = Some (if String.eqb "cell" it
            then map expected_summary (all_subkernels ctxs) else []).
Proof.
  unfold LocalLoopyKernelBuilder.setup_loop. intros Hcv H it Hit.
  rewrite (loopy_setup_loop_collect
             (fun s => option_map (map call_summary)
                         (Py.get String.eqb
                            (LocalLoopyKernelBuilder.st_assembly_calls s) it))
             (fun ck => if String.eqb "cell" it then [expected_summary ck] else [])
             temps gdict cv
             (fun ctx temp s k s' Hk =>
                loopy_inner_bucket gdict cv ctx temp s k s' it Hcv Hk)
             (fun s s1 Ha _ _ _ =>
                f_equal (fun d => option_map (map call_summary)
                                    (Py.get String.eqb d it)) Ha)
             _ _ _ H).
  replace (Py.get String.eqb
             (LocalLoopyKernelBuilder.st_assembly_calls
                LocalLoopyKernelBuilder.setup_start) it)
    with (Some (@nil CallInstruction)).
  - cbn [option_map map app]. f_equal.
    destruct (String.eqb "cell" it).
    + apply flat_map_single.
    + induction (all_subkernels ctxs) as [|x l IH]; [reflexivity | exact IH].
  - simpl in Hit. repeat (destruct Hit as [<-|Hit]; [reflexivity|]). destruct Hit.
Qed.

Lemma loopy_inner_loop_keeps {A : Type}
      (proj : LocalLoopyKernelBuilder.setup_state -> A) gdict cv ctx temp :
  (forall st sk st',
      LocalLoopyKernelBuilder.setup_inner gdict cv ctx temp st sk = Py.Ok st' ->
      proj st' = proj st) ->
  forall ks st st',
    Py.for_each (LocalLoopyKernelBuilder.setup_inner gdict cv ctx temp) ks st
    = Py.Ok st' ->
    proj st' = proj st.
Proof.
  intros Hstep ks. induction ks as [|k ks IH]; intros st st' H; simpl in H.
  - now injection H as <-.
  - destruct (LocalLoopyKernelBuilder.setup_inner _ _ _ _ _ _) as [s1|] eqn:E;
      cbn [Py.bind] in H; [|discriminate].
    rewrite (IH _ _ H). eapply Hstep; eauto.
Qed.

(** Every sub-kernel of a loop of the loopy builder that returned passed
    its checks. *)
Lemma loopy_setup_loop_subkernels temps gdict cv ctxs st :
  keyed_by_shape cv ->
  LocalLoopyKernelBuilder.setup_loop temps gdict cv ctxs = Py.Ok st ->
  forall ck, In ck (all_subkernels ctxs) ->
    Tsfc.original_integral_type (fst ck) = "cell"
    /\ Slate.is_mixed (Tsfc.tensor (fst ck)) = false
    /\ Tsfc.subdomain_id (Tsfc.kinfo (snd ck)) = Tsfc.otherwise
    /\ exists local_coefficients,
        Py.map_result (Py.getitem (Tsfc.coefficients (fst ck)))
          (Tsfc.coefficient_map (Tsfc.kinfo (snd ck))) = Py.Ok local_coefficients
        /\ forall c, In c local_coefficients -> Slate.split c = [].
Proof.
  unfold LocalLoopyKernelBuilder.setup_loop. intros Hcv H [c k] Hin.
  apply in_all_subkernels in Hin. cbn [fst snd] in Hin |- *.
  destruct Hin as [Hc Hk].
  apply (for_each_ok_forall
           (fun c => forall k, In k (Tsfc.tsfc_kernels c) ->
              Tsfc.original_integral_type c = "cell"
              /\ Slate.is_mixed (Tsfc.tensor c) = false
              /\ Tsfc.subdomain_id (Tsfc.kinfo k) = Tsfc.otherwise
              /\ exists local_coefficients,
                  Py.map_result (Py.getitem (Tsfc.coefficients c))
                    (Tsfc.coefficient_map (Tsfc.kinfo k)) = Py.Ok local_coefficients
                  /\ forall f, In f local_coefficients -> Slate.split f = [])) in H.
  - rewrite Forall_forall in H. exact (H c Hc k Hk).
  - clear - Hcv. intros s c s' Hs.
    apply loopy_cxt_kernel_inv in Hs.
    destruct Hs as (_ & _ & temp & s1 & _ & Hl & _).
    apply Forall_forall. revert Hl. apply for_each_ok_forall.
    intros s2 k s3 Hk. apply loopy_inner_inv in Hk; [|exact Hcv].
    destruct Hk as (Hm & Hcell & Hsd & (lcs & Hlcs & Hsplit) & _).
    split; [exact Hcell|]. split; [exact Hm|]. split; [exact Hsd|].
    exists lcs. split; [exact Hlcs|].
    intros f Hf. apply (concat_nil_all _ Hsplit). now apply in_map.
Qed.

(** X17. What a loopy builder holds in its buckets.  The bucket of the
    cell integrals holds one call for each sub-kernel, in order: the call
    of the kernel of the sub-kernel, reading the coordinates, then the
    cell orientations of an oriented kernel, then the cell sizes of a
    kernel that needs them, and nothing else, each read swept over the
    index ["i0"], with no predicate and one output swept over ["i"] and
    ["i0"].  The bucket of every other integral type is empty. *)
Theorem loopy_buckets_hold_cell_calls
        (compile : Tsfc.compiler) (list_set : list string -> list string)
        (expression : Slate.TensorBase) (b : LocalLoopyKernelBuilder.t) :
  LocalLoopyKernelBuilder.__init__ compile list_set expression = Py.Ok b ->
  (exists calls,
      Py.get String.eqb (LocalLoopyKernelBuilder.assembly_calls b) "cell"
      = Some calls
      /\ map call_summary calls
         = map expected_summary
               (all_subkernels (LocalLoopyKernelBuilder.context_kernels b)))
  /\ (forall it,
         In it LocalLoopyKernelBuilder.supported_integral_types ->
         it <> "cell" ->
         Py.get String.eqb (LocalLoopyKernelBuilder.assembly_calls b) it = Some []).
Proof.
  intros Hb. pose proof (loopy_builder_keyed _ _ _ _ Hb) as Hcv.
  apply loopy_builder_fields in Hb.
  destruct Hb as (_ & init & st & kinfo & _ & _ & _ & _ & _ & _ & Hl & Hac & _).
  pose proof (loopy_buckets _ _ _ _ _ Hcv Hl) as Hbk. rewrite Hac.
  split.
  - specialize (Hbk "cell" (or_introl eq_refl)). cbn [String.eqb] in Hbk.
    destruct (Py.get String.eqb (LocalLoopyKernelBuilder.st_assembly_calls st) "cell")
      as [calls|]; [|discriminate].
    exists calls. split; [reflexivity|]. simpl in Hbk.
    now injection Hbk as ->.
  - intros it Hit Hne. specialize (Hbk it Hit).
    destruct (String.eqb_spec "cell" it) as [E|_]; [now destruct Hne|].
    destruct (Py.get String.eqb (LocalLoopyKernelBuilder.st_assembly_calls st) it)
      as [calls|]; [|discriminate].
    simpl in Hbk. injection Hbk as Hbk.
    destruct calls; [reflexivity | discriminate].
Qed.

Lemma loopy_buckets_hold_cell_calls_witness :
  match LocalLoopyKernelBuilder.__init__ Examples.compile_oriented
          Examples.in_order Examples.A33 with
  | Py.Ok b =>
      exists calls,
        Py.get String.eqb (LocalLoopyKernelBuilder.assembly_calls b) "cell"
        = Some calls
        /\ map parameters calls
           = [ [ {| swept_inames := ["i0"]; aggregate := Name "coords";
                    subscript := ["i0"] |} ];
               [ {| swept_inames := ["i0"]; aggregate := Name "coords";
                    subscript := ["i0"] |};
                 {| swept_inames := ["i0"]; aggregate := Name "orientations";
                    subscript := ["i0"] |};
                 {| swept_inames := ["i0"]; aggregate := Name "cell_sizes";
                    subscript := ["i0"] |} ] ]
  | Py.Raise _ => False
  end.
Proof.
  destruct (LocalLoopyKernelBuilder.__init__ Examples.compile_oriented
              Examples.in_order Examples.A33) as [b|] eqn:Hb;
    [|vm_compute in Hb; discriminate Hb].
  destruct (loopy_buckets_hold_cell_calls _ _ _ _ Hb) as [(calls & Hg & Hs) _].
  exists calls. split; [exact Hg|].
  apply (f_equal (map (fun s => snd (fst (fst (fst (fst s))))))) in Hs.
  rewrite !map_map in Hs. cbn [call_summary fst snd] in Hs.
  etransitivity; [exact Hs|].
  vm_compute in Hb. injection Hb as <-. reflexivity.
Defined.

(** X18. What the loopy builder accepts.  Every sub-kernel of a loopy
    builder belongs to a cell integral on a terminal that is not mixed,
    carries no subdomain marker, and passes on no coefficient that has a
    component; the builder never asks for the cell facets or the mesh
    layers, and it needs the cell orientations, or the cell sizes, exactly
    when one of its sub-kernels does. *)
Theorem loopy_builder_restrictions
        (compile : Tsfc.compiler) (list_set : list string -> list string)
        (expression : Slate.TensorBase) (b : LocalLoopyKernelBuilder.t) :
  LocalLoopyKernelBuilder.__init__ compile list_set expression = Py.Ok b ->
  let subkernels := all_subkernels (LocalLoopyKernelBuilder.context_kernels b) in
  (forall ck, In ck subkernels ->
     Tsfc.original_integral_type (fst ck) = "cell"
     /\ Slate.is_mixed (Tsfc.tensor (fst ck)) = false
     /\ Tsfc.subdomain_id (Tsfc.kinfo (snd ck)) = Tsfc.otherwise
     /\ exists local_coefficients,
         Py.map_result (Py.getitem (Tsfc.coefficients (fst ck)))
           (Tsfc.coefficient_map (Tsfc.kinfo (snd ck))) = Py.Ok local_coefficients
         /\ forall c, In c local_coefficients -> Slate.split c = [])
  /\ LocalLoopyKernelBuilder.needs_cell_facets b = false
  /\ LocalLoopyKernelBuilder.needs_mesh_layers b = false
  /\ LocalLoopyKernelBuilder.needs_cell_orientations b
     = existsb (fun ck => Tsfc.oriented (Tsfc.kinfo (snd ck))) subkernels
  /\ LocalLoopyKernelBuilder.needs_cell_sizes b
     = existsb (fun ck => Tsfc.needs_cell_sizes (Tsfc.kinfo (snd ck))) subkernels.
Proof.
  intros Hb subkernels. pose proof (loopy_builder_keyed _ _ _ _ Hb) as Hcv.
  apply loopy_builder_fields in Hb.
  destruct Hb as (_ & init & st & kinfo & _ & _ & _ & _ & _ & _ & Hl & _ & _ & _
                  & Ho & Hs & Hf & Hm & _).
  split; [exact (loopy_setup_loop_subkernels _ _ _ _ _ Hcv Hl)|].
  unfold LocalLoopyKernelBuilder.setup_loop in Hl.
  assert (Hfields : forall ctx temp s k s',
             LocalLoopyKernelBuilder.setup_inner
               (LocalLoopyKernelBuilder.gem_loopy_dict b)
               (LocalLoopyKernelBuilder.coefficient_vecs b) ctx temp s k = Py.Ok s' ->
             LocalLoopyKernelBuilder.st_needs_cell_orientations s'
             = LocalLoopyKernelBuilder.st_needs_cell_orientations s
               || Tsfc.oriented (Tsfc.kinfo k)
             /\ LocalLoopyKernelBuilder.st_needs_cell_sizes s'
                = LocalLoopyKernelBuilder.st_needs_cell_sizes s
                  || Tsfc.needs_cell_sizes (Tsfc.kinfo k)
             /\ LocalLoopyKernelBuilder.st_needs_cell_facets s'
                = LocalLoopyKernelBuilder.st_needs_cell_facets s
             /\ LocalLoopyKernelBuilder.st_needs_mesh_layers s'
                = LocalLoopyKernelBuilder.st_needs_mesh_layers s).
  { intros ctx temp s k s' Hk. apply loopy_inner_fields in Hk. cbv zeta in Hk.
    destruct Hk as (_ & _ & _ & garg & lcs & cdata & _ & _ & _ & _ & _ & _ & _ & _
                    & _ & _ & _ & H1 & H2 & H3 & H4 & _).
    auto. }
  rewrite Hf, Hm, Ho, Hs. split; [|split; [|split]].
  - rewrite (loopy_setup_loop_any LocalLoopyKernelBuilder.st_needs_cell_facets
               (fun _ => false) _ _ _
               (fun ctx temp s k s' Hk =>
                  eq_trans (proj1 (proj2 (proj2 (Hfields _ _ _ _ _ Hk))))
                           (eq_sym (orb_false_r _)))
               (fun s s1 _ _ H _ => H) _ _ _ Hl).
    cbn [LocalLoopyKernelBuilder.setup_start
         LocalLoopyKernelBuilder.st_needs_cell_facets orb].
    induction (all_subkernels _) as [|x l IH]; [reflexivity | exact IH].
  - rewrite (loopy_setup_loop_any LocalLoopyKernelBuilder.st_needs_mesh_layers
               (fun _ => false) _ _ _
               (fun ctx temp s k s' Hk =>
                  eq_trans (proj2 (proj2 (proj2 (Hfields _ _ _ _ _ Hk))))
                           (eq_sym (orb_false_r _)))
               (fun s s1 _ _ _ H => H) _ _ _ Hl).
    cbn [LocalLoopyKernelBuilder.setup_start
         LocalLoopyKernelBuilder.st_needs_mesh_layers orb].
    induction (all_subkernels _) as [|x l IH]; [reflexivity | exact IH].
  - exact (loopy_setup_loop_any LocalLoopyKernelBuilder.st_needs_cell_orientations
             (fun ck => Tsfc.oriented (Tsfc.kinfo (snd ck))) _ _ _
             (fun ctx temp s k s' Hk => proj1 (Hfields _ _ _ _ _ Hk))
             (fun s s1 H _ _ _ => H) _ _ _ Hl).
  - exact (loopy_setup_loop_any LocalLoopyKernelBuilder.st_needs_cell_sizes
             (fun ck => Tsfc.needs_cell_sizes (Tsfc.kinfo (snd ck))) _ _ _
             (fun ctx temp s k s' Hk => proj1 (proj2 (Hfields _ _ _ _ _ Hk)))
             (fun s s1 _ H _ _ => H) _ _ _ Hl).
Qed.

Lemma loopy_builder_restrictions_witness :
  match LocalLoopyKernelBuilder.__init__ Examples.compile_oriented
          Examples.in_order Examples.A33 with
  | Py.Ok b =>
      LocalLoopyKernelBuilder.needs_cell_facets b = false
      /\ LocalLoopyKernelBuilder.needs_cell_orientations b = true
  | Py.Raise _ => False
  end.
Proof.
  destruct (LocalLoopyKernelBuilder.__init__ Examples.compile_oriented
              Examples.in_order Examples.A33) as [b|] eqn:Hb;
    [|vm_compute in Hb; discriminate Hb].
  destruct (loopy_builder_restrictions _ _ _ _ Hb) as (_ & Hf & _ & Ho & _).
  split; [exact Hf|]. rewrite Ho.
  vm_compute in Hb. injection Hb as <-. reflexivity.
Defined.

Lemma loopy_inner_collected gdict cv ctx temp st inner st' :
  LocalLoopyKernelBuilder.setup_inner gdict cv ctx temp st inner = Py.Ok st' ->
  LocalLoopyKernelBuilder.st_templated_subkernels st'
  = LocalLoopyKernelBuilder.st_templated_subkernels st
    ++ [Tsfc.code (Tsfc.kernel (Tsfc.kinfo inner))]
  /\ LocalLoopyKernelBuilder.st_include_dirs st'
     = LocalLoopyKernelBuilder.st_include_dirs st
       ++ Tsfc._include_dirs (Tsfc.kernel (Tsfc.kinfo inner)).
Proof.
  intros H. apply loopy_inner_fields in H. cbv zeta in H.
  destruct H as (_ & _ & _ & garg & lcs & cdata & _ & _ & _ & _ & _ & _ & _ & Ht
                 & Hi & _).
  auto.
Qed.

Lemma loopy_inner_registered gdict cv ctx temp st inner st' :
  keyed_by_shape cv ->
  LocalLoopyKernelBuilder.setup_inner gdict cv ctx temp st inner = Py.Ok st' ->
  LocalLoopyKernelBuilder.st_indices st'
  = LocalLoopyKernelBuilder.st_indices st
    ++ map index_of (mesh_data ctx (Tsfc.kinfo inner))
  /\ LocalLoopyKernelBuilder.st_reads st'
     = Some (map read_of (mesh_data ctx (Tsfc.kinfo inner))).
Proof.
  intros Hcv H. apply loopy_inner_no_coefficients in H; [|exact Hcv].
  cbv zeta in H. destruct H as (garg & _ & Hi & Hr). auto.
Qed.

(** X19. The indices, the codes and the include directories a loopy
    builder registers.  Every read of every call registers one index, with
    the extent of what is read; all of them go by the one name ["i0"].
    The templated sub-kernels are the codes of all sub-kernels, in order,
    and the include directories those of all sub-kernels, as a set. *)
Theorem loopy_indices_registered
        (compile : Tsfc.compiler) (list_set : list string -> list string)
        (expression : Slate.TensorBase) (b : LocalLoopyKernelBuilder.t) :
  LocalLoopyKernelBuilder.__init__ compile list_set expression = Py.Ok b ->
  let subkernels := all_subkernels (LocalLoopyKernelBuilder.context_kernels b) in
  LocalLoopyKernelBuilder.indices b
  = flat_map (fun ck => map index_of (mesh_data (fst ck) (Tsfc.kinfo (snd ck))))
             subkernels
  /\ Forall (fun ix => fst ix = "i0") (LocalLoopyKernelBuilder.indices b)
  /\ LocalLoopyKernelBuilder.templated_subkernels b
     = map (fun ck => Tsfc.code (Tsfc.kernel (Tsfc.kinfo (snd ck)))) subkernels
  /\ LocalLoopyKernelBuilder.include_dirs b
     = list_set (flat_map (fun ck => Tsfc._include_dirs
                                       (Tsfc.kernel (Tsfc.kinfo (snd ck))))
                          subkernels).
Proof.
  intros Hb subkernels. pose proof (loopy_builder_keyed _ _ _ _ Hb) as Hcv.
  apply loopy_builder_fields in Hb.
  destruct Hb as (_ & init & st & kinfo & _ & _ & _ & _ & _ & _ & Hl & _ & Ht & Hi
                  & _ & _ & _ & _ & _ & _ & _ & _ & Hd).
  unfold LocalLoopyKernelBuilder.setup_loop in Hl.
  assert (Hix : LocalLoopyKernelBuilder.indices b
                = flat_map (fun ck => map index_of
                                        (mesh_data (fst ck) (Tsfc.kinfo (snd ck))))
                           subkernels).
  { rewrite Hi.
    pose proof (loopy_setup_loop_collect
                  (fun s => Some (LocalLoopyKernelBuilder.st_indices s))
                  (fun ck => map index_of (mesh_data (fst ck) (Tsfc.kinfo (snd ck))))
                  _ _ _
                  (fun ctx temp s k s' Hk =>
                     f_equal Some
                       (proj1 (loopy_inner_registered _ _ _ _ _ _ _ Hcv Hk)))
                  (fun s s1 _ _ _ H => f_equal Some H) _ _ _ Hl) as Hc.
    cbn in Hc. now injection Hc as ->. }
  split; [exact Hix|]. split; [|split].
  - rewrite Hix. apply Forall_forall. intros ix Hin.
    apply in_flat_map in Hin. destruct Hin as (ck & _ & Hin).
    apply in_map_iff in Hin. now destruct Hin as (cn & <- & _).
  - rewrite Ht.
    pose proof (loopy_setup_loop_collect
                  (fun s => Some (LocalLoopyKernelBuilder.st_templated_subkernels s))
                  (fun ck => [Tsfc.code (Tsfc.kernel (Tsfc.kinfo (snd ck)))])
                  _ _ _
                  (fun ctx temp s k s' Hk =>
                     f_equal Some (proj1 (loopy_inner_collected _ _ _ _ _ _ _ Hk)))
                  (fun s s1 _ H _ _ => f_equal Some H) _ _ _ Hl) as Hc.
    cbn in Hc. injection Hc as ->. apply flat_map_single.
  - rewrite Hd.
    pose proof (loopy_setup_loop_collect
                  (fun s => Some (LocalLoopyKernelBuilder.st_include_dirs s))
                  (fun ck => Tsfc._include_dirs (Tsfc.kernel (Tsfc.kinfo (snd ck))))
                  _ _ _
                  (fun ctx temp s k s' Hk =>
                     f_equal Some (proj2 (loopy_inner_collected _ _ _ _ _ _ _ Hk)))
                  (fun s s1 _ _ H _ => f_equal Some H) _ _ _ Hl) as Hc.
    cbn in Hc. now injection Hc as ->.
Qed.

Lemma loopy_indices_registered_witness :
  match LocalLoopyKernelBuilder.__init__ Examples.compile_oriented
          Examples.in_order Examples.A33 with
  | Py.Ok b =>
      LocalLoopyKernelBuilder.indices b
      = [("i0", 3%Z); ("i0", 3%Z); ("i0", 3%Z); ("i0", 3%Z)]
  | Py.Raise _ => False
  end.
Proof.
  destruct (LocalLoopyKernelBuilder.__init__ Examples.compile_oriented
              Examples.in_order Examples.A33) as [b|] eqn:Hb;
    [|vm_compute in Hb; discriminate Hb].
  destruct (loopy_indices_registered _ _ _ _ Hb) as (Hi & _).
  rewrite Hi. vm_compute in Hb. injection Hb as <-. reflexivity.
Defined.

Lemma loopy_cxt_kernel_integral_type temps gdict cv st ctx st' :
  LocalLoopyKernelBuilder.setup_cxt_kernel temps gdict cv st ctx = Py.Ok st' ->
  LocalLoopyKernelBuilder.st_integral_type st'
  = Some (Tsfc.original_integral_type ctx).
Proof.
  intros H. apply loopy_cxt_kernel_inv in H.
  destruct H as (_ & _ & temp & st1 & _ & Hl & _ & Hit & _).
  rewrite <- Hit. revert Hl.
  apply (loopy_inner_loop_keeps LocalLoopyKernelBuilder.st_integral_type).
  intros s k s' Hk. apply loopy_inner_fields in Hk. cbv zeta in Hk.
  destruct Hk as (_ & _ & _ & garg & lcs & cdata & _ & _ & _ & _ & _ & _ & _ & _
                  & _ & _ & _ & _ & _ & _ & _ & H).
  exact H.
Qed.

Lemma rev_cons_last {X : Type} (l r : list X) (x : X) :
  rev l = x :: r -> l = rev r ++ [x].
Proof.
  intros H. rewrite <- (rev_involutive l), H. reflexivity.
Qed.

(** X20. What a loopy builder keeps of its loops.  A loopy builder has at
    least one context kernel and one sub-kernel; its integral type is that
    of its last context kernel, and its [oriented] flag and its reads are
    those of its last sub-kernel alone. *)
Theorem loopy_builder_keeps_the_last
        (compile : Tsfc.compiler) (list_set : list string -> list string)
        (expression : Slate.TensorBase) (b : LocalLoopyKernelBuilder.t) :
  LocalLoopyKernelBuilder.__init__ compile list_set expression = Py.Ok b ->
  exists c before ck earlier,
    LocalLoopyKernelBuilder.context_kernels b = before ++ [c]
    /\ LocalLoopyKernelBuilder.integral_type b = Tsfc.original_integral_type c
    /\ all_subkernels (LocalLoopyKernelBuilder.context_kernels b) = earlier ++ [ck]
    /\ LocalLoopyKernelBuilder.oriented b = Tsfc.oriented (Tsfc.kinfo (snd ck))
    /\ LocalLoopyKernelBuilder.reads b
       = map read_of (mesh_data (fst ck) (Tsfc.kinfo (snd ck))).
Proof.
  intros Hb. pose proof (loopy_builder_keyed _ _ _ _ Hb) as Hcv.
  apply loopy_builder_fields in Hb.
  destruct Hb as (_ & init & st & kinfo & _ & _ & _ & _ & _ & _ & Hl & _ & _ & _
                  & _ & _ & _ & _ & Hit & Hk & Ho & Hr & _).
  unfold LocalLoopyKernelBuilder.setup_loop in Hl.
  pose proof (for_each_last LocalLoopyKernelBuilder.st_integral_type
                Tsfc.original_integral_type _
                (loopy_cxt_kernel_integral_type _ _ _) _ _ _ Hl) as Hlast.
  rewrite Hit in Hlast.
  destruct (rev (LocalLoopyKernelBuilder.context_kernels b)) as [|c r] eqn:Ec;
    [discriminate Hlast|].
  injection Hlast as Hlast. apply rev_cons_last in Ec.
  pose proof (loopy_setup_loop_last LocalLoopyKernelBuilder.st_kinfo
                (fun ck => Tsfc.kinfo (snd ck)) _ _ _
                (fun ctx temp s k s' Hs =>
                   match loopy_inner_fields _ _ _ _ _ _ _ Hs with
                   | conj _ (conj _ (conj _ (ex_intro _ _ (ex_intro _ _
                       (ex_intro _ _ (conj _ (conj _ (conj _ (conj _ (conj _
                          (conj _ (conj H _)))))))))))) => H
                   end)
                (fun s s1 H _ => H) _ _ _ Hl) as Hklast.
  pose proof (loopy_setup_loop_last LocalLoopyKernelBuilder.st_reads
                (fun ck => map read_of (mesh_data (fst ck) (Tsfc.kinfo (snd ck))))
                _ _ _
                (fun ctx temp s k s' Hs =>
                   proj2 (loopy_inner_registered _ _ _ _ _ _ _ Hcv Hs))
                (fun s s1 _ H => H) _ _ _ Hl) as Hrlast.
  rewrite Hk in Hklast. rewrite Hr in Hrlast.
  destruct (rev (all_subkernels (LocalLoopyKernelBuilder.context_kernels b)))
    as [|ck r'] eqn:Ek; [discriminate Hklast|].
  injection Hklast as Hklast. injection Hrlast as Hrlast.
  apply rev_cons_last in Ek.
  exists c, (rev r), ck, (rev r').
  split; [exact Ec|]. split; [exact Hlast|]. split; [exact Ek|].
  split; [now rewrite Ho, Hklast | exact Hrlast].
Qed.

Lemma loopy_builder_keeps_the_last_witness :
  match LocalLoopyKernelBuilder.__init__ Examples.compile_oriented
          Examples.in_order Examples.shared with
  | Py.Ok b =>
      exists ck earlier,
        all_subkernels (LocalLoopyKernelBuilder.context_kernels b) = earlier ++ [ck]
        /\ LocalLoopyKernelBuilder.oriented b = Tsfc.oriented (Tsfc.kinfo (snd ck))
  | Py.Raise _ => False
  end.
Proof.
  destruct (LocalLoopyKernelBuilder.__init__ Examples.compile_oriented
              Examples.in_order Examples.shared) as [b|] eqn:Hb;
    [|vm_compute in Hb; discriminate Hb].
  destruct (loopy_builder_keeps_the_last _ _ _ _ Hb)
    as (c & before & ck & earlier & _ & _ & Hk & Ho & _).
  exists ck, earlier. auto.
Defined.

(** *** A form without kernels *)

Lemma flat_context_kernels_nil compile temps :
  (forall t prefix coffee, compile t prefix coffee = []) ->
  LocalKernelBuilder.init_context_kernels compile temps = [].
Proof.
  intros H. unfold LocalKernelBuilder.init_context_kernels.
  induction (Py.enumerate temps) as [|x l IH]; [reflexivity|].
  cbn [map List.concat]. rewrite H. exact IH.
Qed.

Lemma loopy_context_kernels_nil compile temps :
  (forall t prefix coffee, compile t prefix coffee = []) ->
  LocalLoopyKernelBuilder.init_context_kernels compile temps = [].
Proof.
  intros H. unfold LocalLoopyKernelBuilder.init_context_kernels.
  induction (Py.enumerate temps) as [|x l IH]; [reflexivity|].
  cbn [map List.concat]. rewrite H. exact IH.
Qed.

(** X21. A form that compiles to no kernel.  The flat builder is
    constructed all the same, with every bucket empty, no templated
    sub-kernel, and all its flags and its cost of the terminals at
    nought.  The loopy builder is not: after its loops it reads variables
    that only the loops assign, and ends in [UnboundLocalError]. *)
Theorem builders_without_kernels
        (compile : Tsfc.compiler) (visit : Tsfc.KernelCode -> Tsfc.KernelCode)
        (list_set : list string -> list string)
        (expression : Slate.TensorBase) :
  Slate.variable_layers (Slate.ufl_domain expression) = false ->
  (forall t prefix coffee, compile t prefix coffee = []) ->
  (exists b,
      LocalKernelBuilder.__init__ compile visit list_set expression = Py.Ok b
      /\ LocalKernelBuilder.context_kernels b = []
      /\ (forall key,
             In key (LocalKernelBuilder.supported_integral_types
                       ++ LocalKernelBuilder.supported_subdomain_types) ->
             Py.get String.eqb (LocalKernelBuilder.assembly_calls b) key = Some [])
      /\ LocalKernelBuilder.templated_subkernels b = []
      /\ LocalKernelBuilder.oriented b = false
      /\ LocalKernelBuilder.needs_cell_sizes b = false
      /\ LocalKernelBuilder.needs_cell_facets b = false
      /\ LocalKernelBuilder.needs_mesh_layers b = false
      /\ LocalKernelBuilder.terminal_flops expression
           (LocalKernelBuilder.context_kernels b) = 0%Z)
  /\ Py.is_ok (LocalLoopyKernelBuilder.__init__ compile list_set expression)
     = false
  /\ (Py.is_ok (LocalLoopyKernelBuilder.init_loop expression
                  (Utils.traverse_dags [expression])) = true ->
      LocalLoopyKernelBuilder.__init__ compile list_set expression
      = Py.Raise (Py.UnboundLocalError "integral_type")).
Proof.
  intros Hvl Hnil.
  assert (Hloopy : Py.is_ok (LocalLoopyKernelBuilder.init_loop expression
                               (Utils.traverse_dags [expression])) = true ->
                   LocalLoopyKernelBuilder.__init__ compile list_set expression
                   = Py.Raise (Py.UnboundLocalError "integral_type")).
  { unfold LocalLoopyKernelBuilder.__init__. rewrite Hvl.
    destruct (LocalLoopyKernelBuilder.init_loop _ _) as [init|]; [|discriminate].
    intros _. cbn [Py.bind]. unfold LocalLoopyKernelBuilder._setup.
    rewrite (loopy_context_kernels_nil _ _ Hnil). reflexivity. }
  split; [|split; [|exact Hloopy]].
  - unfold LocalKernelBuilder.__init__. rewrite Hvl.
    unfold LocalKernelBuilder._setup.
    rewrite (flat_context_kernels_nil _ _ Hnil).
    cbn [LocalKernelBuilder.setup_loop Py.for_each Py.bind].
    eexists. split; [reflexivity|].
    cbn [LocalKernelBuilder.context_kernels LocalKernelBuilder.assembly_calls
         LocalKernelBuilder.templated_subkernels LocalKernelBuilder.oriented
         LocalKernelBuilder.needs_cell_sizes LocalKernelBuilder.setup_start
         LocalKernelBuilder.st_assembly_calls LocalKernelBuilder.st_subdomain_calls
         LocalKernelBuilder.st_templated_subkernels LocalKernelBuilder.st_oriented
         LocalKernelBuilder.st_needs_cell_sizes].
    split; [reflexivity|]. split.
    + intros key Hkey. simpl in Hkey.
      repeat (destruct Hkey as [<-|Hkey]; [reflexivity|]). destruct Hkey.
    + repeat (split; [reflexivity|]). reflexivity.
  - destruct (LocalLoopyKernelBuilder.__init__ _ _ _) as [b|] eqn:E; [|reflexivity].
    unfold LocalLoopyKernelBuilder.__init__ in E. rewrite Hvl in E.
    destruct (LocalLoopyKernelBuilder.init_loop _ _) as [init|] eqn:Ei;
      [|discriminate E].
    cbn [Py.bind] in E. unfold LocalLoopyKernelBuilder._setup in E.
    rewrite (loopy_context_kernels_nil _ _ Hnil) in E. discriminate E.
Qed.

Lemma builders_without_kernels_witness :
  Py.is_ok (LocalKernelBuilder.__init__ Examples.compile_nothing Examples.visit
              Examples.in_order Examples.shared) = true
  /\ LocalLoopyKernelBuilder.__init__ Examples.compile_nothing Examples.in_order
       Examples.shared
     = Py.Raise (Py.UnboundLocalError "integral_type").
Proof.
  destruct (builders_without_kernels Examples.compile_nothing Examples.visit
              Examples.in_order Examples.shared eq_refl (fun _ _ _ => eq_refl))
    as ((b & Hb & _) & _ & Hl).
  split; [now rewrite Hb | exact (Hl eq_refl)].
Defined.

(** *** The global arguments of the loopy builder *)

Lemma get_tensor_app_fresh {V : Type} (d : list (Slate.TensorBase * V))
      (t : Slate.TensorBase) (v : V) :
  Py.get Slate.tensor_eqb d t = None ->
  Py.get Slate.tensor_eqb (d ++ [(t, v)]) t = Some v.
Proof.
  induction d as [|[k w] d IH]; simpl.
  - intros _. unfold Slate.tensor_eqb. now rewrite Nat.eqb_refl.
  - destruct (Slate.tensor_eqb k t); [discriminate | exact IH].
Qed.

Lemma get_tensor_in {V : Type} (d : list (Slate.TensorBase * V))
      (t : Slate.TensorBase) (v : V) :
  Py.get Slate.tensor_eqb d t = Some v -> exists k, In (k, v) d.
Proof.
  induction d as [|[k w] d IH]; simpl; [discriminate|].
  destruct (Slate.tensor_eqb k t).
  - intros [= ->]. eauto.
  - intros H. destruct (IH H) as [k' Hk']. eauto.
Qed.

Lemma get_gem_declared (temps : list (Slate.TensorBase * GemIndexed))
      (temp : GemIndexed) :
  (exists p, In p temps /\ variable_name (snd p) = variable_name temp) ->
  exists garg,
    Py.get LocalLoopyKernelBuilder.gem_eqb
      (map (fun p => (snd p, global_arg_of (snd p))) temps) temp = Some garg
    /\ arg_name garg = Name (variable_name temp).
Proof.
  induction temps as [|[t0 g0] temps IH]; intros (p & Hp & Hn); [destruct Hp|].
  simpl. unfold LocalLoopyKernelBuilder.gem_eqb at 1.
  destruct (String.eqb_spec (variable_name g0) (variable_name temp)) as [E|E].
  - eexists. split; [reflexivity|]. simpl. now rewrite E.
  - apply IH. destruct Hp as [<-|Hp]; [now destruct E | eauto].
Qed.

Lemma get_gem_undeclared (temps : list (Slate.TensorBase * GemIndexed))
      (temp : GemIndexed) :
  (forall p, In p temps -> variable_name (snd p) <> variable_name temp) ->
  Py.get LocalLoopyKernelBuilder.gem_eqb
    (map (fun p => (snd p, global_arg_of (snd p))) temps) temp = None.
Proof.
  induction temps as [|[t0 g0] temps IH]; intros H; [reflexivity|].
  simpl. unfold LocalLoopyKernelBuilder.gem_eqb at 1.
  destruct (String.eqb_spec (variable_name g0) (variable_name temp)) as [E|E].
  - destruct (H (t0, g0) (or_introl eq_refl) E).
  - apply IH. intros p Hp. apply H. now right.
Qed.

(** What the loop of [__init__] of the loopy builder maintains as long as
    it meets no assembled vector. *)
Lemma loopy_init_body_declares st t st' :
  LocalLoopyKernelBuilder.init_body st t = Py.Ok st' ->
  LocalLoopyKernelBuilder.init_shape_var st = None ->
  LocalLoopyKernelBuilder.init_gem_loopy_dict st
  = map (fun p => (snd p, global_arg_of (snd p)))
        (LocalLoopyKernelBuilder.init_temps st) ->
  map (fun p => variable_name (snd p)) (LocalLoopyKernelBuilder.init_temps st)
  = map temporary_name
        (seq 0 (List.length (LocalLoopyKernelBuilder.init_temps st))) ->
  (forall p, In p (LocalLoopyKernelBuilder.init_temps st) ->
             variable_shape (snd p) = Slate.shape (fst p)
             /\ index_extents (snd p) = [3; 3]%Z
             /\ Slate.shape (fst p) = [3; 3]%Z) ->
  LocalLoopyKernelBuilder.init_shape_var st' = None
  /\ LocalLoopyKernelBuilder.init_gem_loopy_dict st'
     = map (fun p => (snd p, global_arg_of (snd p)))
           (LocalLoopyKernelBuilder.init_temps st')
  /\ map (fun p => variable_name (snd p)) (LocalLoopyKernelBuilder.init_temps st')
     = map temporary_name
           (seq 0 (List.length (LocalLoopyKernelBuilder.init_temps st')))
  /\ (forall p, In p (LocalLoopyKernelBuilder.init_temps st') ->
                variable_shape (snd p) = Slate.shape (fst p)
                /\ index_extents (snd p) = [3; 3]%Z
                /\ Slate.shape (fst p) = [3; 3]%Z).
Proof.
  intros H Hsv Hg Hn Hp. unfold LocalLoopyKernelBuilder.init_body in H.
  destruct t as [ i | i f | | | | | | | | ]; cbn [Slate.is_Tensor] in H.
  2:{ cbn [Py.bind] in H.
      destruct (Py.lookup _ _ _); cbn [Py.bind] in H; [|discriminate].
      rewrite Hsv in H. discriminate H. }
  2-9: cbn [Py.bind] in H; injection H as <-; cbn; auto.
  destruct (gem_Indexed _ _ _) as [indexed|] eqn:Eg; cbn [Py.bind] in H;
    [|discriminate].
  apply gem_Indexed_inv in Eg. destruct Eg as [-> Hshape].
  unfold Py.setdefault, Py.contains, Py.lookup in H.
  destruct (Py.get Slate.tensor_eqb (LocalLoopyKernelBuilder.init_temps st)
              (Slate.Tensor i)) as [key|] eqn:Eget.
  - rewrite Eget in H. cbn [Py.bind] in H.
    destruct (get_tensor_in _ _ _ Eget) as [k Hk].
    destruct (get_gem_declared (LocalLoopyKernelBuilder.init_temps st) key)
      as (garg & Hgarg & _); [exists (k, key); auto|].
    rewrite Hg, Hgarg in H. injection H as <-. cbn. auto.
  - rewrite (get_tensor_app_fresh _ _ _ Eget) in H. cbn [Py.bind] in H.
    rewrite Hg, get_gem_undeclared in H.
    + injection H as <-. cbn. split; [exact Hsv|]. split; [|split].
      * rewrite map_app. reflexivity.
      * rewrite map_app, length_app, Hn. cbn [map List.length].
        rewrite Nat.add_1_r, seq_S, map_app. reflexivity.
      * intros p Hin. apply in_app_or in Hin.
        destruct Hin as [Hin|[<-|[]]]; [now apply Hp|].
        split; [reflexivity|]. split; [reflexivity | exact Hshape].
    + intros p Hin E. cbn [variable_name] in E.
      assert (Hin' : In (variable_name (snd p))
                        (map temporary_name
                           (seq 0 (List.length
                                     (LocalLoopyKernelBuilder.init_temps st))))).
      { rewrite <- Hn. apply (in_map (fun p => variable_name (snd p))). exact Hin. }
      apply in_map_iff in Hin'. destruct Hin' as (k & Hk & Hseq).
      rewrite E in Hk. apply temporary_name_inj in Hk. apply in_seq in Hseq. lia.
Qed.

Lemma loopy_init_loop_declares dag :
  forall st st',
    Py.for_each LocalLoopyKernelBuilder.init_body dag st = Py.Ok st' ->
    LocalLoopyKernelBuilder.init_shape_var st = None ->
    LocalLoopyKernelBuilder.init_gem_loopy_dict st
    = map (fun p => (snd p, global_arg_of (snd p)))
          (LocalLoopyKernelBuilder.init_temps st) ->
    map (fun p => variable_name (snd p)) (LocalLoopyKernelBuilder.init_temps st)
    = map temporary_name
          (seq 0 (List.length (LocalLoopyKernelBuilder.init_temps st))) ->
    (forall p, In p (LocalLoopyKernelBuilder.init_temps st) ->
               variable_shape (snd p) = Slate.shape (fst p)
               /\ index_extents (snd p) = [3; 3]%Z
               /\ Slate.shape (fst p) = [3; 3]%Z) ->
    LocalLoopyKernelBuilder.init_gem_loopy_dict st'
    = map (fun p => (snd p, global_arg_of (snd p)))
          (LocalLoopyKernelBuilder.init_temps st')
    /\ map (fun p => variable_name (snd p)) (LocalLoopyKernelBuilder.init_temps st')
       = map temporary_name
             (seq 0 (List.length (LocalLoopyKernelBuilder.init_temps st')))
    /\ (forall p, In p (LocalLoopyKernelBuilder.init_temps st') ->
                  variable_shape (snd p) = Slate.shape (fst p)
                  /\ index_extents (snd p) = [3; 3]%Z
                  /\ Slate.shape (fst p) = [3; 3]%Z).
Proof.
  induction dag as [|t dag IH]; intros st st' H Hsv Hg Hn Hp; simpl in H.
  - injection H as <-. auto.
  - destruct (LocalLoopyKernelBuilder.init_body st t) as [s1|] eqn:E;
      cbn [Py.bind] in H; [|discriminate].
    destruct (loopy_init_body_declares _ _ _ E Hsv Hg Hn Hp)
      as (Hsv1 & Hg1 & Hn1 & Hp1).
    exact (IH _ _ H Hsv1 Hg1 Hn1 Hp1).
Qed.

Lemma loopy_setup_loop_collect_at {A : Type}
      (view : LocalLoopyKernelBuilder.setup_state -> option (list A))
      (delta : Tsfc.ContextKernel * Tsfc.SplitKernel -> list A)
      temps gdict cv :
  (forall ctx temp st sk st',
      Py.lookup Slate.tensor_eqb temps (Tsfc.tensor ctx) = Py.Ok temp ->
      LocalLoopyKernelBuilder.setup_inner gdict cv ctx temp st sk = Py.Ok st' ->
      view st' = option_map (fun l => l ++ delta (ctx, sk)) (view st)) ->
  (forall st st1,
      LocalLoopyKernelBuilder.st_assembly_calls st1
      = LocalLoopyKernelBuilder.st_assembly_calls st ->
      view st1 = view st) ->
  forall ctxs st st',
    Py.for_each (LocalLoopyKernelBuilder.setup_cxt_kernel temps gdict cv) ctxs st
    = Py.Ok st' ->
    view st' = option_map (fun l => l ++ flat_map delta (all_subkernels ctxs))
                 (view st).
Proof.
  intros Hstep Hhead ctxs st st' H.
  rewrite flat_map_all_subkernels.
  revert H. apply for_each_collect. clear st st'.
  intros st ctx st' H. apply loopy_cxt_kernel_inv in H.
  destruct H as (_ & _ & temp & st1 & Ht & Hl & _ & _ & Ha & _).
  rewrite <- (Hhead st st1 Ha). revert Hl.
  apply (for_each_collect view (fun k => delta (ctx, k))).
  intros s k s'. now apply Hstep.
Qed.

(** The call of a sub-kernel writes to the temporary of its terminal. *)
Lemma loopy_inner_output temps gdict cv ctx temp st sk st' :
  gdict = map (fun p => (snd p, global_arg_of (snd p))) temps ->
  Py.lookup Slate.tensor_eqb temps (Tsfc.tensor ctx) = Py.Ok temp ->
  LocalLoopyKernelBuilder.setup_inner gdict cv ctx temp st sk = Py.Ok st' ->
  option_map (map assignees)
    (Py.get String.eqb (LocalLoopyKernelBuilder.st_assembly_calls st') "cell")
  = option_map (fun l => l ++ outputs_of temps (ctx, sk))
      (option_map (map assignees)
         (Py.get String.eqb (LocalLoopyKernelBuilder.st_assembly_calls st) "cell")).
Proof.
  intros Hd Htemp Hk. apply loopy_inner_fields in Hk. cbv zeta in Hk.
  destruct Hk as (_ & _ & _ & garg & lcs & cdata & Hgarg & _ & _ & Ha & _).
  change (LocalLoopyKernelBuilder.append_at
            (LocalLoopyKernelBuilder.st_assembly_calls st) "cell")
    with (LocalKernelBuilder.append_at
            (LocalLoopyKernelBuilder.st_assembly_calls st) "cell") in Ha.
  rewrite (append_at_get _ _ _ "cell" _ Ha).
  cbn [String.eqb Ascii.eqb Bool.eqb].
  unfold outputs_of. cbn [fst]. unfold Py.lookup in Htemp, Hgarg.
  destruct (Py.get Slate.tensor_eqb temps (Tsfc.tensor ctx)) as [temp0|] eqn:E0;
    [|discriminate Htemp].
  injection Htemp as ->.
  destruct (get_tensor_in _ _ _ E0) as [k0 Hk0].
  destruct (get_gem_declared temps temp) as (garg' & Hg' & Hname);
    [exists (k0, temp); auto|].
  rewrite Hd, Hg' in Hgarg. injection Hgarg as <-. rewrite Hname.
  destruct (Py.get String.eqb (LocalLoopyKernelBuilder.st_assembly_calls st) "cell");
    simpl; [now rewrite map_app | reflexivity].
Qed.

(** X22. The global arguments and the outputs of the loopy builder.  Every
    temporary is declared as one global argument, in the order of the
    temporaries, named after the temporary ([T0], [T1], ...), with the
    shape of its terminal and the scalar type.  Every terminal of a loopy
    builder has the shape (3, 3): its temporary is indexed by two indices
    of extent 3, and [gem.Indexed] takes no other shape.  The call of a
    sub-kernel writes to the whole temporary of its terminal, and every
    terminal of a context kernel has one. *)
Theorem loopy_global_arguments
        (compile : Tsfc.compiler) (list_set : list string -> list string)
        (expression : Slate.TensorBase) (b : LocalLoopyKernelBuilder.t) :
  LocalLoopyKernelBuilder.__init__ compile list_set expression = Py.Ok b ->
  let temps := LocalLoopyKernelBuilder.temps b in
  LocalLoopyKernelBuilder.gem_loopy_dict b
  = map (fun p => (snd p, global_arg_of (snd p))) temps
  /\ map (fun p => variable_name (snd p)) temps
     = map temporary_name (seq 0 (List.length temps))
  /\ (forall t temp, In (t, temp) temps ->
        Slate.shape t = [3; 3]%Z
        /\ variable_shape temp = Slate.shape t
        /\ index_extents temp = Slate.shape t)
  /\ (forall c, In c (LocalLoopyKernelBuilder.context_kernels b) ->
        Py.contains Slate.tensor_eqb temps (Tsfc.tensor c) = true)
  /\ exists calls,
      Py.get String.eqb (LocalLoopyKernelBuilder.assembly_calls b) "cell"
      = Some calls
      /\ map assignees calls
         = flat_map (outputs_of temps)
                    (all_subkernels (LocalLoopyKernelBuilder.context_kernels b)).
Proof.
  intros Hb temps. apply loopy_builder_fields in Hb.
  destruct Hb as (_ & init & st & kinfo & Hinit & Ht & Hg & _ & _ & _ & Hl & Hac & _).
  unfold LocalLoopyKernelBuilder.init_loop in Hinit.
  destruct (loopy_init_loop_declares _ _ _ Hinit eq_refl eq_refl eq_refl
              (fun p (H : In p []) => match H with end)) as (Hd & Hn & Hs).
  fold temps in Ht. rewrite <- Ht in Hd, Hn, Hs. rewrite <- Hg in Hd.
  split; [exact Hd|]. split; [exact Hn|].
  split.
  { intros t temp Hin. destruct (Hs (t, temp) Hin) as (H1 & H2 & H3).
    cbn [fst snd] in H1, H2, H3. rewrite H3.
    split; [reflexivity|]. split; [now rewrite H1 | exact H2]. }
  unfold LocalLoopyKernelBuilder.setup_loop in Hl. fold temps in Hl.
  split.
  - apply Forall_forall. revert Hl. apply for_each_ok_forall.
    intros s c s' Hc. apply loopy_cxt_kernel_inv in Hc.
    destruct Hc as (_ & _ & temp & s1 & Htemp & _).
    unfold Py.contains. unfold Py.lookup in Htemp.
    now destruct (Py.get Slate.tensor_eqb temps (Tsfc.tensor c)).
  - pose proof (loopy_setup_loop_collect_at
                  (fun s => option_map (map assignees)
                              (Py.get String.eqb
                                 (LocalLoopyKernelBuilder.st_assembly_calls s)
                                 "cell"))
                  (outputs_of temps) temps
                  (LocalLoopyKernelBuilder.gem_loopy_dict b)
                  (LocalLoopyKernelBuilder.coefficient_vecs b)) as Hc.
    rewrite Hac.
    assert (Hview : option_map (map assignees)
                      (Py.get String.eqb
                         (LocalLoopyKernelBuilder.st_assembly_calls st) "cell")
                    = Some (flat_map (outputs_of temps)
                              (all_subkernels
                                 (LocalLoopyKernelBuilder.context_kernels b)))).
    { rewrite (Hc (fun ctx temp s k s' Htemp Hk =>
                     loopy_inner_output temps _ _ ctx temp s k s' Hd Htemp Hk)
                  (fun s s1 Ha =>
                     f_equal (fun d => option_map (map assignees)
                                         (Py.get String.eqb d "cell")) Ha)
                  _ _ _ Hl).
      reflexivity. }
    destruct (Py.get String.eqb (LocalLoopyKernelBuilder.st_assembly_calls st) "cell")
      as [calls|]; [|discriminate Hview].
    exists calls. split; [reflexivity|]. simpl in Hview. now injection Hview.
Qed.

Lemma loopy_global_arguments_witness :
  match LocalLoopyKernelBuilder.__init__ Examples.compile_cell
          Examples.in_order Examples.shared with
  | Py.Ok b =>
      map (fun p => arg_name (snd p)) (LocalLoopyKernelBuilder.gem_loopy_dict b)
      = [Name "T0"; Name "T1"]
  | Py.Raise _ => False
  end.
Proof.
  destruct (LocalLoopyKernelBuilder.__init__ Examples.compile_cell
              Examples.in_order Examples.shared) as [b|] eqn:Hb;
    [|vm_compute in Hb; discriminate Hb].
  destruct (loopy_global_arguments _ _ _ _ Hb) as (Hd & Hn & _).
  rewrite Hd, map_map. cbn [snd global_arg_of arg_name].
  rewrite <- (map_map (fun p => variable_name (snd p)) Name), Hn.
  vm_compute in Hb. injection Hb as <-. reflexivity.
Defined.

(** *** The kernels of the terminals *)

Lemma string_append_assoc (a b c : string) :
  ((a ++ b) ++ c)%string = (a ++ b ++ c)%string.
Proof. induction a as [|x a IH]; simpl; [reflexivity | now rewrite IH]. Qed.

(** X23. The context kernels of a builder are those the form compiler
    returns for its terminals, taken in the order of the temporaries; the
    kernels of the [i]-th terminal are compiled under the prefix
    [subkernel<i>_], for COFFEE in the flat builder and for loopy in the
    loopy builder.  Names that start with the prefixes of two different
    terminals are different names. *)
Theorem context_kernels_by_terminal :
  (forall compile visit list_set expression b,
      LocalKernelBuilder.__init__ compile visit list_set expression = Py.Ok b ->
      LocalKernelBuilder.context_kernels b
      = flat_map (fun it => compile (fst (snd it)) (kernel_prefix (fst it)) true)
                 (Py.enumerate (LocalKernelBuilder.temps b)))
  /\ (forall compile list_set expression b,
         LocalLoopyKernelBuilder.__init__ compile list_set expression = Py.Ok b ->
         LocalLoopyKernelBuilder.context_kernels b
         = flat_map (fun it => compile (fst (snd it)) (kernel_prefix (fst it)) false)
                    (Py.enumerate (LocalLoopyKernelBuilder.temps b)))
  /\ (forall i j rest rest',
         (kernel_prefix i ++ rest)%string = (kernel_prefix j ++ rest')%string ->
         i = j).
Proof.
  split; [|split].
  - intros compile visit list_set expression b Hb.
    apply flat_builder_fields in Hb.
    destruct Hb as (_ & _ & _ & Ht & _ & _ & Hc & _).
    rewrite Hc, Ht. unfold LocalKernelBuilder.init_context_kernels.
    now rewrite flat_map_concat_map.
  - intros compile list_set expression b Hb.
    apply loopy_builder_fields in Hb.
    destruct Hb as (_ & init & st & kinfo & _ & Ht & _ & _ & _ & Hc & _).
    rewrite Hc, Ht. unfold LocalLoopyKernelBuilder.init_context_kernels.
    now rewrite flat_map_concat_map.
  - intros i j rest rest' H. unfold kernel_prefix in H.
    rewrite !string_append_assoc in H. simpl in H.
    repeat (injection H as H).
    apply (append_underscore_split (Py.fmt_d i) (Py.fmt_d j) rest rest') in H;
      try apply fmt_d_no_underscore.
    destruct H as [H _]. now apply fmt_d_inj.
Qed.

Lemma context_kernels_by_terminal_witness :
  match LocalKernelBuilder.__init__ Examples.compile_cell Examples.visit
          Examples.in_order Examples.shared with
  | Py.Ok b =>
      map (fun c => map (fun k => Tsfc.name (Tsfc.kernel (Tsfc.kinfo k)))
                        (Tsfc.tsfc_kernels c))
          (LocalKernelBuilder.context_kernels b)
      = [["subkernel0_cell_integral"]; ["subkernel1_cell_integral"]]
  | Py.Raise _ => False
  end.
Proof.
  destruct (LocalKernelBuilder.__init__ Examples.compile_cell Examples.visit
              Examples.in_order Examples.shared) as [b|] eqn:Hb;
    [|vm_compute in Hb; discriminate Hb].
  rewrite (proj1 context_kernels_by_terminal _ _ _ _ _ Hb).
  vm_compute in Hb. injection Hb as <-. reflexivity.
Defined.

(** *** Lookups that fail *)

Lemma get_absent_tensor {V : Type} (d : list (Slate.TensorBase * V))
      (t : Slate.TensorBase) :
  Py.contains Slate.tensor_eqb d t = false ->
  Py.lookup Slate.tensor_eqb d t = Py.Raise Py.KeyError.
Proof.
  unfold Py.contains, Py.lookup.
  destruct (Py.get Slate.tensor_eqb d t); [discriminate | reflexivity].
Qed.

(** X24. A context kernel whose tensor has no temporary is not taken: the
    loopy builder raises [KeyError] as soon as it reaches the context
    kernel, before any other check; the flat builder raises it when it
    assembles the call of the first sub-kernel, once the arguments of that
    sub-kernel are resolved. *)
Theorem context_kernel_without_temporary_rejected
        (cxt_kernel : Tsfc.ContextKernel) :
  (forall temps gem_loopy_dict coefficient_vecs st,
      Py.contains Slate.tensor_eqb temps (Tsfc.tensor cxt_kernel) = false ->
      LocalLoopyKernelBuilder.setup_cxt_kernel temps gem_loopy_dict
        coefficient_vecs st cxt_kernel = Py.Raise Py.KeyError)
  /\ (forall temps gem_loopy_dict coefficient_vecs before after,
         Py.contains Slate.tensor_eqb temps (Tsfc.tensor cxt_kernel) = false ->
         Py.is_ok (LocalLoopyKernelBuilder.setup_loop temps gem_loopy_dict
                     coefficient_vecs (before ++ cxt_kernel :: after)) = false)
  /\ (forall visit expression temps st sk symbols,
         Py.contains Slate.tensor_eqb temps (Tsfc.tensor cxt_kernel) = false ->
         Py.map_result
           (fun i => c <- Py.getitem (Tsfc.coefficients cxt_kernel) i ;;
                     LocalKernelBuilder.coefficient expression c)
           (Tsfc.coefficient_map (Tsfc.kinfo sk)) = Py.Ok symbols ->
         LocalKernelBuilder.setup_split_kernel visit expression temps cxt_kernel
           st sk = Py.Raise Py.KeyError)
  /\ (forall visit expression temps before after,
         Py.contains Slate.tensor_eqb temps (Tsfc.tensor cxt_kernel) = false ->
         Tsfc.tsfc_kernels cxt_kernel <> [] ->
         Py.is_ok (LocalKernelBuilder.setup_loop visit expression temps
                     (before ++ cxt_kernel :: after)) = false).
Proof.
  split; [|split; [|split]].
  - intros temps gdict cv st Hc.
    unfold LocalLoopyKernelBuilder.setup_cxt_kernel.
    now rewrite (get_absent_tensor _ _ Hc).
  - intros temps gdict cv before after Hc.
    unfold LocalLoopyKernelBuilder.setup_loop. apply for_each_never_ok.
    intros s. unfold LocalLoopyKernelBuilder.setup_cxt_kernel.
    now rewrite (get_absent_tensor _ _ Hc).
  - intros visit expression temps st sk symbols Hc Hs.
    unfold LocalKernelBuilder.setup_split_kernel. rewrite Hs. cbn [Py.bind].
    now rewrite (get_absent_tensor _ _ Hc).
  - intros visit expression temps before after Hc Hk.
    destruct (LocalKernelBuilder.setup_loop _ _ _ _) as [st|] eqn:E; [|reflexivity].
    exfalso. destruct (Tsfc.tsfc_kernels cxt_kernel) as [|sk ks] eqn:Eks;
      [now apply Hk|].
    destruct (flat_setup_loop_calls _ _ _ _ _ E (cxt_kernel, sk))
      as (call & Hcall & _).
    + apply in_all_subkernels. cbn [fst snd]. split.
      * apply in_or_app. right. now left.
      * rewrite Eks. now left.
    + unfold expected_call in Hcall. cbn [fst snd] in Hcall.
      rewrite (get_absent_tensor _ _ Hc) in Hcall.
      destruct (Py.map_result _ _); discriminate Hcall.
Qed.

Lemma context_kernel_without_temporary_rejected_witness :
  LocalLoopyKernelBuilder.setup_cxt_kernel Examples.loopy_temps Examples.loopy_dict
    [] LocalLoopyKernelBuilder.setup_start
    (Examples.cxt Examples.B33 "subkernel1_" "cell" Tsfc.otherwise false)
  = Py.Raise Py.KeyError.
Proof.
  exact (proj1 (context_kernel_without_temporary_rejected
                  (Examples.cxt Examples.B33 "subkernel1_" "cell"
                     Tsfc.otherwise false))
               Examples.loopy_temps Examples.loopy_dict []
               LocalLoopyKernelBuilder.setup_start eq_refl).
Defined.

Lemma map_result_app {X Y : Type} (f : X -> Py.result Y) (xs ys : list X) :
  Py.map_result f (xs ++ ys)
  = (a <- Py.map_result f xs ;; b <- Py.map_result f ys ;; Py.Ok (a ++ b)).
Proof.
  induction xs as [|x xs IH]; simpl.
  - destruct (Py.map_result f ys); reflexivity.
  - destruct (f x); cbn [Py.bind]; [|reflexivity].
    rewrite IH. destruct (Py.map_result f xs); cbn [Py.bind]; [|reflexivity].
    destruct (Py.map_result f ys); reflexivity.
Qed.

Lemma setitem_keys_function {V : Type} (m : list (Slate.Function * V))
      (c : Slate.Function) (v : V) (i : nat) :
  In i (map (fun p => Slate.function_id (fst p)) (Py.setitem Slate.function_eqb m c v)) ->
  In i (map (fun p => Slate.function_id (fst p)) m) \/ i = Slate.function_id c.
Proof.
  induction m as [|[k w] m IH]; simpl.
  - intros [<-|[]]. now right.
  - destruct (Slate.function_eqb k c); simpl.
    + intros [<-|H]; auto.
    + intros [<-|H]; [auto|]. destruct (IH H); auto.
Qed.

Lemma coefficient_map_keys (expression : Slate.TensorBase) (i : nat) :
  In i (map (fun p => Slate.function_id (fst p))
            (LocalKernelBuilder.coefficient_map expression)) ->
  In i (map Slate.function_id (Slate.coefficients expression)).
Proof.
  unfold LocalKernelBuilder.coefficient_map, Py.enumerate.
  assert (H : forall cs s m,
             In i (map (fun p => Slate.function_id (fst p))
                     (fold_left
                        (fun (m : list (Slate.Function * list CoffeeArg))
                             (ic : nat * Slate.Function) =>
                           let '(i, coefficient) := ic in
                           let csym_info :=
                             match Slate.ufl_element coefficient with
                             | Slate.MixedElement _ =>
                                 map (fun (js : nat * Slate.Function) =>
                                        Symbol ("w_" ++ Py.fmt_d i ++ "_"
                                                  ++ Py.fmt_d (fst js))%string)
                                     (Py.enumerate (Slate.split coefficient))
                             | Slate.Element _ => [Symbol ("w_" ++ Py.fmt_d i)%string]
                             end in
                           Py.setitem Slate.function_eqb m coefficient csym_info)
                        (combine (seq s (List.length cs)) cs) m)) ->
             In i (map (fun p => Slate.function_id (fst p)) m)
             \/ In i (map Slate.function_id cs)).
  { induction cs as [|c cs IH]; intros s m Hin; simpl in Hin; [now left|].
    apply IH in Hin. destruct Hin as [Hin|Hin]; [|right; now right].
    apply setitem_keys_function in Hin.
    destruct Hin as [Hin| ->]; [now left | right; now left]. }
  intros Hin. apply H in Hin. destruct Hin as [[]|Hin]. exact Hin.
Qed.

(** X25. An argument that cannot be resolved stops the assembly of a call
    in the flat builder: where the coefficient map of a sub-kernel names a
    place beyond the coefficients of its context kernel the step raises
    [IndexError], and where it names a coefficient that the expression
    does not hold it raises [KeyError]; the places before it are resolved
    first. *)
Theorem unresolved_coefficient_rejected
        (visit : Tsfc.KernelCode -> Tsfc.KernelCode)
        (expression : Slate.TensorBase)
        (temps : list (Slate.TensorBase * string))
        (cxt_kernel : Tsfc.ContextKernel)
        (st : LocalKernelBuilder.setup_state) (sk : Tsfc.SplitKernel)
        (resolved rest : list nat) (i : nat) (symbols : list (list CoffeeArg)) :
  Tsfc.coefficient_map (Tsfc.kinfo sk) = resolved ++ i :: rest ->
  Py.map_result
    (fun i => c <- Py.getitem (Tsfc.coefficients cxt_kernel) i ;;
              LocalKernelBuilder.coefficient expression c)
    resolved = Py.Ok symbols ->
  (nth_error (Tsfc.coefficients cxt_kernel) i = None ->
   LocalKernelBuilder.setup_split_kernel visit expression temps cxt_kernel st sk
   = Py.Raise Py.IndexError)
  /\ (forall c,
         nth_error (Tsfc.coefficients cxt_kernel) i = Some c ->
         ~ In (Slate.function_id c)
              (map Slate.function_id (Slate.coefficients expression)) ->
         LocalKernelBuilder.setup_split_kernel visit expression temps cxt_kernel st sk
         = Py.Raise Py.KeyError).
Proof.
  intros Hmap Hres.
  assert (Hstep : forall e,
             (c <- Py.getitem (Tsfc.coefficients cxt_kernel) i ;;
              LocalKernelBuilder.coefficient expression c) = Py.Raise e ->
             LocalKernelBuilder.setup_split_kernel visit expression temps
               cxt_kernel st sk = Py.Raise e).
  { intros e He. unfold LocalKernelBuilder.setup_split_kernel.
    rewrite Hmap, map_result_app, Hres. cbn [Py.bind Py.map_result].
    now rewrite He. }
  split.
  - intros Hn. apply Hstep. unfold Py.getitem. now rewrite Hn.
  - intros c Hc Hnot. apply Hstep. unfold Py.getitem. rewrite Hc.
    cbn [Py.bind]. unfold LocalKernelBuilder.coefficient, Py.lookup.
    rewrite get_unknown_function; [reflexivity|].
    intros Hin. apply Hnot. now apply coefficient_map_keys.
Qed.

Lemma unresolved_coefficient_rejected_witness :
  LocalKernelBuilder.setup_split_kernel Examples.visit Examples.W
    [(Examples.W, "T0")] Examples.W_cxt LocalKernelBuilder.setup_start
    Examples.W_split
  = Py.Raise Py.KeyError.
Proof.
  refine (proj2 (unresolved_coefficient_rejected Examples.visit Examples.W
                   [(Examples.W, "T0")] Examples.W_cxt
                   LocalKernelBuilder.setup_start Examples.W_split
                   [0] [] 1 [[Symbol "w_0"]] eq_refl eq_refl)
                Examples.g eq_refl _).
  simpl. intuition discriminate.
Defined.

(** X26. The flat builder takes COFFEE code only: a sub-kernel whose code
    is not a COFFEE tree fails the assertion of the step once its call is
    filed, call assembly never returns on a list that holds its context
    kernel, and no flat builder holds it. *)
Theorem foreign_code_rejected
        (cxt_kernel : Tsfc.ContextKernel) (sk : Tsfc.SplitKernel)
        (before after : list Tsfc.ContextKernel) :
  In sk (Tsfc.tsfc_kernels cxt_kernel) ->
  Tsfc.isinstance_Node (Tsfc._code (Tsfc.kernel (Tsfc.kinfo sk))) = false ->
  (forall visit expression temps st call,
      flat_keys st ->
      Py.str_in (Tsfc.original_integral_type cxt_kernel)
                LocalKernelBuilder.supported_integral_types = true ->
      Tsfc.subdomain_id (Tsfc.kinfo sk) = Tsfc.otherwise ->
      expected_call expression temps (cxt_kernel, sk) = Some call ->
      LocalKernelBuilder.setup_split_kernel visit expression temps cxt_kernel st sk
      = Py.Raise (Py.AssertionError ""))
  /\ (forall visit expression temps,
         Py.is_ok (LocalKernelBuilder.setup_loop visit expression temps
                     (before ++ cxt_kernel :: after)) = false)
  /\ (forall compile visit list_set expression b,
         LocalKernelBuilder.__init__ compile visit list_set expression = Py.Ok b ->
         ~ In cxt_kernel (LocalKernelBuilder.context_kernels b)).
Proof.
  intros Hsk Hcode.
  assert (Hnever : forall visit expression temps ctxs st,
             LocalKernelBuilder.setup_loop visit expression temps ctxs = Py.Ok st ->
             ~ In cxt_kernel ctxs).
  { intros visit expression temps ctxs st Hl Hin.
    destruct (flat_setup_loop_calls _ _ _ _ _ Hl (cxt_kernel, sk))
      as (call & _ & Hnode & _).
    - apply in_all_subkernels. cbn [fst snd]. auto.
    - cbn [snd] in Hnode. congruence. }
  split; [|split].
  - intros visit expression temps st call [Ka _] Hsup Hsd Hcall.
    unfold expected_call in Hcall. cbn [fst snd] in Hcall.
    unfold LocalKernelBuilder.setup_split_kernel.
    destruct (Py.map_result _ _) as [symbols|]; [|discriminate].
    destruct (Py.lookup _ temps _) as [temp|]; [|discriminate].
    cbn [Py.bind]. rewrite Hsd.
    assert (Hin : In (Tsfc.original_integral_type cxt_kernel)
                     (map fst (LocalKernelBuilder.st_assembly_calls st))).
    { rewrite Ka. unfold Py.str_in in Hsup. apply existsb_exists in Hsup.
      destruct Hsup as (x & Hx & Heq). apply String.eqb_eq in Heq. now subst. }
    destruct (in_keys_get _ _ Hin) as [calls Hget].
    unfold LocalKernelBuilder.append_at, Py.lookup. rewrite Hget.
    cbn [Py.bind]. now rewrite Hcode.
  - intros visit expression temps.
    destruct (LocalKernelBuilder.setup_loop _ _ _ _) as [st|] eqn:E; [|reflexivity].
    exfalso. apply (Hnever _ _ _ _ _ E). apply in_or_app. right. now left.
  - intros compile visit list_set expression b Hb.
    apply flat_builder_fields in Hb.
    destruct Hb as (_ & _ & _ & _ & _ & _ & _ & st & Hl & _).
    exact (Hnever _ _ _ _ _ Hl).
Qed.

Lemma foreign_code_rejected_witness :
  Py.is_ok (LocalKernelBuilder.setup_loop Examples.visit Examples.A33
              Examples.flat_temps
              ([] ++ Examples.cxt Examples.A33 "subkernel0_" "cell"
                       Tsfc.otherwise false :: []))
  = false.
Proof.
  exact (proj1 (proj2 (foreign_code_rejected
                         (Examples.cxt Examples.A33 "subkernel0_" "cell"
                            Tsfc.otherwise false)
                         {| Tsfc.indices := [0; 0];
                            Tsfc.kinfo := Examples.kinfo "subkernel0_cell_integral"
                                            "cell" Tsfc.otherwise false |}
                         [] [] (or_introl eq_refl) eq_refl))
               Examples.visit Examples.A33 Examples.flat_temps).
Defined.

(** *** The dictionary of the packing records *)

Lemma coeff_key_eqb_refl (k : CoeffKey) : coeff_key_eqb k k = true.
Proof. destruct k; simpl; [apply Z.eqb_refl | apply Nat.eqb_refl]. Qed.

Lemma setdefault_append_keys_iff (cv : coefficient_vecs_t) (k k' : CoeffKey)
      (x : CoefficientInfo.t) :
  In k' (map fst (Py.setdefault_append coeff_key_eqb cv k x))
  <-> In k' (map fst cv) \/ k' = k.
Proof.
  split; [apply setdefault_append_keys|].
  induction cv as [|[k0 xs] cv IH]; simpl.
  - intros [[]| ->]. now left.
  - destruct (coeff_key_eqb k0 k) eqn:E; simpl.
    + intros [[<-|H]| ->]; auto. left. now apply coeff_key_eqb_eq.
    + intros [[<-|H]| ->]; auto.
Qed.

Lemma setdefault_append_NoDup (cv : coefficient_vecs_t) (k : CoeffKey)
      (x : CoefficientInfo.t) :
  NoDup (map fst cv) ->
  NoDup (map fst (Py.setdefault_append coeff_key_eqb cv k x)).
Proof.
  induction cv as [|[k0 xs] cv IH]; simpl; intros Hnd.
  - repeat constructor. intros [].
  - inversion Hnd as [|? ? Hk0 Hnd']; subst.
    destruct (coeff_key_eqb k0 k) eqn:E; simpl.
    + constructor; assumption.
    + constructor; [|now apply IH].
      intros Hin. apply setdefault_append_keys in Hin.
      destruct Hin as [Hin| ->]; [now apply Hk0|].
      now rewrite coeff_key_eqb_refl in E.
Qed.

Lemma setdefault_append_filled (cv : coefficient_vecs_t) (k : CoeffKey)
      (x : CoefficientInfo.t) :
  (forall k' records, In (k', records) cv -> records <> []) ->
  forall k' records,
    In (k', records) (Py.setdefault_append coeff_key_eqb cv k x) -> records <> [].
Proof.
  induction cv as [|[k0 xs] cv IH]; simpl; intros Hf k' records.
  - intros [[= <- <-]|[]]. discriminate.
  - destruct (coeff_key_eqb k0 k); simpl.
    + intros [[= <- <-]|H]; [now destruct xs | eapply Hf; eauto].
    + intros [[= <- <-]|H]; [eapply Hf; eauto|].
      eapply IH; [|exact H]. intros k1 r1 H1. eapply Hf; eauto.
Qed.

Lemma pack_loop_preserves (Q : coefficient_vecs_t -> Prop)
      tensor local_temp shapes cv :
  (forall cv k x, Q cv -> Q (Py.setdefault_append coeff_key_eqb cv k x)) ->
  Q cv -> Q (fst (pack_loop tensor local_temp shapes cv)).
Proof.
  intros Hstep.
  unfold pack_loop. generalize (Py.enumerate shapes) as l. generalize 0%Z as off.
  generalize (Py.sum shapes) as total.
  intros total off l. revert off cv.
  induction l as [|[i shape] l IH]; intros off cv Hq; simpl; [exact Hq|].
  apply IH. now apply Hstep.
Qed.

Lemma pack_loop_keys tensor local_temp shapes cv (k : CoeffKey) :
  In k (map fst (fst (pack_loop tensor local_temp shapes cv)))
  <-> In k (map fst cv) \/ exists z, In z shapes /\ k = KShape z.
Proof.
  transitivity (In k (map fst cv)
                \/ exists z, In z (map snd (Py.enumerate shapes)) /\ k = KShape z).
  2:{ unfold Py.enumerate. rewrite map_snd_numbered. reflexivity. }
  unfold pack_loop. generalize (Py.enumerate shapes) as l.
  generalize 0%Z as off. generalize (Py.sum shapes) as total.
  intros total off l. revert off cv.
  induction l as [|[i shape] l IH]; intros off cv; simpl.
  - split; [auto | intros [H|(z & [] & _)]; exact H].
  - rewrite IH, setdefault_append_keys_iff. split.
    + intros [[H| ->]|(z & Hz & ->)]; eauto 6.
    + intros [H|(z & [<-|Hz] & ->)]; eauto 6.
Qed.

Lemma get_in_bucket (cv : coefficient_vecs_t) (k : CoeffKey)
      (records : list CoefficientInfo.t) (r : CoefficientInfo.t) :
  Py.get coeff_key_eqb cv k = Some records -> In r records ->
  In (k, r) (entries cv).
Proof.
  unfold entries. induction cv as [|[k0 xs] cv IH]; simpl; [discriminate|].
  destruct (coeff_key_eqb k0 k) eqn:E.
  - intros [= ->] Hr. apply coeff_key_eqb_eq in E. subst k0.
    apply in_or_app. left. now apply in_map.
  - intros Hg Hr. apply in_or_app. right. now apply IH.
Qed.

(** What the loop of [__init__] maintains of the dictionary. *)
Lemma flat_init_loop_dictionary dag :
  forall st,
    let keyed s :=
      NoDup (map fst (LocalKernelBuilder.init_coeff_vecs s))
      /\ (forall k records,
             In (k, records) (LocalKernelBuilder.init_coeff_vecs s) ->
             records <> [])
      /\ (forall k,
             In k (map fst (LocalKernelBuilder.init_coeff_vecs s))
             <-> exists f z,
                 In f (LocalKernelBuilder.init_seen_coeff s)
                 /\ In z (shapes_of f) /\ k = KShape z)
      /\ (forall r,
             In r (entries (LocalKernelBuilder.init_coeff_vecs s)) ->
             exists f,
               In f (LocalKernelBuilder.init_seen_coeff s)
               /\ coefficient_of r = Some (Slate.function_id f)
               /\ fst r
                  = KShape (nth (CoefficientInfo.space_index (snd r))
                                (shapes_of f) 0%Z)) in
    keyed st -> keyed (fold_left LocalKernelBuilder.init_body dag st).
Proof.
  cbv zeta. induction dag as [|t dag IH]; intros st Hst; [exact Hst|].
  cbn [fold_left]. apply IH. clear IH.
  destruct Hst as (Hnd & Hfill & Hkeys & Hrec).
  pose proof (flat_init_body_pack st t) as Hp. cbv zeta in Hp.
  destruct t; try (destruct Hp as [-> ->]; auto).
  destruct (packed _ _); destruct Hp as [-> ->]; [auto|].
  split; [|split; [|split]].
  - apply pack_loop_preserves; [apply setdefault_append_NoDup | exact Hnd].
  - apply (pack_loop_preserves
             (fun cv => forall k records, In (k, records) cv -> records <> []));
      [apply setdefault_append_filled | exact Hfill].
  - intros k. rewrite pack_loop_keys, Hkeys. split.
    + intros [(f & z & Hf & Hz & ->)|(z & Hz & ->)].
      * exists f, z. split; [apply in_or_app; now left | auto].
      * exists _function, z. split; [apply in_or_app; right; now left | auto].
    + intros (f & z & Hf & Hz & ->). apply in_app_or in Hf.
      destruct Hf as [Hf|[<-|[]]]; [left; eauto | right; eauto].
  - intros r Hr.
    apply (Permutation_in _ (pack_loop_entries _ _ _ _)) in Hr.
    apply in_app_or in Hr. destruct Hr as [Hr|Hr].
    + destruct (Hrec r Hr) as (f & Hf & Hc & Hk).
      exists f. split; [apply in_or_app; now left | auto].
    + apply in_packing_records in Hr. destruct Hr as (j & _ & ->).
      exists _function. split; [apply in_or_app; right; now left|].
      split; reflexivity.
Qed.

(** X27. The dictionary of the packing records is keyed by block size: it
    has one bucket for each block size of a packed coefficient and no
    other, no bucket is empty, and every record in the bucket of a size
    describes a block of that size of the coefficient it belongs to.
    Blocks of one size share a bucket, whatever coefficient they are
    of. *)
Theorem coefficient_vecs_keyed_by_block_size
        (expression : Slate.TensorBase) (expression_dag : list Slate.TensorBase) :
  let st := LocalKernelBuilder.init_loop expression expression_dag in
  let cv := LocalKernelBuilder.init_coeff_vecs st in
  let seen := LocalKernelBuilder.init_seen_coeff st in
  NoDup (map fst cv)
  /\ (forall k records, In (k, records) cv -> records <> [])
  /\ (forall k,
         In k (map fst cv)
         <-> exists f z, In f seen /\ In z (shapes_of f) /\ k = KShape z)
  /\ (forall z records r,
         Py.get coeff_key_eqb cv (KShape z) = Some records -> In r records ->
         exists f,
           In f seen
           /\ coefficient_of (KShape z, r) = Some (Slate.function_id f)
           /\ nth (CoefficientInfo.space_index r) (shapes_of f) 0%Z = z)
  /\ (forall compile visit list_set b,
         LocalKernelBuilder.__init__ compile visit list_set expression = Py.Ok b ->
         expression_dag = Utils.traverse_dags [expression] ->
         LocalKernelBuilder.coefficient_vecs b = cv).
Proof.
  intros st cv seen.
  destruct (flat_init_loop_dictionary expression_dag
              (LocalKernelBuilder.init_start expression))
    as (Hnd & Hfill & Hkeys & Hrec).
  { cbn. split; [constructor|]. split; [intros k r []|].
    split; [|intros r []].
    intros k. split; [intros [] | intros (f & z & [] & _)]. }
  split; [exact Hnd|]. split; [exact Hfill|]. split; [exact Hkeys|]. split.
  - intros z records r Hget Hr.
    destruct (Hrec _ (get_in_bucket _ _ _ _ Hget Hr)) as (f & Hf & Hc & Hk).
    exists f. split; [exact Hf|]. split; [exact Hc|].
    cbn [fst snd] in Hk. now injection Hk.
  - intros compile visit list_set b Hb ->.
    apply flat_builder_fields in Hb. apply Hb.
Qed.

Lemma coefficient_vecs_keyed_by_block_size_witness :
  map fst (LocalKernelBuilder.init_coeff_vecs
             (LocalKernelBuilder.init_loop Examples.action
                (Utils.traverse_dags [Examples.action])))
  = [KShape 3; KShape 5]
  /\ NoDup (map fst (LocalKernelBuilder.init_coeff_vecs
                       (LocalKernelBuilder.init_loop Examples.action
                          (Utils.traverse_dags [Examples.action])))).
Proof.
  split; [reflexivity|].
  exact (proj1 (coefficient_vecs_keyed_by_block_size Examples.action
                  (Utils.traverse_dags [Examples.action]))).
Defined.
